(** * Marketplace tooling of claude-designer: a shallow embedding

  The six scripts under [scripts/marketplace] read a directory tree,
  transform JSON manifests in memory and write files back.  They are
  embedded here as functions over an explicit directory tree, in a
  small monad that threads the tree, records the file operations that
  were performed and propagates Python exceptions.

  Conventions of the embedding:
  - a JSON document is the value [json.load] returns; a Python [dict]
    is an association list in insertion order, which is the order in
    which [json.dump] prints it;
  - a file that holds a JSON document is represented by that document
    ([Json v]), any other file by its text ([Text s]).  [json.dump] is
    a function of the document, so two files written by it that hold
    equal documents hold equal bytes;
  - [print] is not modelled; the trace of file operations is. *)

From Stdlib Require Import List String Ascii ZArith Lia Bool Arith Permutation.
From Stdlib Require Import DecimalString.
Set Warnings "-register-all".
Import ListNotations.
Open Scope string_scope.
Open Scope list_scope.

(* ================================================================== *)
(** ** Strings *)

Module Str.

(** [s.startswith(pre)] *)
Definition startswith (s pre : string) : bool := String.prefix pre s.

(** [s.endswith(suf)] *)
Definition endswith (s suf : string) : bool :=
  let n := String.length s in
  let m := String.length suf in
  (m <=? n)%nat && String.eqb (String.substring (n - m) m s) suf.

(** [sub in s] for two strings. *)
Fixpoint contains (sub s : string) : bool :=
  String.prefix sub s
  || match s with
     | EmptyString => false
     | String _ s' => contains sub s'
     end.

(** [s.split(sep)] for a one-character separator: never empty. *)
Fixpoint split_on (sep : ascii) (s : string) : list string :=
  match s with
  | EmptyString => [EmptyString]
  | String c s' =>
      if Ascii.eqb c sep then EmptyString :: split_on sep s'
      else match split_on sep s' with
           | [] => [String c EmptyString]
           | w :: ws => String c w :: ws
           end
  end.

(** [s.replace(a, b)] for single characters. *)
Fixpoint replace_char (a b : ascii) (s : string) : string :=
  match s with
  | EmptyString => EmptyString
  | String c s' => String (if Ascii.eqb c a then b else c) (replace_char a b s')
  end.

Definition is_lower (c : ascii) : bool :=
  let n := nat_of_ascii c in (97 <=? n)%nat && (n <=? 122)%nat.
Definition is_upper (c : ascii) : bool :=
  let n := nat_of_ascii c in (65 <=? n)%nat && (n <=? 90)%nat.
Definition to_upper (c : ascii) : ascii :=
  if is_lower c then ascii_of_nat (nat_of_ascii c - 32) else c.
Definition to_lower (c : ascii) : ascii :=
  if is_upper c then ascii_of_nat (nat_of_ascii c + 32) else c.

(** [s.title()] on ASCII text: a letter that follows a letter is
    lowered, any other letter is raised. *)
Fixpoint title_from (after_letter : bool) (s : string) : string :=
  match s with
  | EmptyString => EmptyString
  | String c s' =>
      let letter := is_lower c || is_upper c in
      String (if after_letter then to_lower c else to_upper c)
             (title_from letter s')
  end.
Definition title (s : string) : string := title_from false s.

Definition is_space (c : ascii) : bool :=
  let n := nat_of_ascii c in
  (n =? 32)%nat || ((9 <=? n)%nat && (n <=? 13)%nat)
    || ((28 <=? n)%nat && (n <=? 31)%nat).

Fixpoint lstrip (s : string) : string :=
  match s with
  | String c s' => if is_space c then lstrip s' else s
  | EmptyString => EmptyString
  end.

Definition rev (s : string) : string :=
  string_of_list_ascii (List.rev (list_ascii_of_string s)).

(** [s.strip()] *)
Definition strip (s : string) : string := rev (lstrip (rev (lstrip s))).

(** [s.lstrip(chars)]: drops the leading characters that occur in
    [chars]. *)
Fixpoint lstrip_chars (chars : list ascii) (s : string) : string :=
  match s with
  | String c s' =>
      if existsb (Ascii.eqb c) chars then lstrip_chars chars s' else s
  | EmptyString => EmptyString
  end.

(** [str(n)] for a natural number. *)
Definition of_nat (n : nat) : string := NilZero.string_of_uint (Nat.to_uint n).

(** [str(z)] for an integer. *)
Definition of_Z (z : Z) : string := NilZero.string_of_int (Z.to_int z).

(** [sep.join(l)] *)
Fixpoint join (sep : string) (l : list string) : string :=
  match l with
  | [] => EmptyString
  | [x] => x
  | x :: rest => x ++ sep ++ join sep rest
  end.

(** [sorted(l)] on strings, by insertion; Python compares strings
    code point by code point. *)
Fixpoint insert_sorted (x : string) (l : list string) : list string :=
  match l with
  | [] => [x]
  | y :: l' => if String.leb x y then x :: l else y :: insert_sorted x l'
  end.
Definition sorted (l : list string) : list string :=
  fold_right insert_sorted [] l.

End Str.

(* ================================================================== *)
(** ** Python exceptions and results *)

Inductive exn : Type :=
| KeyError
| TypeError
| AttributeError
| ValueError
| JSONDecodeError
| FileNotFoundError
| FileExistsError
| IsADirectoryError
| NotADirectoryError
| SystemExit (code : Z).

(** [except Exception] catches everything but [SystemExit]. *)
Definition is_Exception (e : exn) : bool :=
match e with SystemExit _ => false | _ => true end.

(** The subclasses of [OSError]. *)
Definition is_OSError (e : exn) : bool :=
match e with
| FileNotFoundError | FileExistsError | IsADirectoryError | NotADirectoryError => true
| _ => false
end.

Inductive result (A : Type) : Type :=
| Ok (a : A)
| Raise (e : exn).
Arguments Ok {A} a.
Arguments Raise {A} e.

Definition rbind {A B} (r : result A) (f : A -> result B) : result B :=
match r with Ok a => f a | Raise e => Raise e end.

Declare Scope res_scope.
Delimit Scope res_scope with res.
Notation "x <- c ;; k" := (rbind c (fun x => k))
(at level 61, c at next level, right associativity) : res_scope.

(* ================================================================== *)
(** ** JSON documents and the Python operations the scripts apply to them *)

Inductive JSON : Type :=
| JNull
| JBool (b : bool)
| JNum (n : Z)
| JStr (s : string)
| JArr (items : list JSON)
| JObj (fields : list (string * JSON)).

Module Dict.

Definition t := list (string * JSON).

Fixpoint get (k : string) (d : t) : option JSON :=
  match d with
  | [] => None
  | (k', v) :: d' => if String.eqb k k' then Some v else get k d'
  end.

Definition mem (k : string) (d : t) : bool :=
  match get k d with Some _ => true | None => false end.

(** [d[k] = v]: in place when the key is there, appended otherwise. *)
Fixpoint set (k : string) (v : JSON) (d : t) : t :=
  match d with
  | [] => [(k, v)]
  | (k', v') :: d' =>
      if String.eqb k k' then (k, v) :: d' else (k', v') :: set k v d'
  end.

(** [del d[k]] *)
Definition del (k : string) (d : t) : t :=
  filter (fun kv => negb (String.eqb k (fst kv))) d.

End Dict.

Module Py.

(** [isinstance(v, str)], [isinstance(v, dict)], [isinstance(v, list)] *)
Definition is_str (v : JSON) : bool := match v with JStr _ => true | _ => false end.
Definition is_dict (v : JSON) : bool := match v with JObj _ => true | _ => false end.
Definition is_list (v : JSON) : bool := match v with JArr _ => true | _ => false end.

(** [k in v] for a string [k]: key test on a dict, element test on a
    list, substring test on a string; a [TypeError] on the rest. *)
Definition contains (k : string) (v : JSON) : result bool :=
  match v with
  | JObj d => Ok (Dict.mem k d)
  | JArr l => Ok (existsb (fun x => match x with JStr s => String.eqb s k | _ => false end) l)
  | JStr s => Ok (Str.contains k s)
  | _ => Raise TypeError
  end.

(** [v[k]] for a string [k]. *)
Definition getitem (v : JSON) (k : string) : result JSON :=
  match v with
  | JObj d => match Dict.get k d with Some x => Ok x | None => Raise KeyError end
  | _ => Raise TypeError
  end.

(** [v[k] = x] for a string [k]. *)
Definition setitem (v : JSON) (k : string) (x : JSON) : result JSON :=
  match v with
  | JObj d => Ok (JObj (Dict.set k x d))
  | _ => Raise TypeError
  end.

(** [del v[k]] for a string [k]. *)
Definition delitem (v : JSON) (k : string) : result JSON :=
  match v with
  | JObj d => match Dict.get k d with
              | Some _ => Ok (JObj (Dict.del k d))
              | None => Raise KeyError
              end
  | _ => Raise TypeError
  end.

(** [v.get(k, default)]: a method of dicts only. *)
Definition get (v : JSON) (k : string) (default : JSON) : result JSON :=
  match v with
  | JObj d => Ok (match Dict.get k d with Some x => x | None => default end)
  | _ => Raise AttributeError
  end.

(** Truth value of a document ([not v] is its negation). *)
Definition truthy (v : JSON) : bool :=
  match v with
  | JNull => false
  | JBool b => b
  | JNum n => negb (Z.eqb n 0)
  | JStr s => negb (String.eqb s EmptyString)
  | JArr l => match l with [] => false | _ => true end
  | JObj d => match d with [] => false | _ => true end
  end.

(** [repr(v)].  A string is put between single quotes as it is: the
    escapes Python adds for quotes, backslashes and control characters
    are left out. *)
Fixpoint repr (v : JSON) : string :=
  match v with
  | JNull => "None"
  | JBool true => "True"
  | JBool false => "False"
  | JNum n => Str.of_Z n
  | JStr s => ("'" ++ s ++ "'")%string
  | JArr l => ("[" ++ Str.join ", " (map repr l) ++ "]")%string
  | JObj d =>
      ("{" ++ Str.join ", "
               ((fix go (d : list (string * JSON)) : list string :=
                   match d with
                   | [] => []
                   | (k, x) :: d' => ("'" ++ k ++ "': " ++ repr x)%string :: go d'
                   end) d)
          ++ "}")%string
  end.

(** [str(v)], as an f-string prints [v]. *)
Definition str (v : JSON) : string :=
  match v with
  | JStr s => s
  | _ => repr v
  end.

End Py.

(* ================================================================== *)
(** ** Paths, as [pathlib] builds them *)

Module Path.

(** The components of an absolute path, below the root. *)
Definition t := list string.

(** The components of a path written as a string: split at the slashes,
    with the empty components and the dots dropped.  A component [..]
    stays as it is, as in [pathlib]; the directory trees below have no
    entry of that name. *)
Definition parts (s : string) : list string :=
  filter (fun c => negb (String.eqb c EmptyString) && negb (String.eqb c "."))
         (Str.split_on "/" s).

(** [p / s]: an absolute [s] replaces [p]. *)
Definition join (p : t) (s : string) : t :=
  if Str.startswith s "/" then parts s else p ++ parts s.

(** [p.name] *)
Definition name (p : t) : string := last p EmptyString.

(** [p.parent] *)
Definition parent (p : t) : t := removelast p.

(** The child that [iterdir] and [glob] return for an entry. *)
Definition child (p : t) (entry : string) : t := p ++ [entry].

Fixpoint index_of (c : ascii) (s : string) : option nat :=
  match s with
  | EmptyString => None
  | String c' s' =>
      if Ascii.eqb c c' then Some 0
      else match index_of c s' with Some i => Some (S i) | None => None end
  end.

(** [s.rfind('.')] *)
Definition rfind_dot (s : string) : option nat :=
  match index_of "." (Str.rev s) with
  | Some j => Some (String.length s - 1 - j)
  | None => None
  end.

(** [PurePath.stem] of a name: the name up to its last dot, unless that
    dot comes first or last. *)
Definition stem_of (nm : string) : string :=
  match rfind_dot nm with
  | Some i =>
      if (0 <? i)%nat && (i <? String.length nm - 1)%nat
      then String.substring 0 i nm else nm
  | None => nm
  end.

(** [p.stem] *)
Definition stem (p : t) : string := stem_of (name p).

(** [p <= q]: the component lists, compared as tuples of strings. *)
Fixpoint leb (p q : t) : bool :=
  match p, q with
  | [], _ => true
  | _ :: _, [] => false
  | a :: p', b :: q' =>
      match String.compare a b with
      | Lt => true
      | Gt => false
      | Eq => leb p' q'
      end
  end.

Fixpoint insert_sorted (x : t) (l : list t) : list t :=
  match l with
  | [] => [x]
  | y :: l' => if leb x y then x :: l else y :: insert_sorted x l'
  end.

(** [sorted(l)] on paths, by insertion. *)
Definition sorted (l : list t) : list t := fold_right insert_sorted [] l.

End Path.

Notation "p // s" := (Path.join p s) (at level 40, left associativity).

(* ================================================================== *)
(** ** Directory trees *)

Inductive content : Type :=
| Text (s : string)
| Json (v : JSON).

Inductive node : Type :=
| File (c : content)
| Dir (entries : list (string * node)).

Module FS.

Definition entries := list (string * node).

Fixpoint assoc (k : string) (es : entries) : option node :=
  match es with
  | [] => None
  | (k', n) :: es' => if String.eqb k k' then Some n else assoc k es'
  end.

(** Replaces the entry [k] where it stands, or adds it at the end. *)
Fixpoint upsert (k : string) (n : node) (es : entries) : entries :=
  match es with
  | [] => [(k, n)]
  | (k', n') :: es' =>
      if String.eqb k k' then (k, n) :: es' else (k', n') :: upsert k n es'
  end.

Definition drop (k : string) (es : entries) : entries :=
  filter (fun kn => negb (String.eqb k (fst kn))) es.

Fixpoint lookup (n : node) (p : Path.t) : option node :=
  match p with
  | [] => Some n
  | c :: p' =>
      match n with
      | Dir es => match assoc c es with
                  | Some k => lookup k p'
                  | None => None
                  end
      | File _ => None
      end
  end.

(** [p.exists()] *)
Definition exists_ (fs : node) (p : Path.t) : bool :=
  match lookup fs p with Some _ => true | None => false end.

(** [p.is_dir()] *)
Definition is_dir (fs : node) (p : Path.t) : bool :=
  match lookup fs p with Some (Dir _) => true | _ => false end.

(** [p.is_file()] *)
Definition is_file (fs : node) (p : Path.t) : bool :=
  match lookup fs p with Some (File _) => true | _ => false end.

(** The names [p.iterdir()] yields, in the order of the directory. *)
Definition listdir (fs : node) (p : Path.t) : result (list string) :=
  match lookup fs p with
  | Some (Dir es) => Ok (map fst es)
  | Some (File _) => Raise NotADirectoryError
  | None => Raise FileNotFoundError
  end.

(** The names [p.glob(pattern)] yields for a pattern that is a star and
    a suffix: every entry that ends with the suffix, hidden ones and
    directories too; nothing when [p] is not a directory. *)
Definition glob (fs : node) (p : Path.t) (suffix : string) : list string :=
  match lookup fs p with
  | Some (Dir es) => filter (fun nm => Str.endswith nm suffix) (map fst es)
  | _ => []
  end.

(** [open(p, 'r').read()] *)
Definition read (fs : node) (p : Path.t) : result content :=
  match lookup fs p with
  | Some (File c) => Ok c
  | Some (Dir _) => Raise IsADirectoryError
  | None => Raise FileNotFoundError
  end.

(** [open(p, 'w')] followed by the write: the parent has to be a
    directory and [p] must not be one. *)
Fixpoint write (n : node) (p : Path.t) (c : content) : result node :=
  match p with
  | [] => Raise IsADirectoryError
  | nm :: p' =>
      match n with
      | File _ => Raise NotADirectoryError
      | Dir es =>
          match p' with
          | [] =>
              match assoc nm es with
              | Some (Dir _) => Raise IsADirectoryError
              | _ => Ok (Dir (upsert nm (File c) es))
              end
          | _ :: _ =>
              match assoc nm es with
              | Some k =>
                  match write k p' c with
                  | Ok k' => Ok (Dir (upsert nm k' es))
                  | Raise e => Raise e
                  end
              | None => Raise FileNotFoundError
              end
          end
      end
  end.

(** [p.mkdir(parents=True, exist_ok=True)] *)
Fixpoint mkdirs (n : node) (p : Path.t) : result node :=
  match n with
  | File _ =>
      match p with
      | [] => Raise FileExistsError
      | _ :: _ => Raise NotADirectoryError
      end
  | Dir es =>
      match p with
      | [] => Ok n
      | nm :: p' =>
          let k := match assoc nm es with Some k => k | None => Dir [] end in
          match mkdirs k p' with
          | Ok k' => Ok (Dir (upsert nm k' es))
          | Raise e => Raise e
          end
      end
  end.

(** [shutil.rmtree(p)]: [p] has to be a directory. *)
Fixpoint rmtree (n : node) (p : Path.t) : result node :=
  match p with
  | [] => Raise IsADirectoryError
  | nm :: p' =>
      match n with
      | File _ => Raise NotADirectoryError
      | Dir es =>
          match assoc nm es with
          | None => Raise FileNotFoundError
          | Some k =>
              match p' with
              | [] =>
                  match k with
                  | Dir _ => Ok (Dir (drop nm es))
                  | File _ => Raise NotADirectoryError
                  end
              | _ :: _ =>
                  match rmtree k p' with
                  | Ok k' => Ok (Dir (upsert nm k' es))
                  | Raise e => Raise e
                  end
              end
          end
      end
  end.

(** Puts the tree [new] at [p], which must not exist; the missing
    parents are made, as [os.makedirs] does for [copytree]. *)
Fixpoint install (n : node) (p : Path.t) (new : node) : result node :=
  match p with
  | [] => Raise FileExistsError
  | nm :: p' =>
      match n with
      | File _ => Raise NotADirectoryError
      | Dir es =>
          match p' with
          | [] =>
              match assoc nm es with
              | Some _ => Raise FileExistsError
              | None => Ok (Dir (upsert nm new es))
              end
          | _ :: _ =>
              let k := match assoc nm es with Some k => k | None => Dir [] end in
              match install k p' new with
              | Ok k' => Ok (Dir (upsert nm k' es))
              | Raise e => Raise e
              end
          end
      end
  end.

(** [shutil.ignore_patterns('*.zip', '.DS_Store')] *)
Definition ignored (nm : string) : bool :=
  Str.endswith nm ".zip" || String.eqb nm ".DS_Store".

(** The copy [shutil.copytree] makes of a tree under that filter. *)
Fixpoint prune (n : node) : node :=
  match n with
  | File c => File c
  | Dir es =>
      Dir ((fix go (es : entries) : entries :=
              match es with
              | [] => []
              | (nm, k) :: es' =>
                  if ignored nm then go es' else (nm, prune k) :: go es'
              end) es)
  end.

End FS.

(* ================================================================== *)
(** ** The monad of the scripts: state, trace of file operations,
       exceptions *)

Inductive event : Type :=
| Read (p : Path.t)
| Wrote (p : Path.t)
| Mkdir (p : Path.t)
| Rmtree (p : Path.t)
| Copytree (src dst : Path.t)
| Copy (src dst : Path.t).

Definition M (S A : Type) : Type := S -> result A * S * list event.

Definition ret {S A} (a : A) : M S A := fun s => (Ok a, s, []).

Definition raise {S A} (e : exn) : M S A := fun s => (Raise e, s, []).

Definition bind {S A B} (m : M S A) (f : A -> M S B) : M S B :=
  fun s =>
    match m s with
    | (Ok a, s1, t1) =>
        match f a s1 with
        | (r, s2, t2) => (r, s2, t1 ++ t2)
        end
    | (Raise e, s1, t1) => (Raise e, s1, t1)
    end.

Declare Scope io_scope.
Delimit Scope io_scope with io.
Notation "x <- c ;; k" := (bind c (fun x => k))
  (at level 61, c at next level, right associativity) : io_scope.
Notation "c ;; k" := (bind c (fun _ => k))
  (at level 61, right associativity) : io_scope.

(** The current state: a field of [self], or the tree as a test such as
    [d.is_dir()] inside a comprehension sees it. *)
Definition get_state {S} : M S S := fun s => (Ok s, s, []).

(** A pure result, raised into the monad. *)
Definition lift {S A} (r : result A) : M S A := fun s => (r, s, []).

(** [for x in l: acc = body(acc, x)], for a loop that builds a value. *)
Fixpoint fold_m {S A B} (l : list A) (acc : B) (body : B -> A -> M S B) : M S B :=
  match l with
  | [] => ret acc
  | x :: l' => (acc' <- body acc x ;; fold_m l' acc' body)%io
  end.

(** [for x in l: body(x)] *)
Fixpoint for_each {S A} (l : list A) (body : A -> M S unit) : M S unit :=
  match l with
  | [] => ret tt
  | x :: l' => (body x ;; for_each l' body)%io
  end.

(** [try: body / except Exception: continue] *)
Definition try_except_Exception {S} (body : M S unit) : M S unit :=
  fun s =>
    match body s with
    | (Raise e, s1, t1) =>
        if is_Exception e then (Ok tt, s1, t1) else (Raise e, s1, t1)
    | r => r
    end.

(** [try: body / except json.JSONDecodeError: handler] *)
Definition try_except_JSONDecodeError {S} (body handler : M S unit) : M S unit :=
  fun s =>
    match body s with
    | (Raise JSONDecodeError, s1, t1) =>
        match handler s1 with
        | (r, s2, t2) => (r, s2, t1 ++ t2)
        end
    | r => r
    end.

Definition result_of {S A} (x : result A * S * list event) : result A := fst (fst x).
Definition state_of {S A} (x : result A * S * list event) : S := snd (fst x).
Definition trace_of {S A} (x : result A * S * list event) : list event := snd x.

(** The exit status of the interpreter after [main()]: 0 when it
    returns, the code of [sys.exit], 1 after an uncaught exception. *)
Definition exit_code {A} (r : result A) : Z :=
  match r with
  | Ok _ => 0
  | Raise (SystemExit n) => n
  | Raise _ => 1
  end.

(** File operations, on the directory tree as the state. *)
Module IO.

Definition exists_ (p : Path.t) : M node bool :=
  fun fs => (Ok (FS.exists_ fs p), fs, []).

Definition is_dir (p : Path.t) : M node bool :=
  fun fs => (Ok (FS.is_dir fs p), fs, []).

(** [p.iterdir()]: the children, in the order of the directory. *)
Definition iterdir (p : Path.t) : M node (list Path.t) :=
  fun fs =>
    match FS.listdir fs p with
    | Ok names => (Ok (map (Path.child p) names), fs, [])
    | Raise e => (Raise e, fs, [])
    end.

(** [p.glob(star suffix)] *)
Definition glob (p : Path.t) (suffix : string) : M node (list Path.t) :=
  fun fs => (Ok (map (Path.child p) (FS.glob fs p suffix)), fs, []).

(** [with open(p, 'r') as f: f.read()] *)
Definition read (p : Path.t) : M node content :=
  fun fs =>
    match FS.read fs p with
    | Ok c => (Ok c, fs, [Read p])
    | Raise e => (Raise e, fs, [])
    end.

(** [with open(p, 'w') as f: f.write(c)] *)
Definition write (p : Path.t) (c : content) : M node unit :=
  fun fs =>
    match FS.write fs p c with
    | Ok fs' => (Ok tt, fs', [Wrote p])
    | Raise e => (Raise e, fs, [])
    end.

(** [with open(p, 'r') as f: json.load(f)] *)
Definition json_load (p : Path.t) : M node JSON :=
  (c <- read p ;;
   match c with
   | Json v => ret v
   | Text _ => raise JSONDecodeError
   end)%io.

(** [with open(p, 'w') as f: json.dump(v, f, indent=2)] *)
Definition json_dump (p : Path.t) (v : JSON) : M node unit := write p (Json v).

(** [p.mkdir(parents=True, exist_ok=True)] *)
Definition mkdir (p : Path.t) : M node unit :=
  fun fs =>
    match FS.mkdirs fs p with
    | Ok fs' => (Ok tt, fs', [Mkdir p])
    | Raise e => (Raise e, fs, [])
    end.

(** [shutil.rmtree(p)] *)
Definition rmtree (p : Path.t) : M node unit :=
  fun fs =>
    match FS.rmtree fs p with
    | Ok fs' => (Ok tt, fs', [Rmtree p])
    | Raise e => (Raise e, fs, [])
    end.

(** [shutil.copytree(src, dst, ignore=shutil.ignore_patterns('*.zip', '.DS_Store'))] *)
Definition copytree (src dst : Path.t) : M node unit :=
  fun fs =>
    match FS.lookup fs src with
    | Some (Dir es) =>
        match FS.install fs dst (FS.prune (Dir es)) with
        | Ok fs' => (Ok tt, fs', [Copytree src dst])
        | Raise e => (Raise e, fs, [])
        end
    | Some (File _) => (Raise NotADirectoryError, fs, [])
    | None => (Raise FileNotFoundError, fs, [])
    end.

(** [shutil.copy2(src, dst)]: into [dst] when [dst] is a directory. *)
Definition copy2 (src dst : Path.t) : M node unit :=
  fun fs =>
    match FS.read fs src with
    | Ok c =>
        let target := if FS.is_dir fs dst then Path.child dst (Path.name src) else dst in
        match FS.write fs target c with
        | Ok fs' => (Ok tt, fs', [Copy src target])
        | Raise e => (Raise e, fs, [])
        end
    | Raise e => (Raise e, fs, [])
    end.

End IO.

(* ================================================================== *)
(** ** fix_plugin_manifests.py *)

Module FixPluginManifests.

(** Fix author field: string -> object *)
Definition fix_author (manifest : JSON) : result JSON :=
  (has <- Py.contains "author" manifest ;;
   if has then
     author <- Py.getitem manifest "author" ;;
     if Py.is_str author then
       Py.setitem manifest "author"
         (JObj [("name", author); ("email", JStr "oladotun.olatunji@gmail.com")])
     else Ok manifest
   else Ok manifest)%res.

(** Fix repository field: object -> string *)
Definition fix_repository (manifest : JSON) : result JSON :=
  (has <- Py.contains "repository" manifest ;;
   if has then
     repository <- Py.getitem manifest "repository" ;;
     if Py.is_dict repository then
       url <- Py.getitem repository "url" ;;
       Py.setitem manifest "repository" url
     else Ok manifest
   else Ok manifest)%res.

(** Fix commands, agents and skills fields: must start with ./ *)
Definition fix_dot_slash (field : string) (manifest : JSON) : result JSON :=
  (has <- Py.contains field manifest ;;
   if has then
     v <- Py.getitem manifest field ;;
     match v with
     | JStr s =>
         if negb (Str.startswith s "./")
         then Py.setitem manifest field (JStr ("./" ++ s)%string)
         else Ok manifest
     | _ => Ok manifest
     end
   else Ok manifest)%res.

(** Remove unrecognized fields *)
Fixpoint remove_fields (fields : list string) (manifest : JSON) : result JSON :=
  match fields with
  | [] => Ok manifest
  | field :: rest =>
      (has <- Py.contains field manifest ;;
       manifest' <- (if has then Py.delitem manifest field else Ok manifest) ;;
       remove_fields rest manifest')%res
  end.

(** What [fix_plugin_manifest] does to the loaded document, between
    [json.load] and [json.dump]. *)
Definition fix_document (manifest : JSON) : result JSON :=
  (m1 <- fix_author manifest ;;
   m2 <- fix_repository m1 ;;
   m3 <- fix_dot_slash "commands" m2 ;;
   m4 <- fix_dot_slash "agents" m3 ;;
   m5 <- fix_dot_slash "skills" m4 ;;
   remove_fields ["category"; "bundle"; "includes"] m5)%res.

Definition fix_plugin_manifest (plugin_json_path : Path.t) : M node unit :=
  (manifest <- IO.json_load plugin_json_path ;;
   manifest' <- lift (fix_document manifest) ;;
   IO.json_dump plugin_json_path manifest')%io.

(** The loop over one of the two plugin directories. *)
Definition fix_all_in (dir : Path.t) : M node unit :=
  (there <- IO.exists_ dir ;;
   if there then
     plugin_dirs <- IO.iterdir dir ;;
     for_each plugin_dirs (fun plugin_dir =>
       d <- IO.is_dir plugin_dir ;;
       if d then
         let manifest_path := plugin_dir // ".claude-plugin" // "plugin.json" in
         e <- IO.exists_ manifest_path ;;
         if e then fix_plugin_manifest manifest_path else ret tt
       else ret tt)
   else ret tt)%io.

Definition main (repo_root : Path.t) : M node unit :=
  let plugins_dir := repo_root // ".claude" // "plugins" in
  (fix_all_in (plugins_dir // "individual") ;;
   fix_all_in (plugins_dir // "bundles"))%io.

End FixPluginManifests.

(* ================================================================== *)
(** ** fix_agent_command_paths.py *)

Module FixAgentCommandPaths.

(** Get all .md files in a subdirectory *)
Definition get_md_files (plugin_dir : Path.t) (subdir : string) : M node (list string) :=
  let md_dir := plugin_dir // subdir in
  (there <- IO.exists_ md_dir ;;
   if negb there then ret []
   else
     md_files <- IO.glob md_dir ".md" ;;
     ret (map (fun f => ("./" ++ subdir ++ "/" ++ Path.name f)%string)
              (Path.sorted md_files)))%io.

(** The block that fixes the [commands] field, and the one that fixes
    the [agents] field: the field and the subdirectory have one name.
    The pair is the manifest and the [changed] flag. *)
Definition fix_field (plugin_dir : Path.t) (field : string)
    (st : JSON * bool) : M node (JSON * bool) :=
  let '(manifest, changed) := st in
  (has <- lift (Py.contains field manifest) ;;
   if has then
     v <- lift (Py.getitem manifest field) ;;
     match v with
     | JStr s =>
         if Str.endswith s "/" then
           files <- get_md_files plugin_dir field ;;
           match files with
           | [] => ret (manifest, changed)
           | _ :: _ =>
               manifest' <- lift (Py.setitem manifest field (JArr (map JStr files))) ;;
               ret (manifest', true)
           end
         else ret (manifest, changed)
     | _ => ret (manifest, changed)
     end
   else ret (manifest, changed))%io.

Definition fix_plugin_manifest (plugin_dir : Path.t) : M node unit :=
  let manifest_path := plugin_dir // ".claude-plugin" // "plugin.json" in
  (there <- IO.exists_ manifest_path ;;
   if negb there then ret tt
   else
     manifest <- IO.json_load manifest_path ;;
     st1 <- fix_field plugin_dir "commands" (manifest, false) ;;
     st2 <- fix_field plugin_dir "agents" st1 ;;
     let '(manifest', changed) := st2 in
     if changed then IO.json_dump manifest_path manifest' else ret tt)%io.

Definition fix_all_in (dir : Path.t) : M node unit :=
  (there <- IO.exists_ dir ;;
   if there then
     plugin_dirs <- IO.iterdir dir ;;
     for_each (Path.sorted plugin_dirs) (fun plugin_dir =>
       d <- IO.is_dir plugin_dir ;;
       if d then fix_plugin_manifest plugin_dir else ret tt)
   else ret tt)%io.

Definition main (repo_root : Path.t) : M node unit :=
  let plugins_dir := repo_root // "plugins" in
  (fix_all_in (plugins_dir // "individual") ;;
   fix_all_in (plugins_dir // "bundles"))%io.

End FixAgentCommandPaths.

(* ================================================================== *)
(** ** generate_marketplace.py *)

Module GenerateMarketplace.

Record MarketplaceGenerator : Type := {
  repo_root : Path.t;
  plugins_dir : Path.t;
  marketplace_file : Path.t
}.

Definition init (root : Path.t) : MarketplaceGenerator :=
  {| repo_root := root;
     plugins_dir := root // ".claude" // "plugins";
     marketplace_file := root // ".claude-plugin" // "marketplace.json" |}.

(** The entry of an individual plugin. *)
Definition individual_entry (plugin_dir : Path.t) (manifest : JSON) : result JSON :=
  (name <- Py.getitem manifest "name" ;;
   version <- Py.get manifest "version" (JStr "1.0.0") ;;
   description <- Py.get manifest "description" (JStr EmptyString) ;;
   category <- Py.get manifest "category" (JStr "general") ;;
   tags <- Py.get manifest "keywords" (JArr []) ;;
   author <- Py.get manifest "author" (JStr EmptyString) ;;
   license <- Py.get manifest "license" (JStr "Apache-2.0") ;;
   Ok (JObj [("name", name);
             ("source", JStr ("./individual/" ++ Path.name plugin_dir)%string);
             ("version", version);
             ("description", description);
             ("category", category);
             ("tags", tags);
             ("author", author);
             ("license", license)]))%res.

(** The entry of a bundle. *)
Definition bundle_entry (bundle_dir : Path.t) (manifest : JSON) : result JSON :=
  (name <- Py.getitem manifest "name" ;;
   version <- Py.get manifest "version" (JStr "1.0.0") ;;
   description <- Py.get manifest "description" (JStr EmptyString) ;;
   category <- Py.get manifest "category" (JStr "bundle") ;;
   tags <- Py.get manifest "keywords" (JArr []) ;;
   includes <- Py.get manifest "includes" (JArr []) ;;
   author <- Py.get manifest "author" (JStr EmptyString) ;;
   license <- Py.get manifest "license" (JStr "Apache-2.0") ;;
   Ok (JObj [("name", name);
             ("source", JStr ("./bundles/" ++ Path.name bundle_dir)%string);
             ("version", version);
             ("description", description);
             ("category", category);
             ("tags", tags);
             ("bundle", JBool true);
             ("includes", includes);
             ("author", author);
             ("license", license)]))%res.

(** The loop shared by the two collectors: a directory without a
    manifest is skipped with a warning. *)
Definition collect (dir : Path.t) (entry : Path.t -> JSON -> result JSON)
  : M node (list JSON) :=
  (there <- IO.exists_ dir ;;
   if negb there then ret []
   else
     dirs <- IO.iterdir dir ;;
     fold_m (Path.sorted dirs) [] (fun plugins plugin_dir =>
       d <- IO.is_dir plugin_dir ;;
       if negb d then ret plugins
       else
         let manifest_file := plugin_dir // ".claude-plugin" // "plugin.json" in
         e <- IO.exists_ manifest_file ;;
         if negb e then ret plugins
         else
           manifest <- IO.json_load manifest_file ;;
           plugin_entry <- lift (entry plugin_dir manifest) ;;
           ret (plugins ++ [plugin_entry])))%io.

Definition _collect_individual_plugins (self : MarketplaceGenerator) : M node (list JSON) :=
  collect (plugins_dir self // "individual") individual_entry.

Definition _collect_bundle_plugins (self : MarketplaceGenerator) : M node (list JSON) :=
  collect (plugins_dir self // "bundles") bundle_entry.

Definition marketplace_document (all_plugins : list JSON) : JSON :=
  JObj [("name", JStr "claude-design-skillstack");
        ("owner", JObj [("name", JStr "Claude Design Skillstack");
                        ("url", JStr "https://github.com/freshtechbro/claudedesignskills")]);
        ("metadata", JObj [
           ("description", JStr "Professional design agency skillstack for 3D/WebGL, animation, and modern web development. Comprehensive collection covering Three.js, GSAP, React Three Fiber, Framer Motion, Babylon.js, and more. Includes 22 individual plugins + 5 category bundles.");
           ("version", JStr "1.0.0");
           ("pluginRoot", JStr "./.claude/plugins");
           ("homepage", JStr "https://github.com/freshtechbro/claudedesignskills");
           ("repository", JStr "https://github.com/freshtechbro/claudedesignskills")]);
        ("plugins", JArr all_plugins)].

Definition generate (self : MarketplaceGenerator) : M node unit :=
  (individual_plugins <- _collect_individual_plugins self ;;
   bundle_plugins <- _collect_bundle_plugins self ;;
   let all_plugins := individual_plugins ++ bundle_plugins in
   IO.mkdir (Path.parent (marketplace_file self)) ;;
   IO.json_dump (marketplace_file self) (marketplace_document all_plugins))%io.

Definition main (root : Path.t) : M node unit := generate (init root).

End GenerateMarketplace.

(* ================================================================== *)
(** ** validate_marketplace.py *)

Module ValidateMarketplace.

(** The validator object: the two lists it accumulates, next to the
    directory tree it reads. *)
Record validator : Type := {
  fs : node;
  errors : list string;
  warnings : list string
}.

Definition on_fs {A} (m : M node A) : M validator A :=
  fun v =>
    match m (fs v) with
    | (r, fs', t) => (r, {| fs := fs'; errors := errors v; warnings := warnings v |}, t)
    end.

(** [self.errors.append(msg)] *)
Definition error (msg : string) : M validator unit :=
  fun v => (Ok tt, {| fs := fs v; errors := errors v ++ [msg]; warnings := warnings v |}, []).

(** [self.warnings.append(msg)] *)
Definition warning (msg : string) : M validator unit :=
  fun v => (Ok tt, {| fs := fs v; errors := errors v; warnings := warnings v ++ [msg] |}, []).

Section Validator.

Variable repo_root : Path.t.

Definition plugins_dir : Path.t := repo_root // ".claude" // "plugins".
Definition marketplace_file : Path.t := repo_root // ".claude-plugin" // "marketplace.json".

(** Validate a plugin entry in marketplace.json *)
Definition _validate_plugin_entry (plugin : JSON) (index : nat) : M validator unit :=
  (for_each ["name"; "source"] (fun field =>
     has <- lift (Py.contains field plugin) ;;
     if negb has
     then error ("marketplace.json plugins[" ++ Str.of_nat index ++ "]: Missing '" ++ field ++ "'")
     else ret tt) ;;
   has <- lift (Py.contains "source" plugin) ;;
   if has then
     source <- lift (Py.getitem plugin "source") ;;
     match source with
     | JStr s =>
         if Str.startswith s "./" then
           let plugin_path :=
             repo_root // ".claude" // "plugins" // Str.lstrip_chars ["."; "/"]%char s in
           e <- on_fs (IO.exists_ plugin_path) ;;
           if negb e then
             name <- lift (Py.get plugin "name" (JStr "unknown")) ;;
             error ("Plugin '" ++ Py.str name ++ "': Source path not found - " ++ s)
           else ret tt
         else ret tt
     | _ => raise AttributeError
     end
   else ret tt)%io.

(** [for i, plugin in enumerate(plugins)] *)
Fixpoint validate_entries (plugins : list JSON) (i : nat) : M validator unit :=
  match plugins with
  | [] => ret tt
  | plugin :: rest => (_validate_plugin_entry plugin i ;; validate_entries rest (S i))%io
  end.

(** Validate marketplace.json structure.  The message of the decoder,
    which Python prints after the dash, is left out. *)
Definition _validate_marketplace_json : M validator unit :=
  (there <- on_fs (IO.exists_ marketplace_file) ;;
   if negb there then error "marketplace.json not found"
   else
     try_except_JSONDecodeError
       (marketplace <- on_fs (IO.json_load marketplace_file) ;;
        for_each ["name"; "owner"; "metadata"; "plugins"] (fun field =>
          has <- lift (Py.contains field marketplace) ;;
          if negb has
          then error ("marketplace.json: Missing required field '" ++ field ++ "'")
          else ret tt) ;;
        has_name <- lift (Py.contains "name" marketplace) ;;
        (if has_name then
           name <- lift (Py.getitem marketplace "name") ;;
           if negb (Py.is_str name) then error "marketplace.json: 'name' must be a string"
           else if negb (Py.truthy name) then error "marketplace.json: 'name' cannot be empty"
           else ret tt
         else ret tt) ;;
        has_owner <- lift (Py.contains "owner" marketplace) ;;
        (if has_owner then
           owner <- lift (Py.getitem marketplace "owner") ;;
           if negb (Py.is_dict owner) then error "marketplace.json: 'owner' must be an object"
           else
             has <- lift (Py.contains "name" owner) ;;
             (if negb has then error "marketplace.json: owner.name is required" else ret tt) ;;
             has <- lift (Py.contains "url" owner) ;;
             if negb has then warning "marketplace.json: owner.url is recommended" else ret tt
         else ret tt) ;;
        has_plugins <- lift (Py.contains "plugins" marketplace) ;;
        if has_plugins then
          plugins <- lift (Py.getitem marketplace "plugins") ;;
          match plugins with
          | JArr l => validate_entries l 0
          | _ => error "marketplace.json: 'plugins' must be an array"
          end
        else ret tt)
       (error "marketplace.json: Invalid JSON - "))%io.

(** Validate a single plugin *)
Definition _validate_plugin (plugin_dir : Path.t) (plugin_type : string) : M validator unit :=
  let plugin_name := Path.name plugin_dir in
  (for_each [".claude-plugin"; "skills"] (fun dir_name =>
     e <- on_fs (IO.exists_ (plugin_dir // dir_name)) ;;
     if negb e
     then error (plugin_name ++ ": Missing required directory '" ++ dir_name ++ "'")
     else ret tt) ;;
   let manifest_file := plugin_dir // ".claude-plugin" // "plugin.json" in
   e <- on_fs (IO.exists_ manifest_file) ;;
   if negb e then error (plugin_name ++ ": plugin.json not found")
   else
     try_except_JSONDecodeError
       (manifest <- on_fs (IO.json_load manifest_file) ;;
        for_each ["name"; "version"; "description"] (fun field =>
          has <- lift (Py.contains field manifest) ;;
          if negb has
          then error (plugin_name ++ ": plugin.json missing '" ++ field ++ "'")
          else ret tt) ;;
        name <- lift (Py.get manifest "name" JNull) ;;
        (match name with
         | JStr s =>
             if String.eqb s plugin_name then ret tt
             else error (plugin_name ++ ": plugin.json name '" ++ Py.str name
                           ++ "' doesn't match directory name")
         | _ => error (plugin_name ++ ": plugin.json name '" ++ Py.str name
                         ++ "' doesn't match directory name")
         end) ;;
        let skills_dir := plugin_dir // "skills" in
        e <- on_fs (IO.exists_ skills_dir) ;;
        (if negb e then error (plugin_name ++ ": skills/ directory not found")
         else
           entries <- on_fs (IO.iterdir skills_dir) ;;
           v <- get_state ;;
           let skill_count := List.length (filter (FS.is_dir (fs v)) entries) in
           if (skill_count =? 0)%nat
           then error (plugin_name ++ ": No skills found in skills/ directory")
           else ret tt) ;;
        let commands_dir := plugin_dir // "commands" in
        e <- on_fs (IO.exists_ commands_dir) ;;
        (if e then ret tt
         else warning (plugin_name ++ ": No commands directory found")) ;;
        let agents_dir := plugin_dir // "agents" in
        e <- on_fs (IO.exists_ agents_dir) ;;
        if e then ret tt
        else warning (plugin_name ++ ": No agents directory found"))
       (error (plugin_name ++ ": Invalid JSON in plugin.json - ")))%io.

(** The loop of [_validate_individual_plugins] and of
    [_validate_bundle_plugins]. *)
Definition validate_plugins_in (dir : Path.t) (plugin_type missing : string) : M validator unit :=
  (there <- on_fs (IO.exists_ dir) ;;
   if negb there then warning missing
   else
     entries <- on_fs (IO.iterdir dir) ;;
     v <- get_state ;;
     let plugin_dirs := filter (FS.is_dir (fs v)) entries in
     for_each (Path.sorted plugin_dirs) (fun plugin_dir =>
       _validate_plugin plugin_dir plugin_type))%io.

Definition _validate_individual_plugins : M validator unit :=
  validate_plugins_in (plugins_dir // "individual") "individual"
    "No individual plugins directory found".

Definition _validate_bundle_plugins : M validator unit :=
  validate_plugins_in (plugins_dir // "bundles") "bundle"
    "No bundles directory found".

(** Validate all plugins and marketplace; [_print_results] only prints. *)
Definition validate : M validator bool :=
  (_validate_marketplace_json ;;
   _validate_individual_plugins ;;
   _validate_bundle_plugins ;;
   v <- get_state ;;
   ret (match errors v with [] => true | _ => false end))%io.

Definition main : M validator unit :=
  (success <- validate ;;
   raise (SystemExit (if success then 0 else 1)))%io.

End Validator.

(** The validator as [__init__] leaves it. *)
Definition init (tree : node) : validator :=
  {| fs := tree; errors := []; warnings := [] |}.

End ValidateMarketplace.

(* ================================================================== *)
(** ** generate_plugin.py *)

Module GeneratePlugin.

(** Skill categories for metadata: category and tags of each skill. *)
Definition SKILL_CATEGORIES : list (string * (string * list string)) :=
  [ ("threejs-webgl", ("3d-graphics", ["webgl"; "threejs"; "3d"; "graphics"; "webgpu"]));
    ("gsap-scrolltrigger", ("animation", ["gsap"; "animation"; "scroll"; "scrolltrigger"]));
    ("react-three-fiber", ("3d-graphics", ["react"; "threejs"; "3d"; "r3f"; "webgl"]));
    ("motion-framer", ("animation", ["motion"; "framer-motion"; "react"; "animation"]));
    ("babylonjs-engine", ("3d-graphics", ["babylonjs"; "3d"; "webgl"; "game-engine"]));
    ("aframe-webxr", ("3d-graphics", ["aframe"; "webxr"; "vr"; "ar"; "3d"]));
    ("lightweight-3d-effects", ("3d-graphics", ["zdog"; "vanta"; "vanilla-tilt"; "lightweight"; "3d"]));
    ("playcanvas-engine", ("3d-graphics", ["playcanvas"; "webgl"; "game-engine"; "3d"]));
    ("pixijs-2d", ("2d-graphics", ["pixijs"; "2d"; "webgl"; "canvas"; "sprites"]));
    ("locomotive-scroll", ("scroll", ["locomotive"; "smooth-scroll"; "parallax"; "scroll"]));
    ("barba-js", ("transitions", ["barba"; "page-transitions"; "routing"; "spa"]));
    ("react-spring-physics", ("animation", ["react-spring"; "physics"; "animation"; "spring"]));
    ("animated-component-libraries", ("components", ["magic-ui"; "react-bits"; "components"; "animation"]));
    ("scroll-reveal-libraries", ("scroll", ["aos"; "scroll-reveal"; "animation"; "scroll"]));
    ("animejs", ("animation", ["animejs"; "timeline"; "svg"; "animation"]));
    ("lottie-animations", ("animation", ["lottie"; "after-effects"; "json"; "animation"]));
    ("blender-web-pipeline", ("3d-authoring", ["blender"; "gltf"; "export"; "pipeline"; "3d"]));
    ("spline-interactive", ("3d-authoring", ["spline"; "no-code"; "3d"; "visual-editor"]));
    ("rive-interactive", ("animation", ["rive"; "interactive"; "state-machine"; "animation"]));
    ("substance-3d-texturing", ("3d-authoring", ["substance"; "texturing"; "pbr"; "materials"]));
    ("web3d-integration-patterns", ("integration", ["integration"; "patterns"; "3d"; "animation"]));
    ("modern-web-design", ("design", ["design"; "trends"; "ux"; "web"])) ].

(** [SKILL_CATEGORIES.get(name)] *)
Fixpoint lookup_category (name : string) (table : list (string * (string * list string)))
  : option (string * list string) :=
  match table with
  | [] => None
  | (k, v) :: rest => if String.eqb name k then Some v else lookup_category name rest
  end.
Definition categories_get (name : string) : option (string * list string) :=
  lookup_category name SKILL_CATEGORIES.

(** A Python [dict] from strings to strings. *)
Fixpoint sdict_get (k : string) (d : list (string * string)) : option string :=
  match d with
  | [] => None
  | (k', v) :: d' => if String.eqb k k' then Some v else sdict_get k d'
  end.

Fixpoint sdict_set (k v : string) (d : list (string * string)) : list (string * string) :=
  match d with
  | [] => [(k, v)]
  | (k', v') :: d' =>
      if String.eqb k k' then (k, v) :: d' else (k', v') :: sdict_set k v d'
  end.

Definition newline : ascii := ascii_of_nat 10.

(** Whether the pattern [\s*\n] matches at the start of [s]. *)
Fixpoint spaces_then_newline (s : string) : bool :=
  match s with
  | String c s' =>
      if Str.is_space c then Ascii.eqb c newline || spaces_then_newline s' else false
  | EmptyString => false
  end.

(** Whether the pattern [\n---\s*\n] matches at the start of [s]. *)
Definition closes_here (s : string) : bool :=
  String.prefix (String newline "---") s
  && spaces_then_newline (String.substring 4 (String.length s - 4) s).

(** The shortest text after which the closing line matches: the lazy
    group of the pattern. *)
Fixpoint find_body (s : string) : option string :=
  if closes_here s then Some EmptyString
  else match s with
       | String c s' =>
           match find_body s' with
           | Some body => Some (String c body)
           | None => None
           end
       | EmptyString => None
       end.

(** The rest of the pattern after the opening dashes: [\s*] takes as
    much as it can and gives back until the newline and the rest match. *)
Fixpoint after_dashes (s : string) : option string :=
  match s with
  | String c s' =>
      if Str.is_space c then
        match after_dashes s' with
        | Some body => Some body
        | None => if Ascii.eqb c newline then find_body s' else None
        end
      else None
  | EmptyString => None
  end.

(** Group 1 of [re.match(r'^---\s*\n(.*?)\n---\s*\n', content, re.DOTALL)],
    on ASCII text. *)
Definition frontmatter (content : string) : option string :=
  if String.prefix "---" content
  then after_dashes (String.substring 3 (String.length content - 3) content)
  else None.

(** [line.split(':', 1)] for a line with a colon. *)
Fixpoint split_colon (line : string) : option (string * string) :=
  match line with
  | EmptyString => None
  | String c rest =>
      if Ascii.eqb c ":"%char then Some (EmptyString, rest)
      else match split_colon rest with
           | Some (k, v) => Some (String c k, v)
           | None => None
           end
  end.

Definition parse_yaml (yaml_content : string) : list (string * string) :=
  fold_left (fun metadata line =>
               match split_colon line with
               | Some (key, value) => sdict_set (Str.strip key) (Str.strip value) metadata
               | None => metadata
               end)
            (Str.split_on newline yaml_content) [].

Record PluginGenerator : Type := {
  skill_name : string;
  repo_root : Path.t;
  skill_dir : Path.t;
  plugin_dir : Path.t;
  skill_metadata : list (string * string)
}.

(** Load SKILL.md and extract YAML frontmatter.  A file that holds a
    JSON document does not start with three dashes. *)
Definition _load_skill_metadata (skill_dir : Path.t) : M node (list (string * string)) :=
  let skill_md := skill_dir // "SKILL.md" in
  (there <- IO.exists_ skill_md ;;
   if negb there then raise FileNotFoundError
   else
     content <- IO.read skill_md ;;
     match content with
     | Text s =>
         match frontmatter s with
         | None => raise ValueError
         | Some yaml_content => ret (parse_yaml yaml_content)
         end
     | Json _ => raise ValueError
     end)%io.

(** [PluginGenerator(skill_name, repo_root)] *)
Definition init (name : string) (root : Path.t) : M node PluginGenerator :=
  let sdir := root // ".claude" // "skills" // name in
  (metadata <- _load_skill_metadata sdir ;;
   ret {| skill_name := name;
          repo_root := root;
          skill_dir := sdir;
          plugin_dir := root // ".claude" // "plugins" // "individual" // name;
          skill_metadata := metadata |})%io.

(** Create plugin directory structure *)
Definition _create_plugin_structure (self : PluginGenerator) : M node unit :=
  for_each [plugin_dir self;
            plugin_dir self // ".claude-plugin";
            plugin_dir self // "skills";
            plugin_dir self // "commands";
            plugin_dir self // "agents"]
           IO.mkdir.

(** The document [_generate_manifest] writes. *)
Definition manifest_document (self : PluginGenerator) : JSON :=
  let skill_title :=
    match sdict_get "name" (skill_metadata self) with
    | Some t => t
    | None => skill_name self
    end in
  let description :=
    match sdict_get "description" (skill_metadata self) with
    | Some d => d
    | None => (skill_title ++ " skill for Claude Code")%string
    end in
  let metadata :=
    match categories_get (skill_name self) with
    | Some m => m
    | None => ("general", [skill_name self])
    end in
  JObj [("name", JStr (skill_name self));
        ("version", JStr "1.0.0");
        ("description", JStr description);
        ("author", JStr "Claude Design Skillstack");
        ("license", JStr "Apache-2.0");
        ("homepage", JStr "https://github.com/freshtechbro/claudedesignskills");
        ("repository", JObj [("type", JStr "git");
                             ("url", JStr "https://github.com/freshtechbro/claudedesignskills.git")]);
        ("keywords", JArr (map JStr (snd metadata)));
        ("category", JStr (fst metadata));
        ("skills", JStr "skills/");
        ("commands", JStr "commands/");
        ("agents", JStr "agents/")].

(** Generate plugin.json manifest *)
Definition _generate_manifest (self : PluginGenerator) : M node unit :=
  let manifest_path := plugin_dir self // ".claude-plugin" // "plugin.json" in
  IO.json_dump manifest_path (manifest_document self).

(** Copy skill directory to plugin/skills/ *)
Definition _copy_skill_content (self : PluginGenerator) : M node unit :=
  let src := skill_dir self in
  let dst := plugin_dir self // "skills" // skill_name self in
  (there <- IO.exists_ dst ;;
   (if there then IO.rmtree dst else ret tt) ;;
   IO.copytree src dst)%io.

Definition special_cases : list (string * string) :=
  [ ("threejs-webgl", "Three.js WebGL");
    ("gsap-scrolltrigger", "GSAP ScrollTrigger");
    ("react-three-fiber", "React Three Fiber");
    ("motion-framer", "Framer Motion");
    ("babylonjs-engine", "Babylon.js");
    ("aframe-webxr", "A-Frame WebXR");
    ("playcanvas-engine", "PlayCanvas");
    ("pixijs-2d", "PixiJS 2D");
    ("locomotive-scroll", "Locomotive Scroll");
    ("barba-js", "Barba.js");
    ("react-spring-physics", "React Spring");
    ("animejs", "Anime.js");
    ("lottie-animations", "Lottie");
    ("blender-web-pipeline", "Blender Web Pipeline");
    ("spline-interactive", "Spline");
    ("rive-interactive", "Rive");
    ("substance-3d-texturing", "Substance 3D") ].

(** Format skill name as title *)
Definition _format_skill_title (self : PluginGenerator) : string :=
  match sdict_get (skill_name self) special_cases with
  | Some t => t
  | None => Str.title (Str.replace_char "-"%char " "%char (skill_name self))
  end.

(** Create command markdown file *)
Definition _create_command_markdown
    (command_name command_prefix skill_title script_name : string) : string :=
  let full_command := (command_prefix ++ "-" ++ command_name)%string in
  ("# /" ++ full_command ++ "

" ++ skill_title ++ " - " ++ Str.title (Str.replace_char "_"%char " "%char command_name) ++ "

## Description

Executes the " ++ command_name ++ " script for " ++ skill_title ++ ".

## Usage

```bash
/" ++ full_command ++ "
```

## Implementation

This command runs the `" ++ script_name ++ ".py` script from the " ++ skill_title ++ " skill, which provides automated assistance for " ++ Str.replace_char "_"%char " "%char command_name ++ ".

## Notes

- This command leverages the skill's built-in automation scripts
- For interactive mode, the script will prompt for required information
- Check the skill documentation for detailed script usage
")%string.

Definition setup_content (command_prefix skill_title : string) : string :=
  ("# /" ++ command_prefix ++ "-setup

Initialize " ++ skill_title ++ " project

## Description

Provides setup guidance and boilerplate code for starting a new " ++ skill_title ++ " project.

## Usage

```bash
/" ++ command_prefix ++ "-setup
```

## What it does

- Analyzes your project structure
- Provides installation instructions
- Generates boilerplate code
- Offers configuration guidance
")%string.

Definition help_content (command_prefix skill_title : string) : string :=
  ("# /" ++ command_prefix ++ "-help

Get help with " ++ skill_title ++ "

## Description

Provides comprehensive help and documentation for " ++ skill_title ++ ".

## Usage

```bash
/" ++ command_prefix ++ "-help
```

## What it does

- Shows common patterns and examples
- Links to official documentation
- Provides troubleshooting guidance
- Explains key concepts
")%string.

(** Generate generic commands for skills without scripts *)
Definition _generate_generic_commands
    (commands_dir : Path.t) (command_prefix skill_title : string) : M node unit :=
  (let setup_file := commands_dir // "setup.md" in
   IO.write setup_file (Text (setup_content command_prefix skill_title)) ;;
   let help_file := commands_dir // "help.md" in
   IO.write help_file (Text (help_content command_prefix skill_title)))%io.

(** Generate slash commands based on skill scripts *)
Definition _generate_commands (self : PluginGenerator) : M node unit :=
  let commands_dir := plugin_dir self // "commands" in
  let scripts_dir := skill_dir self // "scripts" in
  let skill_title := _format_skill_title self in
  let command_prefix := skill_name self in
  (there <- IO.exists_ scripts_dir ;;
   found <- IO.glob scripts_dir ".py" ;;
   if there && match found with [] => false | _ => true end then
     script_files <- IO.glob scripts_dir ".py" ;;
     for_each script_files (fun script_file =>
       let script_name := Path.stem script_file in
       let command_name := script_name in
       let command_content :=
         _create_command_markdown command_name command_prefix skill_title script_name in
       let command_file := commands_dir // (command_name ++ ".md")%string in
       IO.write command_file (Text command_content))
   else
     _generate_generic_commands commands_dir command_prefix skill_title)%io.

Definition graphics_agent_content (skill_title : string) : string :=
  ("# " ++ skill_title ++ " Architect

## Role

Expert 3D/graphics architect specializing in " ++ skill_title ++ " scene design, optimization, and best practices.

## Expertise

- Scene architecture and organization
- Performance optimization techniques
- Material and lighting setup
- Asset management and loading strategies
- Rendering optimization
- Cross-browser compatibility

## When to use

Activate this agent when working on:
- Complex 3D scene architecture
- Performance optimization challenges
- Advanced rendering techniques
- Large-scale 3D applications
- Graphics pipeline optimization

## Approach

1. Analyze scene requirements and constraints
2. Design optimal architecture for performance
3. Implement best practices from " ++ skill_title ++ " ecosystem
4. Optimize for target platforms and devices
5. Provide detailed implementation guidance

## Tools

This agent has access to:
- " ++ skill_title ++ " skill knowledge
- Optimization checklists and patterns
- Performance profiling guidance
- Asset pipeline recommendations
")%string.

Definition animation_agent_content (skill_title : string) : string :=
  ("# " ++ skill_title ++ " Animation Choreographer

## Role

Expert animation choreographer specializing in " ++ skill_title ++ " animation design, timing, and orchestration.

## Expertise

- Animation timing and easing
- Timeline sequencing
- Performance-optimized animations
- Cross-library animation integration
- Interactive animation patterns
- Scroll-driven animation design

## When to use

Activate this agent when working on:
- Complex animation sequences
- Multi-element choreography
- Scroll-triggered animations
- Interactive animation systems
- Animation performance optimization

## Approach

1. Understand animation goals and user experience
2. Design animation timing and sequencing
3. Implement using " ++ skill_title ++ " best practices
4. Optimize for smooth 60fps performance
5. Test across devices and browsers

## Tools

This agent has access to:
- " ++ skill_title ++ " skill knowledge
- Animation pattern libraries
- Performance optimization techniques
- Timeline management strategies
")%string.

Definition authoring_agent_content (skill_title : string) : string :=
  ("# " ++ skill_title ++ " Pipeline Specialist

## Role

Expert pipeline specialist for " ++ skill_title ++ " workflows, asset optimization, and web integration.

## Expertise

- Asset export and optimization
- Web-ready format conversion
- Texture and material optimization
- Automated pipeline workflows
- Quality assurance and validation
- Cross-platform compatibility

## When to use

Activate this agent when working on:
- Asset export pipelines
- Batch processing workflows
- Optimization for web delivery
- Integration with web frameworks
- Automated quality checks

## Approach

1. Analyze asset requirements and constraints
2. Design optimal export pipeline
3. Implement automation scripts
4. Optimize for web performance
5. Validate output quality

## Tools

This agent has access to:
- " ++ skill_title ++ " skill knowledge
- Pipeline automation scripts
- Optimization guidelines
- Quality validation checklists
")%string.

Definition generic_agent_content (skill_title : string) : string :=
  ("# " ++ skill_title ++ " Specialist

## Role

Expert specialist in " ++ skill_title ++ " implementation, patterns, and best practices.

## Expertise

- " ++ skill_title ++ " core concepts and patterns
- Integration with other libraries and frameworks
- Performance optimization
- Common pitfalls and solutions
- Best practices and conventions

## When to use

Activate this agent when working on:
- " ++ skill_title ++ " implementation challenges
- Integration with other technologies
- Performance optimization
- Troubleshooting and debugging
- Architecture decisions

## Approach

1. Understand project requirements and context
2. Apply " ++ skill_title ++ " best practices
3. Recommend optimal implementation patterns
4. Identify and solve common issues
5. Provide detailed guidance and examples

## Tools

This agent has access to:
- " ++ skill_title ++ " skill knowledge
- Pattern libraries and examples
- Troubleshooting guides
- Integration patterns
")%string.

(** The four [_create_..._agent] methods: they differ in the suffix
    of the name and in the text. *)
Definition create_agent (self : PluginGenerator) (agents_dir : Path.t)
    (suffix content : string) : M node unit :=
  let agent_name := (skill_name self ++ suffix)%string in
  let agent_file := agents_dir // (agent_name ++ ".md")%string in
  IO.write agent_file (Text content).

(** Generate specialized agents for the skill domain *)
Definition _generate_agents (self : PluginGenerator) : M node unit :=
  let agents_dir := plugin_dir self // "agents" in
  let skill_title := _format_skill_title self in
  let category :=
    match categories_get (skill_name self) with
    | Some m => fst m
    | None => "general"
    end in
  if String.eqb category "3d-graphics" || String.eqb category "2d-graphics" then
    create_agent self agents_dir "-architect" (graphics_agent_content skill_title)
  else if String.eqb category "animation" then
    create_agent self agents_dir "-choreographer" (animation_agent_content skill_title)
  else if String.eqb category "3d-authoring" then
    create_agent self agents_dir "-pipeline" (authoring_agent_content skill_title)
  else
    create_agent self agents_dir "-specialist" (generic_agent_content skill_title).

(** Generate complete plugin from skill *)
Definition generate (self : PluginGenerator) : M node unit :=
  (_create_plugin_structure self ;;
   _generate_manifest self ;;
   _copy_skill_content self ;;
   _generate_commands self ;;
   _generate_agents self)%io.

(** The names [--all] iterates over, before they are sorted. *)
Definition all_skills (dirs : list Path.t) (tree : node) : list string :=
  map Path.name
      (filter (fun d => FS.is_dir tree d
                        && negb (String.eqb (Path.name d) "skill-creator")
                        && negb (Str.startswith (Path.name d) "."))
              dirs).

(** [main()], with [sys.argv] as its argument. *)
Definition main (argv : list string) (root : Path.t) : M node unit :=
  match argv with
  | _ :: arg :: _ =>
      if String.eqb arg "--all" then
        (let skills_dir := root // ".claude" // "skills" in
         dirs <- IO.iterdir skills_dir ;;
         tree <- get_state ;;
         let skills := all_skills dirs tree in
         for_each (Str.sorted skills) (fun name =>
           try_except_Exception
             (generator <- init name root ;;
              generate generator)))%io
      else
        (generator <- init arg root ;;
         generate generator)%io
  | _ => raise (SystemExit 1)
  end.

End GeneratePlugin.

(* ================================================================== *)
(** ** generate_bundle.py *)

Module GenerateBundle.

Record bundle_config : Type := {
  title : string;
  description : string;
  skills : list string;
  category : string;
  tags : list string
}.

(** Bundle definitions *)
Definition BUNDLES : list (string * bundle_config) :=
  [ ("core-3d-animation",
     {| title := "Core 3D & Animation";
        description := "Complete core 3D and animation stack with Three.js, GSAP, React Three Fiber, Framer Motion, and Babylon.js";
        skills := ["threejs-webgl"; "gsap-scrolltrigger"; "react-three-fiber"; "motion-framer"; "babylonjs-engine"];
        category := "bundle";
        tags := ["bundle"; "3d"; "animation"; "core"; "complete-stack"] |});
    ("extended-3d-scroll",
     {| title := "Extended 3D & Scroll";
        description := "Extended 3D graphics and smooth scroll stack with A-Frame, lightweight effects, PlayCanvas, PixiJS, Locomotive Scroll, and Barba.js";
        skills := ["aframe-webxr"; "lightweight-3d-effects"; "playcanvas-engine"; "pixijs-2d"; "locomotive-scroll"; "barba-js"];
        category := "bundle";
        tags := ["bundle"; "3d"; "scroll"; "effects"; "transitions"] |});
    ("animation-components",
     {| title := "Animation & Components";
        description := "Comprehensive animation and component libraries with React Spring, Magic UI, React Bits, AOS, Anime.js, and Lottie";
        skills := ["react-spring-physics"; "animated-component-libraries"; "scroll-reveal-libraries"; "animejs"; "lottie-animations"];
        category := "bundle";
        tags := ["bundle"; "animation"; "components"; "ui"; "motion"] |});
    ("authoring-motion",
     {| title := "3D Authoring & Motion";
        description := "Professional 3D authoring and motion graphics pipeline with Blender, Spline, Rive, and Substance 3D";
        skills := ["blender-web-pipeline"; "spline-interactive"; "rive-interactive"; "substance-3d-texturing"];
        category := "bundle";
        tags := ["bundle"; "authoring"; "pipeline"; "motion-graphics"; "3d"] |});
    ("meta-skills",
     {| title := "Meta Skills";
        description := "Integration patterns and modern web design guidelines for building cohesive 3D/animation experiences";
        skills := ["web3d-integration-patterns"; "modern-web-design"];
        category := "bundle";
        tags := ["bundle"; "meta"; "integration"; "design"; "patterns"] |}) ].

Fixpoint lookup_bundle (name : string) (table : list (string * bundle_config))
  : option bundle_config :=
  match table with
  | [] => None
  | (k, v) :: rest => if String.eqb name k then Some v else lookup_bundle name rest
  end.

Record BundleGenerator : Type := {
  bundle_name : string;
  repo_root : Path.t;
  config : bundle_config;
  bundle_dir : Path.t
}.

(** [BundleGenerator(bundle_name, repo_root)]: [BUNDLES[bundle_name]]
    raises [KeyError] for an unknown name. *)
Definition init (name : string) (root : Path.t) : M node BundleGenerator :=
  match lookup_bundle name BUNDLES with
  | Some c =>
      ret {| bundle_name := name;
             repo_root := root;
             config := c;
             bundle_dir := root // ".claude" // "plugins" // "bundles" // name |}
  | None => raise KeyError
  end.

(** Create bundle directory structure *)
Definition _create_bundle_structure (self : BundleGenerator) : M node unit :=
  for_each [bundle_dir self;
            bundle_dir self // ".claude-plugin";
            bundle_dir self // "skills";
            bundle_dir self // "commands";
            bundle_dir self // "agents"]
           IO.mkdir.

(** The document [_generate_manifest] writes. *)
Definition manifest_document (self : BundleGenerator) : JSON :=
  JObj [("name", JStr (bundle_name self));
        ("version", JStr "1.0.0");
        ("description", JStr (description (config self)));
        ("author", JStr "Claude Design Skillstack");
        ("license", JStr "Apache-2.0");
        ("homepage", JStr "https://github.com/freshtechbro/claudedesignskills");
        ("repository", JObj [("type", JStr "git");
                             ("url", JStr "https://github.com/freshtechbro/claudedesignskills.git")]);
        ("keywords", JArr (map JStr (tags (config self))));
        ("category", JStr (category (config self)));
        ("bundle", JBool true);
        ("includes", JArr (map JStr (skills (config self))));
        ("skills", JStr "skills/");
        ("commands", JStr "commands/");
        ("agents", JStr "agents/")].

(** Generate bundle plugin.json *)
Definition _generate_manifest (self : BundleGenerator) : M node unit :=
  let manifest_path := bundle_dir self // ".claude-plugin" // "plugin.json" in
  IO.json_dump manifest_path (manifest_document self).

(** Copy all skills in bundle *)
Definition _copy_skills (self : BundleGenerator) : M node unit :=
  let skills_dir := bundle_dir self // "skills" in
  for_each (skills (config self)) (fun skill_name =>
    let src := repo_root self // ".claude" // "skills" // skill_name in
    let dst := skills_dir // skill_name in
    (there <- IO.exists_ src ;;
     if negb there then ret tt
     else
       old <- IO.exists_ dst ;;
       (if old then IO.rmtree dst else ret tt) ;;
       IO.copytree src dst)%io).

(** Aggregate commands from individual plugins *)
Definition _aggregate_commands (self : BundleGenerator) : M node unit :=
  let commands_dir := bundle_dir self // "commands" in
  for_each (skills (config self)) (fun skill_name =>
    let individual_plugin :=
      repo_root self // ".claude" // "plugins" // "individual" // skill_name in
    let individual_commands := individual_plugin // "commands" in
    (there <- IO.exists_ individual_commands ;;
     if negb there then ret tt
     else
       command_files <- IO.glob individual_commands ".md" ;;
       for_each command_files (fun command_file =>
         let dst := commands_dir // (skill_name ++ "-" ++ Path.name command_file)%string in
         IO.copy2 command_file dst))%io).

Definition newline : ascii := ascii_of_nat 10.

Definition integration_agent_content (title : string) (skills : list string) : string :=
  ("# " ++ title ++ " Integration Specialist

## Role

Expert integration specialist for combining " ++ title ++ " technologies into cohesive applications.

## Expertise

- Cross-library integration patterns
- Technology stack orchestration
- Performance optimization across libraries
- Unified architecture design
- Best practices for combined workflows

## Bundle Contents

This bundle includes:
" ++ Str.join (String newline EmptyString) (map (fun skill => ("- " ++ skill)%string) skills) ++ "

## When to use

Activate this agent when working on:
- Projects using multiple libraries from this bundle
- Cross-library integration challenges
- Architecture decisions spanning multiple technologies
- Performance optimization across the stack
- Unified workflow design

## Approach

1. Understand project requirements across all technologies
2. Design cohesive architecture leveraging each library's strengths
3. Implement integration patterns proven for this stack
4. Optimize for overall system performance
5. Provide guidance on library coordination

## Tools

This agent has access to:
- All skills in the " ++ title ++ " bundle
- Cross-library integration patterns
- Performance optimization techniques
- Architecture best practices
")%string.

(** Create bundle integration specialist agent *)
Definition _create_integration_agent (self : BundleGenerator) (agents_dir : Path.t)
  : M node unit :=
  let agent_name := (bundle_name self ++ "-integration")%string in
  let content := integration_agent_content (title (config self)) (skills (config self)) in
  let agent_file := agents_dir // (agent_name ++ ".md")%string in
  IO.write agent_file (Text content).

(** Create bundle-specific integration agents *)
Definition _create_bundle_agents (self : BundleGenerator) : M node unit :=
  let agents_dir := bundle_dir self // "agents" in
  (_create_integration_agent self agents_dir ;;
   for_each (skills (config self)) (fun skill_name =>
     let individual_plugin :=
       repo_root self // ".claude" // "plugins" // "individual" // skill_name in
     let individual_agents := individual_plugin // "agents" in
     there <- IO.exists_ individual_agents ;;
     if negb there then ret tt
     else
       agent_files <- IO.glob individual_agents ".md" ;;
       for_each agent_files (fun agent_file =>
         let dst := agents_dir // Path.name agent_file in
         IO.copy2 agent_file dst)))%io.

(** Generate bundle plugin *)
Definition generate (self : BundleGenerator) : M node unit :=
  (_create_bundle_structure self ;;
   _generate_manifest self ;;
   _copy_skills self ;;
   _aggregate_commands self ;;
   _create_bundle_agents self)%io.

(** [main()], with [sys.argv] as its argument. *)
Definition main (argv : list string) (root : Path.t) : M node unit :=
  match argv with
  | _ :: arg :: _ =>
      if String.eqb arg "--all" then
        for_each (map fst BUNDLES) (fun name =>
          try_except_Exception
            (generator <- init name root ;;
             generate generator)%io)
      else
        match lookup_bundle arg BUNDLES with
        | None => raise (SystemExit 1)
        | Some _ =>
            (generator <- init arg root ;;
             generate generator)%io
        end
  | _ => raise (SystemExit 1)
  end.

End GenerateBundle.

(* ================================================================== *)
(** ** Sample repositories *)

Module Examples.

Definition repo : Path.t := ["repo"].

(** A plugin directory: its manifest and the rest of its entries. *)
Definition plugin (manifest : Dict.t) (rest : FS.entries) : node :=
  Dir ((".claude-plugin", Dir [("plugin.json", File (Json (JObj manifest)))]) :: rest).

Definition manifest_of (name : string) : Dict.t :=
  [("name", JStr name); ("version", JStr "1.0.0"); ("description", JStr "d")].

Definition skill_md : content := Text "---
name: Three.js WebGL
description: 3D stuff
---
# body".

(** A manifest as the generators write it, with the legacy keys. *)
Definition legacy : Dict.t :=
  [("name", JStr "p");
   ("repository", JObj [("type", JStr "git"); ("url", JStr "u")]);
   ("category", JStr "c"); ("bundle", JBool false); ("includes", JArr []);
   ("commands", JStr "commands/"); ("agents", JStr "agents/")].

(** One manifest with a flat repository, one whose url is itself an object. *)
Definition flat_tree : node := Dir [("plugin.json", File (Json (JObj legacy)))].

Definition nested_tree : node :=
  Dir [("plugin.json",
        File (Json (JObj [("repository", JObj [("url", JObj [("url", JStr "u")])])])))].

(** Two plugins and a bundle under [.claude/plugins], and a directory
    that is no plugin. *)
Definition marketplace_tree : node :=
  Dir [("repo", Dir [(".claude", Dir [("plugins", Dir [
    ("individual", Dir [("threejs-webgl", plugin (manifest_of "threejs-webgl") []);
                        ("stray", Dir [])]);
    ("bundles", Dir [("core-3d-animation", plugin (manifest_of "core-3d-animation") [])])])])])].

(** A plugin whose manifest is an object without a name. *)
Definition nameless_tree : node :=
  Dir [("repo", Dir [(".claude", Dir [("plugins", Dir [
    ("individual", Dir [("threejs-webgl", plugin [] [])])])])])].

(** A plugin directory [b] without a manifest. *)
Definition missing_tree : node :=
  Dir [("repo", Dir [(".claude", Dir [("plugins", Dir [
    ("individual", Dir [("b", Dir [])])])])])].

(** The same, after a plugin [a] whose manifest is a JSON array. *)
Definition array_tree : node :=
  Dir [("repo", Dir [(".claude", Dir [("plugins", Dir [
    ("individual",
     Dir [("a", Dir [(".claude-plugin", Dir [("plugin.json", File (Json (JArr [])))])]);
          ("b", Dir [])])])])])].

(** Two skills, one with scripts, and the structure of their plugins. *)
Definition skills_tree : node :=
  Dir [("repo", Dir [(".claude", Dir [
    ("skills", Dir [
       ("threejs-webgl",
        Dir [("SKILL.md", File skill_md);
             ("scripts", Dir [("setup_scene.py", File (Text "x"));
                              ("README.md", File (Text "x"));
                              ("export.py", File (Text "y"))])]);
       ("plain", Dir [("SKILL.md", File skill_md)])]);
    ("plugins", Dir [
       ("individual", Dir [
          ("threejs-webgl", Dir [(".claude-plugin", Dir []); ("commands", Dir [])]);
          ("plain", Dir [(".claude-plugin", Dir []); ("commands", Dir [])])])])])])].

(** A skill, and a file where the plugins directory should be. *)
Definition blocked_tree : node :=
  Dir [("repo", Dir [(".claude", Dir [
    ("skills", Dir [("plain", Dir [("SKILL.md", File skill_md)])]);
    ("plugins", File (Text ""))])])].

(** A plugin [q] under [.claude/plugins] and a plugin [p] under
    [plugins], both with the legacy manifest and command files. *)
Definition two_roots_tree : node :=
  Dir [("repo", Dir [
    (".claude", Dir [("plugins", Dir [("individual", Dir [
       ("q", plugin legacy [("commands", Dir [("b.md", File (Text "b"))])])])])]);
    ("plugins", Dir [("individual", Dir [
       ("p", plugin legacy [("commands", Dir [("b.md", File (Text "b"));
                                              ("a.md", File (Text "a"));
                                              ("notes.txt", File (Text "n"))]);
                            ("agents", Dir [])])])])])].

(** A plugin whose commands are an array already and that has no agents. *)
Definition converted_tree : node :=
  Dir [("repo", Dir [("plugins", Dir [("individual", Dir [
    ("p", plugin [("name", JStr "p");
                  ("commands", JArr [JStr "./commands/a.md"]);
                  ("agents", JStr "agents/")]
                 [("commands", Dir [("a.md", File (Text "a"))]);
                  ("agents", Dir [])])])])])].

(** The individual plugins of the two members of the bundle
    [meta-skills], with their commands, and the bundle's directory. *)
Definition bundle_tree : node :=
  Dir [("repo", Dir [(".claude", Dir [("plugins", Dir [
    ("individual", Dir [
       ("web3d-integration-patterns",
        Dir [("commands", Dir [("setup.md", File (Text "w")); ("help.md", File (Text "wh"))])]);
       ("modern-web-design",
        Dir [("commands", Dir [("setup.md", File (Text "m"))])])]);
    ("bundles", Dir [("meta-skills", Dir [("commands", Dir [])])])])])])].

(** A skill whose two scripts have one stem, and the structure of its
    plugin. *)
Definition same_stem_tree : node :=
  Dir [("repo", Dir [(".claude", Dir [
    ("skills", Dir [
       ("plain", Dir [("SKILL.md", File skill_md);
                      ("scripts", Dir [(".py", File (Text "a"));
                                       (".py.py", File (Text "b"))])])]);
    ("plugins", Dir [
       ("individual", Dir [("plain", Dir [("commands", Dir [])])])])])])].

(** A skill with one script, and a plugin whose commands directory
    holds a directory under the name of the command. *)
Definition occupied_tree : node :=
  Dir [("repo", Dir [(".claude", Dir [
    ("skills", Dir [
       ("plain", Dir [("SKILL.md", File skill_md);
                      ("scripts", Dir [("export.py", File (Text "a"))])])]);
    ("plugins", Dir [
       ("individual", Dir [("plain", Dir [("commands", Dir [("export.md", Dir [])])])])])])])].

End Examples.

(* ================================================================== *)
(** * Properties *)

(** ** Dictionaries *)

Lemma Dict_get_set (k k' : string) (v : JSON) (d : Dict.t) :
  Dict.get k (Dict.set k' v d) = if String.eqb k k' then Some v else Dict.get k d.
Proof.
  induction d as [|[k0 v0] d IH]; simpl.
  - destruct (String.eqb k k'); reflexivity.
  - destruct (String.eqb k' k0) eqn:E0; simpl.
    + apply String.eqb_eq in E0; subst k0.
      destruct (String.eqb k k'); reflexivity.
    + destruct (String.eqb k k0) eqn:E1.
      * apply String.eqb_eq in E1; subst k0.
        rewrite String.eqb_sym in E0. rewrite E0. reflexivity.
      * exact IH.
Qed.

Lemma Dict_get_del (k k' : string) (d : Dict.t) :
  Dict.get k (Dict.del k' d) = if String.eqb k k' then None else Dict.get k d.
Proof.
  unfold Dict.del.
  induction d as [|[k0 v0] d IH]; simpl.
  - destruct (String.eqb k k'); reflexivity.
  - destruct (String.eqb k' k0) eqn:E0; simpl.
    + apply String.eqb_eq in E0; subst k0. rewrite IH.
      destruct (String.eqb k k'); reflexivity.
    + destruct (String.eqb k k0) eqn:E1.
      * apply String.eqb_eq in E1; subst k0.
        rewrite String.eqb_sym in E0. rewrite E0. reflexivity.
      * exact IH.
Qed.

Lemma Dict_set_same (k : string) (v : JSON) (d : Dict.t) :
  Dict.get k d = Some v -> Dict.set k v d = d.
Proof.
  induction d as [|[k0 v0] d IH]; simpl; [discriminate|].
  destruct (String.eqb k k0) eqn:E.
  - apply String.eqb_eq in E; subst k0. intros [= ->]. reflexivity.
  - intros H. rewrite (IH H). reflexivity.
Qed.

Lemma Dict_del_absent (k : string) (d : Dict.t) :
  Dict.get k d = None -> Dict.del k d = d.
Proof.
  unfold Dict.del.
  induction d as [|[k0 v0] d IH]; simpl; [reflexivity|].
  destruct (String.eqb k k0) eqn:E; [discriminate|].
  simpl. intros H. rewrite (IH H). reflexivity.
Qed.

(** ** The document transformation of fix_plugin_manifests.py *)

Module FixDocument.
Import FixPluginManifests.

(** On a list or a string, a step that returns has changed nothing:
    every item access raises [TypeError]. *)
Definition not_dict (m : JSON) : Prop := Py.is_dict m = false.

Lemma fix_author_not_dict m m' :
  not_dict m -> fix_author m = Ok m' -> m' = m.
Proof.
  unfold fix_author, not_dict.
  destruct m; simpl; try discriminate; intros _;
    match goal with
    | |- context [if ?b then _ else _] => destruct b; simpl
    end; congruence.
Qed.

Lemma fix_repository_not_dict m m' :
  not_dict m -> fix_repository m = Ok m' -> m' = m.
Proof.
  unfold fix_repository, not_dict.
  destruct m; simpl; try discriminate; intros _;
    match goal with
    | |- context [if ?b then _ else _] => destruct b; simpl
    end; congruence.
Qed.

Lemma fix_dot_slash_not_dict f m m' :
  not_dict m -> fix_dot_slash f m = Ok m' -> m' = m.
Proof.
  unfold fix_dot_slash, not_dict.
  destruct m; simpl; try discriminate; intros _;
    match goal with
    | |- context [if ?b then _ else _] => destruct b; simpl
    end; congruence.
Qed.

Lemma remove_fields_not_dict fs m m' :
  not_dict m -> remove_fields fs m = Ok m' -> m' = m.
Proof.
  unfold not_dict. induction fs as [|f fs IH]; simpl; intros Hm.
  - congruence.
  - destruct m; simpl in *; try discriminate;
      match goal with
      | |- context [if ?b then _ else _] => destruct b; simpl
      end; try discriminate; apply IH; reflexivity.
Qed.

Lemma fix_document_not_dict m m' :
  not_dict m -> fix_document m = Ok m' -> m' = m.
Proof.
  intros Hm. unfold fix_document.
  destruct (fix_author m) as [m1|] eqn:E1; cbn [rbind]; [|discriminate].
  apply (fix_author_not_dict _ _ Hm) in E1; subst m1.
  destruct (fix_repository m) as [m2|] eqn:E2; cbn [rbind]; [|discriminate].
  apply (fix_repository_not_dict _ _ Hm) in E2; subst m2.
  destruct (fix_dot_slash "commands" m) as [m3|] eqn:E3; cbn [rbind]; [|discriminate].
  apply (fix_dot_slash_not_dict _ _ _ Hm) in E3; subst m3.
  destruct (fix_dot_slash "agents" m) as [m4|] eqn:E4; cbn [rbind]; [|discriminate].
  apply (fix_dot_slash_not_dict _ _ _ Hm) in E4; subst m4.
  destruct (fix_dot_slash "skills" m) as [m5|] eqn:E5; cbn [rbind]; [|discriminate].
  apply (fix_dot_slash_not_dict _ _ _ Hm) in E5; subst m5.
  apply remove_fields_not_dict; exact Hm.
Qed.

(** On a dict, each step is a function of the association list. *)
Definition author_object (name : JSON) : JSON :=
  JObj [("name", name); ("email", JStr "oladotun.olatunji@gmail.com")].

Definition author_step (d : Dict.t) : Dict.t :=
  match Dict.get "author" d with
  | Some (JStr s) => Dict.set "author" (author_object (JStr s)) d
  | _ => d
  end.

Definition repository_step (d : Dict.t) : result Dict.t :=
  match Dict.get "repository" d with
  | Some (JObj r) =>
      match Dict.get "url" r with
      | Some url => Ok (Dict.set "repository" url d)
      | None => Raise KeyError
      end
  | _ => Ok d
  end.

Definition dot_slash_step (f : string) (d : Dict.t) : Dict.t :=
  match Dict.get f d with
  | Some (JStr s) =>
      if Str.startswith s "./" then d else Dict.set f (JStr ("./" ++ s)%string) d
  | _ => d
  end.

Lemma fix_author_dict d : fix_author (JObj d) = Ok (JObj (author_step d)).
Proof.
  unfold fix_author, author_step, Dict.mem. simpl. unfold Dict.mem.
  destruct (Dict.get "author" d) as [[]|]; reflexivity.
Qed.

Lemma fix_repository_dict d :
  fix_repository (JObj d) =
  match repository_step d with Ok d' => Ok (JObj d') | Raise e => Raise e end.
Proof.
  unfold fix_repository, repository_step. simpl. unfold Dict.mem.
  destruct (Dict.get "repository" d) as [[]|]; simpl; try reflexivity.
  destruct (Dict.get "url" fields); reflexivity.
Qed.

Lemma fix_dot_slash_dict f d :
  fix_dot_slash f (JObj d) = Ok (JObj (dot_slash_step f d)).
Proof.
  unfold fix_dot_slash, dot_slash_step. simpl. unfold Dict.mem.
  destruct (Dict.get f d) as [[]|]; simpl; try reflexivity.
  destruct (Str.startswith s "./"); reflexivity.
Qed.

Lemma remove_fields_dict fs d :
  remove_fields fs (JObj d) = Ok (JObj (fold_left (fun d k => Dict.del k d) fs d)).
Proof.
  revert d. induction fs as [|f fs IH]; intros d; simpl; [reflexivity|].
  unfold Dict.mem.
  destruct (Dict.get f d) eqn:E; simpl.
  - apply IH.
  - rewrite IH. rewrite (Dict_del_absent _ _ E). reflexivity.
Qed.

(** What each step leaves at the other keys and at its own. *)
Lemma get_author_step k d :
  Dict.get k (author_step d) =
  if String.eqb k "author"
  then match Dict.get "author" d with
       | Some (JStr s) => Some (author_object (JStr s))
       | other => other
       end
  else Dict.get k d.
Proof.
  unfold author_step.
  destruct (String.eqb k "author") eqn:E.
  - apply String.eqb_eq in E; subst k.
    destruct (Dict.get "author" d) as [[]|] eqn:G; try exact G.
    rewrite Dict_get_set. reflexivity.
  - destruct (Dict.get "author" d) as [[]|] eqn:G; try reflexivity.
    rewrite Dict_get_set, E. reflexivity.
Qed.

Lemma get_repository_step k d d' :
  repository_step d = Ok d' ->
  Dict.get k d' =
  if String.eqb k "repository"
  then match Dict.get "repository" d with
       | Some (JObj r) => Dict.get "url" r
       | other => other
       end
  else Dict.get k d.
Proof.
  unfold repository_step.
  destruct (String.eqb k "repository") eqn:E.
  - apply String.eqb_eq in E; subst k.
    destruct (Dict.get "repository" d) as [[]|] eqn:G;
      try (intros [= <-]; exact G).
    destruct (Dict.get "url" fields) eqn:U; [|discriminate].
    intros [= <-]. rewrite Dict_get_set. reflexivity.
  - destruct (Dict.get "repository" d) as [[]|] eqn:G;
      try (intros [= <-]; reflexivity).
    destruct (Dict.get "url" fields) eqn:U; [|discriminate].
    intros [= <-]. rewrite Dict_get_set, E. reflexivity.
Qed.

Lemma get_dot_slash_step k f d :
  Dict.get k (dot_slash_step f d) =
  if String.eqb k f
  then match Dict.get f d with
       | Some (JStr s) =>
           Some (JStr (if Str.startswith s "./" then s else ("./" ++ s)%string))
       | other => other
       end
  else Dict.get k d.
Proof.
  unfold dot_slash_step.
  destruct (String.eqb k f) eqn:E.
  - apply String.eqb_eq in E; subst k.
    destruct (Dict.get f d) as [[]|] eqn:G; try exact G.
    destruct (Str.startswith s "./"); [exact G|].
    rewrite Dict_get_set, String.eqb_refl. reflexivity.
  - destruct (Dict.get f d) as [[]|] eqn:G; try reflexivity.
    destruct (Str.startswith s "./"); [reflexivity|].
    rewrite Dict_get_set, E. reflexivity.
Qed.

(** A document on which the six steps have nothing left to do. *)
Record settled (d : Dict.t) : Prop := {
  settled_author : forall a, Dict.get "author" d = Some a -> Py.is_str a = false;
  settled_repository : forall r, Dict.get "repository" d = Some r -> Py.is_dict r = false;
  settled_paths : forall f s,
      In f ["commands"; "agents"; "skills"] ->
      Dict.get f d = Some (JStr s) -> Str.startswith s "./" = true;
  settled_removed : forall f,
      In f ["category"; "bundle"; "includes"] -> Dict.get f d = None
}.

Lemma startswith_dot_slash s : Str.startswith ("./" ++ s) "./" = true.
Proof.
  unfold Str.startswith. simpl.
  destruct (ascii_dec "." "."); [|congruence].
  destruct (ascii_dec "/" "/"); [|congruence].
  destruct s; reflexivity.
Qed.

Lemma settled_fixed d : settled d -> fix_document (JObj d) = Ok (JObj d).
Proof.
  intros [Ha Hr Hp Hd].
  assert (A : author_step d = d).
  { unfold author_step. destruct (Dict.get "author" d) as [[]|] eqn:G; try reflexivity.
    specialize (Ha _ eq_refl). discriminate. }
  assert (R : repository_step d = Ok d).
  { unfold repository_step. destruct (Dict.get "repository" d) as [[]|] eqn:G; try reflexivity.
    specialize (Hr _ eq_refl). discriminate. }
  assert (S : forall f, In f ["commands"; "agents"; "skills"] -> dot_slash_step f d = d).
  { intros f Hf. unfold dot_slash_step.
    destruct (Dict.get f d) as [[]|] eqn:G; try reflexivity.
    rewrite (Hp _ _ Hf G). reflexivity. }
  unfold fix_document.
  rewrite fix_author_dict, A. cbn [rbind].
  rewrite fix_repository_dict, R. cbn [rbind].
  rewrite fix_dot_slash_dict, S by (simpl; tauto). cbn [rbind].
  rewrite fix_dot_slash_dict, S by (simpl; tauto). cbn [rbind].
  rewrite fix_dot_slash_dict, S by (simpl; tauto). cbn [rbind].
  rewrite remove_fields_dict. cbn [fold_left].
  rewrite (Dict_del_absent "category") by (apply Hd; simpl; tauto).
  rewrite (Dict_del_absent "bundle") by (apply Hd; simpl; tauto).
  rewrite (Dict_del_absent "includes") by (apply Hd; simpl; tauto).
  reflexivity.
Qed.

(** The repository of the document, when it is an object with a url,
    holds a url that is not itself an object. *)
Definition flat_repository (manifest : JSON) : Prop :=
  forall repository url,
    Py.getitem manifest "repository" = Ok repository ->
    Py.getitem repository "url" = Ok url ->
    Py.is_dict url = false.

Lemma fix_document_settles d m' :
  flat_repository (JObj d) ->
  fix_document (JObj d) = Ok m' ->
  exists d', m' = JObj d' /\ settled d'.
Proof.
  intros Hflat. unfold fix_document.
  rewrite fix_author_dict. cbn [rbind].
  rewrite fix_repository_dict.
  destruct (repository_step (author_step d)) as [d2|] eqn:E2; cbn [rbind]; [|discriminate].
  rewrite fix_dot_slash_dict. cbn [rbind].
  rewrite fix_dot_slash_dict. cbn [rbind].
  rewrite fix_dot_slash_dict. cbn [rbind].
  rewrite remove_fields_dict. cbn [fold_left].
  intros [= <-]. eexists; split; [reflexivity|].
  pose proof (fun k => get_repository_step k _ _ E2) as GR.
  split.
  - intros a. rewrite !Dict_get_del; simpl. rewrite !get_dot_slash_step; simpl.
    rewrite GR; simpl. rewrite get_author_step; simpl.
    destruct (Dict.get "author" d) as [[]|]; intros [= <-]; reflexivity.
  - intros r. rewrite !Dict_get_del; simpl. rewrite !get_dot_slash_step; simpl.
    rewrite GR; simpl. rewrite get_author_step; simpl.
    destruct (Dict.get "repository" d) as [v|] eqn:G; [|discriminate].
    destruct v; try (intros [= <-]; reflexivity).
    intros U. apply (Hflat (JObj fields) r).
    + simpl. rewrite G. reflexivity.
    + simpl. rewrite U. reflexivity.
  - intros f s Hf.
    simpl in Hf. destruct Hf as [<-|[<-|[<-|[]]]];
      rewrite !Dict_get_del; simpl; rewrite !get_dot_slash_step; simpl;
      match goal with
      | |- context [match ?g with _ => _ end] => destruct g as [[]|]
      end; try discriminate; intros [= <-];
      match goal with
      | |- context [if ?b then _ else _] => destruct b eqn:B
      end; try exact B; apply startswith_dot_slash.
  - intros f Hf.
    simpl in Hf. destruct Hf as [<-|[<-|[<-|[]]]];
      rewrite !Dict_get_del; reflexivity.
Qed.

(** The document transformation is idempotent on such documents. *)
Lemma fix_document_idempotent m m' :
  flat_repository m -> fix_document m = Ok m' -> fix_document m' = Ok m'.
Proof.
  intros Hflat H.
  destruct (Py.is_dict m) eqn:D.
  - destruct m; try discriminate.
    destruct (fix_document_settles _ _ Hflat H) as (d' & -> & Hs).
    apply settled_fixed; exact Hs.
  - pose proof (fix_document_not_dict _ _ D H) as ->. exact H.
Qed.

End FixDocument.

(** ** Reading and writing a file *)

Lemma assoc_upsert (k k' : string) (n : node) (es : FS.entries) :
  FS.assoc k (FS.upsert k' n es) = if String.eqb k k' then Some n else FS.assoc k es.
Proof.
  induction es as [|[k0 n0] es IH]; simpl.
  - destruct (String.eqb k k'); reflexivity.
  - destruct (String.eqb k' k0) eqn:E0; simpl.
    + apply String.eqb_eq in E0; subst k0.
      destruct (String.eqb k k'); reflexivity.
    + destruct (String.eqb k k0) eqn:E1.
      * apply String.eqb_eq in E1; subst k0.
        rewrite String.eqb_sym in E0. rewrite E0. reflexivity.
      * exact IH.
Qed.

Lemma upsert_upsert (k : string) (n n' : node) (es : FS.entries) :
  FS.upsert k n (FS.upsert k n' es) = FS.upsert k n es.
Proof.
  induction es as [|[k0 n0] es IH]; simpl.
  - rewrite String.eqb_refl. reflexivity.
  - destruct (String.eqb k k0) eqn:E; simpl.
    + rewrite String.eqb_refl. reflexivity.
    + rewrite E, IH. reflexivity.
Qed.

Lemma write_deeper (es : FS.entries) (nm nm' : string) (p : Path.t) (c : content) :
  FS.write (Dir es) (nm :: nm' :: p) c =
  match FS.assoc nm es with
  | Some k =>
      match FS.write k (nm' :: p) c with
      | Ok k' => Ok (Dir (FS.upsert nm k' es))
      | Raise e => Raise e
      end
  | None => Raise FileNotFoundError
  end.
Proof. reflexivity. Qed.

Lemma write_then_read (fs fs' : node) (p : Path.t) (c : content) :
  FS.write fs p c = Ok fs' -> FS.read fs' p = Ok c.
Proof.
  revert fs fs'. induction p as [|nm p IH]; intros fs fs' H; [discriminate H|].
  destruct fs as [|es]; [discriminate H|].
  destruct p as [|nm' p'].
  - simpl in H.
    destruct (FS.assoc nm es) as [[|]|]; try discriminate H;
      injection H as <-; unfold FS.read; simpl;
      rewrite assoc_upsert, String.eqb_refl; reflexivity.
  - rewrite write_deeper in H.
    destruct (FS.assoc nm es) as [k|]; [|discriminate H].
    destruct (FS.write k (nm' :: p') c) as [k'|] eqn:W; [|discriminate H].
    injection H as <-. specialize (IH _ _ W).
    unfold FS.read in *. cbn [FS.lookup].
    rewrite assoc_upsert, String.eqb_refl. exact IH.
Qed.

Lemma write_again (fs fs' : node) (p : Path.t) (c : content) :
  FS.write fs p c = Ok fs' -> FS.write fs' p c = Ok fs'.
Proof.
  revert fs fs'. induction p as [|nm p IH]; intros fs fs' H; [discriminate H|].
  destruct fs as [|es]; [discriminate H|].
  destruct p as [|nm' p'].
  - simpl in H.
    destruct (FS.assoc nm es) as [[|]|]; try discriminate H;
      injection H as <-; simpl;
      rewrite assoc_upsert, String.eqb_refl, upsert_upsert; reflexivity.
  - rewrite write_deeper in H.
    destruct (FS.assoc nm es) as [k|]; [|discriminate H].
    destruct (FS.write k (nm' :: p') c) as [k'|] eqn:W; [|discriminate H].
    injection H as <-. specialize (IH _ _ W).
    rewrite write_deeper, assoc_upsert, String.eqb_refl, IH, upsert_upsert.
    reflexivity.
Qed.

(** The tree that [fix_plugin_manifest] of fix_plugin_manifests.py
    leaves: the file is written when it could be read, decoded and
    fixed, and nothing happens otherwise. *)
Lemma fix_plugin_manifest_state (p : Path.t) (fs : node) :
  state_of (FixPluginManifests.fix_plugin_manifest p fs) =
  match FS.read fs p with
  | Ok (Json m) =>
      match FixPluginManifests.fix_document m with
      | Ok m' =>
          match FS.write fs p (Json m') with
          | Ok fs' => fs'
          | Raise _ => fs
          end
      | Raise _ => fs
      end
  | _ => fs
  end.
Proof.
  unfold FixPluginManifests.fix_plugin_manifest, IO.json_load, IO.json_dump,
    IO.read, IO.write, bind, lift, ret, raise, state_of.
  destruct (FS.read fs p) as [[s|m]|e]; simpl; try reflexivity.
  destruct (FixPluginManifests.fix_document m) as [m'|e]; simpl; try reflexivity.
  destruct (FS.write fs p (Json m')) as [fs'|e]; reflexivity.
Qed.

(** C3, as amended.  Running [fix_plugin_manifest] of
    fix_plugin_manifests.py a second time leaves the tree the first run
    left, file for file, provided the repository of the manifest, when
    it is an object, has a url that is not itself an object. *)
Theorem fix_plugin_manifest_twice (fs : node) (p : Path.t) :
  (forall manifest, FS.read fs p = Ok (Json manifest) ->
                    FixDocument.flat_repository manifest) ->
  let once := state_of (FixPluginManifests.fix_plugin_manifest p fs) in
  state_of (FixPluginManifests.fix_plugin_manifest p once) = once.
Proof.
  intros Hflat once. subst once.
  rewrite (fix_plugin_manifest_state p fs).
  destruct (FS.read fs p) as [[s|m]|e] eqn:R;
    try (rewrite fix_plugin_manifest_state, R; reflexivity).
  destruct (FixPluginManifests.fix_document m) as [m'|e] eqn:F;
    [|rewrite fix_plugin_manifest_state, R, F; reflexivity].
  destruct (FS.write fs p (Json m')) as [fs'|e] eqn:W;
    [|rewrite fix_plugin_manifest_state, R, F, W; reflexivity].
  rewrite fix_plugin_manifest_state.
  rewrite (write_then_read _ _ _ _ W).
  rewrite (FixDocument.fix_document_idempotent _ _ (Hflat _ eq_refl) F).
  rewrite (write_again _ _ _ _ W). reflexivity.
Qed.

(* ================================================================== *)
(** ** Reasoning on the monad *)

Lemma run_bind {S A B} (m : M S A) (f : A -> M S B) (s : S) :
  bind m f s =
  match m s with
  | (Ok a, s1, t1) => (result_of (f a s1), state_of (f a s1), t1 ++ trace_of (f a s1))
  | (Raise e, s1, t1) => (Raise e, s1, t1)
  end.
Proof.
  unfold bind, result_of, state_of, trace_of.
  destruct (m s) as [[[a|e] s1] t1]; [|reflexivity].
  destruct (f a s1) as [[r s2] t2]; reflexivity.
Qed.

Lemma result_bind {S A B} (m : M S A) (f : A -> M S B) (s : S) :
  result_of (bind m f s) =
  match result_of (m s) with
  | Ok a => result_of (f a (state_of (m s)))
  | Raise e => Raise e
  end.
Proof.
  rewrite run_bind. unfold result_of, state_of.
  destruct (m s) as [[[a|e] s1] t1]; reflexivity.
Qed.

Lemma state_bind {S A B} (m : M S A) (f : A -> M S B) (s : S) :
  state_of (bind m f s) =
  match result_of (m s) with
  | Ok a => state_of (f a (state_of (m s)))
  | Raise e => state_of (m s)
  end.
Proof.
  rewrite run_bind. unfold result_of, state_of.
  destruct (m s) as [[[a|e] s1] t1]; reflexivity.
Qed.

Lemma trace_bind {S A B} (m : M S A) (f : A -> M S B) (s : S) :
  trace_of (bind m f s) =
  match result_of (m s) with
  | Ok a => trace_of (m s) ++ trace_of (f a (state_of (m s)))
  | Raise e => trace_of (m s)
  end.
Proof.
  rewrite run_bind. unfold result_of, state_of, trace_of.
  destruct (m s) as [[[a|e] s1] t1]; reflexivity.
Qed.

Lemma run_eta {S A} (x : result A * S * list event) :
  x = (result_of x, state_of x, trace_of x).
Proof. destruct x as [[r s] t]; reflexivity. Qed.

(** A computation obeys a discipline when, from every state, the state
    it leaves is related to the one it found, every event of its trace
    is allowed, every exception it raises is allowed and the value it
    returns is as announced. *)
Section Obeys.

Context {S : Type}.
Variable I : S -> S -> Prop.
Hypothesis I_refl : forall s, I s s.
Hypothesis I_trans : forall a b c, I a b -> I b c -> I a c.
Variable E : event -> Prop.
Variable X : exn -> Prop.

Definition obeys {A} (V : A -> Prop) (m : M S A) : Prop :=
  forall s,
    I s (state_of (m s))
    /\ Forall E (trace_of (m s))
    /\ match result_of (m s) with Ok a => V a | Raise e => X e end.

Lemma obeys_ret {A} (V : A -> Prop) (a : A) : V a -> obeys V (ret a).
Proof. intros H s. cbn. auto. Qed.

Lemma obeys_raise {A} (V : A -> Prop) (e : exn) : X e -> obeys V (raise e).
Proof. intros H s. cbn. auto. Qed.

Lemma obeys_get_state : obeys (fun _ => True) get_state.
Proof. intros s. cbn. auto. Qed.

Lemma obeys_lift {A} (V : A -> Prop) (r : result A) :
  match r with Ok a => V a | Raise e => X e end -> obeys V (lift r).
Proof. intros H s. cbn. auto. Qed.

Lemma obeys_weaken {A} (V W : A -> Prop) (m : M S A) :
  (forall a, V a -> W a) -> obeys V m -> obeys W m.
Proof.
  intros HVW Hm s. destruct (Hm s) as (Hi & He & Hr).
  repeat split; auto. destruct (result_of (m s)); auto.
Qed.

Lemma obeys_bind {A B} (V : A -> Prop) (W : B -> Prop) (m : M S A) (f : A -> M S B) :
  obeys V m -> (forall a, V a -> obeys W (f a)) -> obeys W (bind m f).
Proof.
  intros Hm Hf s. rewrite run_bind.
  destruct (Hm s) as (Hi & He & Hr).
  rewrite (run_eta (m s)) in *. cbn in Hi, He, Hr.
  destruct (result_of (m s)) as [a|e]; cbn.
  - destruct (Hf a Hr (state_of (m s))) as (Hi' & He' & Hr').
    repeat split; eauto. apply Forall_app; auto.
  - auto.
Qed.

Lemma obeys_for_each {A} (l : list A) (body : A -> M S unit) :
  (forall x, In x l -> obeys (fun _ => True) (body x)) ->
  obeys (fun _ => True) (for_each l body).
Proof.
  induction l as [|x l IH]; intros H; cbn [for_each].
  - apply obeys_ret; exact Logic.I.
  - apply obeys_bind with (V := fun _ => True).
    + apply H; left; reflexivity.
    + intros _ _. apply IH. intros y Hy. apply H; right; exact Hy.
Qed.

Lemma obeys_fold_m {A B} (V : B -> Prop) (l : list A) (acc : B) (body : B -> A -> M S B) :
  V acc ->
  (forall b x, V b -> In x l -> obeys V (body b x)) ->
  obeys V (fold_m l acc body).
Proof.
  revert acc. induction l as [|x l IH]; intros acc Hacc H; cbn [fold_m].
  - apply obeys_ret; exact Hacc.
  - apply obeys_bind with (V := V).
    + apply H; [exact Hacc | left; reflexivity].
    + intros b Hb. apply IH; [exact Hb|].
      intros b' y Hb' Hy. apply H; [exact Hb' | right; exact Hy].
Qed.

Lemma obeys_try_JSONDecodeError (body handler : M S unit) :
  obeys (fun _ => True) body ->
  obeys (fun _ => True) handler ->
  obeys (fun _ => True) (try_except_JSONDecodeError body handler).
Proof.
  intros Hb Hh s. unfold try_except_JSONDecodeError.
  destruct (Hb s) as (Hi & He & Hr).
  rewrite (run_eta (body s)) in *. cbn in Hi, He, Hr.
  destruct (result_of (body s)) as [a|e]; cbn; [auto|].
  destruct e; cbn; auto.
  destruct (Hh (state_of (body s))) as (Hi' & He' & Hr').
  rewrite (run_eta (handler _)). cbn.
  repeat split; eauto. apply Forall_app; auto.
Qed.

End Obeys.

(** After [try: ... except Exception], nothing is raised when the body
    raises exceptions only. *)
Lemma try_except_Exception_returns {S} (body : M S unit) (s : S) :
  (forall e, result_of (body s) = Raise e -> is_Exception e = true) ->
  result_of (try_except_Exception body s) = Ok tt.
Proof.
  intros H. unfold try_except_Exception.
  rewrite (run_eta (body s)) in *. cbn in H.
  destruct (result_of (body s)) as [[]|e]; cbn; [reflexivity|].
  rewrite (H e eq_refl). reflexivity.
Qed.

Lemma for_each_returns {S A} (l : list A) (body : A -> M S unit) :
  (forall x s, In x l -> result_of (body x s) = Ok tt) ->
  forall s, result_of (for_each l body s) = Ok tt.
Proof.
  induction l as [|x l IH]; intros H s; cbn [for_each]; [reflexivity|].
  rewrite run_bind. rewrite (run_eta (body x s)).
  rewrite (H x s (or_introl eq_refl)). cbn.
  apply IH. intros y s' Hy. apply H; right; exact Hy.
Qed.

(** ** The file operations under a discipline *)

Lemma OSError_is_Exception (e : exn) : is_OSError e = true -> is_Exception e = true.
Proof. destruct e; simpl; congruence. Qed.

Section ObeysIO.

Variable I : node -> node -> Prop.
Hypothesis I_refl : forall s, I s s.
Hypothesis I_trans : forall a b c, I a b -> I b c -> I a c.
Variable E : event -> Prop.
Variable X : exn -> Prop.
Hypothesis X_os : forall e, is_OSError e = true -> X e.

Lemma listdir_raises fs p e : FS.listdir fs p = Raise e -> is_OSError e = true.
Proof.
  unfold FS.listdir. destruct (FS.lookup fs p) as [[|]|]; intros [= <-]; reflexivity.
Qed.

Lemma read_raises fs p e : FS.read fs p = Raise e -> is_OSError e = true.
Proof.
  unfold FS.read. destruct (FS.lookup fs p) as [[|]|]; intros [= <-]; reflexivity.
Qed.

Lemma write_raises fs p c e : FS.write fs p c = Raise e -> is_OSError e = true.
Proof.
  revert fs. induction p as [|nm p IH]; intros fs H; [injection H as <-; reflexivity|].
  destruct fs as [|es]; [injection H as <-; reflexivity|].
  destruct p as [|nm' p'].
  - simpl in H. destruct (FS.assoc nm es) as [[|]|]; try discriminate H;
      injection H as <-; reflexivity.
  - rewrite write_deeper in H.
    destruct (FS.assoc nm es) as [k|]; [|injection H as <-; reflexivity].
    destruct (FS.write k (nm' :: p') c) as [k'|e'] eqn:W; [discriminate H|].
    injection H as <-. exact (IH _ W).
Qed.

Lemma mkdirs_raises fs p e : FS.mkdirs fs p = Raise e -> is_OSError e = true.
Proof.
  revert fs. induction p as [|nm p IH]; intros fs H.
  - destruct fs; simpl in H; [injection H as <-; reflexivity | discriminate H].
  - destruct fs as [|es]; simpl in H; [injection H as <-; reflexivity|].
    match type of H with
    | match ?x with _ => _ end = _ => destruct x as [k'|e'] eqn:W
    end; [discriminate H|].
    injection H as <-. exact (IH _ W).
Qed.

Lemma rmtree_deeper (es : FS.entries) (nm nm' : string) (p : Path.t) :
  FS.rmtree (Dir es) (nm :: nm' :: p) =
  match FS.assoc nm es with
  | None => Raise FileNotFoundError
  | Some k =>
      match FS.rmtree k (nm' :: p) with
      | Ok k' => Ok (Dir (FS.upsert nm k' es))
      | Raise e => Raise e
      end
  end.
Proof. reflexivity. Qed.

Lemma rmtree_raises fs p e : FS.rmtree fs p = Raise e -> is_OSError e = true.
Proof.
  revert fs. induction p as [|nm p IH]; intros fs H; [injection H as <-; reflexivity|].
  destruct fs as [|es]; [injection H as <-; reflexivity|].
  destruct p as [|nm' p'].
  - simpl in H. destruct (FS.assoc nm es) as [[|]|]; try discriminate H;
      injection H as <-; reflexivity.
  - rewrite rmtree_deeper in H.
    destruct (FS.assoc nm es) as [k|]; [|injection H as <-; reflexivity].
    destruct (FS.rmtree k (nm' :: p')) as [k'|e'] eqn:W; [discriminate H|].
    injection H as <-. exact (IH _ W).
Qed.

Lemma install_deeper (es : FS.entries) (nm nm' : string) (p : Path.t) (new : node) :
  FS.install (Dir es) (nm :: nm' :: p) new =
  match FS.install (match FS.assoc nm es with Some k => k | None => Dir [] end)
                   (nm' :: p) new with
  | Ok k' => Ok (Dir (FS.upsert nm k' es))
  | Raise e => Raise e
  end.
Proof. reflexivity. Qed.

Lemma install_raises fs p new e : FS.install fs p new = Raise e -> is_OSError e = true.
Proof.
  revert fs. induction p as [|nm p IH]; intros fs H; [injection H as <-; reflexivity|].
  destruct fs as [|es]; [injection H as <-; reflexivity|].
  destruct p as [|nm' p'].
  - simpl in H. destruct (FS.assoc nm es) as [k|]; try discriminate H;
      injection H as <-; reflexivity.
  - rewrite install_deeper in H.
    match type of H with
    | match ?x with _ => _ end = _ => destruct x as [k'|e'] eqn:W
    end; [discriminate H|].
    injection H as <-. exact (IH _ W).
Qed.

Lemma obeys_exists p : obeys I E X (fun _ => True) (IO.exists_ p).
Proof. intros fs. cbn. auto. Qed.

Lemma obeys_is_dir p : obeys I E X (fun _ => True) (IO.is_dir p).
Proof. intros fs. cbn. auto. Qed.

Lemma obeys_glob p suffix :
  obeys I E X (fun l => forall x, In x l -> exists nm, x = Path.child p nm) (IO.glob p suffix).
Proof.
  intros fs. cbn. repeat split; auto.
  intros x Hx. apply in_map_iff in Hx. destruct Hx as (nm & <- & _). eauto.
Qed.

Lemma obeys_iterdir p :
  obeys I E X (fun l => forall x, In x l -> exists nm, x = Path.child p nm) (IO.iterdir p).
Proof.
  intros fs. unfold IO.iterdir.
  destruct (FS.listdir fs p) as [names|e] eqn:L; cbn; repeat split; auto.
  - intros x Hx. apply in_map_iff in Hx. destruct Hx as (nm & <- & _). eauto.
  - apply X_os. exact (listdir_raises _ _ _ L).
Qed.

Lemma obeys_read p : E (Read p) -> obeys I E X (fun _ => True) (IO.read p).
Proof.
  intros He fs. unfold IO.read.
  destruct (FS.read fs p) as [c|e] eqn:R; cbn; repeat split; auto.
  apply X_os. exact (read_raises _ _ _ R).
Qed.

Lemma obeys_json_load p :
  E (Read p) -> X JSONDecodeError -> obeys I E X (fun _ => True) (IO.json_load p).
Proof.
  intros He Hx. unfold IO.json_load.
  apply obeys_bind with (V := fun _ => True); auto.
  - apply obeys_read; exact He.
  - intros [s|v] _; [apply obeys_raise | apply obeys_ret]; auto.
Qed.

Lemma obeys_write p c :
  E (Wrote p) -> (forall fs fs', FS.write fs p c = Ok fs' -> I fs fs') ->
  obeys I E X (fun _ => True) (IO.write p c).
Proof.
  intros He Hi fs. unfold IO.write.
  destruct (FS.write fs p c) as [fs'|e] eqn:W; cbn; repeat split; auto.
  apply X_os. exact (write_raises _ _ _ _ W).
Qed.

Lemma obeys_mkdir p :
  E (Mkdir p) -> (forall fs fs', FS.mkdirs fs p = Ok fs' -> I fs fs') ->
  obeys I E X (fun _ => True) (IO.mkdir p).
Proof.
  intros He Hi fs. unfold IO.mkdir.
  destruct (FS.mkdirs fs p) as [fs'|e] eqn:W; cbn; repeat split; auto.
  apply X_os. exact (mkdirs_raises _ _ _ W).
Qed.

Lemma obeys_rmtree p :
  E (Rmtree p) -> (forall fs fs', FS.rmtree fs p = Ok fs' -> I fs fs') ->
  obeys I E X (fun _ => True) (IO.rmtree p).
Proof.
  intros He Hi fs. unfold IO.rmtree.
  destruct (FS.rmtree fs p) as [fs'|e] eqn:W; cbn; repeat split; auto.
  apply X_os. exact (rmtree_raises _ _ _ W).
Qed.

Lemma obeys_copytree src dst :
  E (Copytree src dst) ->
  (forall fs new fs', FS.install fs dst new = Ok fs' -> I fs fs') ->
  obeys I E X (fun _ => True) (IO.copytree src dst).
Proof.
  intros He Hi fs. unfold IO.copytree.
  destruct (FS.lookup fs src) as [[c|es]|].
  - cbn. repeat split; auto.
  - destruct (FS.install fs dst (FS.prune (Dir es))) as [fs'|e] eqn:W; cbn;
      repeat split; eauto.
    apply X_os. exact (install_raises _ _ _ _ W).
  - cbn. repeat split; auto.
Qed.

Lemma obeys_copy2 src dst :
  (forall target, E (Copy src target)) ->
  (forall fs target c fs', FS.write fs target c = Ok fs' -> I fs fs') ->
  obeys I E X (fun _ => True) (IO.copy2 src dst).
Proof.
  intros He Hi fs. unfold IO.copy2.
  destruct (FS.read fs src) as [c|e] eqn:R; cbn.
  - destruct (FS.write fs _ c) as [fs'|e] eqn:W; cbn; repeat split; eauto.
    apply X_os. exact (write_raises _ _ _ _ W).
  - repeat split; auto. apply X_os. exact (read_raises _ _ _ R).
Qed.

End ObeysIO.

(** [sorted] rearranges its argument. *)
Lemma Path_insert_sorted_perm (x : Path.t) (l : list Path.t) :
  Permutation (Path.insert_sorted x l) (x :: l).
Proof.
  induction l as [|y l IH]; simpl; [reflexivity|].
  destruct (Path.leb x y); [reflexivity|].
  rewrite IH. apply perm_swap.
Qed.

Lemma Path_sorted_perm (l : list Path.t) : Permutation (Path.sorted l) l.
Proof.
  induction l as [|x l IH]; simpl; [reflexivity|].
  rewrite Path_insert_sorted_perm. constructor. exact IH.
Qed.

Lemma Str_insert_sorted_perm (x : string) (l : list string) :
  Permutation (Str.insert_sorted x l) (x :: l).
Proof.
  induction l as [|y l IH]; simpl; [reflexivity|].
  destruct (String.leb x y); [reflexivity|].
  rewrite IH. apply perm_swap.
Qed.

Lemma Str_sorted_perm (l : list string) : Permutation (Str.sorted l) l.
Proof.
  induction l as [|x l IH]; simpl; [reflexivity|].
  rewrite Str_insert_sorted_perm. constructor. exact IH.
Qed.

(* ================================================================== *)
(** ** Exceptions: none of the scripts raises [SystemExit] from within *)

Definition any_tree : node -> node -> Prop := fun _ _ => True.
Definition any_event : event -> Prop := fun _ => True.
Definition an_Exception (e : exn) : Prop := is_Exception e = true.

(** The discipline: any change of the tree, any event, exceptions that
    [except Exception] catches. *)
Definition raises_Exception_only {A} (m : M node A) : Prop :=
  obeys any_tree any_event an_Exception (fun _ => True) m.

Definition pure_Exception_only {A} (r : result A) : Prop :=
  match r with Ok _ => True | Raise e => an_Exception e end.

Lemma pure_bind {A B} (r : result A) (f : A -> result B) :
  pure_Exception_only r -> (forall a, pure_Exception_only (f a)) ->
  pure_Exception_only (rbind r f).
Proof. destruct r; simpl; auto. Qed.

Lemma pure_contains k v : pure_Exception_only (Py.contains k v).
Proof. destruct v; simpl; auto; reflexivity. Qed.

Lemma pure_getitem v k : pure_Exception_only (Py.getitem v k).
Proof.
  destruct v; simpl; auto; try reflexivity.
  destruct (Dict.get k fields); simpl; auto; reflexivity.
Qed.

Lemma pure_setitem v k x : pure_Exception_only (Py.setitem v k x).
Proof. destruct v; simpl; auto; reflexivity. Qed.

Lemma pure_delitem v k : pure_Exception_only (Py.delitem v k).
Proof.
  destruct v; simpl; auto; try reflexivity.
  destruct (Dict.get k fields); simpl; auto; reflexivity.
Qed.

Lemma pure_get v k d : pure_Exception_only (Py.get v k d).
Proof. destruct v; simpl; auto; reflexivity. Qed.

Lemma pure_Ok {A} (a : A) : pure_Exception_only (Ok a).
Proof. exact I. Qed.

Create HintDb pure discriminated.
#[export] Hint Resolve pure_contains pure_getitem pure_setitem pure_delitem
  pure_get pure_Ok : pure.

Ltac pure_tac :=
  repeat first
    [ apply pure_bind; [|intros ?]
    | solve [auto with pure]
    | match goal with
      | |- pure_Exception_only (if ?b then _ else _) => destruct b
      | |- pure_Exception_only (match ?x with _ => _ end) => destruct x
      end ].

Lemma pure_fix_document m : pure_Exception_only (FixPluginManifests.fix_document m).
Proof.
  unfold FixPluginManifests.fix_document, FixPluginManifests.fix_author,
    FixPluginManifests.fix_repository, FixPluginManifests.fix_dot_slash.
  pure_tac.
Qed.

Lemma pure_individual_entry d m :
  pure_Exception_only (GenerateMarketplace.individual_entry d m).
Proof. unfold GenerateMarketplace.individual_entry. pure_tac. Qed.

Lemma pure_bundle_entry d m :
  pure_Exception_only (GenerateMarketplace.bundle_entry d m).
Proof. unfold GenerateMarketplace.bundle_entry. pure_tac. Qed.

#[export] Hint Resolve pure_fix_document pure_individual_entry pure_bundle_entry : pure.

Lemma any_tree_trans (a b c : node) : any_tree a b -> any_tree b c -> any_tree a c.
Proof. intros; exact I. Qed.

Ltac exc_op :=
  first
    [ apply obeys_ret; intros; exact I
    | apply obeys_raise; [intros; exact I | reflexivity]
    | apply obeys_get_state; intros; exact I
    | apply obeys_lift;
      [ intros; exact I
      | match goal with |- match ?r with _ => _ end => change (pure_Exception_only r) end;
        solve [auto with pure] ]
    | apply obeys_exists; intros; exact I
    | apply obeys_is_dir; intros; exact I
    | eapply obeys_weaken; [|apply obeys_iterdir; [intros; exact I | exact OSError_is_Exception]];
      intros; exact I
    | eapply obeys_weaken; [|apply obeys_glob; intros; exact I]; intros; exact I
    | apply obeys_read; [intros; exact I | exact OSError_is_Exception | exact I]
    | apply obeys_json_load;
      [intros; exact I | exact any_tree_trans | exact OSError_is_Exception | exact I | reflexivity]
    | apply obeys_write; [intros; exact I | exact OSError_is_Exception | exact I | intros; exact I]
    | apply obeys_mkdir; [intros; exact I | exact OSError_is_Exception | exact I | intros; exact I]
    | apply obeys_rmtree; [intros; exact I | exact OSError_is_Exception | exact I | intros; exact I]
    | apply obeys_copytree;
      [intros; exact I | exact OSError_is_Exception | exact I | intros; exact I]
    | apply obeys_copy2;
      [intros; exact I | exact OSError_is_Exception | intros; exact I | intros; exact I] ].

Ltac exc :=
  repeat first
    [ exc_op
    | apply obeys_bind with (V := fun _ : _ => True); [exact any_tree_trans| |intros ? _]
    | apply obeys_for_each; [intros; exact I | exact any_tree_trans | intros ? _]
    | apply obeys_fold_m with (V := fun _ : _ => True);
      [intros; exact I | exact any_tree_trans | exact I | intros ? ? _ _]
    | match goal with
      | |- obeys _ _ _ _ (if ?b then _ else _) => destruct b
      | |- obeys _ _ _ _ (match ?x with _ => _ end) => destruct x
      | |- obeys _ _ _ _ (let _ := _ in _) => cbv zeta
      end ].

Lemma exc_fix_plugin_manifests root :
  raises_Exception_only (FixPluginManifests.main root).
Proof.
  unfold raises_Exception_only, FixPluginManifests.main, FixPluginManifests.fix_all_in,
    FixPluginManifests.fix_plugin_manifest, IO.json_dump.
  exc.
Qed.

Lemma exc_fix_agent_command_paths root :
  raises_Exception_only (FixAgentCommandPaths.main root).
Proof.
  unfold raises_Exception_only, FixAgentCommandPaths.main, FixAgentCommandPaths.fix_all_in,
    FixAgentCommandPaths.fix_plugin_manifest, FixAgentCommandPaths.fix_field,
    FixAgentCommandPaths.get_md_files, IO.json_dump.
  exc.
Qed.

Lemma exc_generate_marketplace root :
  raises_Exception_only (GenerateMarketplace.main root).
Proof.
  unfold raises_Exception_only, GenerateMarketplace.main, GenerateMarketplace.generate,
    GenerateMarketplace._collect_individual_plugins,
    GenerateMarketplace._collect_bundle_plugins, GenerateMarketplace.collect, IO.json_dump.
  exc.
Qed.

Lemma exc_plugin_init name root :
  raises_Exception_only (GeneratePlugin.init name root).
Proof.
  unfold raises_Exception_only, GeneratePlugin.init, GeneratePlugin._load_skill_metadata.
  exc.
Qed.

Lemma exc_plugin_generate self :
  raises_Exception_only (GeneratePlugin.generate self).
Proof.
  unfold raises_Exception_only, GeneratePlugin.generate,
    GeneratePlugin._create_plugin_structure, GeneratePlugin._generate_manifest,
    GeneratePlugin._copy_skill_content, GeneratePlugin._generate_commands,
    GeneratePlugin._generate_generic_commands, GeneratePlugin._generate_agents,
    GeneratePlugin.create_agent, IO.json_dump.
  exc.
Qed.

Lemma exc_bundle_init name root :
  raises_Exception_only (GenerateBundle.init name root).
Proof.
  unfold raises_Exception_only, GenerateBundle.init.
  exc.
Qed.

Lemma exc_bundle_generate self :
  raises_Exception_only (GenerateBundle.generate self).
Proof.
  unfold raises_Exception_only, GenerateBundle.generate,
    GenerateBundle._create_bundle_structure, GenerateBundle._generate_manifest,
    GenerateBundle._copy_skills, GenerateBundle._aggregate_commands,
    GenerateBundle._create_bundle_agents, GenerateBundle._create_integration_agent,
    IO.json_dump.
  exc.
Qed.

(* ================================================================== *)
(** ** The validator: it reads the tree, its error list only grows *)

Module ValidatorFacts.
Import ValidateMarketplace.

(** The state the validator may leave: the same tree, a longer list of
    errors. *)
Definition grows (v v' : validator) : Prop :=
  fs v' = fs v /\ exists extra, errors v' = errors v ++ extra.

Lemma grows_refl v : grows v v.
Proof. split; [reflexivity|]. exists []. rewrite app_nil_r. reflexivity. Qed.

Lemma grows_trans a b c : grows a b -> grows b c -> grows a c.
Proof.
  intros [F1 [x1 E1]] [F2 [x2 E2]]. split; [congruence|].
  exists (x1 ++ x2). rewrite E2, E1, app_assoc. reflexivity.
Qed.

Lemma grows_In a b msg : grows a b -> In msg (errors a) -> In msg (errors b).
Proof. intros [_ [x ->]] H. apply in_or_app; left; exact H. Qed.

Definition disciplined {A} (m : M validator A) : Prop :=
  obeys grows any_event an_Exception (fun _ => True) m.

Lemma disciplined_error msg : disciplined (error msg).
Proof.
  intros v. cbn. repeat split; auto. exists [msg]. reflexivity.
Qed.

Lemma disciplined_warning msg : disciplined (warning msg).
Proof.
  intros v. cbn. repeat split; auto. exists []. rewrite app_nil_r. reflexivity.
Qed.

(** An operation that only reads the tree, run by the validator. *)
Lemma disciplined_on_fs {A} (m : M node A) :
  (forall t, state_of (m t) = t) ->
  raises_Exception_only m ->
  disciplined (on_fs m).
Proof.
  intros Hro Hex v. unfold on_fs.
  specialize (Hro (fs v)). destruct (Hex (fs v)) as (_ & He & Hr).
  rewrite (run_eta (m (fs v))) in *. cbn in *.
  rewrite Hro. repeat split; auto.
  exists []. rewrite app_nil_r. reflexivity.
Qed.

Lemma exists_reads p t : state_of (IO.exists_ p t) = t.
Proof. reflexivity. Qed.

Lemma iterdir_reads p t : state_of (IO.iterdir p t) = t.
Proof. unfold IO.iterdir. destruct (FS.listdir t p); reflexivity. Qed.

Lemma json_load_reads p t : state_of (IO.json_load p t) = t.
Proof.
  unfold IO.json_load, IO.read, bind, ret, raise.
  destruct (FS.read t p) as [[|]|]; reflexivity.
Qed.

Ltac disc_op :=
  first
    [ apply obeys_ret; [exact grows_refl | exact I]
    | apply obeys_raise; [exact grows_refl | reflexivity]
    | apply obeys_get_state; exact grows_refl
    | apply disciplined_error
    | apply disciplined_warning
    | apply obeys_lift;
      [ exact grows_refl
      | match goal with |- match ?r with _ => _ end => change (pure_Exception_only r) end;
        solve [auto with pure] ]
    | apply disciplined_on_fs; [first [exact (exists_reads _) | exact (iterdir_reads _)
                                       | exact (json_load_reads _)]
                               | unfold raises_Exception_only; exc] ].

Ltac disc :=
  repeat first
    [ disc_op
    | apply obeys_bind with (V := fun _ : _ => True); [exact grows_trans| |intros ? _]
    | apply obeys_for_each; [exact grows_refl | exact grows_trans | intros ? _]
    | apply obeys_try_JSONDecodeError; [exact grows_trans| |]
    | match goal with
      | |- obeys _ _ _ _ (if ?b then _ else _) => destruct b
      | |- obeys _ _ _ _ (match ?x with _ => _ end) => destruct x
      | |- obeys _ _ _ _ (let _ := _ in _) => cbv zeta
      end ].

Lemma disciplined_validate_plugin_entry root plugin i :
  disciplined (_validate_plugin_entry root plugin i).
Proof. unfold disciplined, _validate_plugin_entry. disc. Qed.

Lemma disciplined_validate_entries root plugins i :
  disciplined (validate_entries root plugins i).
Proof.
  revert i. induction plugins as [|p l IH]; intros i; cbn [validate_entries].
  - unfold disciplined. disc.
  - apply obeys_bind with (V := fun _ => True); [exact grows_trans| |intros ? _].
    + apply disciplined_validate_plugin_entry.
    + apply IH.
Qed.

Lemma disciplined_validate_marketplace_json root :
  disciplined (_validate_marketplace_json root).
Proof.
  unfold disciplined, _validate_marketplace_json.
  disc; apply disciplined_validate_entries.
Qed.

Lemma disciplined_validate_plugin plugin_dir plugin_type :
  disciplined (_validate_plugin plugin_dir plugin_type).
Proof. unfold disciplined, _validate_plugin. disc. Qed.

Lemma disciplined_validate_plugins_in dir plugin_type missing :
  disciplined (validate_plugins_in dir plugin_type missing).
Proof.
  unfold disciplined, validate_plugins_in. disc.
Qed.

End ValidatorFacts.

(** A loop that returns has run its body on every element, from a
    state the discipline allows and towards one it allows. *)
Section Reaches.

Context {S : Type}.
Variable I : S -> S -> Prop.
Hypothesis I_refl : forall s, I s s.
Hypothesis I_trans : forall a b c, I a b -> I b c -> I a c.
Variable E : event -> Prop.
Variable X : exn -> Prop.

Lemma for_each_reaches {A} (l : list A) (body : A -> M S unit) (x : A) (s : S) :
  (forall y, In y l -> obeys I E X (fun _ => True) (body y)) ->
  In x l ->
  result_of (for_each l body s) = Ok tt ->
  exists s1,
    I s s1 /\ result_of (body x s1) = Ok tt
    /\ I (state_of (body x s1)) (state_of (for_each l body s)).
Proof.
  revert s. induction l as [|y l IH]; intros s Hb Hx Hr; [destruct Hx|].
  cbn [for_each] in *. rewrite run_bind in *.
  assert (Hy : obeys I E X (fun _ => True) (body y)) by (apply Hb; left; reflexivity).
  assert (Hl : forall z, In z l -> obeys I E X (fun _ => True) (body z))
    by (intros z Hz; apply Hb; right; exact Hz).
  destruct (Hy s) as (Iy & _ & _).
  pose proof (obeys_for_each I I_refl I_trans E X l body Hl) as Hrest.
  rewrite (run_eta (body y s)) in *.
  destruct (result_of (body y s)) as [[]|e] eqn:Ry; cbn in *; [|discriminate Hr].
  destruct Hx as [->|Hx].
  - exists s. repeat split; auto.
    destruct (Hrest (state_of (body x s))) as (Ir & _ & _). exact Ir.
  - destruct (IH (state_of (body y s)) Hl Hx Hr) as (s1 & I1 & R1 & I2).
    exists s1. repeat split; eauto.
Qed.

End Reaches.

Module MissingManifest.
Import ValidateMarketplace ValidatorFacts.

(** The entry the validator records for a plugin directory without a
    manifest. *)
Definition not_found (plugin_dir : Path.t) : string :=
  (Path.name plugin_dir ++ ": plugin.json not found")%string.

Lemma required_dirs_checked (body : string -> M validator unit) v :
  (forall x s, result_of (body x s) = Ok tt) ->
  (forall x, disciplined (body x)) ->
  result_of (for_each [".claude-plugin"; "skills"] body v) = Ok tt
  /\ grows v (state_of (for_each [".claude-plugin"; "skills"] body v)).
Proof.
  intros Hr Hd. split.
  - apply for_each_returns. intros x s _. apply Hr.
  - apply (obeys_for_each grows grows_refl grows_trans any_event an_Exception).
    intros x _. apply Hd.
Qed.

Lemma on_fs_exists p v :
  on_fs (IO.exists_ p) v =
  (Ok (FS.exists_ (fs v) p),
   {| fs := fs v; errors := errors v; warnings := warnings v |}, []).
Proof. reflexivity. Qed.

Lemma validate_plugin_reports plugin_dir plugin_type v :
  FS.exists_ (fs v) (plugin_dir // ".claude-plugin" // "plugin.json") = false ->
  result_of (_validate_plugin plugin_dir plugin_type v) = Ok tt
  /\ In (not_found plugin_dir) (errors (state_of (_validate_plugin plugin_dir plugin_type v))).
Proof.
  intros H. unfold _validate_plugin.
  rewrite result_bind, state_bind.
  match goal with
  | |- context [for_each _ ?b v] => destruct (required_dirs_checked b v) as [R [F G]]
  end.
  - intros x s. rewrite result_bind, on_fs_exists. cbn [result_of state_of fst snd].
    destruct (negb _); reflexivity.
  - intros x. unfold disciplined. disc.
  - rewrite R.
    match goal with
    | |- context [state_of (for_each ?l ?b v)] => set (v' := state_of (for_each l b v)) in *
    end.
    rewrite result_bind, state_bind, on_fs_exists.
    cbn [result_of state_of fst snd].
    rewrite F, H. cbn [negb].
    split; [reflexivity|].
    unfold not_found. cbn. apply in_or_app; right; left; reflexivity.
Qed.

Lemma lookup_app fs p q :
  FS.lookup fs (p ++ q) =
  match FS.lookup fs p with Some k => FS.lookup k q | None => None end.
Proof.
  revert fs. induction p as [|c p IH]; intros fs; simpl; [reflexivity|].
  destruct fs as [|es]; [reflexivity|].
  destruct (FS.assoc c es); [apply IH | reflexivity].
Qed.

Lemma assoc_In nm es k : FS.assoc nm es = Some k -> In nm (map fst es).
Proof.
  induction es as [|[n0 k0] es IH]; simpl; [discriminate|].
  destruct (String.eqb nm n0) eqn:E.
  - apply String.eqb_eq in E. subst. auto.
  - auto.
Qed.

(** A child that is a directory is listed by its parent. *)
Lemma is_dir_child_listed fs dir nm :
  FS.is_dir fs (Path.child dir nm) = true ->
  FS.exists_ fs dir = true
  /\ exists names, FS.listdir fs dir = Ok names /\ In nm names.
Proof.
  unfold FS.is_dir, FS.exists_, FS.listdir, Path.child. rewrite lookup_app.
  destruct (FS.lookup fs dir) as [[c|es]|]; simpl; try discriminate.
  destruct (FS.assoc nm es) as [k|] eqn:A; [|discriminate].
  intros _. split; [reflexivity|]. eexists; split; [reflexivity|].
  exact (assoc_In _ _ _ A).
Qed.

Lemma on_fs_iterdir p v names :
  FS.listdir (fs v) p = Ok names ->
  on_fs (IO.iterdir p) v =
  (Ok (map (Path.child p) names),
   {| fs := fs v; errors := errors v; warnings := warnings v |}, []).
Proof. intros H. unfold on_fs, IO.iterdir. rewrite H. reflexivity. Qed.

Lemma validate_plugins_in_reports dir plugin_type missing nm v :
  FS.is_dir (fs v) (Path.child dir nm) = true ->
  FS.exists_ (fs v) (Path.child dir nm // ".claude-plugin" // "plugin.json") = false ->
  result_of (validate_plugins_in dir plugin_type missing v) = Ok tt ->
  In (not_found (Path.child dir nm))
     (errors (state_of (validate_plugins_in dir plugin_type missing v))).
Proof.
  intros Hd Hm.
  destruct (is_dir_child_listed _ _ _ Hd) as (He & names & Hl & Hn).
  unfold validate_plugins_in.
  rewrite result_bind, state_bind, on_fs_exists.
  cbn [result_of state_of fst snd]. rewrite He. cbn [negb].
  rewrite result_bind, state_bind, (on_fs_iterdir _ _ names) by exact Hl.
  cbn [result_of state_of fst snd].
  rewrite result_bind, state_bind.
  cbn [get_state result_of state_of fst snd ValidateMarketplace.fs].
  match goal with
  | |- context [for_each ?l ?b ?s] => set (l0 := l); set (body := b); set (v0 := s)
  end.
  intros Hr.
  assert (Hin : In (Path.child dir nm) l0).
  { subst l0. apply (Permutation_in _ (Permutation_sym (Path_sorted_perm _))).
    apply filter_In. split; [|exact Hd].
    apply in_map. exact Hn. }
  destruct (for_each_reaches grows grows_refl grows_trans any_event an_Exception
              l0 body (Path.child dir nm) v0) as (v1 & G1 & R1 & G2); auto.
  - intros y _. apply disciplined_validate_plugin.
  - apply (grows_In _ _ _ G2).
    destruct G1 as [F1 _].
    apply (validate_plugin_reports (Path.child dir nm) plugin_type v1).
    rewrite F1. exact Hm.
Qed.

End MissingManifest.

Module ValidateRun.
Import ValidateMarketplace ValidatorFacts MissingManifest.

Lemma disciplined_validate root : disciplined (validate root).
Proof.
  unfold disciplined, validate, _validate_individual_plugins, _validate_bundle_plugins.
  apply obeys_bind with (V := fun _ => True);
    [exact grows_trans | apply disciplined_validate_marketplace_json | intros ? _].
  apply obeys_bind with (V := fun _ => True);
    [exact grows_trans | apply disciplined_validate_plugins_in | intros ? _].
  apply obeys_bind with (V := fun _ => True);
    [exact grows_trans | apply disciplined_validate_plugins_in | intros ? _].
  disc.
Qed.

Lemma name_child dir nm : Path.name (Path.child dir nm) = nm.
Proof. unfold Path.name, Path.child. apply last_last. Qed.

(** When [validate] returns, it has recorded the plugin directory that
    has no manifest, and it returns [False]. *)
Lemma validate_reports root kind nm v b :
  kind = "individual" \/ kind = "bundles" ->
  FS.is_dir (fs v) (Path.child (plugins_dir root // kind) nm) = true ->
  FS.exists_ (fs v)
    (Path.child (plugins_dir root // kind) nm // ".claude-plugin" // "plugin.json") = false ->
  result_of (validate root v) = Ok b ->
  In (nm ++ ": plugin.json not found")%string (errors (state_of (validate root v)))
  /\ b = false.
Proof.
  intros Hk Hd Hm. unfold validate.
  rewrite result_bind, state_bind.
  destruct (disciplined_validate_marketplace_json root v) as ([F1 _] & _ & _).
  destruct (result_of (_validate_marketplace_json root v)) as [[]|e]; [|discriminate].
  set (v1 := state_of (_validate_marketplace_json root v)) in *.
  rewrite result_bind, state_bind.
  unfold _validate_individual_plugins, _validate_bundle_plugins.
  match goal with
  | |- context [result_of (validate_plugins_in ?d ?t ?m v1)] =>
      pose proof (disciplined_validate_plugins_in d t m v1) as ([F2 _] & _ & _);
      pose proof (validate_plugins_in_reports d t m nm v1) as Hi;
      destruct (result_of (validate_plugins_in d t m v1)) as [[]|e] eqn:R2; [|discriminate];
      set (v2 := state_of (validate_plugins_in d t m v1)) in *
  end.
  rewrite result_bind, state_bind.
  match goal with
  | |- context [result_of (validate_plugins_in ?d ?t ?m v2)] =>
      pose proof (disciplined_validate_plugins_in d t m v2) as (G3 & _ & _);
      pose proof (validate_plugins_in_reports d t m nm v2) as Hb;
      destruct (result_of (validate_plugins_in d t m v2)) as [[]|e] eqn:R3; [|discriminate];
      set (v3 := state_of (validate_plugins_in d t m v2)) in *
  end.
  rewrite result_bind, state_bind.
  cbn [get_state ret result_of state_of fst snd].
  assert (In (nm ++ ": plugin.json not found")%string (errors v3)) as Hin.
  { destruct Hk as [-> | ->].
    - apply (grows_In _ _ _ G3).
      rewrite <- (name_child (plugins_dir root // "individual") nm) at 1.
      apply Hi; [rewrite F1; exact Hd | rewrite F1; exact Hm | reflexivity].
    - rewrite <- (name_child (plugins_dir root // "bundles") nm) at 1.
      apply Hb; [rewrite F2, F1; exact Hd | rewrite F2, F1; exact Hm | reflexivity]. }
  intros [= <-]. split; [exact Hin|].
  destruct (errors v3); [destruct Hin | reflexivity].
Qed.

End ValidateRun.

(** C4, as amended.  When a plugin directory under
    [.claude/plugins/individual] or [.claude/plugins/bundles] has no
    [.claude-plugin/plugin.json], validate_marketplace.py exits with code
    1; and whenever the validation runs to its end, that is, whenever the
    process ends in [sys.exit] and not in an uncaught exception, its error
    list holds the entry [<directory>: plugin.json not found]. *)
Theorem missing_manifest_reported (root : Path.t) (tree : node) (kind nm : string) :
  kind = "individual" \/ kind = "bundles" ->
  FS.is_dir tree (Path.child (ValidateMarketplace.plugins_dir root // kind) nm) = true ->
  FS.exists_ tree
    (Path.child (ValidateMarketplace.plugins_dir root // kind) nm
       // ".claude-plugin" // "plugin.json") = false ->
  let run := ValidateMarketplace.main root (ValidateMarketplace.init tree) in
  exit_code (result_of run) = 1%Z
  /\ ((exists n, result_of run = Raise (SystemExit n)) ->
      In (nm ++ ": plugin.json not found")%string
         (ValidateMarketplace.errors (state_of run))).
Proof.
  intros Hk Hd Hm run. subst run. unfold ValidateMarketplace.main.
  rewrite result_bind, state_bind.
  set (v := ValidateMarketplace.init tree).
  pose proof (ValidateRun.validate_reports root kind nm v) as Hrep.
  destruct (ValidateRun.disciplined_validate root v) as (_ & _ & Hx).
  destruct (result_of (ValidateMarketplace.validate root v)) as [b|e].
  - destruct (Hrep b Hk Hd Hm eq_refl) as [Hin ->].
    cbn. split; [reflexivity|]. intros _. exact Hin.
  - split.
    + destruct e; try reflexivity. discriminate Hx.
    + intros [n [= ->]]. discriminate Hx.
Qed.

(* ================================================================== *)
(** ** Exit codes *)

Definition returned {A} (r : result A) : bool :=
  match r with Ok _ => true | Raise _ => false end.

(** The exit code is 0 when the script returns and 1 when it ends in an
    exception or in [sys.exit(1)]. *)
Definition conventional {A} (r : result A) : Prop :=
  exit_code r = if returned r then 0%Z else 1%Z.

Lemma conventional_Exception {A} (m : M node A) (fs : node) :
  raises_Exception_only m -> conventional (result_of (m fs)).
Proof.
  intros H. destruct (H fs) as (_ & _ & Hr). unfold conventional.
  destruct (result_of (m fs)) as [a|e]; [reflexivity|].
  destruct e; try reflexivity. discriminate Hr.
Qed.

Lemma exc_plugin_one name root :
  raises_Exception_only
    (generator <- GeneratePlugin.init name root ;; GeneratePlugin.generate generator)%io.
Proof.
  apply obeys_bind with (V := fun _ => True);
    [exact any_tree_trans | apply exc_plugin_init | intros ? _; apply exc_plugin_generate].
Qed.

Lemma exc_bundle_one name root :
  raises_Exception_only
    (generator <- GenerateBundle.init name root ;; GenerateBundle.generate generator)%io.
Proof.
  apply obeys_bind with (V := fun _ => True);
    [exact any_tree_trans | apply exc_bundle_init | intros ? _; apply exc_bundle_generate].
Qed.

Lemma caught_returns (body : M node unit) (fs : node) :
  raises_Exception_only body -> result_of (try_except_Exception body fs) = Ok tt.
Proof.
  intros H. apply try_except_Exception_returns. intros e He.
  destruct (H fs) as (_ & _ & Hr). rewrite He in Hr. exact Hr.
Qed.

Lemma iterdir_result p fs :
  result_of (IO.iterdir p fs) =
  match FS.listdir fs p with
  | Ok names => Ok (map (Path.child p) names)
  | Raise e => Raise e
  end.
Proof. unfold IO.iterdir. destruct (FS.listdir fs p); reflexivity. Qed.

Lemma iterdir_state p fs : state_of (IO.iterdir p fs) = fs.
Proof. unfold IO.iterdir. destruct (FS.listdir fs p); reflexivity. Qed.

(** generate_plugin.py --all: once the skills directory is listed, the run
    returns, whatever the generation of each skill raised. *)
Lemma plugin_all_returns prog rest root fs :
  match FS.listdir fs (root // ".claude" // "skills") with
  | Ok _ => result_of (GeneratePlugin.main (prog :: "--all" :: rest) root fs) = Ok tt
  | Raise e => result_of (GeneratePlugin.main (prog :: "--all" :: rest) root fs) = Raise e
  end.
Proof.
  unfold GeneratePlugin.main. cbn [String.eqb Ascii.eqb Bool.eqb].
  rewrite result_bind, iterdir_result, iterdir_state.
  destruct (FS.listdir fs (root // ".claude" // "skills")) as [names|e]; [|reflexivity].
  rewrite result_bind. cbn [get_state result_of state_of fst snd].
  apply for_each_returns. intros name s _.
  apply caught_returns. apply exc_plugin_one.
Qed.

(** generate_bundle.py --all always returns. *)
Lemma bundle_all_returns prog rest root fs :
  result_of (GenerateBundle.main (prog :: "--all" :: rest) root fs) = Ok tt.
Proof.
  unfold GenerateBundle.main. cbn [String.eqb Ascii.eqb Bool.eqb].
  apply for_each_returns. intros name s _.
  apply caught_returns. apply exc_bundle_one.
Qed.

Lemma conventional_plugin_main argv root fs :
  conventional (result_of (GeneratePlugin.main argv root fs)).
Proof.
  destruct argv as [|prog [|arg rest]]; try reflexivity.
  destruct (String.eqb arg "--all") eqn:E.
  - apply String.eqb_eq in E. subst arg.
    pose proof (plugin_all_returns prog rest root fs) as H.
    destruct (FS.listdir fs (root // ".claude" // "skills")) as [names|e] eqn:L;
      rewrite H; [reflexivity|].
    pose proof (listdir_raises _ _ _ L). destruct e; try reflexivity; discriminate.
  - unfold GeneratePlugin.main. rewrite E.
    apply conventional_Exception. apply exc_plugin_one.
Qed.

Lemma conventional_bundle_main argv root fs :
  conventional (result_of (GenerateBundle.main argv root fs)).
Proof.
  destruct argv as [|prog [|arg rest]]; try reflexivity.
  destruct (String.eqb arg "--all") eqn:E.
  - apply String.eqb_eq in E. subst arg.
    rewrite bundle_all_returns. reflexivity.
  - unfold GenerateBundle.main. rewrite E.
    destruct (GenerateBundle.lookup_bundle arg GenerateBundle.BUNDLES); [|reflexivity].
    apply conventional_Exception. apply exc_bundle_one.
Qed.

Lemma validate_exit_code root v :
  exit_code (result_of (ValidateMarketplace.main root v)) =
  match result_of (ValidateMarketplace.validate root v) with
  | Ok true => 0%Z
  | _ => 1%Z
  end.
Proof.
  unfold ValidateMarketplace.main. rewrite result_bind.
  destruct (ValidateRun.disciplined_validate root v) as (_ & _ & Hx).
  destruct (result_of (ValidateMarketplace.validate root v)) as [[|]|e]; try reflexivity.
  destruct e; try reflexivity. discriminate Hx.
Qed.

(** A generator run for one target: what the construction or the
    generation raises is what [main] ends in, and the exit code is 1. *)
Lemma exit_code_Exception {A} (e : exn) :
  is_Exception e = true -> exit_code (@Raise A e) = 1%Z.
Proof. destruct e; try reflexivity. discriminate. Qed.

Lemma plugin_init_raises prog arg rest root fs e :
  arg <> "--all" ->
  result_of (GeneratePlugin.init arg root fs) = Raise e ->
  result_of (GeneratePlugin.main (prog :: arg :: rest) root fs) = Raise e
  /\ exit_code (result_of (GeneratePlugin.main (prog :: arg :: rest) root fs)) = 1%Z.
Proof.
  intros Harg Hi. unfold GeneratePlugin.main.
  destruct (String.eqb arg "--all") eqn:E; [apply String.eqb_eq in E; contradiction|].
  rewrite result_bind, Hi. split; [reflexivity|].
  apply exit_code_Exception.
  destruct (exc_plugin_init arg root fs) as (_ & _ & Hr). rewrite Hi in Hr. exact Hr.
Qed.

Lemma plugin_generate_raises prog arg rest root fs self e :
  arg <> "--all" ->
  result_of (GeneratePlugin.init arg root fs) = Ok self ->
  result_of (GeneratePlugin.generate self (state_of (GeneratePlugin.init arg root fs)))
  = Raise e ->
  result_of (GeneratePlugin.main (prog :: arg :: rest) root fs) = Raise e
  /\ exit_code (result_of (GeneratePlugin.main (prog :: arg :: rest) root fs)) = 1%Z.
Proof.
  intros Harg Hi Hg. unfold GeneratePlugin.main.
  destruct (String.eqb arg "--all") eqn:E; [apply String.eqb_eq in E; contradiction|].
  rewrite result_bind, Hi, Hg. split; [reflexivity|].
  apply exit_code_Exception.
  destruct (exc_plugin_generate self (state_of (GeneratePlugin.init arg root fs)))
    as (_ & _ & Hr).
  rewrite Hg in Hr. exact Hr.
Qed.

Lemma bundle_generate_raises prog arg rest root fs self e :
  arg <> "--all" ->
  result_of (GenerateBundle.init arg root fs) = Ok self ->
  result_of (GenerateBundle.generate self (state_of (GenerateBundle.init arg root fs)))
  = Raise e ->
  result_of (GenerateBundle.main (prog :: arg :: rest) root fs) = Raise e
  /\ exit_code (result_of (GenerateBundle.main (prog :: arg :: rest) root fs)) = 1%Z.
Proof.
  intros Harg Hi Hg. unfold GenerateBundle.main.
  destruct (String.eqb arg "--all") eqn:E; [apply String.eqb_eq in E; contradiction|].
  assert (Hl : GenerateBundle.lookup_bundle arg GenerateBundle.BUNDLES <> None).
  { unfold GenerateBundle.init in Hi.
    destruct (GenerateBundle.lookup_bundle arg GenerateBundle.BUNDLES);
      [discriminate | discriminate Hi]. }
  destruct (GenerateBundle.lookup_bundle arg GenerateBundle.BUNDLES) as [c|] eqn:L;
    [|contradiction].
  rewrite result_bind, Hi, Hg. split; [reflexivity|].
  apply exit_code_Exception.
  destruct (exc_bundle_generate self (state_of (GenerateBundle.init arg root fs)))
    as (_ & _ & Hr).
  rewrite Hg in Hr. exact Hr.
Qed.

Lemma bundle_unknown prog arg rest root fs :
  arg <> "--all" ->
  GenerateBundle.lookup_bundle arg GenerateBundle.BUNDLES = None ->
  exit_code (result_of (GenerateBundle.main (prog :: arg :: rest) root fs)) = 1%Z.
Proof.
  intros Harg Hl. unfold GenerateBundle.main.
  destruct (String.eqb arg "--all") eqn:E; [apply String.eqb_eq in E; contradiction|].
  rewrite Hl. reflexivity.
Qed.

(** C7, as amended.  Every script exits with code 0 when its [main]
    returns and with code 1 when it ends in an exception or in
    [sys.exit(1)]; the validator exits with 0 exactly when [validate]
    returns [True].  With [--all], generate_plugin.py and
    generate_bundle.py catch the exception of each target: the bundle
    generator always returns, the plugin generator returns as soon as the
    skills directory could be listed, and the exit code is then 0 whatever
    a generation step raised.  Given one target, the two generators
    catch nothing: the exception that the construction of the generator
    or a generation step raises is the one [main] ends in, and the exit
    code is 1; so it is for a bundle that is not in the table and for a
    command line without a target. *)
Theorem exit_codes :
  (forall root fs, conventional (result_of (FixPluginManifests.main root fs)))
  /\ (forall root fs, conventional (result_of (FixAgentCommandPaths.main root fs)))
  /\ (forall root fs, conventional (result_of (GenerateMarketplace.main root fs)))
  /\ (forall argv root fs, conventional (result_of (GeneratePlugin.main argv root fs)))
  /\ (forall argv root fs, conventional (result_of (GenerateBundle.main argv root fs)))
  /\ (forall root v,
        exit_code (result_of (ValidateMarketplace.main root v)) =
        match result_of (ValidateMarketplace.validate root v) with
        | Ok true => 0%Z
        | _ => 1%Z
        end)
  /\ (forall prog rest root fs,
        exit_code (result_of (GenerateBundle.main (prog :: "--all" :: rest) root fs)) = 0%Z)
  /\ (forall prog rest root fs,
        exit_code (result_of (GeneratePlugin.main (prog :: "--all" :: rest) root fs)) =
        match FS.listdir fs (root // ".claude" // "skills") with
        | Ok _ => 0%Z
        | Raise _ => 1%Z
        end)
  /\ (forall prog arg rest root fs e,
        arg <> "--all" ->
        result_of (GeneratePlugin.init arg root fs) = Raise e ->
        result_of (GeneratePlugin.main (prog :: arg :: rest) root fs) = Raise e
        /\ exit_code (result_of (GeneratePlugin.main (prog :: arg :: rest) root fs)) = 1%Z)
  /\ (forall prog arg rest root fs self e,
        arg <> "--all" ->
        result_of (GeneratePlugin.init arg root fs) = Ok self ->
        result_of (GeneratePlugin.generate self (state_of (GeneratePlugin.init arg root fs)))
        = Raise e ->
        result_of (GeneratePlugin.main (prog :: arg :: rest) root fs) = Raise e
        /\ exit_code (result_of (GeneratePlugin.main (prog :: arg :: rest) root fs)) = 1%Z)
  /\ (forall prog arg rest root fs self e,
        arg <> "--all" ->
        result_of (GenerateBundle.init arg root fs) = Ok self ->
        result_of (GenerateBundle.generate self (state_of (GenerateBundle.init arg root fs)))
        = Raise e ->
        result_of (GenerateBundle.main (prog :: arg :: rest) root fs) = Raise e
        /\ exit_code (result_of (GenerateBundle.main (prog :: arg :: rest) root fs)) = 1%Z)
  /\ (forall prog arg rest root fs,
        arg <> "--all" ->
        GenerateBundle.lookup_bundle arg GenerateBundle.BUNDLES = None ->
        exit_code (result_of (GenerateBundle.main (prog :: arg :: rest) root fs)) = 1%Z)
  /\ (forall prog root fs,
        exit_code (result_of (GeneratePlugin.main [prog] root fs)) = 1%Z
        /\ exit_code (result_of (GenerateBundle.main [prog] root fs)) = 1%Z).
Proof.
  split; [intros; apply conventional_Exception, exc_fix_plugin_manifests|].
  split; [intros; apply conventional_Exception, exc_fix_agent_command_paths|].
  split; [intros; apply conventional_Exception, exc_generate_marketplace|].
  split; [intros; apply conventional_plugin_main|].
  split; [intros; apply conventional_bundle_main|].
  split; [intros; apply validate_exit_code|].
  split; [intros; rewrite bundle_all_returns; reflexivity|].
  split.
  { intros. pose proof (plugin_all_returns prog rest root fs) as H.
    destruct (FS.listdir fs (root // ".claude" // "skills")) as [names|e] eqn:L;
      rewrite H; [reflexivity|].
    pose proof (listdir_raises _ _ _ L). destruct e; try reflexivity; discriminate. }
  split; [intros prog arg rest root fs e; apply plugin_init_raises|].
  split; [intros prog arg rest root fs self e; apply plugin_generate_raises|].
  split; [intros prog arg rest root fs self e; apply bundle_generate_raises|].
  split; [intros prog arg rest root fs; apply bundle_unknown|].
  intros prog root fs. split; reflexivity.
Qed.

(* ================================================================== *)
(** ** The manifests each fixer visits *)

Module Visits.

(** A manifest of a plugin directory below [plugins_dir]. *)
Definition manifest_under (plugins_dir : Path.t) (p : Path.t) : Prop :=
  exists kind nm,
    (kind = "individual" \/ kind = "bundles")
    /\ p = Path.child (plugins_dir // kind) nm // ".claude-plugin" // "plugin.json".

(** The file an event reads or writes. *)
Definition file_of (e : event) : Path.t :=
  match e with
  | Read p | Wrote p | Mkdir p | Rmtree p => p
  | Copytree _ dst | Copy _ dst => dst
  end.

(** The event opens a manifest below [plugins_dir], to read it or to
    write it. *)
Definition opens_manifest_under (plugins_dir : Path.t) (e : event) : Prop :=
  (exists p, e = Read p \/ e = Wrote p) /\ manifest_under plugins_dir (file_of e).

Definition any_exn : exn -> Prop := fun _ => True.

Definition visits_only (plugins_dir : Path.t) {A} (m : M node A) : Prop :=
  obeys any_tree (opens_manifest_under plugins_dir) any_exn (fun _ => True) m.

Ltac quiet :=
  repeat first
    [ apply obeys_ret; intros; exact I
    | apply obeys_raise; [intros; exact I | exact I]
    | apply obeys_lift; [intros; exact I | match goal with |- match ?r with _ => _ end =>
                                              destruct r; exact I end]
    | apply obeys_exists; intros; exact I
    | apply obeys_is_dir; intros; exact I
    | eapply obeys_weaken; [|apply obeys_glob; intros; exact I]; intros; exact I
    | apply obeys_bind with (V := fun _ : _ => True); [exact any_tree_trans| |intros ? _]
    | match goal with
      | |- obeys _ _ _ _ (if ?b then _ else _) => destruct b
      | |- obeys _ _ _ _ (match ?x with _ => _ end) => destruct x
      | |- obeys _ _ _ _ (let _ := _ in _) => cbv zeta
      end ].

Lemma opens_read plugins_dir kind nm :
  kind = "individual" \/ kind = "bundles" ->
  opens_manifest_under plugins_dir
    (Read (Path.child (plugins_dir // kind) nm // ".claude-plugin" // "plugin.json")).
Proof. intros H. split; [eauto|]. exists kind, nm. auto. Qed.

Lemma opens_wrote plugins_dir kind nm :
  kind = "individual" \/ kind = "bundles" ->
  opens_manifest_under plugins_dir
    (Wrote (Path.child (plugins_dir // kind) nm // ".claude-plugin" // "plugin.json")).
Proof. intros H. split; [eauto|]. exists kind, nm. auto. Qed.

Lemma fix_plugin_manifests_one plugins_dir kind nm :
  kind = "individual" \/ kind = "bundles" ->
  visits_only plugins_dir
    (FixPluginManifests.fix_plugin_manifest
       (Path.child (plugins_dir // kind) nm // ".claude-plugin" // "plugin.json")).
Proof.
  intros Hk. unfold visits_only, FixPluginManifests.fix_plugin_manifest, IO.json_dump.
  apply obeys_bind with (V := fun _ => True); [exact any_tree_trans| |intros ? _].
  { apply obeys_json_load; try (intros; exact I); try exact any_tree_trans.
    apply opens_read; exact Hk. }
  apply obeys_bind with (V := fun _ => True); [exact any_tree_trans| |intros ? _].
  { quiet. }
  apply obeys_write; try (intros; exact I). apply opens_wrote; exact Hk.
Qed.

Lemma fix_plugin_manifests_dir plugins_dir kind :
  kind = "individual" \/ kind = "bundles" ->
  visits_only plugins_dir (FixPluginManifests.fix_all_in (plugins_dir // kind)).
Proof.
  intros Hk. unfold visits_only, FixPluginManifests.fix_all_in.
  apply obeys_bind with (V := fun _ => True); [exact any_tree_trans| |intros there _].
  { quiet. }
  destruct there; [|quiet].
  eapply obeys_bind; [exact any_tree_trans| |].
  { apply obeys_iterdir; intros; exact I. }
  intros l Hl. apply obeys_for_each; [intros; exact I | exact any_tree_trans |].
  intros x Hx. destruct (Hl x Hx) as [nm ->].
  apply obeys_bind with (V := fun _ => True); [exact any_tree_trans| |intros d _].
  { quiet. }
  destruct d; [|quiet]. cbv zeta.
  apply obeys_bind with (V := fun _ => True); [exact any_tree_trans| |intros e _].
  { quiet. }
  destruct e; [|quiet].
  apply fix_plugin_manifests_one; exact Hk.
Qed.

Lemma fix_plugin_manifests_visits root :
  visits_only (root // ".claude" // "plugins") (FixPluginManifests.main root).
Proof.
  unfold visits_only, FixPluginManifests.main. cbv zeta.
  apply obeys_bind with (V := fun _ => True); [exact any_tree_trans| |intros ? _];
    apply fix_plugin_manifests_dir; auto.
Qed.

Lemma fix_agent_command_paths_one plugins_dir kind nm :
  kind = "individual" \/ kind = "bundles" ->
  visits_only plugins_dir
    (FixAgentCommandPaths.fix_plugin_manifest (Path.child (plugins_dir // kind) nm)).
Proof.
  intros Hk. unfold visits_only, FixAgentCommandPaths.fix_plugin_manifest. cbv zeta.
  apply obeys_bind with (V := fun _ => True); [exact any_tree_trans| |intros there _].
  { quiet. }
  destruct (negb there); [quiet|].
  apply obeys_bind with (V := fun _ => True); [exact any_tree_trans| |intros manifest _].
  { apply obeys_json_load; try (intros; exact I); try exact any_tree_trans.
    apply opens_read; exact Hk. }
  apply obeys_bind with (V := fun _ => True); [exact any_tree_trans| |intros st1 _].
  { unfold FixAgentCommandPaths.fix_field, FixAgentCommandPaths.get_md_files. quiet. }
  apply obeys_bind with (V := fun _ => True); [exact any_tree_trans| |intros st2 _].
  { unfold FixAgentCommandPaths.fix_field, FixAgentCommandPaths.get_md_files.
    destruct st1. quiet. }
  destruct st2 as [manifest' changed]. destruct changed; [|quiet].
  apply obeys_write; try (intros; exact I). apply opens_wrote; exact Hk.
Qed.

Lemma fix_agent_command_paths_dir plugins_dir kind :
  kind = "individual" \/ kind = "bundles" ->
  visits_only plugins_dir (FixAgentCommandPaths.fix_all_in (plugins_dir // kind)).
Proof.
  intros Hk. unfold visits_only, FixAgentCommandPaths.fix_all_in.
  apply obeys_bind with (V := fun _ => True); [exact any_tree_trans| |intros there _].
  { quiet. }
  destruct there; [|quiet].
  eapply obeys_bind; [exact any_tree_trans| |].
  { apply obeys_iterdir; intros; exact I. }
  intros l Hl. apply obeys_for_each; [intros; exact I | exact any_tree_trans |].
  intros x Hx.
  apply (Permutation_in _ (Path_sorted_perm l)) in Hx.
  destruct (Hl x Hx) as [nm ->].
  apply obeys_bind with (V := fun _ => True); [exact any_tree_trans| |intros d _].
  { quiet. }
  destruct d; [|quiet].
  apply fix_agent_command_paths_one; exact Hk.
Qed.

Lemma fix_agent_command_paths_visits root :
  visits_only (root // "plugins") (FixAgentCommandPaths.main root).
Proof.
  unfold visits_only, FixAgentCommandPaths.main. cbv zeta.
  apply obeys_bind with (V := fun _ => True); [exact any_tree_trans| |intros ? _];
    apply fix_agent_command_paths_dir; auto.
Qed.

(** Manifests below [.claude/plugins] and manifests below [plugins] are
    different files. *)
Lemma trees_apart root p q :
  manifest_under (root // ".claude" // "plugins") p ->
  manifest_under (root // "plugins") q ->
  p <> q.
Proof.
  intros (k1 & n1 & H1 & ->) (k2 & n2 & H2 & ->) Heq.
  assert (forall k, k = "individual" \/ k = "bundles" -> Path.parts k = [k]) as Hp
    by (intros k [-> | ->]; reflexivity).
  unfold Path.join, Path.child in Heq.
  cbn [Str.startswith String.prefix] in Heq.
  destruct H1 as [-> | ->], H2 as [-> | ->]; cbn in Heq;
    repeat rewrite <- app_assoc in Heq; cbn in Heq;
    apply app_inv_head in Heq; discriminate Heq.
Qed.

End Visits.

(** C10.  Every file that fix_plugin_manifests.py opens is a manifest
    below [.claude/plugins/individual] or [.claude/plugins/bundles], every
    file that fix_agent_command_paths.py opens is a manifest below
    [plugins/individual] or [plugins/bundles], and for one repository
    root no file is opened by both. *)
Theorem fixers_visit_disjoint_trees (root : Path.t) (fs fs' : node) (e e' : event) :
  In e (trace_of (FixPluginManifests.main root fs)) ->
  In e' (trace_of (FixAgentCommandPaths.main root fs')) ->
  Visits.opens_manifest_under (root // ".claude" // "plugins") e
  /\ Visits.opens_manifest_under (root // "plugins") e'
  /\ Visits.file_of e <> Visits.file_of e'.
Proof.
  intros He He'.
  destruct (Visits.fix_plugin_manifests_visits root fs) as (_ & Ha & _).
  destruct (Visits.fix_agent_command_paths_visits root fs') as (_ & Hb & _).
  rewrite Forall_forall in Ha, Hb.
  specialize (Ha e He). specialize (Hb e' He').
  repeat split; try apply Ha; try apply Hb.
  apply (Visits.trees_apart root); [apply Ha | apply Hb].
Qed.

(* ================================================================== *)
(** ** fix_agent_command_paths.py writes a manifest only to convert a field *)

Module Conversion.
Import FixAgentCommandPaths.

(** The list [get_md_files] returns. *)
Definition md_files (fs : node) (plugin_dir : Path.t) (subdir : string) : list string :=
  if FS.exists_ fs (plugin_dir // subdir) then
    map (fun f => ("./" ++ subdir ++ "/" ++ Path.name f)%string)
        (Path.sorted (map (Path.child (plugin_dir // subdir))
                          (FS.glob fs (plugin_dir // subdir) ".md")))
  else [].

Lemma get_md_files_run plugin_dir subdir fs :
  get_md_files plugin_dir subdir fs = (Ok (md_files fs plugin_dir subdir), fs, []).
Proof.
  unfold get_md_files, md_files, bind, IO.exists_, IO.glob, ret.
  destruct (FS.exists_ fs (plugin_dir // subdir)); reflexivity.
Qed.

(** The conversion applies to a field of a document: the field is a
    string that ends with a slash and the subdirectory holds a file that
    ends with [.md]. *)
Definition applies (fs : node) (plugin_dir : Path.t) (manifest : JSON) (field : string)
  : bool :=
  match manifest with
  | JObj d =>
      match Dict.get field d with
      | Some (JStr s) =>
          Str.endswith s "/"
          && match FS.glob fs (plugin_dir // field) ".md" with [] => false | _ => true end
      | _ => false
      end
  | _ => false
  end.

(** The conversion applies to a field of the manifest on disk. *)
Definition converts (fs : node) (plugin_dir : Path.t) (field : string) : bool :=
  match FS.read fs (plugin_dir // ".claude-plugin" // "plugin.json") with
  | Ok (Json manifest) => applies fs plugin_dir manifest field
  | _ => false
  end.

Lemma md_files_empty fs plugin_dir field :
  FS.glob fs (plugin_dir // field) ".md" = [] -> md_files fs plugin_dir field = [].
Proof.
  intros H. unfold md_files. rewrite H.
  destruct (FS.exists_ fs (plugin_dir // field)); reflexivity.
Qed.

(** [fix_field] neither touches the tree nor opens a file. *)
Lemma fix_field_quiet plugin_dir field st fs :
  state_of (fix_field plugin_dir field st fs) = fs
  /\ trace_of (fix_field plugin_dir field st fs) = [].
Proof.
  destruct st as [m ch]. unfold fix_field.
  rewrite state_bind, trace_bind.
  cbn [lift result_of state_of trace_of fst snd].
  destruct (Py.contains field m) as [[|]|]; try (split; reflexivity).
  rewrite state_bind, trace_bind. cbn [lift result_of state_of trace_of fst snd].
  destruct (Py.getitem m field) as [[| | |s| |]|]; try (split; reflexivity).
  destruct (Str.endswith s "/"); try (split; reflexivity).
  rewrite state_bind, trace_bind, get_md_files_run.
  cbn [result_of state_of trace_of fst snd].
  destruct (md_files fs plugin_dir field); try (split; reflexivity).
  destruct m; split; reflexivity.
Qed.

(** When it returns, it has either left the pair as it was or the
    conversion applied. *)
Lemma fix_field_result plugin_dir field m ch fs m' ch' :
  result_of (fix_field plugin_dir field (m, ch) fs) = Ok (m', ch') ->
  (m' = m /\ ch' = ch)
  \/ (applies fs plugin_dir m field = true
      /\ exists d, m = JObj d
                   /\ m' = JObj (Dict.set field (JArr (map JStr (md_files fs plugin_dir field))) d)).
Proof.
  unfold fix_field.
  rewrite result_bind. cbn [lift result_of state_of fst snd].
  destruct (Py.contains field m) as [[|]|] eqn:C;
    try (intros H; discriminate H); try (intros [= <- <-]; auto).
  rewrite result_bind. cbn [lift result_of state_of fst snd].
  destruct (Py.getitem m field) as [v|] eqn:G; [|intros H; discriminate H].
  destruct v as [| | |s| |]; try (intros [= <- <-]; auto).
  destruct (Str.endswith s "/") eqn:En; [|intros [= <- <-]; auto].
  rewrite result_bind, get_md_files_run. cbn [result_of state_of fst snd].
  destruct (md_files fs plugin_dir field) as [|f fl] eqn:Md;
    [intros [= <- <-]; auto|].
  rewrite result_bind. cbn [lift result_of state_of fst snd].
  destruct m as [| | | | |d]; try (intros H; discriminate H).
  cbn. intros [= <- <-]. right. split.
  - unfold applies. unfold Py.getitem in G.
    destruct (Dict.get field d) as [x|]; [|discriminate].
    injection G as ->. rewrite En. cbn.
    destruct (FS.glob fs (plugin_dir // field) ".md") eqn:Gl; [|reflexivity].
    rewrite (md_files_empty _ _ _ Gl) in Md. discriminate.
  - exists d. split; reflexivity.
Qed.

Lemma applies_after_set fs plugin_dir d v :
  applies fs plugin_dir (JObj (Dict.set "commands" v d)) "agents"
  = applies fs plugin_dir (JObj d) "agents".
Proof. unfold applies. rewrite Dict_get_set. reflexivity. Qed.

End Conversion.

Lemma json_load_run (p : Path.t) (fs : node) :
  IO.json_load p fs =
  match FS.read fs p with
  | Ok (Json v) => (Ok v, fs, [Read p])
  | Ok (Text _) => (Raise JSONDecodeError, fs, [Read p])
  | Raise e => (Raise e, fs, [])
  end.
Proof.
  unfold IO.json_load, IO.read, bind, ret, raise.
  destruct (FS.read fs p) as [[|]|]; reflexivity.
Qed.

Lemma exists_run (p : Path.t) (fs : node) :
  IO.exists_ p fs = (Ok (FS.exists_ fs p), fs, []).
Proof. reflexivity. Qed.

(** C9.  When the conversion applies neither to the [commands] field nor
    to the [agents] field of the manifest of a plugin directory (no
    manifest, a field that is absent, that is an array already, that does
    not end with a slash, or no [.md] file to list),
    [fix_plugin_manifest] of fix_agent_command_paths.py leaves the tree as
    it found it and opens no file for writing. *)
Theorem manifest_untouched_without_conversion (fs : node) (plugin_dir : Path.t) :
  Conversion.converts fs plugin_dir "commands" = false ->
  Conversion.converts fs plugin_dir "agents" = false ->
  let run := FixAgentCommandPaths.fix_plugin_manifest plugin_dir fs in
  state_of run = fs /\ forall p, ~ In (Wrote p) (trace_of run).
Proof.
  intros Hc Ha run. subst run.
  assert (Hno : forall q p, ~ In (Wrote p) ([Read q] ++ [])).
  { intros q p [H|[]]; discriminate H. }
  unfold FixAgentCommandPaths.fix_plugin_manifest. cbv zeta.
  rewrite state_bind, trace_bind, exists_run.
  cbn [result_of state_of trace_of fst snd app].
  destruct (negb _); [split; [reflexivity | intros p []]|].
  rewrite state_bind, trace_bind, json_load_run.
  unfold Conversion.converts in Hc, Ha.
  destruct (FS.read fs (plugin_dir // ".claude-plugin" // "plugin.json"))
    as [[s|m]|e]; cbn [result_of state_of trace_of fst snd];
    try (split; [reflexivity | intros p [H|[]]; discriminate H]);
    try (split; [reflexivity | intros p []]).
  rewrite state_bind, trace_bind.
  destruct (Conversion.fix_field_quiet plugin_dir "commands" (m, false) fs) as [S1 T1].
  rewrite S1, T1.
  destruct (result_of (FixAgentCommandPaths.fix_field plugin_dir "commands" (m, false) fs))
    as [[m1 c1]|e] eqn:R1; [|split; [reflexivity | apply Hno]].
  destruct (Conversion.fix_field_result _ _ _ _ _ _ _ R1) as [[-> ->] | [Happ _]];
    [|rewrite Happ in Hc; discriminate Hc].
  rewrite state_bind, trace_bind.
  destruct (Conversion.fix_field_quiet plugin_dir "agents" (m, false) fs) as [S2 T2].
  rewrite S2, T2.
  destruct (result_of (FixAgentCommandPaths.fix_field plugin_dir "agents" (m, false) fs))
    as [[m2 c2]|e] eqn:R2; [|split; [reflexivity | apply Hno]].
  destruct (Conversion.fix_field_result _ _ _ _ _ _ _ R2) as [[-> ->] | [Happ _]];
    [|rewrite Happ in Ha; discriminate Ha].
  split; [reflexivity | apply Hno].
Qed.

(* ================================================================== *)
(** ** What each fixer does to the path fields and to the legacy keys *)

Module Division.
Import Conversion.

(** On a dict, [fix_field] converts the field when the conversion
    applies and returns the pair as it is otherwise. *)
Lemma fix_field_dict plugin_dir field d ch fs :
  result_of (FixAgentCommandPaths.fix_field plugin_dir field (JObj d, ch) fs) =
  Ok (if applies fs plugin_dir (JObj d) field
      then (JObj (Dict.set field (JArr (map JStr (md_files fs plugin_dir field))) d), true)
      else (JObj d, ch)).
Proof.
  unfold FixAgentCommandPaths.fix_field, applies.
  rewrite result_bind. cbn [lift result_of state_of fst snd Py.contains].
  unfold Dict.mem.
  destruct (Dict.get field d) as [v|] eqn:G; [|reflexivity].
  rewrite result_bind. cbn [lift result_of state_of fst snd Py.getitem]. rewrite G.
  destruct v as [| | |s| |]; try reflexivity.
  destruct (Str.endswith s "/"); [|reflexivity].
  rewrite result_bind, get_md_files_run. cbn [result_of state_of fst snd andb].
  destruct (FS.glob fs (plugin_dir // field) ".md") as [|g gl] eqn:Gl.
  - rewrite (md_files_empty _ _ _ Gl). reflexivity.
  - destruct (md_files fs plugin_dir field) as [|f fl] eqn:Md.
    + exfalso. unfold md_files in Md. rewrite Gl in Md.
      destruct (FS.exists_ fs (plugin_dir // field)) eqn:Ex.
      * apply map_eq_nil in Md.
        pose proof (Permutation_length (Path_sorted_perm
          (map (Path.child (plugin_dir // field)) (g :: gl)))) as L.
        rewrite Md in L. discriminate L.
      * unfold FS.exists_ in Ex. unfold FS.glob in Gl.
        destruct (FS.lookup fs (plugin_dir // field)); discriminate.
    + rewrite result_bind. reflexivity.
Qed.

(** A file that can be read can be written. *)
Lemma read_then_write fs q nm c c' :
  FS.read fs (q ++ [nm]) = Ok c -> exists fs', FS.write fs (q ++ [nm]) c' = Ok fs'.
Proof.
  revert fs. induction q as [|x q IH]; intros fs H.
  - unfold FS.read in H. simpl in H |- *.
    destruct fs as [|es]; [discriminate H|].
    destruct (FS.assoc nm es) as [[|]|]; try discriminate H; eauto.
  - unfold FS.read in H. cbn [app FS.lookup] in H.
    destruct fs as [|es]; [discriminate H|].
    destruct (FS.assoc x es) as [k|] eqn:A; [|discriminate H].
    destruct (IH k H) as [k' W].
    destruct (q ++ [nm]) as [|y r] eqn:Q; [destruct q; discriminate Q|].
    cbn [app]. rewrite Q, write_deeper, A, W. eauto.
Qed.

Lemma read_exists fs p c : FS.read fs p = Ok c -> FS.exists_ fs p = true.
Proof.
  unfold FS.read, FS.exists_. destruct (FS.lookup fs p) as [[|]|]; congruence.
Qed.

End Division.

(** C6, as amended.  fix_agent_command_paths.py turns a [commands] or
    [agents] field that is a string ending with a slash into the array of
    the paths [./<field>/<name>] of the [.md] files of that plugin
    subdirectory, in sorted order, when there is at least one such file,
    and it leaves every key other than [commands] and [agents], the legacy
    keys included, as it was.  [fix_plugin_manifest] of
    fix_plugin_manifests.py, on a manifest file that holds a JSON object
    whose repository, when it is an object, has a url, returns and
    leaves in the file an object without [category], [bundle] and
    [includes]. *)
Theorem fixers_division_of_work :
  (forall fs plugin_dir d field s,
      field = "commands" \/ field = "agents" ->
      FS.read fs (plugin_dir // ".claude-plugin" // "plugin.json") = Ok (Json (JObj d)) ->
      Dict.get field d = Some (JStr s) ->
      Str.endswith s "/" = true ->
      FS.glob fs (plugin_dir // field) ".md" <> [] ->
      exists d',
        FS.read (state_of (FixAgentCommandPaths.fix_plugin_manifest plugin_dir fs))
                (plugin_dir // ".claude-plugin" // "plugin.json") = Ok (Json (JObj d'))
        /\ Dict.get field d' =
           Some (JArr (map JStr (Conversion.md_files fs plugin_dir field)))
        /\ forall k, k <> "commands" -> k <> "agents" -> Dict.get k d' = Dict.get k d)
  /\ (forall fs plugin_dir d,
         let p := plugin_dir // ".claude-plugin" // "plugin.json" in
         FS.read fs p = Ok (Json (JObj d)) ->
         (forall r, Dict.get "repository" d = Some (JObj r) -> Dict.mem "url" r = true) ->
         let run := FixPluginManifests.fix_plugin_manifest p fs in
         result_of run = Ok tt
         /\ exists d',
             FS.read (state_of run) p = Ok (Json (JObj d'))
             /\ Dict.get "category" d' = None
             /\ Dict.get "bundle" d' = None
             /\ Dict.get "includes" d' = None).
Proof.
  split.
  - intros fs plugin_dir d field s Hf Hr Hg He Hgl.
    set (mp := plugin_dir // ".claude-plugin" // "plugin.json") in *.
    assert (Happ : Conversion.applies fs plugin_dir (JObj d) field = true).
    { unfold Conversion.applies. rewrite Hg, He.
      destruct (FS.glob fs (plugin_dir // field) ".md"); [congruence | reflexivity]. }
    unfold FixAgentCommandPaths.fix_plugin_manifest. cbv zeta. fold mp.
    rewrite state_bind, exists_run. cbn [result_of state_of fst snd].
    rewrite (Division.read_exists _ _ _ Hr). cbn [negb].
    rewrite state_bind, json_load_run, Hr. cbn [result_of state_of fst snd].
    rewrite state_bind.
    destruct (Conversion.fix_field_quiet plugin_dir "commands" (JObj d, false) fs) as [S1 _].
    rewrite S1, Division.fix_field_dict.
    set (c1 := Conversion.applies fs plugin_dir (JObj d) "commands").
    set (arr1 := JArr (map JStr (Conversion.md_files fs plugin_dir "commands"))).
    assert (exists d1 ch1,
               (if c1 then (JObj (Dict.set "commands" arr1 d), true) else (JObj d, false))
               = (JObj d1, ch1)
               /\ (forall k, k <> "commands" -> Dict.get k d1 = Dict.get k d)
               /\ (field = "commands" -> Dict.get "commands" d1 = Some arr1 /\ ch1 = true))
      as (d1 & ch1 & -> & K1 & F1).
    { destruct c1 eqn:C1.
      - do 2 eexists. split; [reflexivity|]. split.
        + intros k Hk. rewrite Dict_get_set.
          destruct (String.eqb k "commands") eqn:E; [|reflexivity].
          apply String.eqb_eq in E. contradiction.
        + intros _. rewrite Dict_get_set. auto.
      - do 2 eexists. split; [reflexivity|]. split; [reflexivity|].
        intros ->. subst c1. rewrite Happ in C1. discriminate C1. }
    rewrite state_bind.
    destruct (Conversion.fix_field_quiet plugin_dir "agents" (JObj d1, ch1) fs) as [S2 _].
    rewrite S2, Division.fix_field_dict.
    set (c2 := Conversion.applies fs plugin_dir (JObj d1) "agents").
    set (arr2 := JArr (map JStr (Conversion.md_files fs plugin_dir "agents"))).
    assert (Hc2 : field = "agents" -> c2 = true).
    { intros ->. subst c2. unfold Conversion.applies in *.
      rewrite K1 by discriminate. exact Happ. }
    assert (exists d2,
               (if c2 then (JObj (Dict.set "agents" arr2 d1), true) else (JObj d1, ch1))
               = (JObj d2, true)
               /\ (forall k, k <> "commands" -> k <> "agents" -> Dict.get k d2 = Dict.get k d)
               /\ Dict.get field d2 =
                  Some (JArr (map JStr (Conversion.md_files fs plugin_dir field))))
      as (d2 & -> & K2 & F2).
    { destruct Hf as [-> | ->].
      - destruct (F1 eq_refl) as [G1 ->].
        destruct c2.
        + eexists. split; [reflexivity|]. split.
          * intros k Hk1 Hk2. rewrite Dict_get_set.
            destruct (String.eqb k "agents") eqn:E;
              [apply String.eqb_eq in E; contradiction | apply K1; exact Hk1].
          * rewrite Dict_get_set. exact G1.
        + eexists. split; [reflexivity|]. split; [intros; apply K1; assumption | exact G1].
      - rewrite (Hc2 eq_refl).
        eexists. split; [reflexivity|]. split.
        + intros k Hk1 Hk2. rewrite Dict_get_set.
          destruct (String.eqb k "agents") eqn:E;
            [apply String.eqb_eq in E; contradiction | apply K1; exact Hk1].
        + rewrite Dict_get_set. reflexivity. }
    unfold IO.json_dump, IO.write.
    destruct (Division.read_then_write fs (plugin_dir // ".claude-plugin")
                "plugin.json" _ (Json (JObj d2)) Hr) as [fs' W].
    change ((plugin_dir // ".claude-plugin") ++ ["plugin.json"]) with mp in W.
    rewrite W. cbn [state_of fst snd].
    exists d2. split; [exact (write_then_read _ _ _ _ W)|]. split; assumption.
  - intros fs plugin_dir d p Hr Hurl run.
    assert (Hdoc : exists d',
               FixPluginManifests.fix_document (JObj d) = Ok (JObj d')
               /\ Dict.get "category" d' = None
               /\ Dict.get "bundle" d' = None
               /\ Dict.get "includes" d' = None).
    { unfold FixPluginManifests.fix_document.
      rewrite FixDocument.fix_author_dict. cbn [rbind].
      rewrite FixDocument.fix_repository_dict.
      destruct (FixDocument.repository_step (FixDocument.author_step d)) as [d2|e] eqn:E2.
      - cbn [rbind]. rewrite FixDocument.fix_dot_slash_dict. cbn [rbind].
        rewrite FixDocument.fix_dot_slash_dict. cbn [rbind].
        rewrite FixDocument.fix_dot_slash_dict. cbn [rbind].
        rewrite FixDocument.remove_fields_dict. cbn [fold_left].
        eexists. split; [reflexivity|].
        repeat split; rewrite !Dict_get_del; reflexivity.
      - exfalso. unfold FixDocument.repository_step in E2.
        rewrite FixDocument.get_author_step in E2.
        cbn [String.eqb Ascii.eqb Bool.eqb] in E2.
        destruct (Dict.get "repository" d) as [[| | | | |r]|]; try discriminate E2.
        specialize (Hurl r eq_refl). unfold Dict.mem in Hurl.
        destruct (Dict.get "url" r); discriminate. }
    destruct Hdoc as (d' & Hd & H1 & H2 & H3).
    destruct (Division.read_then_write fs (plugin_dir // ".claude-plugin")
                "plugin.json" _ (Json (JObj d')) Hr) as [fs' W].
    change ((plugin_dir // ".claude-plugin") ++ ["plugin.json"]) with p in W.
    subst run. unfold FixPluginManifests.fix_plugin_manifest.
    rewrite result_bind, state_bind, json_load_run, Hr.
    cbn [result_of state_of fst snd].
    rewrite result_bind, state_bind. unfold lift. rewrite Hd.
    cbn [result_of state_of fst snd].
    unfold IO.json_dump, IO.write. rewrite W. cbn [result_of state_of fst snd].
    split; [reflexivity|]. exists d'.
    split; [exact (write_then_read _ _ _ _ W)|]. repeat split; assumption.
Qed.

(* ================================================================== *)
(** ** Names and directories *)

Module Layout.

Fixpoint no_slash (s : string) : bool :=
  match s with
  | EmptyString => true
  | String c s' => negb (Ascii.eqb c "/") && no_slash s'
  end.

(** A name that is one path component: not empty, not a dot, without a
    slash.  The names of the entries of a directory are such names. *)
Definition plain (s : string) : bool :=
  no_slash s && negb (String.eqb s EmptyString) && negb (String.eqb s ".").

(** A name that a directory entry can have: a plain one other than
    [..].  [pathlib] keeps a [..] component and the operating system
    resolves it to the parent directory; the tree of this development
    has no such resolution, so a name that a caller gives, and that goes
    into a path, is taken to be one of these. *)
Definition component (s : string) : bool :=
  plain s && negb (String.eqb s "..").

(** The path is a directory all of whose entries are files. *)
Definition only_files (fs : node) (dir : Path.t) : bool :=
  match FS.lookup fs dir with
  | Some (Dir es) =>
      forallb (fun e => match snd e with File _ => true | Dir _ => false end) es
  | _ => false
  end.

Lemma split_no_slash s : no_slash s = true -> Str.split_on "/" s = [s].
Proof.
  induction s as [|c s IH]; simpl; [reflexivity|].
  intros H. apply andb_prop in H. destruct H as [Hc Hs].
  destruct (Ascii.eqb c "/"); [discriminate Hc|].
  rewrite (IH Hs). reflexivity.
Qed.

Lemma parts_plain s : plain s = true -> Path.parts s = [s].
Proof.
  unfold plain, Path.parts. intros H.
  apply andb_prop in H. destruct H as [H H3].
  apply andb_prop in H. destruct H as [H1 H2].
  rewrite (split_no_slash _ H1). simpl. rewrite H2, H3. reflexivity.
Qed.

Lemma join_plain p s : plain s = true -> p // s = Path.child p s.
Proof.
  intros H. unfold Path.join, Path.child. rewrite (parts_plain _ H).
  unfold plain in H.
  apply andb_prop in H. destruct H as [H H3].
  apply andb_prop in H. destruct H as [H1 H2].
  destruct s as [|c s]; [discriminate H2|].
  simpl in H1. apply andb_prop in H1. destruct H1 as [Hc _].
  unfold Str.startswith. cbn [String.prefix].
  destruct (ascii_dec "/" c) as [<-|]; [discriminate Hc|].
  reflexivity.
Qed.

Lemma no_slash_app a b : no_slash (a ++ b) = no_slash a && no_slash b.
Proof.
  induction a as [|c a IH]; simpl; [reflexivity|].
  rewrite IH, andb_assoc. reflexivity.
Qed.

Lemma no_slash_substring s n m : no_slash s = true -> no_slash (String.substring n m s) = true.
Proof.
  revert n m. induction s as [|c s IH]; intros n m H; simpl.
  - destruct n, m; reflexivity.
  - simpl in H. apply andb_prop in H. destruct H as [Hc Hs].
    destruct n as [|n].
    + destruct m as [|m]; [reflexivity|]. simpl. rewrite Hc. apply IH; exact Hs.
    + apply IH; exact Hs.
Qed.

Lemma no_slash_stem s : no_slash s = true -> no_slash (Path.stem_of s) = true.
Proof.
  intros H. unfold Path.stem_of.
  destruct (Path.rfind_dot s); [|exact H].
  destruct (_ && _); [apply no_slash_substring; exact H | exact H].
Qed.

(** The name of a command file is plain when the script's name is. *)
Lemma plain_md s : no_slash s = true -> plain (s ++ ".md") = true.
Proof.
  intros H. unfold plain. rewrite no_slash_app, H. simpl.
  destruct s as [|c [|c' s]]; simpl; try reflexivity.
  - destruct (Ascii.eqb c "."); reflexivity.
  - destruct (Ascii.eqb c "."); reflexivity.
Qed.

Lemma component_plain s : component s = true -> plain s = true.
Proof. unfold component. intros H. apply andb_prop in H. exact (proj1 H). Qed.

Lemma plain_no_slash s : plain s = true -> no_slash s = true.
Proof.
  unfold plain. intros H.
  apply andb_prop in H. destruct H as [H _].
  apply andb_prop in H. destruct H as [H _]. exact H.
Qed.

End Layout.

(** ** Writing below a directory *)

Lemma eqb_neq_sym (a b : string) : a <> b -> String.eqb b a = false.
Proof. intros H. apply String.eqb_neq. congruence. Qed.

(** A write leaves every path that parts from its own alone. *)
Lemma write_frame (l : Path.t) (a b : string) (r r' : Path.t)
    (fs fs' : node) (c : content) :
  a <> b ->
  FS.write fs (l ++ a :: r) c = Ok fs' ->
  FS.lookup fs' (l ++ b :: r') = FS.lookup fs (l ++ b :: r').
Proof.
  intros Hab. revert fs fs'. induction l as [|x l IH]; intros fs fs' W.
  - cbn [app] in *. destruct fs as [|es]; [discriminate W|].
    destruct r as [|y r].
    + simpl in W. destruct (FS.assoc a es) as [[|]|]; try discriminate W;
        injection W as <-; cbn [FS.lookup];
        rewrite assoc_upsert, (eqb_neq_sym _ _ Hab); reflexivity.
    + rewrite write_deeper in W.
      destruct (FS.assoc a es) as [k|]; [|discriminate W].
      destruct (FS.write k (y :: r) c) as [k'|]; [|discriminate W].
      injection W as <-. cbn [FS.lookup].
      rewrite assoc_upsert, (eqb_neq_sym _ _ Hab). reflexivity.
  - cbn [app] in *. destruct fs as [|es]; [discriminate W|].
    destruct (l ++ a :: r) as [|y t] eqn:Q; [destruct l; discriminate Q|].
    rewrite write_deeper in W.
    destruct (FS.assoc x es) as [k|] eqn:A; [|discriminate W].
    destruct (FS.write k (y :: t) c) as [k'|] eqn:W'; [|discriminate W].
    injection W as <-. cbn [FS.lookup].
    rewrite assoc_upsert, String.eqb_refl, A. apply IH. exact W'.
Qed.

(** So does [mkdir]. *)
Lemma mkdirs_frame (l : Path.t) (a b : string) (r r' : Path.t) (fs fs' : node) :
  a <> b ->
  FS.mkdirs fs (l ++ a :: r) = Ok fs' ->
  FS.is_dir fs (l ++ b :: r') = true ->
  FS.lookup fs' (l ++ b :: r') = FS.lookup fs (l ++ b :: r').
Proof.
  intros Hab. revert fs fs'. induction l as [|x l IH]; intros fs fs' W D.
  - cbn [app] in *. destruct fs as [|es]; [discriminate W|].
    simpl in W.
    match type of W with
    | match ?m with _ => _ end = _ => destruct m as [k'|]; [|discriminate W]
    end.
    injection W as <-. cbn [FS.lookup].
    rewrite assoc_upsert, (eqb_neq_sym _ _ Hab). reflexivity.
  - cbn [app] in *. destruct fs as [|es]; [discriminate W|].
    simpl in W. unfold FS.is_dir in D. cbn [FS.lookup] in D.
    destruct (FS.assoc x es) as [k|] eqn:A; [|discriminate D].
    destruct (FS.mkdirs k (l ++ a :: r)) as [k'|] eqn:W'; [|discriminate W].
    injection W as <-. cbn [FS.lookup].
    rewrite assoc_upsert, String.eqb_refl, A. apply (IH k k' W'). exact D.
Qed.

(** Writing a file into a directory, under a name no subdirectory has. *)
Lemma write_child (dir : Path.t) (fs : node) (es : FS.entries) (nm : string) (c : content) :
  FS.lookup fs dir = Some (Dir es) ->
  (forall es', FS.assoc nm es <> Some (Dir es')) ->
  exists fs',
    FS.write fs (Path.child dir nm) c = Ok fs'
    /\ FS.lookup fs' dir = Some (Dir (FS.upsert nm (File c) es)).
Proof.
  unfold Path.child. revert fs. induction dir as [|x dir IH]; intros fs L N.
  - simpl in L. injection L as ->. simpl.
    destruct (FS.assoc nm es) as [[|es']|] eqn:A; eauto.
    exfalso. exact (N es' eq_refl).
  - cbn [app FS.lookup] in L |- *. destruct fs as [|es0]; [discriminate L|].
    destruct (FS.assoc x es0) as [k|] eqn:A; [|discriminate L].
    destruct (IH k L N) as (k' & W & L').
    destruct (dir ++ [nm]) as [|y t] eqn:Q; [destruct dir; discriminate Q|].
    rewrite write_deeper, A, W. eexists. split; [reflexivity|].
    cbn [FS.lookup]. rewrite assoc_upsert, String.eqb_refl. exact L'.
Qed.

Lemma assoc_In_pair nm es k : FS.assoc nm es = Some k -> exists nm', In (nm', k) es.
Proof.
  induction es as [|[n0 k0] es IH]; simpl; [discriminate|].
  destruct (String.eqb nm n0).
  - intros [= ->]. eauto.
  - intros H. destruct (IH H) as [nm' H']. eauto.
Qed.

Lemma only_files_spec fs dir :
  Layout.only_files fs dir = true ->
  exists es, FS.lookup fs dir = Some (Dir es)
             /\ forall nm es', FS.assoc nm es <> Some (Dir es').
Proof.
  unfold Layout.only_files.
  destruct (FS.lookup fs dir) as [[|es]|]; try discriminate.
  intros H. exists es. split; [reflexivity|].
  intros nm es' A. destruct (assoc_In_pair _ _ _ A) as [nm' Hin].
  rewrite forallb_forall in H. specialize (H _ Hin). discriminate H.
Qed.

(** The entries of a directory without subdirectories, after a file
    was written into it. *)
Lemma no_subdirectory_upsert (es : FS.entries) (nm : string) (c : content) :
  (forall n es', FS.assoc n es <> Some (Dir es')) ->
  forall n es', FS.assoc n (FS.upsert nm (File c) es) <> Some (Dir es').
Proof.
  intros N n es'. rewrite assoc_upsert.
  destruct (String.eqb n nm); [discriminate | apply N].
Qed.

Lemma write_run (p : Path.t) (c : content) (fs fs' : node) :
  FS.write fs p c = Ok fs' -> IO.write p c fs = (Ok tt, fs', [Wrote p]).
Proof. intros W. unfold IO.write. rewrite W. reflexivity. Qed.

(** A loop that writes one file per element into a directory without
    subdirectories: it returns, it performs one write per element, in
    order, and leaves the directory without subdirectories, with every
    file it had and every file it wrote. *)
Lemma write_loop {A} (dir : Path.t) (name_of : A -> string) (text_of : A -> content)
    (body : A -> M node unit) (l : list A) :
  (forall x, In x l -> body x = IO.write (Path.child dir (name_of x)) (text_of x)) ->
  forall fs es,
    FS.lookup fs dir = Some (Dir es) ->
    (forall n es', FS.assoc n es <> Some (Dir es')) ->
    result_of (for_each l body fs) = Ok tt
    /\ trace_of (for_each l body fs) = map (fun x => Wrote (Path.child dir (name_of x))) l
    /\ exists es1,
        FS.lookup (state_of (for_each l body fs)) dir = Some (Dir es1)
        /\ (forall n es', FS.assoc n es1 <> Some (Dir es'))
        /\ (forall n, (exists c, FS.assoc n es = Some (File c)) \/ In n (map name_of l) ->
                      exists c, FS.assoc n es1 = Some (File c)).
Proof.
  induction l as [|x l IH]; intros Hb fs es L N.
  - cbn. repeat split. exists es. repeat split; auto.
    intros n [H|[]]. exact H.
  - cbn [for_each]. rewrite result_bind, trace_bind, state_bind.
    rewrite (Hb x (or_introl eq_refl)).
    destruct (write_child dir fs es (name_of x) (text_of x) L (N (name_of x)))
      as (fs' & W & L').
    rewrite (write_run _ _ _ _ W). cbn [result_of state_of trace_of fst snd].
    destruct (IH (fun y Hy => Hb y (or_intror Hy)) fs' _ L'
                 (no_subdirectory_upsert es (name_of x) (text_of x) N))
      as (R & T & es1 & L1 & N1 & F1).
    split; [exact R|]. split; [rewrite T; reflexivity|].
    exists es1. repeat split; auto.
    intros n Hn. apply F1.
    destruct (String.eqb n (name_of x)) eqn:E.
    + left. rewrite assoc_upsert, E. eauto.
    + destruct Hn as [Hn|[Hn|Hn]].
      * left. rewrite assoc_upsert, E. exact Hn.
      * subst n. rewrite String.eqb_refl in E. discriminate E.
      * right. exact Hn.
Qed.

Lemma is_file_child fs dir es n c :
  FS.lookup fs dir = Some (Dir es) -> FS.assoc n es = Some (File c) ->
  FS.is_file fs (Path.child dir n) = true.
Proof.
  intros L A. unfold FS.is_file, Path.child.
  rewrite MissingManifest.lookup_app, L. simpl. rewrite A. reflexivity.
Qed.

Module Commands.
Import GeneratePlugin.

(** The names of the files [_generate_commands] writes: one per entry
    of the scripts directory that ends with [.py], named after its stem,
    or the two generic ones when there is none. *)
Definition command_files (scripts : list string) : list string :=
  match scripts with
  | [] => ["setup.md"; "help.md"]
  | _ :: _ => map (fun s => (Path.stem_of s ++ ".md")%string) scripts
  end.

Lemma glob_exists fs dir suffix x l :
  FS.glob fs dir suffix = x :: l -> FS.exists_ fs dir = true.
Proof.
  unfold FS.glob, FS.exists_. destruct (FS.lookup fs dir) as [[|]|]; congruence.
Qed.

Lemma append_length (a b : string) :
  String.length (a ++ b) = (String.length a + String.length b)%nat.
Proof. induction a as [|c a IH]; simpl; [reflexivity | rewrite IH; reflexivity]. Qed.

(** Two names with the same suffix differ before it. *)
Lemma append_cancel (suffix a b : string) :
  (a ++ suffix)%string = (b ++ suffix)%string -> a = b.
Proof.
  revert b. induction a as [|c a IH]; intros [|c' b] H; simpl in H.
  - reflexivity.
  - apply (f_equal String.length) in H. simpl in H. rewrite append_length in H. lia.
  - apply (f_equal String.length) in H. simpl in H. rewrite append_length in H. lia.
  - injection H as -> H. rewrite (IH b H). reflexivity.
Qed.

(** Scripts with different stems get different command files. *)
Lemma command_files_distinct (scripts : list string) :
  NoDup (map Path.stem_of scripts) -> NoDup (command_files scripts).
Proof.
  unfold command_files. destruct scripts as [|s0 rest].
  - intros _. constructor; [|constructor; [intros []|constructor]].
    intros [H|[]]. discriminate H.
  - generalize (s0 :: rest). intros l. induction l as [|s l IH]; cbn [map]; intros H.
    + constructor.
    + inversion H as [|? ? Hs Hl]; subst. constructor; [|exact (IH Hl)].
      intros Hin. apply Hs.
      apply in_map_iff in Hin. destruct Hin as (s' & E & Hs').
      apply append_cancel in E. rewrite <- E. apply in_map. exact Hs'.
Qed.

Lemma command_files_length (scripts : list string) :
  scripts <> [] -> List.length (command_files scripts) = List.length scripts.
Proof.
  unfold command_files. destruct scripts as [|s0 rest]; [congruence|].
  intros _. apply length_map.
Qed.

End Commands.

(** C5, as amended.  In a commands directory that holds files only,
    [_generate_commands] of generate_plugin.py returns after it has
    written one file per entry of the skill's [scripts] directory that
    ends with [.py], named [<stem>.md] after the stem of the entry, in
    the order of the directory, and nothing else; when there is no such
    entry it has written exactly [setup.md] and [help.md].  The files
    are there afterwards.  When no two scripts have the same stem, the
    files written are pairwise distinct, as many as there are scripts:
    exactly one per script.  (The names of directory entries hold no
    slash.) *)
Theorem commands_per_script (self : GeneratePlugin.PluginGenerator) (fs : node) :
  let commands_dir := GeneratePlugin.plugin_dir self // "commands" in
  let scripts := FS.glob fs (GeneratePlugin.skill_dir self // "scripts") ".py" in
  Layout.only_files fs commands_dir = true ->
  forallb Layout.no_slash scripts = true ->
  let run := GeneratePlugin._generate_commands self fs in
  result_of run = Ok tt
  /\ trace_of run =
     map (fun n => Wrote (Path.child commands_dir n)) (Commands.command_files scripts)
  /\ (forall n, In n (Commands.command_files scripts) ->
                FS.is_file (state_of run) (Path.child commands_dir n) = true)
  /\ (NoDup (map Path.stem_of scripts) ->
      NoDup (Commands.command_files scripts)
      /\ (scripts <> [] ->
          List.length (Commands.command_files scripts) = List.length scripts)).
Proof.
  intros commands_dir scripts Hof Hns run.
  assert (Hmain : result_of run = Ok tt
                  /\ trace_of run =
                     map (fun n => Wrote (Path.child commands_dir n))
                         (Commands.command_files scripts)
                  /\ (forall n, In n (Commands.command_files scripts) ->
                                FS.is_file (state_of run) (Path.child commands_dir n) = true));
    [|destruct Hmain as (R & T & F); split; [exact R|]; split; [exact T|];
      split; [exact F|]; intros Hnd;
      split; [exact (Commands.command_files_distinct _ Hnd)
             | exact (Commands.command_files_length _)]].
  assert (Hsc : FS.glob fs (GeneratePlugin.skill_dir self // "scripts") ".py" = scripts)
    by reflexivity.
  clearbody scripts.
  destruct (only_files_spec _ _ Hof) as (es & L & N).
  subst run. unfold GeneratePlugin._generate_commands. cbv zeta.
  fold commands_dir.
  rewrite result_bind, trace_bind, state_bind, exists_run.
  cbn [result_of state_of trace_of fst snd app].
  rewrite result_bind, trace_bind, state_bind.
  cbn [IO.glob result_of state_of trace_of fst snd app]. rewrite Hsc.
  destruct scripts as [|s0 rest].
  - (* no script: the two generic commands *)
    rewrite andb_false_r. cbn [map].
    unfold GeneratePlugin._generate_generic_commands.
    set (body := fun n : string =>
           IO.write (Path.child commands_dir n)
             (Text (if String.eqb n "setup.md"
                    then GeneratePlugin.setup_content (GeneratePlugin.skill_name self)
                           (GeneratePlugin._format_skill_title self)
                    else GeneratePlugin.help_content (GeneratePlugin.skill_name self)
                           (GeneratePlugin._format_skill_title self)))).
    destruct (write_loop commands_dir (fun n => n)
                (fun n => Text (if String.eqb n "setup.md"
                    then GeneratePlugin.setup_content (GeneratePlugin.skill_name self)
                           (GeneratePlugin._format_skill_title self)
                    else GeneratePlugin.help_content (GeneratePlugin.skill_name self)
                           (GeneratePlugin._format_skill_title self)))
                body ["setup.md"; "help.md"] (fun x _ => eq_refl) fs es L N)
      as (R & T & es1 & L1 & N1 & F1).
    cbn [for_each] in R, T, L1.
    rewrite result_bind in R. rewrite trace_bind in T. rewrite state_bind in L1.
    rewrite result_bind, trace_bind, state_bind.
    change (commands_dir // "setup.md") with (Path.child commands_dir "setup.md").
    change (commands_dir // "help.md") with (Path.child commands_dir "help.md").
    subst body. cbn beta in R, T, L1. cbn [String.eqb Ascii.eqb Bool.eqb] in R, T, L1.
    destruct (result_of (IO.write (Path.child commands_dir "setup.md") _ fs))
      as [[]|e]; [|discriminate R].
    rewrite result_bind in R. rewrite trace_bind in T. rewrite state_bind in L1.
    cbn [String.eqb Ascii.eqb Bool.eqb] in R, T, L1.
    destruct (result_of (IO.write (Path.child commands_dir "help.md") _ _))
      as [[]|e]; [|discriminate R].
    cbn [ret result_of state_of trace_of fst snd] in R, T, L1.
    rewrite app_nil_r in T.
    split; [reflexivity|]. split; [exact T|].
    intros n Hn. destruct (F1 n (or_intror Hn)) as [c Hc].
    exact (is_file_child _ _ _ _ _ L1 Hc).
  - (* one command per script *)
    rewrite (Commands.glob_exists _ _ _ _ _ Hsc). cbn [andb map].
    rewrite result_bind, trace_bind, state_bind.
    cbn [IO.glob result_of state_of trace_of fst snd app]. rewrite Hsc.
    set (l := map (Path.child (GeneratePlugin.skill_dir self // "scripts")) (s0 :: rest)).
    match goal with
    | |- context [for_each l ?b] => set (body := b)
    end.
    assert (Hbody : forall x, In x l ->
              body x = IO.write (Path.child commands_dir (Path.stem x ++ ".md")%string)
                         (Text (GeneratePlugin._create_command_markdown (Path.stem x)
                                  (GeneratePlugin.skill_name self)
                                  (GeneratePlugin._format_skill_title self) (Path.stem x)))).
    { intros x Hx. subst body l. cbv beta zeta.
      apply in_map_iff in Hx. destruct Hx as (s & <- & Hs).
      rewrite Layout.join_plain; [reflexivity|].
      apply Layout.plain_md. unfold Path.stem. rewrite ValidateRun.name_child.
      apply Layout.no_slash_stem.
      rewrite forallb_forall in Hns. apply Hns. exact Hs. }
    destruct (write_loop commands_dir (fun x => (Path.stem x ++ ".md")%string) _ body l
                Hbody fs es L N) as (R & T & es1 & L1 & N1 & F1).
    assert (Hmap : map (fun x => (Path.stem x ++ ".md")%string) l
                   = Commands.command_files (s0 :: rest)).
    { subst l. unfold Commands.command_files. rewrite map_map.
      apply map_ext. intros s. unfold Path.stem. rewrite ValidateRun.name_child.
      reflexivity. }
    split; [exact R|]. split.
    + rewrite T, <- Hmap, map_map. reflexivity.
    + intros n Hn. rewrite <- Hmap in Hn.
      destruct (F1 n (or_intror Hn)) as [c Hc].
      exact (is_file_child _ _ _ _ _ L1 Hc).
Qed.

(* ================================================================== *)
(** ** The name a generated manifest carries *)

Module ManifestName.

Lemma plugin_init_fields name root fs0 self :
  result_of (GeneratePlugin.init name root fs0) = Ok self ->
  GeneratePlugin.skill_name self = name
  /\ GeneratePlugin.plugin_dir self
     = root // ".claude" // "plugins" // "individual" // name.
Proof.
  unfold GeneratePlugin.init. cbv zeta. rewrite result_bind.
  destruct (result_of (GeneratePlugin._load_skill_metadata _ fs0)); [|discriminate].
  cbn. intros [= <-]. split; reflexivity.
Qed.

Lemma bundle_init_fields name root fs0 self :
  result_of (GenerateBundle.init name root fs0) = Ok self ->
  GenerateBundle.bundle_name self = name
  /\ GenerateBundle.bundle_dir self
     = root // ".claude" // "plugins" // "bundles" // name
  /\ GenerateBundle.lookup_bundle name GenerateBundle.BUNDLES
     = Some (GenerateBundle.config self).
Proof.
  unfold GenerateBundle.init.
  destruct (GenerateBundle.lookup_bundle name GenerateBundle.BUNDLES); [|discriminate].
  cbn. intros [= <-]. repeat split; reflexivity.
Qed.

(** The keys of [BUNDLES] are plain names. *)
Lemma bundle_names_plain name c :
  GenerateBundle.lookup_bundle name GenerateBundle.BUNDLES = Some c ->
  Layout.plain name = true.
Proof.
  unfold GenerateBundle.BUNDLES. cbn [GenerateBundle.lookup_bundle].
  repeat match goal with
         | |- (if String.eqb name ?k then _ else _) = _ -> _ =>
             destruct (String.eqb name k) eqn:E;
             [apply String.eqb_eq in E; subst name; intros _; reflexivity | clear E]
         end.
  discriminate.
Qed.

(** The directory that holds [<dir>/.claude-plugin/plugin.json]. *)
Lemma grandparent dir name :
  Layout.plain name = true ->
  Path.name (Path.parent (Path.parent (dir // name // ".claude-plugin" // "plugin.json")))
  = name.
Proof.
  intros H. rewrite (Layout.join_plain dir name H).
  change (Path.child dir name // ".claude-plugin" // "plugin.json")
    with ((Path.child dir name ++ [".claude-plugin"]) ++ ["plugin.json"]).
  unfold Path.parent. rewrite !removelast_last.
  apply ValidateRun.name_child.
Qed.

Lemma json_dump_written p doc fs :
  result_of (IO.json_dump p doc fs) = Ok tt ->
  trace_of (IO.json_dump p doc fs) = [Wrote p]
  /\ FS.read (state_of (IO.json_dump p doc fs)) p = Ok (Json doc).
Proof.
  unfold IO.json_dump, IO.write.
  destruct (FS.write fs p (Json doc)) as [fs'|e] eqn:W; [|discriminate].
  intros _. split; [reflexivity|]. exact (write_then_read _ _ _ _ W).
Qed.

End ManifestName.

(** C2, as amended.  The manifest that [_generate_manifest] writes
    carries, as its name, the name of the directory that holds its
    [.claude-plugin] directory: for generate_bundle.py always, and for
    generate_plugin.py whenever the skill name it was given is the name
    of a directory entry (one path component: no slash, not empty,
    neither [.] nor [..]). *)
Theorem manifest_named_after_directory :
  (forall name root fs0 self fs,
      Layout.component name = true ->
      result_of (GeneratePlugin.init name root fs0) = Ok self ->
      let p := GeneratePlugin.plugin_dir self // ".claude-plugin" // "plugin.json" in
      let run := GeneratePlugin._generate_manifest self fs in
      result_of run = Ok tt ->
      trace_of run = [Wrote p]
      /\ exists doc,
          FS.read (state_of run) p = Ok (Json doc)
          /\ Py.getitem doc "name" = Ok (JStr (Path.name (Path.parent (Path.parent p)))))
  /\ (forall name root fs0 self fs,
         result_of (GenerateBundle.init name root fs0) = Ok self ->
         let p := GenerateBundle.bundle_dir self // ".claude-plugin" // "plugin.json" in
         let run := GenerateBundle._generate_manifest self fs in
         result_of run = Ok tt ->
         trace_of run = [Wrote p]
         /\ exists doc,
             FS.read (state_of run) p = Ok (Json doc)
             /\ Py.getitem doc "name" = Ok (JStr (Path.name (Path.parent (Path.parent p))))).
Proof.
  split.
  - intros name root fs0 self fs Hc Hi p run Hr.
    pose proof (Layout.component_plain _ Hc) as Hp.
    destruct (ManifestName.plugin_init_fields _ _ _ _ Hi) as [Hn Hd].
    subst run p. unfold GeneratePlugin._generate_manifest in *. cbv zeta in *.
    destruct (ManifestName.json_dump_written _ _ _ Hr) as [T R].
    split; [exact T|]. eexists. split; [exact R|].
    rewrite Hd, (ManifestName.grandparent _ name Hp), <- Hn. reflexivity.
  - intros name root fs0 self fs Hi p run Hr.
    destruct (ManifestName.bundle_init_fields _ _ _ _ Hi) as (Hn & Hd & Hl).
    pose proof (ManifestName.bundle_names_plain _ _ Hl) as Hp.
    subst run p. unfold GenerateBundle._generate_manifest in *. cbv zeta in *.
    destruct (ManifestName.json_dump_written _ _ _ Hr) as [T R].
    split; [exact T|]. eexists. split; [exact R|].
    rewrite Hd, (ManifestName.grandparent _ name Hp), <- Hn. reflexivity.
Qed.

(* ================================================================== *)
(** ** The marketplace manifest lists every plugin directory *)

Module Marketplace.
Import GenerateMarketplace.

(** The children of a directory, as [iterdir] yields them. *)
Definition children (fs : node) (dir : Path.t) : list Path.t :=
  match FS.listdir fs dir with
  | Ok names => map (Path.child dir) names
  | Raise _ => []
  end.

(** A plugin directory: a directory that holds [.claude-plugin/plugin.json]. *)
Definition has_manifest (fs : node) (d : Path.t) : bool :=
  FS.is_dir fs d && FS.exists_ fs (d // ".claude-plugin" // "plugin.json").

Definition plugin_dirs (fs : node) (dir : Path.t) : list Path.t :=
  filter (has_manifest fs) (children fs dir).

(** The manifest of the directory is a JSON object with a name. *)
Definition named (fs : node) (d : Path.t) : bool :=
  match FS.read fs (d // ".claude-plugin" // "plugin.json") with
  | Ok (Json (JObj m)) => Dict.mem "name" m
  | _ => false
  end.

(** The entry has the source [prefix ++ name of d]. *)
Definition sourced (prefix : string) (d : Path.t) (entry : JSON) : Prop :=
  Py.getitem entry "source" = Ok (JStr (prefix ++ Path.name d)%string).

Lemma individual_entry_sourced d m :
  Dict.mem "name" m = true ->
  exists e, individual_entry d (JObj m) = Ok e /\ sourced "./individual/" d e.
Proof.
  unfold Dict.mem, individual_entry, sourced. cbn [Py.getitem Py.get rbind].
  destruct (Dict.get "name" m); [|discriminate]. intros _.
  cbn [rbind]. eexists. split; reflexivity.
Qed.

Lemma bundle_entry_sourced d m :
  Dict.mem "name" m = true ->
  exists e, bundle_entry d (JObj m) = Ok e /\ sourced "./bundles/" d e.
Proof.
  unfold Dict.mem, bundle_entry, sourced. cbn [Py.getitem Py.get rbind].
  destruct (Dict.get "name" m); [|discriminate]. intros _.
  cbn [rbind]. eexists. split; reflexivity.
Qed.

Section Collect.

Variable entry : Path.t -> JSON -> result JSON.
Variable prefix : string.
Hypothesis entry_sourced :
  forall d m, Dict.mem "name" m = true ->
              exists e, entry d (JObj m) = Ok e /\ sourced prefix d e.
Variable fs : node.

(** The body of the loop of [collect]. *)
Definition collect_body (plugins : list JSON) (plugin_dir : Path.t) : M node (list JSON) :=
  (d <- IO.is_dir plugin_dir ;;
   if negb d then ret plugins
   else
     let manifest_file := plugin_dir // ".claude-plugin" // "plugin.json" in
     e <- IO.exists_ manifest_file ;;
     if negb e then ret plugins
     else
       manifest <- IO.json_load manifest_file ;;
       plugin_entry <- lift (entry plugin_dir manifest) ;;
       ret (plugins ++ [plugin_entry]))%io.

Lemma collect_body_run plugins d :
  (has_manifest fs d = true -> named fs d = true) ->
  state_of (collect_body plugins d fs) = fs
  /\ if has_manifest fs d
     then exists e, result_of (collect_body plugins d fs) = Ok (plugins ++ [e])
                    /\ sourced prefix d e
     else result_of (collect_body plugins d fs) = Ok plugins.
Proof.
  intros Hn. unfold collect_body, has_manifest in *. cbv zeta.
  rewrite state_bind, result_bind.
  change (IO.is_dir d fs) with (Ok (FS.is_dir fs d), fs, @nil event).
  cbn [result_of state_of fst snd].
  destruct (FS.is_dir fs d); cbn [negb andb]; [|split; reflexivity].
  rewrite state_bind, result_bind, exists_run. cbn [result_of state_of fst snd].
  destruct (FS.exists_ fs (d // ".claude-plugin" // "plugin.json"));
    cbn [negb]; [|split; reflexivity].
  specialize (Hn eq_refl). unfold named in Hn.
  rewrite state_bind, result_bind, json_load_run.
  destruct (FS.read fs (d // ".claude-plugin" // "plugin.json")) as [[|[| | | | |m]]|];
    try discriminate Hn.
  cbn [result_of state_of fst snd].
  destruct (entry_sourced d m Hn) as (e & He & Hs).
  rewrite state_bind, result_bind, He. cbn. split; [reflexivity|]. eauto.
Qed.

Lemma collect_loop ds acc :
  (forall d, In d ds -> has_manifest fs d = true -> named fs d = true) ->
  state_of (fold_m ds acc collect_body fs) = fs
  /\ exists l,
      result_of (fold_m ds acc collect_body fs) = Ok (acc ++ l)
      /\ Forall2 (sourced prefix) (filter (has_manifest fs) ds) l.
Proof.
  revert acc. induction ds as [|d ds IH]; intros acc Hn.
  - cbn. split; [reflexivity|]. exists []. rewrite app_nil_r. split; constructor.
  - cbn [fold_m filter]. rewrite state_bind, result_bind.
    destruct (collect_body_run acc d (Hn d (or_introl eq_refl))) as [S R].
    rewrite S.
    assert (Hn' : forall d', In d' ds -> has_manifest fs d' = true -> named fs d' = true)
      by (intros d' Hd'; apply Hn; right; exact Hd').
    destruct (has_manifest fs d).
    + destruct R as (e & -> & Hs).
      destruct (IH (acc ++ [e]) Hn') as (S' & l & -> & F).
      split; [exact S'|]. exists (e :: l).
      rewrite <- app_assoc. split; [reflexivity | constructor; assumption].
    + rewrite R. destruct (IH acc Hn') as (S' & l & -> & F).
      split; [exact S'|]. exists l. split; [reflexivity | exact F].
Qed.

End Collect.

Lemma Forall2_In_r {A B} (P : A -> B -> Prop) (l1 : list A) (l2 : list B) (b : B) :
  Forall2 P l1 l2 -> In b l2 -> exists a, In a l1 /\ P a b.
Proof.
  induction 1 as [|a b' l1 l2 Hp F IH]; intros Hin; [destruct Hin|].
  destruct Hin as [<-|Hin].
  - exists a. split; [left; reflexivity | exact Hp].
  - destruct (IH Hin) as (a0 & Ha & Hp0). exists a0. split; [right|]; assumption.
Qed.

Lemma Permutation_filter_length {A} (f : A -> bool) (l l' : list A) :
  Permutation l l' -> List.length (filter f l) = List.length (filter f l').
Proof.
  induction 1; simpl.
  - reflexivity.
  - destruct (f x); simpl; congruence.
  - destruct (f x), (f y); reflexivity.
  - congruence.
Qed.

(** [collect]: it leaves the tree alone, and it either returns one entry
    per plugin directory or fails on a directory it could not list. *)
Lemma collect_run entry prefix fs dir :
  (forall d m, Dict.mem "name" m = true ->
               exists e, entry d (JObj m) = Ok e /\ sourced prefix d e) ->
  forallb (named fs) (plugin_dirs fs dir) = true ->
  state_of (collect dir entry fs) = fs
  /\ match result_of (collect dir entry fs) with
     | Ok l =>
         List.length l = List.length (plugin_dirs fs dir)
         /\ forall e, In e l -> exists d, In d (plugin_dirs fs dir) /\ sourced prefix d e
     | Raise e => is_OSError e = true
     end.
Proof.
  intros He Hn. unfold collect.
  rewrite state_bind, result_bind, exists_run. cbn [result_of state_of fst snd].
  unfold plugin_dirs, children in *.
  destruct (FS.exists_ fs dir) eqn:Ex; cbn [negb].
  - rewrite state_bind, result_bind, iterdir_result, iterdir_state.
    destruct (FS.listdir fs dir) as [names|e] eqn:Ls;
      [|split; [reflexivity | exact (listdir_raises _ _ _ Ls)]].
    set (ds := map (Path.child dir) names) in *.
    change (fold_m (Path.sorted ds) [] _) with
      (fold_m (Path.sorted ds) [] (collect_body entry)).
    destruct (collect_loop entry prefix He fs (Path.sorted ds) []) as (S & l & R & F).
    { intros d Hd Hm. rewrite forallb_forall in Hn. apply Hn.
      apply filter_In. split; [|exact Hm].
      exact (Permutation_in _ (Path_sorted_perm ds) Hd). }
    split; [exact S|]. rewrite R. cbn [app]. split.
    + rewrite <- (Forall2_length F).
      apply Permutation_filter_length. apply Path_sorted_perm.
    + intros e Hin. destruct (Forall2_In_r _ _ _ _ F Hin) as (d & Hd & Hs).
      exists d. split; [|exact Hs].
      apply filter_In in Hd. destruct Hd as [Hd Hm].
      apply filter_In. split; [|exact Hm].
      exact (Permutation_in _ (Path_sorted_perm ds) Hd).
  - split; [reflexivity|]. cbn.
    unfold FS.listdir. unfold FS.exists_ in Ex.
    destruct (FS.lookup fs dir); [discriminate Ex|].
    cbn. split; [reflexivity | intros e []].
Qed.

End Marketplace.

Module Sources.
Import GenerateMarketplace Marketplace.

(** A source resolves, below the plugin root, to the directory it was
    made from. *)
Lemma resolve_individual pd nm :
  Layout.plain nm = true ->
  pd // ("./individual/" ++ nm) = Path.child (pd // "individual") nm.
Proof.
  intros H. pose proof (Layout.plain_no_slash _ H) as Hs.
  unfold Path.join at 1. cbn [Str.startswith String.prefix append].
  destruct (ascii_dec "/" "."); [discriminate|].
  unfold Path.parts. cbn [Str.split_on Ascii.eqb Bool.eqb append].
  rewrite (Layout.split_no_slash _ Hs). cbn [filter String.eqb Ascii.eqb Bool.eqb negb andb].
  unfold Layout.plain in H.
  apply andb_prop in H. destruct H as [H H3].
  apply andb_prop in H. destruct H as [_ H2].
  rewrite H2, H3. cbn [andb].
  unfold Path.child. change (pd // "individual") with (pd ++ ["individual"]).
  rewrite <- app_assoc. reflexivity.
Qed.

Lemma resolve_bundle pd nm :
  Layout.plain nm = true ->
  pd // ("./bundles/" ++ nm) = Path.child (pd // "bundles") nm.
Proof.
  intros H. pose proof (Layout.plain_no_slash _ H) as Hs.
  unfold Path.join at 1. cbn [Str.startswith String.prefix append].
  destruct (ascii_dec "/" "."); [discriminate|].
  unfold Path.parts. cbn [Str.split_on Ascii.eqb Bool.eqb append].
  rewrite (Layout.split_no_slash _ Hs). cbn [filter String.eqb Ascii.eqb Bool.eqb negb andb].
  unfold Layout.plain in H.
  apply andb_prop in H. destruct H as [H H3].
  apply andb_prop in H. destruct H as [_ H2].
  rewrite H2, H3. cbn [andb].
  unfold Path.child. change (pd // "bundles") with (pd ++ ["bundles"]).
  rewrite <- app_assoc. reflexivity.
Qed.

Lemma plugin_dir_child fs dir d :
  In d (plugin_dirs fs dir) ->
  FS.is_dir fs d = true /\ d = Path.child dir (Path.name d).
Proof.
  unfold plugin_dirs, children, has_manifest. intros H.
  apply filter_In in H. destruct H as [H Hm].
  apply andb_prop in Hm. destruct Hm as [Hd _]. split; [exact Hd|].
  destruct (FS.listdir fs dir); [|destruct H].
  apply in_map_iff in H. destruct H as (nm & <- & _).
  rewrite ValidateRun.name_child. reflexivity.
Qed.

(** Writing the marketplace manifest leaves the plugin directories
    alone. *)
Lemma output_frame root fs fs1 fs2 doc kind nm :
  FS.mkdirs fs (root // ".claude-plugin") = Ok fs1 ->
  FS.write fs1 (root // ".claude-plugin" // "marketplace.json") doc = Ok fs2 ->
  FS.is_dir fs (Path.child (root // ".claude" // "plugins" // kind) nm) = true ->
  Layout.plain kind = true ->
  FS.is_dir fs2 (Path.child (root // ".claude" // "plugins" // kind) nm) = true.
Proof.
  intros M W D Hk.
  rewrite (Layout.join_plain _ kind Hk) in *.
  change (root // ".claude" // "plugins") with ((root ++ [".claude"]) ++ ["plugins"]) in *.
  change (root // ".claude-plugin" // "marketplace.json")
    with ((root ++ [".claude-plugin"]) ++ ["marketplace.json"]) in W.
  change (root // ".claude-plugin") with (root ++ [".claude-plugin"]) in M.
  unfold Path.child in *. repeat rewrite <- app_assoc in *. cbn [app] in *.
  unfold FS.is_dir in *.
  rewrite (write_frame root ".claude-plugin" ".claude" ["marketplace.json"]
             ["plugins"; kind; nm] fs1 fs2 doc) by (discriminate || exact W).
  rewrite (mkdirs_frame root ".claude-plugin" ".claude" [] ["plugins"; kind; nm] fs fs1);
    try exact M; try discriminate; exact D.
Qed.

End Sources.

(** C1, as amended.  When every plugin directory under
    [.claude/plugins/individual] and [.claude/plugins/bundles] (a
    directory that holds [.claude-plugin/plugin.json]) has a manifest that
    is a JSON object with a name, and a name that is a plain directory
    name, generate_marketplace.py, unless it is stopped by an error of
    the operating system, returns after it has written a
    [marketplace.json] whose [plugins] array has one entry per plugin
    directory, each with a source [./individual/<dir>] or
    [./bundles/<dir>] that names, below the plugin root, a directory that
    is there. *)
Theorem marketplace_lists_every_plugin (root : Path.t) (fs : node) :
  let self := GenerateMarketplace.init root in
  let individual :=
    Marketplace.plugin_dirs fs (GenerateMarketplace.plugins_dir self // "individual") in
  let bundles :=
    Marketplace.plugin_dirs fs (GenerateMarketplace.plugins_dir self // "bundles") in
  forallb (Marketplace.named fs) (individual ++ bundles) = true ->
  forallb (fun d => Layout.plain (Path.name d)) (individual ++ bundles) = true ->
  let run := GenerateMarketplace.main root fs in
  (forall e, result_of run = Raise e -> is_OSError e = false) ->
  result_of run = Ok tt
  /\ exists entries,
      FS.read (state_of run) (GenerateMarketplace.marketplace_file self)
      = Ok (Json (GenerateMarketplace.marketplace_document entries))
      /\ List.length entries = (List.length individual + List.length bundles)%nat
      /\ forall entry, In entry entries ->
           exists s,
             Py.getitem entry "source" = Ok (JStr s)
             /\ FS.is_dir (state_of run) (GenerateMarketplace.plugins_dir self // s) = true.
Proof.
  intros self individual bundles Hn Hp run Hos.
  rewrite forallb_app in Hn, Hp.
  apply andb_prop in Hn, Hp. destruct Hn as [Hni Hnb], Hp as [Hpi Hpb].
  subst run. unfold GenerateMarketplace.main, GenerateMarketplace.generate in *.
  fold self in Hos |- *.
  unfold GenerateMarketplace._collect_individual_plugins,
    GenerateMarketplace._collect_bundle_plugins in *.
  destruct (Marketplace.collect_run _ "./individual/" fs _
              Marketplace.individual_entry_sourced Hni) as [S1 R1].
  fold individual in R1.
  rewrite result_bind, state_bind in *. rewrite S1 in *.
  destruct (result_of (GenerateMarketplace.collect _ GenerateMarketplace.individual_entry fs))
    as [li|e]; [|rewrite (Hos e eq_refl) in R1; discriminate R1].
  destruct R1 as [Li Si].
  destruct (Marketplace.collect_run _ "./bundles/" fs _
              Marketplace.bundle_entry_sourced Hnb) as [S2 R2].
  fold bundles in R2.
  rewrite result_bind, state_bind in *. rewrite S2 in *.
  destruct (result_of (GenerateMarketplace.collect _ GenerateMarketplace.bundle_entry fs))
    as [lb|e]; [|rewrite (Hos e eq_refl) in R2; discriminate R2].
  destruct R2 as [Lb Sb].
  cbv zeta in *.
  rewrite result_bind, state_bind in *.
  assert (Hparent : Path.parent (GenerateMarketplace.marketplace_file self)
                    = root // ".claude-plugin").
  { unfold Path.parent. cbn [GenerateMarketplace.marketplace_file self
                              GenerateMarketplace.init].
    change (root // ".claude-plugin" // "marketplace.json")
      with ((root // ".claude-plugin") ++ ["marketplace.json"]).
    apply removelast_last. }
  rewrite Hparent in *. unfold IO.mkdir in *.
  destruct (FS.mkdirs fs (root // ".claude-plugin")) as [fs1|e] eqn:Mk;
    cbn [result_of state_of fst snd] in *;
    [|pose proof (mkdirs_raises _ _ _ Mk) as Hm; rewrite (Hos e eq_refl) in Hm;
      discriminate Hm].
  unfold IO.json_dump, IO.write in *.
  destruct (FS.write fs1 (GenerateMarketplace.marketplace_file self)
              (Json (GenerateMarketplace.marketplace_document (li ++ lb))))
    as [fs2|e] eqn:Wr; cbn [result_of state_of fst snd] in *;
    [|pose proof (write_raises _ _ _ _ Wr) as Hw; rewrite (Hos e eq_refl) in Hw;
      discriminate Hw].
  split; [reflexivity|]. exists (li ++ lb).
  split; [exact (write_then_read _ _ _ _ Wr)|].
  split; [rewrite length_app, Li, Lb; reflexivity|].
  intros entry Hin. apply in_app_or in Hin.
  rewrite forallb_forall in Hpi, Hpb.
  destruct Hin as [Hin|Hin].
  - destruct (Si entry Hin) as (d & Hd & Hs).
    destruct (Sources.plugin_dir_child _ _ _ Hd) as [Hdir Hch].
    eexists. split; [exact Hs|].
    rewrite (Sources.resolve_individual _ _ (Hpi d Hd)).
    apply (Sources.output_frame root fs fs1 fs2 _ "individual" (Path.name d) Mk Wr);
      [|reflexivity].
    change (FS.is_dir fs (Path.child (GenerateMarketplace.plugins_dir self // "individual")
                            (Path.name d)) = true).
    rewrite <- Hch. exact Hdir.
  - destruct (Sb entry Hin) as (d & Hd & Hs).
    destruct (Sources.plugin_dir_child _ _ _ Hd) as [Hdir Hch].
    eexists. split; [exact Hs|].
    rewrite (Sources.resolve_bundle _ _ (Hpb d Hd)).
    apply (Sources.output_frame root fs fs1 fs2 _ "bundles" (Path.name d) Mk Wr);
      [|reflexivity].
    change (FS.is_dir fs (Path.child (GenerateMarketplace.plugins_dir self // "bundles")
                            (Path.name d)) = true).
    rewrite <- Hch. exact Hdir.
Qed.

(* ================================================================== *)
(** ** Copying files into one directory from elsewhere *)

Lemma Str_append_assoc (a b c : string) : ((a ++ b) ++ c = a ++ (b ++ c))%string.
Proof. induction a as [|x a IH]; simpl; [reflexivity | rewrite IH; reflexivity]. Qed.



(** Two paths that part at some component. *)
Definition diverge (p q : Path.t) : Prop :=
  exists l a b r r', a <> b /\ p = l ++ a :: r /\ q = l ++ b :: r'.





Section Copying.

(** The directory written into, and the tree the sources are read from. *)
Variable dir : Path.t.
Variable fs0 : node.











End Copying.

(* ================================================================== *)
(** ** generate_bundle.py: the aggregated commands *)

Module Aggregation.
Import GenerateBundle.

(** [<repo>/.claude/plugins/individual/<skill>/commands] *)
Definition individual_commands (root : Path.t) (skill : string) : Path.t :=
  root // ".claude" // "plugins" // "individual" // skill // "commands".



(** No skill name followed by a dash starts another one followed by a dash. *)
Definition prefix_free (names : list string) : bool :=
  forallb (fun a =>
    forallb (fun b => String.eqb a b || negb (String.prefix (a ++ "-") (b ++ "-"))) names)
    names.

Lemma skills_of_bundles name c :
  lookup_bundle name BUNDLES = Some c ->
  prefix_free (skills c) = true /\ forallb Layout.plain (skills c) = true.
Proof.
  unfold BUNDLES. cbn [lookup_bundle].
  repeat match goal with
         | |- (if String.eqb name ?k then _ else _) = _ -> _ =>
             destruct (String.eqb name k);
             [intros [= <-]; split; vm_compute; reflexivity |]
         end.
  discriminate.
Qed.


Lemma plain_prefixed skill nm :
  Layout.plain skill = true -> Layout.no_slash nm = true ->
  Layout.plain (skill ++ "-" ++ nm) = true.
Proof.
  intros Hs Hn. pose proof (Layout.plain_no_slash _ Hs) as Hs'.
  unfold Layout.plain. rewrite !Layout.no_slash_app, Hs', Hn.
  destruct skill as [|c [|c' s]]; [discriminate Hs | |].
  - simpl. destruct (Ascii.eqb c "."); reflexivity.
  - simpl. destruct (Ascii.eqb c "."); reflexivity.
Qed.




Lemma init_self name root fs0 self :
  result_of (init name root fs0) = Ok self ->
  exists c,
    lookup_bundle name BUNDLES = Some c
    /\ self = {| bundle_name := name;
                 repo_root := root;
                 config := c;
                 bundle_dir := root // ".claude" // "plugins" // "bundles" // name |}.
Proof.
  unfold init.
  destruct (lookup_bundle name BUNDLES) as [c|]; [|discriminate].
  intros H. exists c. split; [reflexivity|].
  cbn in H. injection H as <-. reflexivity.
Qed.







End Aggregation.


(* ================================================================== *)
(** * The claims on the sample repositories *)

(** C1: on the sample marketplace, two plugin directories give two entries. *)
Lemma marketplace_lists_every_plugin_witness :
  let run := GenerateMarketplace.main Examples.repo Examples.marketplace_tree in
  result_of run = Ok tt
  /\ exists entries,
      FS.read (state_of run) ["repo"; ".claude-plugin"; "marketplace.json"]
      = Ok (Json (GenerateMarketplace.marketplace_document entries))
      /\ List.length entries = 2%nat.
Proof.
  destruct (marketplace_lists_every_plugin Examples.repo Examples.marketplace_tree)
    as (R & entries & Hread & Hlen & _).
  - reflexivity.
  - reflexivity.
  - intros e H. vm_compute in H. discriminate H.
  - split; [exact R|]. exists entries. split; [exact Hread | exact Hlen].
Defined.

(** C1, the claim as stated fails: a plugin directory whose
    [plugin.json] is an object without a name stops the generator with a
    [KeyError], and no [marketplace.json] is written. *)
Lemma marketplace_stops_at_nameless_manifest :
  let self := GenerateMarketplace.init Examples.repo in
  let run := GenerateMarketplace.main Examples.repo Examples.nameless_tree in
  Marketplace.plugin_dirs Examples.nameless_tree
    (GenerateMarketplace.plugins_dir self // "individual")
  = [["repo"; ".claude"; "plugins"; "individual"; "threejs-webgl"]]
  /\ result_of run = Raise KeyError
  /\ FS.exists_ (state_of run) (GenerateMarketplace.marketplace_file self) = false.
Proof. repeat split. Qed.

(** C3: a second run on the sample manifest changes nothing. *)
Lemma fix_plugin_manifest_twice_witness :
  let once :=
    state_of (FixPluginManifests.fix_plugin_manifest ["plugin.json"] Examples.flat_tree) in
  FS.read once ["plugin.json"]
  = Ok (Json (JObj [("name", JStr "p"); ("repository", JStr "u");
                    ("commands", JStr "./commands/"); ("agents", JStr "./agents/")]))
  /\ state_of (FixPluginManifests.fix_plugin_manifest ["plugin.json"] once) = once.
Proof.
  split; [reflexivity|].
  apply (fix_plugin_manifest_twice Examples.flat_tree ["plugin.json"]).
  intros manifest H. injection H as <-.
  intros repository url Hr Hu.
  injection Hr as <-. injection Hu as <-. reflexivity.
Defined.

(** C3, the claim as stated fails: when the url of the repository is
    itself an object with a url, the first run leaves an object as the
    repository and the second run replaces it again. *)
Lemma fix_plugin_manifest_not_idempotent :
  let once :=
    state_of (FixPluginManifests.fix_plugin_manifest ["plugin.json"] Examples.nested_tree) in
  let twice := state_of (FixPluginManifests.fix_plugin_manifest ["plugin.json"] once) in
  FS.read once ["plugin.json"] = Ok (Json (JObj [("repository", JObj [("url", JStr "u")])]))
  /\ FS.read twice ["plugin.json"] = Ok (Json (JObj [("repository", JStr "u")]))
  /\ twice <> once.
Proof. repeat split. discriminate. Qed.

(** C4: the sample plugin directory without a manifest is reported. *)
Lemma missing_manifest_reported_witness :
  let run :=
    ValidateMarketplace.main Examples.repo (ValidateMarketplace.init Examples.missing_tree) in
  exit_code (result_of run) = 1%Z
  /\ In "b: plugin.json not found" (ValidateMarketplace.errors (state_of run)).
Proof.
  destruct (missing_manifest_reported Examples.repo Examples.missing_tree "individual" "b")
    as [E H].
  - left. reflexivity.
  - reflexivity.
  - reflexivity.
  - split; [exact E|]. apply H. exists 1%Z. reflexivity.
Defined.

(** C4, the claim as stated fails: the validator ends in an uncaught
    [AttributeError] at the plugin [a], whose manifest is a JSON array;
    the plugin directory [b], which has no manifest, is never looked at
    and no entry of the error list names it. *)
Lemma missing_manifest_not_reached :
  let dir := ValidateMarketplace.plugins_dir Examples.repo // "individual" in
  let run :=
    ValidateMarketplace.main Examples.repo (ValidateMarketplace.init Examples.array_tree) in
  FS.is_dir Examples.array_tree (Path.child dir "b") = true
  /\ FS.exists_ Examples.array_tree
       (Path.child dir "b" // ".claude-plugin" // "plugin.json") = false
  /\ result_of run = Raise AttributeError
  /\ ValidateMarketplace.errors (state_of run)
     = ["marketplace.json not found";
        "a: Missing required directory 'skills'";
        "a: plugin.json missing 'name'";
        "a: plugin.json missing 'version'";
        "a: plugin.json missing 'description'"].
Proof. repeat split. Qed.

(** C2: the manifest of the sample skill carries the name of its directory. *)
Lemma manifest_named_after_directory_witness :
  exists self doc,
    result_of (GeneratePlugin.init "threejs-webgl" Examples.repo Examples.skills_tree) = Ok self
    /\ FS.read (state_of (GeneratePlugin._generate_manifest self Examples.skills_tree))
         ["repo"; ".claude"; "plugins"; "individual"; "threejs-webgl";
          ".claude-plugin"; "plugin.json"]
       = Ok (Json doc)
    /\ Py.getitem doc "name" = Ok (JStr "threejs-webgl").
Proof.
  eexists.
  assert (Hinit : result_of (GeneratePlugin.init "threejs-webgl" Examples.repo Examples.skills_tree)
                  = Ok _) by (vm_compute; reflexivity).
  destruct (proj1 manifest_named_after_directory
              "threejs-webgl" Examples.repo Examples.skills_tree _ Examples.skills_tree
              eq_refl Hinit eq_refl) as (_ & doc & Hread & Hname).
  exists doc. split; [exact Hinit|]. split; [exact Hread | exact Hname].
Defined.

(** C2, the claim as stated fails: given the skill as [./threejs-webgl],
    generate_plugin.py runs to its end and writes, into the directory
    [threejs-webgl], a manifest whose name is [./threejs-webgl]. *)
Lemma manifest_named_after_argument :
  let run :=
    GeneratePlugin.main ["generate_plugin.py"; "./threejs-webgl"]
      Examples.repo Examples.skills_tree in
  let p := ["repo"; ".claude"; "plugins"; "individual"; "threejs-webgl";
            ".claude-plugin"; "plugin.json"] in
  result_of run = Ok tt
  /\ In (Wrote p) (trace_of run)
  /\ Path.name (Path.parent (Path.parent p)) = "threejs-webgl"
  /\ exists doc,
      FS.read (state_of run) p = Ok (Json doc)
      /\ Py.getitem doc "name" = Ok (JStr "./threejs-webgl").
Proof.
  split; [vm_compute; reflexivity|].
  split; [vm_compute; tauto|].
  split; [reflexivity|].
  eexists. split; vm_compute; reflexivity.
Qed.

(** C5: the sample skill with two scripts gets one command per script,
    two different files, the one without scripts gets the two generic
    commands. *)
Lemma commands_per_script_witness :
  (exists self,
      result_of (GeneratePlugin.init "threejs-webgl" Examples.repo Examples.skills_tree) = Ok self
      /\ FS.glob Examples.skills_tree (GeneratePlugin.skill_dir self // "scripts") ".py"
         = ["setup_scene.py"; "export.py"]
      /\ trace_of (GeneratePlugin._generate_commands self Examples.skills_tree)
         = [Wrote ["repo"; ".claude"; "plugins"; "individual"; "threejs-webgl"; "commands";
                   "setup_scene.md"];
            Wrote ["repo"; ".claude"; "plugins"; "individual"; "threejs-webgl"; "commands";
                   "export.md"]]
      /\ NoDup ["setup_scene.md"; "export.md"])
  /\ (exists self,
         result_of (GeneratePlugin.init "plain" Examples.repo Examples.skills_tree) = Ok self
         /\ FS.glob Examples.skills_tree (GeneratePlugin.skill_dir self // "scripts") ".py" = []
         /\ trace_of (GeneratePlugin._generate_commands self Examples.skills_tree)
            = [Wrote ["repo"; ".claude"; "plugins"; "individual"; "plain"; "commands";
                      "setup.md"];
               Wrote ["repo"; ".claude"; "plugins"; "individual"; "plain"; "commands";
                      "help.md"]]).
Proof.
  split.
  - eexists.
    assert (Hinit : result_of (GeneratePlugin.init "threejs-webgl" Examples.repo
                                 Examples.skills_tree) = Ok _) by (vm_compute; reflexivity).
    split; [exact Hinit|]. split; [reflexivity|].
    match type of Hinit with
    | _ = Ok ?s =>
        destruct (commands_per_script s Examples.skills_tree eq_refl eq_refl)
          as (_ & T & _ & D)
    end.
    split; [exact T|].
    refine (proj1 (D _)). vm_compute.
    repeat (constructor; [cbn [In]; intuition discriminate|]). constructor.
  - eexists.
    assert (Hinit : result_of (GeneratePlugin.init "plain" Examples.repo
                                 Examples.skills_tree) = Ok _) by (vm_compute; reflexivity).
    split; [exact Hinit|]. split; [reflexivity|].
    match type of Hinit with
    | _ = Ok ?s =>
        destruct (commands_per_script s Examples.skills_tree eq_refl eq_refl) as (_ & T & _)
    end.
    exact T.
Defined.

(** C5, the claim as stated fails.  The scripts [.py] and [.py.py] have
    the stem [.py]: the generator writes [.py.md] twice and the commands
    directory holds one file for the two scripts.  And where the
    commands directory holds a directory under the name of the command
    of a script, the generator ends in [IsADirectoryError] and has
    written no file for it. *)
Lemma two_scripts_one_command :
  (exists self,
      result_of (GeneratePlugin.init "plain" Examples.repo Examples.same_stem_tree) = Ok self
      /\ FS.glob Examples.same_stem_tree (GeneratePlugin.skill_dir self // "scripts") ".py"
         = [".py"; ".py.py"]
      /\ let run := GeneratePlugin._generate_commands self Examples.same_stem_tree in
         result_of run = Ok tt
         /\ trace_of run
            = [Wrote ["repo"; ".claude"; "plugins"; "individual"; "plain"; "commands"; ".py.md"];
               Wrote ["repo"; ".claude"; "plugins"; "individual"; "plain"; "commands"; ".py.md"]]
         /\ FS.listdir (state_of run)
              ["repo"; ".claude"; "plugins"; "individual"; "plain"; "commands"]
            = Ok [".py.md"])
  /\ (exists self,
         result_of (GeneratePlugin.init "plain" Examples.repo Examples.occupied_tree) = Ok self
         /\ FS.glob Examples.occupied_tree (GeneratePlugin.skill_dir self // "scripts") ".py"
            = ["export.py"]
         /\ GeneratePlugin._generate_commands self Examples.occupied_tree
            = (Raise IsADirectoryError, Examples.occupied_tree, [])).
Proof.
  split; eexists; (split; [vm_compute; reflexivity|]);
    (split; [reflexivity|]); cbv zeta; repeat split; vm_compute; reflexivity.
Qed.

(** C6: the legacy manifest of the sample plugin [p], under [plugins],
    and the one of the sample plugin [q], under [.claude/plugins]. *)
Lemma fixers_division_of_work_witness :
  let plugin_dir := ["repo"; "plugins"; "individual"; "p"] in
  let other_dir := ["repo"; ".claude"; "plugins"; "individual"; "q"] in
  (exists d',
      FS.read (state_of (FixAgentCommandPaths.fix_plugin_manifest plugin_dir
                           Examples.two_roots_tree))
              (plugin_dir // ".claude-plugin" // "plugin.json") = Ok (Json (JObj d'))
      /\ Dict.get "commands" d' = Some (JArr [JStr "./commands/a.md"; JStr "./commands/b.md"])
      /\ Dict.get "category" d' = Some (JStr "c"))
  /\ (exists d',
         FS.read (state_of (FixPluginManifests.fix_plugin_manifest
                              (other_dir // ".claude-plugin" // "plugin.json")
                              Examples.two_roots_tree))
                 (other_dir // ".claude-plugin" // "plugin.json") = Ok (Json (JObj d'))
         /\ Dict.get "category" d' = None
         /\ Dict.get "bundle" d' = None
         /\ Dict.get "includes" d' = None).
Proof.
  split.
  - destruct (proj1 fixers_division_of_work Examples.two_roots_tree
                ["repo"; "plugins"; "individual"; "p"] Examples.legacy "commands" "commands/"
                (or_introl eq_refl) eq_refl eq_refl eq_refl) as (d' & R & G & K).
    + discriminate.
    + exists d'. split; [exact R|]. split; [exact G|].
      rewrite K; [reflexivity | discriminate | discriminate].
  - destruct (proj2 fixers_division_of_work Examples.two_roots_tree
                ["repo"; ".claude"; "plugins"; "individual"; "q"] Examples.legacy eq_refl)
      as (_ & d' & R & H).
    + intros r [= <-]. reflexivity.
    + exists d'. split; [exact R | exact H].
Defined.

(** C6, the claim as stated fails: after both fixers have run on the
    sample repository, the manifest of [p], under [plugins], has its
    commands as an array and still carries [category], [bundle] and
    [includes], and the manifest of [q], under [.claude/plugins], has lost
    the three keys and still has a string as its commands, although
    [q/commands] holds a [.md] file. *)
Lemma fixers_do_not_meet :
  let after :=
    state_of (FixPluginManifests.main Examples.repo
                (state_of (FixAgentCommandPaths.main Examples.repo Examples.two_roots_tree))) in
  FS.glob Examples.two_roots_tree [ "repo"; ".claude"; "plugins"; "individual"; "q"; "commands" ]
          ".md" = ["b.md"]
  /\ FS.read after ["repo"; "plugins"; "individual"; "p"; ".claude-plugin"; "plugin.json"]
     = Ok (Json (JObj [("name", JStr "p");
                       ("repository", JObj [("type", JStr "git"); ("url", JStr "u")]);
                       ("category", JStr "c"); ("bundle", JBool false); ("includes", JArr []);
                       ("commands", JArr [JStr "./commands/a.md"; JStr "./commands/b.md"]);
                       ("agents", JStr "agents/")]))
  /\ FS.read after ["repo"; ".claude"; "plugins"; "individual"; "q"; ".claude-plugin";
                    "plugin.json"]
     = Ok (Json (JObj [("name", JStr "p"); ("repository", JStr "u");
                       ("commands", JStr "./commands/"); ("agents", JStr "./agents/")])).
Proof. repeat split. Qed.

(** C7: given the one skill of the sample repository whose plugins
    directory is a file, generate_plugin.py ends in the
    [NotADirectoryError] of the structure step and exits with code 1,
    and so does generate_bundle.py given one bundle. *)
Lemma exit_codes_witness :
  (exists self,
      result_of (GeneratePlugin.init "plain" Examples.repo Examples.blocked_tree) = Ok self
      /\ result_of (GeneratePlugin.generate self Examples.blocked_tree)
         = Raise NotADirectoryError)
  /\ result_of (GeneratePlugin.main ["generate_plugin.py"; "plain"]
                  Examples.repo Examples.blocked_tree) = Raise NotADirectoryError
  /\ exit_code (result_of (GeneratePlugin.main ["generate_plugin.py"; "plain"]
                             Examples.repo Examples.blocked_tree)) = 1%Z
  /\ exit_code (result_of (GenerateBundle.main ["generate_bundle.py"; "meta-skills"]
                             Examples.repo Examples.blocked_tree)) = 1%Z.
Proof.
  destruct exit_codes as (_ & _ & _ & _ & _ & _ & _ & _ & _ & Hp & Hb & _).
  assert (Hinit : result_of (GeneratePlugin.init "plain" Examples.repo Examples.blocked_tree)
                  = Ok _) by (vm_compute; reflexivity).
  assert (Hbinit : result_of (GenerateBundle.init "meta-skills" Examples.repo
                                Examples.blocked_tree) = Ok _) by (vm_compute; reflexivity).
  match type of Hinit with
  | _ = Ok ?s =>
      assert (Hg : result_of (GeneratePlugin.generate s
                                (state_of (GeneratePlugin.init "plain" Examples.repo
                                             Examples.blocked_tree)))
                   = Raise NotADirectoryError) by (vm_compute; reflexivity);
      destruct (Hp "generate_plugin.py" "plain" [] Examples.repo Examples.blocked_tree s
                  NotADirectoryError ltac:(discriminate) Hinit Hg) as [R X]
  end.
  match type of Hbinit with
  | _ = Ok ?s =>
      assert (Hbg : result_of (GenerateBundle.generate s
                                 (state_of (GenerateBundle.init "meta-skills" Examples.repo
                                              Examples.blocked_tree)))
                    = Raise NotADirectoryError) by (vm_compute; reflexivity);
      destruct (Hb "generate_bundle.py" "meta-skills" [] Examples.repo Examples.blocked_tree s
                  NotADirectoryError ltac:(discriminate) Hbinit Hbg) as [_ Xb]
  end.
  split; [eexists; split; [exact Hinit | vm_compute; reflexivity]|].
  split; [exact R|]. split; [exact X | exact Xb].
Defined.

(** C7, the claim as stated fails: with [--all], both generators exit
    with code 0 although the generation of every target raised (the
    plugins directory is a file, so creating the structure fails). *)
Lemma all_mode_exits_zero_after_exception :
  (exists self,
      result_of (GeneratePlugin.init "plain" Examples.repo Examples.blocked_tree) = Ok self
      /\ result_of (GeneratePlugin.generate self Examples.blocked_tree)
         = Raise NotADirectoryError)
  /\ exit_code (result_of (GeneratePlugin.main ["generate_plugin.py"; "--all"]
                             Examples.repo Examples.blocked_tree)) = 0%Z
  /\ (exists self,
         result_of (GenerateBundle.init "meta-skills" Examples.repo Examples.blocked_tree)
         = Ok self
         /\ result_of (GenerateBundle.generate self Examples.blocked_tree)
            = Raise NotADirectoryError)
  /\ exit_code (result_of (GenerateBundle.main ["generate_bundle.py"; "--all"]
                             Examples.repo Examples.blocked_tree)) = 0%Z.
Proof.
  split; [eexists; split; vm_compute; reflexivity|].
  split; [vm_compute; reflexivity|].
  split; [eexists; split; vm_compute; reflexivity|].
  vm_compute; reflexivity.
Qed.


(** C9: the sample manifest whose commands are an array already. *)
Lemma manifest_untouched_without_conversion_witness :
  let plugin_dir := ["repo"; "plugins"; "individual"; "p"] in
  let run := FixAgentCommandPaths.fix_plugin_manifest plugin_dir Examples.converted_tree in
  Conversion.converts Examples.converted_tree plugin_dir "commands" = false
  /\ Conversion.converts Examples.converted_tree plugin_dir "agents" = false
  /\ state_of run = Examples.converted_tree
  /\ forall p, ~ In (Wrote p) (trace_of run).
Proof.
  split; [reflexivity|]. split; [reflexivity|].
  apply (manifest_untouched_without_conversion Examples.converted_tree
           ["repo"; "plugins"; "individual"; "p"]); reflexivity.
Defined.

(** C10: the manifests the two fixers read on the sample repository. *)
Lemma fixers_visit_disjoint_trees_witness :
  let e := Read ["repo"; ".claude"; "plugins"; "individual"; "q"; ".claude-plugin";
                 "plugin.json"] in
  let e' := Read ["repo"; "plugins"; "individual"; "p"; ".claude-plugin"; "plugin.json"] in
  In e (trace_of (FixPluginManifests.main Examples.repo Examples.two_roots_tree))
  /\ In e' (trace_of (FixAgentCommandPaths.main Examples.repo Examples.two_roots_tree))
  /\ Visits.opens_manifest_under (Examples.repo // ".claude" // "plugins") e
  /\ Visits.opens_manifest_under (Examples.repo // "plugins") e'
  /\ Visits.file_of e <> Visits.file_of e'.
Proof.
  assert (H : In (Read ["repo"; ".claude"; "plugins"; "individual"; "q"; ".claude-plugin";
                        "plugin.json"])
                 (trace_of (FixPluginManifests.main Examples.repo Examples.two_roots_tree)))
    by (left; reflexivity).
  assert (H' : In (Read ["repo"; "plugins"; "individual"; "p"; ".claude-plugin"; "plugin.json"])
                  (trace_of (FixAgentCommandPaths.main Examples.repo Examples.two_roots_tree)))
    by (left; reflexivity).
  split; [exact H|]. split; [exact H'|].
  exact (fixers_visit_disjoint_trees Examples.repo Examples.two_roots_tree
           Examples.two_roots_tree _ _ H H').
Defined.


(* ================================================================== *)
(** * Further properties of the scripts *)

(** ** fix_plugin_manifests.py: one manifest *)

Module Repair.
Import FixPluginManifests FixDocument.

(** The run of [fix_plugin_manifest], case by case. *)
Lemma fix_plugin_manifest_run (p : Path.t) (fs : node) :
  fix_plugin_manifest p fs =
  match FS.read fs p with
  | Ok (Json m) =>
      match fix_document m with
      | Ok m' =>
          match FS.write fs p (Json m') with
          | Ok fs' => (Ok tt, fs', [Read p; Wrote p])
          | Raise e => (Raise e, fs, [Read p])
          end
      | Raise e => (Raise e, fs, [Read p])
      end
  | Ok (Text _) => (Raise JSONDecodeError, fs, [Read p])
  | Raise e => (Raise e, fs, [])
  end.
Proof.
  unfold fix_plugin_manifest, bind. rewrite json_load_run.
  destruct (FS.read fs p) as [[s|m]|e]; try reflexivity.
  unfold lift.
  destruct (fix_document m) as [m'|e]; [|reflexivity].
  unfold IO.json_dump, IO.write.
  destruct (FS.write fs p (Json m')); reflexivity.
Qed.

(** What the fixer leaves under each key of the document. *)
Definition fixed (d : Dict.t) (k : string) : option JSON :=
  if existsb (String.eqb k) ["category"; "bundle"; "includes"] then None
  else if String.eqb k "author" then
    match Dict.get "author" d with
    | Some (JStr s) =>
        Some (JObj [("name", JStr s); ("email", JStr "oladotun.olatunji@gmail.com")])
    | other => other
    end
  else if String.eqb k "repository" then
    match Dict.get "repository" d with
    | Some (JObj r) => Dict.get "url" r
    | other => other
    end
  else if existsb (String.eqb k) ["commands"; "agents"; "skills"] then
    match Dict.get k d with
    | Some (JStr s) => Some (JStr (if Str.startswith s "./" then s else ("./" ++ s)%string))
    | other => other
    end
  else Dict.get k d.

End Repair.

(** X1 [fix_plugin_manifest] of fix_plugin_manifests.py is all or
    nothing: when it returns, it has read the file once and written it
    once, and the file holds the repaired document; when it raises, at
    whatever step, the tree is the one it started from and nothing was
    written. *)
Theorem fix_plugin_manifest_all_or_nothing (p : Path.t) (fs : node) :
  let run := FixPluginManifests.fix_plugin_manifest p fs in
  match result_of run with
  | Ok _ =>
      trace_of run = [Read p; Wrote p]
      /\ exists m m',
          FS.read fs p = Ok (Json m)
          /\ FixPluginManifests.fix_document m = Ok m'
          /\ FS.read (state_of run) p = Ok (Json m')
  | Raise _ => state_of run = fs /\ forall q, ~ In (Wrote q) (trace_of run)
  end.
Proof.
  cbv zeta. rewrite Repair.fix_plugin_manifest_run.
  destruct (FS.read fs p) as [[s|m]|e] eqn:R.
  - cbn. split; [reflexivity|]. intros q [H|[]]. discriminate H.
  - destruct (FixPluginManifests.fix_document m) as [m'|e] eqn:F.
    + destruct (FS.write fs p (Json m')) as [fs'|e] eqn:W.
      * cbn. split; [reflexivity|]. exists m, m'.
        split; [reflexivity|]. split; [exact F|]. exact (write_then_read _ _ _ _ W).
      * cbn. split; [reflexivity|]. intros q [H|[]]. discriminate H.
    + cbn. split; [reflexivity|]. intros q [H|[]]. discriminate H.
  - cbn. split; [reflexivity|]. intros q [].
Qed.

(** X2 The repair of a manifest, key by key: [category], [bundle] and
    [includes] are gone; an author that is a string has become an object
    with that name and the fixed e-mail address; a repository that is an
    object has become its url; [commands], [agents] and [skills] that
    are strings start with [./]; every other key, and every value of
    another type under these keys, is as it was. *)
Theorem fix_document_key_by_key (d : Dict.t) (m' : JSON) :
  FixPluginManifests.fix_document (JObj d) = Ok m' ->
  exists d', m' = JObj d' /\ forall k, Dict.get k d' = Repair.fixed d k.
Proof.
  unfold FixPluginManifests.fix_document.
  rewrite FixDocument.fix_author_dict. cbn [rbind].
  rewrite FixDocument.fix_repository_dict.
  destruct (FixDocument.repository_step (FixDocument.author_step d)) as [d2|e] eqn:R;
    cbn [rbind]; [|discriminate].
  rewrite FixDocument.fix_dot_slash_dict. cbn [rbind].
  rewrite FixDocument.fix_dot_slash_dict. cbn [rbind].
  rewrite FixDocument.fix_dot_slash_dict. cbn [rbind].
  rewrite FixDocument.remove_fields_dict. intros [= <-].
  eexists. split; [reflexivity|]. intros k.
  rewrite !Dict_get_del. unfold Repair.fixed. cbn [existsb orb].
  destruct (String.eqb k "category"), (String.eqb k "bundle"), (String.eqb k "includes");
    cbn [orb]; try reflexivity.
  pose proof (fun k => FixDocument.get_repository_step k _ _ R) as GR.
  rewrite !FixDocument.get_dot_slash_step, !GR, !FixDocument.get_author_step.
  cbn [existsb].
  destruct (String.eqb k "author") eqn:Ea;
    [apply String.eqb_eq in Ea; subst k; reflexivity|].
  destruct (String.eqb k "repository") eqn:Er;
    [apply String.eqb_eq in Er; subst k; reflexivity|].
  destruct (String.eqb k "commands") eqn:Ec;
    [apply String.eqb_eq in Ec; subst k; cbn;
     destruct (Dict.get "commands" d) as [[]|]; reflexivity|].
  destruct (String.eqb k "agents") eqn:Eg;
    [apply String.eqb_eq in Eg; subst k; cbn;
     destruct (Dict.get "agents" d) as [[]|]; reflexivity|].
  destruct (String.eqb k "skills") eqn:Es;
    [apply String.eqb_eq in Es; subst k; cbn;
     destruct (Dict.get "skills" d) as [[]|]; reflexivity|].
  reflexivity.
Qed.

(** X3 A manifest whose repository is an object without a url stops
    [fix_plugin_manifest] of fix_plugin_manifests.py with a [KeyError]
    after the file was read; the file is not written. *)
Theorem repository_without_url_is_a_KeyError
    (p : Path.t) (fs : node) (d r : Dict.t) :
  FS.read fs p = Ok (Json (JObj d)) ->
  Dict.get "repository" d = Some (JObj r) ->
  Dict.get "url" r = None ->
  FixPluginManifests.fix_plugin_manifest p fs = (Raise KeyError, fs, [Read p]).
Proof.
  intros Hr Hd Hu. rewrite Repair.fix_plugin_manifest_run, Hr.
  unfold FixPluginManifests.fix_document.
  rewrite FixDocument.fix_author_dict. cbn [rbind].
  rewrite FixDocument.fix_repository_dict.
  unfold FixDocument.repository_step.
  rewrite FixDocument.get_author_step. cbn [String.eqb Ascii.eqb Bool.eqb].
  rewrite Hd, Hu. reflexivity.
Qed.

(* ================================================================== *)
(** ** fix_agent_command_paths.py: one manifest *)

Module Again.
Import FixAgentCommandPaths Conversion.

(** Without a conversion the manifest is not written. *)
Lemma unconverted_untouched (fs : node) (plugin_dir : Path.t) :
  converts fs plugin_dir "commands" = false ->
  converts fs plugin_dir "agents" = false ->
  state_of (fix_plugin_manifest plugin_dir fs) = fs
  /\ forall p, ~ In (Wrote p) (trace_of (fix_plugin_manifest plugin_dir fs)).
Proof.
  intros Hc Ha.
  assert (Hno : forall q p, ~ In (Wrote p) ([Read q] ++ [])).
  { intros q p [H|[]]; discriminate H. }
  unfold fix_plugin_manifest. cbv zeta.
  rewrite state_bind, trace_bind, exists_run.
  cbn [result_of state_of trace_of fst snd app].
  destruct (negb _); [split; [reflexivity | intros p []]|].
  rewrite state_bind, trace_bind, json_load_run.
  unfold converts in Hc, Ha.
  destruct (FS.read fs (plugin_dir // ".claude-plugin" // "plugin.json"))
    as [[s|m]|e]; cbn [result_of state_of trace_of fst snd];
    try (split; [reflexivity | intros p [H|[]]; discriminate H]);
    try (split; [reflexivity | intros p []]).
  rewrite state_bind, trace_bind.
  destruct (fix_field_quiet plugin_dir "commands" (m, false) fs) as [S1 T1].
  rewrite S1, T1.
  destruct (result_of (fix_field plugin_dir "commands" (m, false) fs))
    as [[m1 c1]|e] eqn:R1; [|split; [reflexivity | apply Hno]].
  destruct (fix_field_result _ _ _ _ _ _ _ R1) as [[-> ->] | [Happ _]];
    [|rewrite Happ in Hc; discriminate Hc].
  rewrite state_bind, trace_bind.
  destruct (fix_field_quiet plugin_dir "agents" (m, false) fs) as [S2 T2].
  rewrite S2, T2.
  destruct (result_of (fix_field plugin_dir "agents" (m, false) fs))
    as [[m2 c2]|e] eqn:R2; [|split; [reflexivity | apply Hno]].
  destruct (fix_field_result _ _ _ _ _ _ _ R2) as [[-> ->] | [Happ _]];
    [|rewrite Happ in Ha; discriminate Ha].
  split; [reflexivity | apply Hno].
Qed.

(** The manifest and the two subdirectories of a plugin. *)
Lemma manifest_path plugin_dir :
  plugin_dir // ".claude-plugin" // "plugin.json"
  = plugin_dir ++ ".claude-plugin" :: ["plugin.json"].
Proof.
  rewrite (Layout.join_plain plugin_dir ".claude-plugin" eq_refl).
  rewrite (Layout.join_plain _ "plugin.json" eq_refl).
  unfold Path.child. rewrite <- app_assoc. reflexivity.
Qed.

Lemma glob_lookup fs fs' dir suffix :
  FS.lookup fs' dir = FS.lookup fs dir -> FS.glob fs' dir suffix = FS.glob fs dir suffix.
Proof. unfold FS.glob. intros ->. reflexivity. Qed.

(** Writing the manifest leaves the [.md] files of the plugin. *)
Lemma glob_after_manifest fs fs' plugin_dir field c :
  field = "commands" \/ field = "agents" ->
  FS.write fs (plugin_dir // ".claude-plugin" // "plugin.json") c = Ok fs' ->
  FS.glob fs' (plugin_dir // field) ".md" = FS.glob fs (plugin_dir // field) ".md".
Proof.
  intros Hf W. rewrite manifest_path in W. apply glob_lookup.
  assert (E : plugin_dir // field = plugin_dir ++ field :: []).
  { destruct Hf as [-> | ->];
      [exact (Layout.join_plain plugin_dir "commands" eq_refl)
      |exact (Layout.join_plain plugin_dir "agents" eq_refl)]. }
  rewrite E.
  apply (write_frame plugin_dir ".claude-plugin" field ["plugin.json"] [] fs fs' c);
    [|exact W].
  destruct Hf as [-> | ->]; discriminate.
Qed.

(** What a run leaves: the tree as it was, or the manifest written with
    each of the two fields either an array or not to be converted. *)
Lemma fix_plugin_manifest_cases (fs : node) (plugin_dir : Path.t) :
  let mp := plugin_dir // ".claude-plugin" // "plugin.json" in
  let run := fix_plugin_manifest plugin_dir fs in
  (state_of run = fs /\ forall p, ~ In (Wrote p) (trace_of run))
  \/ exists d d2,
      FS.read fs mp = Ok (Json (JObj d))
      /\ FS.write fs mp (Json (JObj d2)) = Ok (state_of run)
      /\ forall field, field = "commands" \/ field = "agents" ->
           (exists arr, Dict.get field d2 = Some (JArr arr))
           \/ (applies fs plugin_dir (JObj d) field = false
               /\ Dict.get field d2 = Dict.get field d).
Proof.
  cbv zeta.
  assert (Hno : forall q p, ~ In (Wrote p) ([Read q] ++ [])).
  { intros q p [H|[]]; discriminate H. }
  unfold fix_plugin_manifest. cbv zeta.
  set (mp := plugin_dir // ".claude-plugin" // "plugin.json").
  rewrite state_bind, trace_bind, exists_run.
  cbn [result_of state_of trace_of fst snd app].
  destruct (negb _); [left; split; [reflexivity | intros p []]|].
  rewrite state_bind, trace_bind, json_load_run.
  destruct (FS.read fs mp) as [[s|m]|e] eqn:Hr; cbn [result_of state_of trace_of fst snd];
    try (left; split; [reflexivity | intros p [H|[]]; discriminate H]);
    try (left; split; [reflexivity | intros p []]).
  rewrite state_bind, trace_bind.
  destruct (fix_field_quiet plugin_dir "commands" (m, false) fs) as [S1 T1].
  rewrite S1, T1.
  destruct (Py.is_dict m) eqn:Hm.
  - destruct m as [| | | | |d]; try discriminate Hm.
    rewrite Division.fix_field_dict.
    set (c1 := applies fs plugin_dir (JObj d) "commands").
    set (arr1 := JArr (map JStr (md_files fs plugin_dir "commands"))).
    set (d1 := if c1 then Dict.set "commands" arr1 d else d).
    replace (if c1 then (JObj (Dict.set "commands" arr1 d), true) else (JObj d, false))
      with (JObj d1, c1) by (subst d1; destruct c1; reflexivity).
    rewrite state_bind, trace_bind.
    destruct (fix_field_quiet plugin_dir "agents" (JObj d1, c1) fs) as [S2 T2].
    rewrite S2, T2, Division.fix_field_dict.
    set (c2 := applies fs plugin_dir (JObj d1) "agents").
    set (arr2 := JArr (map JStr (md_files fs plugin_dir "agents"))).
    set (d2 := if c2 then Dict.set "agents" arr2 d1 else d1).
    replace (if c2 then (JObj (Dict.set "agents" arr2 d1), true) else (JObj d1, c1))
      with (JObj d2, c2 || c1) by (subst d2; destruct c2, c1; reflexivity).
    cbv beta iota.
    destruct (c2 || c1) eqn:Hch; [|left; split; [reflexivity | apply Hno]].
    unfold IO.json_dump, IO.write.
    destruct (FS.write fs mp (Json (JObj d2))) as [fs'|e] eqn:W;
      cbn [state_of trace_of fst snd]; [|left; split; [reflexivity | apply Hno]].
    right. exists d, d2. split; [reflexivity|]. split; [exact W|].
    assert (Hc2 : c2 = applies fs plugin_dir (JObj d) "agents").
    { subst c2 d1. destruct c1; [apply applies_after_set | reflexivity]. }
    intros field [-> | ->].
    + destruct c1 eqn:C1.
      * left. exists (map JStr (md_files fs plugin_dir "commands")).
        subst d2 d1. destruct c2; rewrite ?Dict_get_set; reflexivity.
      * right. split; [exact C1|].
        subst d2 d1. destruct c2; rewrite ?Dict_get_set; reflexivity.
    + destruct c2 eqn:C2.
      * left. exists (map JStr (md_files fs plugin_dir "agents")).
        subst d2. rewrite Dict_get_set. reflexivity.
      * right. split; [symmetry; exact Hc2|].
        subst d2 d1. destruct c1; rewrite ?Dict_get_set; reflexivity.
  - destruct (result_of (fix_field plugin_dir "commands" (m, false) fs))
      as [[m1 c1]|e] eqn:R1; [|left; split; [reflexivity | apply Hno]].
    destruct (fix_field_result _ _ _ _ _ _ _ R1) as [[-> ->] | [_ [d [-> _]]]];
      [|discriminate Hm].
    rewrite state_bind, trace_bind.
    destruct (fix_field_quiet plugin_dir "agents" (m, false) fs) as [S2 T2].
    rewrite S2, T2.
    destruct (result_of (fix_field plugin_dir "agents" (m, false) fs))
      as [[m2 c2]|e] eqn:R2; [|left; split; [reflexivity | apply Hno]].
    destruct (fix_field_result _ _ _ _ _ _ _ R2) as [[-> ->] | [_ [d [-> _]]]];
      [|discriminate Hm].
    left. split; [reflexivity | apply Hno].
Qed.

End Again.

(** X4 [fix_plugin_manifest] of fix_agent_command_paths.py is idempotent:
    run on the tree a first run left, whatever that run did, it leaves
    the tree as it is and writes nothing. *)
Theorem fix_agent_command_paths_runs_once (fs : node) (plugin_dir : Path.t) :
  let once := state_of (FixAgentCommandPaths.fix_plugin_manifest plugin_dir fs) in
  let again := FixAgentCommandPaths.fix_plugin_manifest plugin_dir once in
  state_of again = once /\ forall p, ~ In (Wrote p) (trace_of again).
Proof.
  cbv zeta.
  destruct (Again.fix_plugin_manifest_cases fs plugin_dir) as [[S T] | (d & d2 & R & W & F)].
  - rewrite S. split; [exact S | exact T].
  - set (once := state_of (FixAgentCommandPaths.fix_plugin_manifest plugin_dir fs)) in *.
    assert (Hconv : forall field, field = "commands" \/ field = "agents" ->
                                  Conversion.converts once plugin_dir field = false).
    { intros field Hf. unfold Conversion.converts.
      rewrite (write_then_read _ _ _ _ W). unfold Conversion.applies.
      rewrite (Again.glob_after_manifest _ _ _ _ _ Hf W).
      destruct (F field Hf) as [[arr ->] | [Happ ->]]; [reflexivity|].
      exact Happ. }
    apply Again.unconverted_untouched; apply Hconv; auto.
Qed.

(** ** Paths written as strings *)

Module Resolve.

Lemma split_slash (a b : string) :
  Layout.no_slash a = true ->
  Str.split_on "/" (a ++ String "/" b) = a :: Str.split_on "/" b.
Proof.
  induction a as [|c a IH]; intros H.
  - reflexivity.
  - cbn [Layout.no_slash] in H. apply andb_prop in H. destruct H as [Hc Ha].
    cbn [append Str.split_on].
    destruct (Ascii.eqb c "/"); [discriminate Hc|].
    rewrite (IH Ha). reflexivity.
Qed.

(** [./<dir>/<name>] has the components [<dir>] and [<name>]. *)
Lemma parts_relative (dir nm : string) :
  Layout.plain dir = true -> Layout.plain nm = true ->
  Path.parts ("./" ++ dir ++ "/" ++ nm) = [dir; nm].
Proof.
  intros Hd Hn. unfold Path.parts.
  change ("./" ++ dir ++ "/" ++ nm)%string with ("." ++ String "/" (dir ++ String "/" nm))%string.
  rewrite (split_slash "." _ eq_refl).
  rewrite (split_slash dir nm (Layout.plain_no_slash _ Hd)).
  rewrite (Layout.split_no_slash nm (Layout.plain_no_slash _ Hn)).
  unfold Layout.plain in Hd, Hn.
  apply andb_prop in Hd. destruct Hd as [Hd Hd3]. apply andb_prop in Hd. destruct Hd as [_ Hd2].
  apply andb_prop in Hn. destruct Hn as [Hn Hn3]. apply andb_prop in Hn. destruct Hn as [_ Hn2].
  cbn [filter]. rewrite Hd2, Hd3, Hn2, Hn3. reflexivity.
Qed.

Lemma join_relative (p : Path.t) (dir nm : string) :
  Layout.plain dir = true -> Layout.plain nm = true ->
  p // ("./" ++ dir ++ "/" ++ nm) = Path.child (p // dir) nm.
Proof.
  intros Hd Hn. rewrite (Layout.join_plain p dir Hd).
  unfold Path.join. rewrite (parts_relative dir nm Hd Hn).
  unfold Str.startswith. cbn [append String.prefix].
  destruct (ascii_dec "/" "."); [discriminate|].
  unfold Path.child. rewrite <- app_assoc. reflexivity.
Qed.

Lemma prefix_append (a b : string) : String.prefix a (a ++ b) = true.
Proof.
  induction a as [|c a IH]; cbn [append String.prefix].
  - destruct b; reflexivity.
  - destruct (ascii_dec c c); [exact IH | congruence].
Qed.

Lemma substring_all (s : string) : String.substring 0 (String.length s) s = s.
Proof. induction s as [|c s IH]; [reflexivity|]. cbn. rewrite IH. reflexivity. Qed.

Lemma substring_skip (a s : string) (n m : nat) :
  String.substring (String.length a + n) m (a ++ s) = String.substring n m s.
Proof. induction a as [|c a IH]; [reflexivity|]. cbn. exact IH. Qed.

Lemma length_append (a b : string) :
  String.length (a ++ b) = (String.length a + String.length b)%nat.
Proof. induction a as [|c a IH]; [reflexivity|]. cbn. rewrite IH. reflexivity. Qed.

(** A suffix of [s] is a suffix of [a ++ s]. *)
Lemma endswith_append (a s suf : string) :
  Str.endswith s suf = true -> Str.endswith (a ++ s) suf = true.
Proof.
  unfold Str.endswith. cbv zeta. intros H.
  apply andb_prop in H. destruct H as [Hl He].
  apply Nat.leb_le in Hl.
  rewrite length_append.
  replace (String.length a + String.length s - String.length suf)%nat
    with (String.length a + (String.length s - String.length suf))%nat by lia.
  rewrite substring_skip, He.
  rewrite andb_true_r. apply Nat.leb_le. lia.
Qed.

(** A name with a suffix of three characters is not empty and not a dot. *)
Lemma plain_with_suffix (nm suf : string) :
  (2 <= String.length suf)%nat ->
  Layout.no_slash nm = true -> Str.endswith nm suf = true -> Layout.plain nm = true.
Proof.
  intros Hs Hn He. unfold Layout.plain. rewrite Hn.
  unfold Str.endswith in He. cbv zeta in He.
  apply andb_prop in He. destruct He as [Hl _]. apply Nat.leb_le in Hl.
  destruct nm as [|c [|c' nm]]; cbn in Hl; try lia.
  cbn. destruct (Ascii.eqb c "."); reflexivity.
Qed.

Lemma listed_entry (nm : string) (es : FS.entries) :
  In nm (map fst es) -> exists k, FS.assoc nm es = Some k.
Proof.
  induction es as [|[n k] es IH]; [intros []|].
  cbn [map fst FS.assoc]. intros [H|H].
  - cbn in H. subst n. rewrite String.eqb_refl. eauto.
  - destruct (String.eqb nm n); [eauto | exact (IH H)].
Qed.

(** What [glob] yields is there, and ends with the suffix. *)
Lemma glob_entry (fs : node) (dir : Path.t) (suffix nm : string) :
  In nm (FS.glob fs dir suffix) ->
  FS.exists_ fs (Path.child dir nm) = true /\ Str.endswith nm suffix = true.
Proof.
  unfold FS.glob, FS.exists_, Path.child. rewrite MissingManifest.lookup_app.
  destruct (FS.lookup fs dir) as [[c|es]|]; try (intros []).
  intros H. apply filter_In in H. destruct H as [Hin He].
  split; [|exact He].
  destruct (listed_entry _ _ Hin) as [k Hk].
  cbn [FS.lookup]. rewrite Hk. reflexivity.
Qed.

End Resolve.

(** X5 [get_md_files] of fix_agent_command_paths.py never raises and
    changes nothing; it returns one path per entry of the subdirectory
    that ends with [.md]; each path starts with [./<subdir>/], ends with
    [.md] and, joined to the plugin directory, names an entry that is
    there.  (The names of directory entries hold no slash.) *)
Theorem md_files_name_what_is_there
    (plugin_dir : Path.t) (subdir : string) (fs : node) :
  Layout.plain subdir = true ->
  forallb Layout.no_slash (FS.glob fs (plugin_dir // subdir) ".md") = true ->
  exists l,
    FixAgentCommandPaths.get_md_files plugin_dir subdir fs = (Ok l, fs, [])
    /\ List.length l = List.length (FS.glob fs (plugin_dir // subdir) ".md")
    /\ forall s, In s l ->
         Str.startswith s ("./" ++ subdir ++ "/") = true
         /\ Str.endswith s ".md" = true
         /\ FS.exists_ fs (plugin_dir // s) = true.
Proof.
  intros Hd Hn. exists (Conversion.md_files fs plugin_dir subdir).
  split; [apply Conversion.get_md_files_run|].
  unfold Conversion.md_files.
  destruct (FS.exists_ fs (plugin_dir // subdir)) eqn:Ex.
  - split.
    + rewrite length_map, (Permutation_length (Path_sorted_perm _)), length_map.
      reflexivity.
    + intros s Hs. apply in_map_iff in Hs. destruct Hs as (f & <- & Hf).
      apply (Permutation_in _ (Path_sorted_perm _)) in Hf.
      apply in_map_iff in Hf. destruct Hf as (nm & <- & Hnm).
      rewrite ValidateRun.name_child.
      destruct (Resolve.glob_entry _ _ _ _ Hnm) as [Hex Hend].
      rewrite forallb_forall in Hn.
      pose proof (Resolve.plain_with_suffix nm ".md" ltac:(cbn; lia) (Hn _ Hnm) Hend) as Hp.
      assert (E : ("./" ++ subdir ++ "/" ++ nm)%string
                  = (("./" ++ subdir ++ "/") ++ nm)%string)
        by (rewrite !Str_append_assoc; reflexivity).
      split; [|split].
      * unfold Str.startswith. rewrite E. apply Resolve.prefix_append.
      * rewrite E. apply Resolve.endswith_append. exact Hend.
      * rewrite (Resolve.join_relative _ _ _ Hd Hp). exact Hex.
  - unfold FS.exists_ in Ex. unfold FS.glob.
    destruct (FS.lookup fs (plugin_dir // subdir)); [discriminate Ex|].
    split; [reflexivity | intros s []].
Qed.

(* ================================================================== *)
(** ** validate_marketplace.py: what the validator does to its state *)

Module ReadOnly.
Import ValidateMarketplace.

Definition is_read (e : event) : Prop :=
  match e with Read _ => True | _ => False end.

(** The same tree, the two lists longer at their ends. *)
Definition extends (v v' : validator) : Prop :=
  fs v' = fs v
  /\ (exists more, errors v' = errors v ++ more)
  /\ (exists more, warnings v' = warnings v ++ more).

Lemma extends_refl v : extends v v.
Proof. repeat split; exists []; rewrite app_nil_r; reflexivity. Qed.

Lemma extends_trans a b c : extends a b -> extends b c -> extends a c.
Proof.
  intros (F1 & [x1 E1] & [y1 W1]) (F2 & [x2 E2] & [y2 W2]).
  split; [congruence|]. split.
  - exists (x1 ++ x2). rewrite E2, E1, app_assoc. reflexivity.
  - exists (y1 ++ y2). rewrite W2, W1, app_assoc. reflexivity.
Qed.

Definition any_exception : exn -> Prop := fun _ => True.

Definition reads_only {A} (m : M validator A) : Prop :=
  obeys extends is_read any_exception (fun _ => True) m.

Lemma reads_error msg : reads_only (error msg).
Proof.
  intros v. cbn. repeat split; auto.
  - exists [msg]. reflexivity.
  - exists []. rewrite app_nil_r. reflexivity.
Qed.

Lemma reads_warning msg : reads_only (warning msg).
Proof.
  intros v. cbn. repeat split; auto.
  - exists []. rewrite app_nil_r. reflexivity.
  - exists [msg]. reflexivity.
Qed.

(** An operation on the tree that leaves it and only reads. *)
Lemma reads_on_fs {A} (m : M node A) :
  (forall t, state_of (m t) = t /\ Forall is_read (trace_of (m t))) ->
  reads_only (on_fs m).
Proof.
  intros H v. unfold on_fs.
  destruct (H (fs v)) as [Hs Ht].
  rewrite (run_eta (m (fs v))) in *. cbn in *.
  rewrite Hs. split; [|split].
  - repeat split; exists []; rewrite app_nil_r; reflexivity.
  - exact Ht.
  - destruct (result_of (m (fs v))); exact I.
Qed.

Lemma exists_only_reads p t :
  state_of (IO.exists_ p t) = t /\ Forall is_read (trace_of (IO.exists_ p t)).
Proof. split; [reflexivity | constructor]. Qed.

Lemma iterdir_only_reads p t :
  state_of (IO.iterdir p t) = t /\ Forall is_read (trace_of (IO.iterdir p t)).
Proof.
  unfold IO.iterdir. destruct (FS.listdir t p); split; try reflexivity; constructor.
Qed.

Lemma json_load_only_reads p t :
  state_of (IO.json_load p t) = t /\ Forall is_read (trace_of (IO.json_load p t)).
Proof.
  rewrite json_load_run.
  destruct (FS.read t p) as [[|]|]; split; try reflexivity;
    repeat constructor.
Qed.

Ltac ro_op :=
  first
    [ apply obeys_ret; [exact extends_refl | exact I]
    | apply obeys_raise; [exact extends_refl | exact I]
    | apply obeys_get_state; exact extends_refl
    | apply reads_error
    | apply reads_warning
    | apply obeys_lift;
      [ exact extends_refl
      | match goal with |- match ?r with _ => _ end => destruct r; exact I end ]
    | apply reads_on_fs;
      first [exact (exists_only_reads _) | exact (iterdir_only_reads _)
             | exact (json_load_only_reads _)] ].

Ltac ro :=
  repeat first
    [ ro_op
    | apply obeys_bind with (V := fun _ : _ => True); [exact extends_trans| |intros ? _]
    | apply obeys_for_each; [exact extends_refl | exact extends_trans | intros ? _]
    | apply obeys_try_JSONDecodeError; [exact extends_trans| |]
    | match goal with
      | |- obeys _ _ _ _ (if ?b then _ else _) => destruct b
      | |- obeys _ _ _ _ (match ?x with _ => _ end) => destruct x
      | |- obeys _ _ _ _ (let _ := _ in _) => cbv zeta
      end ].

Lemma reads_validate_entries root plugins i : reads_only (validate_entries root plugins i).
Proof.
  revert i. induction plugins as [|p l IH]; intros i; cbn [validate_entries].
  - unfold reads_only. ro.
  - apply obeys_bind with (V := fun _ => True); [exact extends_trans| |intros ? _].
    + unfold _validate_plugin_entry. ro.
    + apply IH.
Qed.

Lemma reads_validate_marketplace_json root : reads_only (_validate_marketplace_json root).
Proof.
  unfold reads_only, _validate_marketplace_json.
  ro; apply reads_validate_entries.
Qed.

Lemma reads_validate_plugin plugin_dir plugin_type :
  reads_only (_validate_plugin plugin_dir plugin_type).
Proof. unfold reads_only, _validate_plugin. ro. Qed.

Lemma reads_validate_plugins_in dir plugin_type missing :
  reads_only (validate_plugins_in dir plugin_type missing).
Proof.
  unfold reads_only, validate_plugins_in. ro.
Qed.

Lemma reads_validate root : reads_only (validate root).
Proof.
  unfold reads_only, validate, _validate_individual_plugins, _validate_bundle_plugins.
  apply obeys_bind with (V := fun _ => True);
    [exact extends_trans | apply reads_validate_marketplace_json | intros ? _].
  apply obeys_bind with (V := fun _ => True);
    [exact extends_trans | apply reads_validate_plugins_in | intros ? _].
  apply obeys_bind with (V := fun _ => True);
    [exact extends_trans | apply reads_validate_plugins_in | intros ? _].
  ro.
Qed.

End ReadOnly.

(** X6 validate_marketplace.py only reads: however the run ends, the
    tree is the one it started from, every file operation is a read,
    and the errors and warnings recorded before are still there, in
    front of those the run added. *)
Theorem validator_only_reads (root : Path.t) (v : ValidateMarketplace.validator) :
  let run := ValidateMarketplace.main root v in
  ValidateMarketplace.fs (state_of run) = ValidateMarketplace.fs v
  /\ Forall ReadOnly.is_read (trace_of run)
  /\ (exists more, ValidateMarketplace.errors (state_of run)
                   = ValidateMarketplace.errors v ++ more)
  /\ (exists more, ValidateMarketplace.warnings (state_of run)
                   = ValidateMarketplace.warnings v ++ more).
Proof.
  cbv zeta.
  assert (H : ReadOnly.reads_only (ValidateMarketplace.main root)).
  { unfold ReadOnly.reads_only, ValidateMarketplace.main.
    apply obeys_bind with (V := fun _ => True);
      [exact ReadOnly.extends_trans | apply ReadOnly.reads_validate | intros ? _].
    apply obeys_raise; [exact ReadOnly.extends_refl | exact I]. }
  destruct (H v) as ((F & E & W) & T & _).
  repeat split; assumption.
Qed.

(* ================================================================== *)
(** ** validate_marketplace.py: what is reported *)

Module Verdict.
Import ValidateMarketplace ValidatorFacts.

(** [validate] returns whether the list of errors is empty. *)
Lemma validate_verdict root v b :
  result_of (validate root v) = Ok b ->
  b = match errors (state_of (validate root v)) with [] => true | _ => false end.
Proof.
  unfold validate.
  rewrite result_bind, state_bind.
  destruct (result_of (_validate_marketplace_json root v)) as [[]|e]; [|discriminate].
  rewrite result_bind, state_bind.
  destruct (result_of (_validate_individual_plugins root _)) as [[]|e]; [|discriminate].
  rewrite result_bind, state_bind.
  destruct (result_of (_validate_bundle_plugins root _)) as [[]|e]; [|discriminate].
  rewrite result_bind, state_bind.
  cbn [get_state ret result_of state_of fst snd].
  intros [= <-]. reflexivity.
Qed.

(** The exit code is 1 as soon as an error is on the list at the end. *)
Lemma exit_code_with_error root v msg :
  In msg (errors (state_of (validate root v))) ->
  exit_code (result_of (main root v)) = 1%Z.
Proof.
  intros Hin. rewrite validate_exit_code.
  destruct (result_of (validate root v)) as [b|e] eqn:R; [|reflexivity].
  rewrite (validate_verdict root v b R).
  destruct (errors (state_of (validate root v))); [destruct Hin | reflexivity].
Qed.

Lemma main_state root v : state_of (main root v) = state_of (validate root v).
Proof.
  unfold main. rewrite state_bind.
  destruct (result_of (validate root v)); reflexivity.
Qed.

(** What the first step recorded is on the list at the end. *)
Lemma validate_keeps_first root v :
  grows (state_of (_validate_marketplace_json root v)) (state_of (validate root v)).
Proof.
  unfold validate. rewrite state_bind.
  destruct (result_of (_validate_marketplace_json root v)) as [[]|e]; [|apply grows_refl].
  set (v1 := state_of (_validate_marketplace_json root v)).
  assert (H : disciplined
                (_validate_individual_plugins root ;;
                 _validate_bundle_plugins root ;;
                 v <- get_state ;;
                 ret (match errors v with [] => true | _ => false end))%io).
  { unfold disciplined, _validate_individual_plugins, _validate_bundle_plugins.
    apply obeys_bind with (V := fun _ => True);
      [exact grows_trans | apply disciplined_validate_plugins_in | intros ? _].
    apply obeys_bind with (V := fun _ => True);
      [exact grows_trans | apply disciplined_validate_plugins_in | intros ? _].
    disc. }
  destruct (H v1) as (G & _ & _). exact G.
Qed.

(** A plugin directory is reached when the validation runs to its end. *)
Lemma plugins_in_reaches dir plugin_type missing nm v msg :
  FS.is_dir (fs v) (Path.child dir nm) = true ->
  (forall v1, fs v1 = fs v ->
              In msg (errors (state_of (_validate_plugin (Path.child dir nm) plugin_type v1)))) ->
  result_of (validate_plugins_in dir plugin_type missing v) = Ok tt ->
  In msg (errors (state_of (validate_plugins_in dir plugin_type missing v))).
Proof.
  intros Hd Hm.
  destruct (MissingManifest.is_dir_child_listed _ _ _ Hd) as (He & names & Hl & Hn).
  unfold validate_plugins_in.
  rewrite result_bind, state_bind, MissingManifest.on_fs_exists.
  cbn [result_of state_of fst snd]. rewrite He. cbn [negb].
  rewrite result_bind, state_bind, (MissingManifest.on_fs_iterdir _ _ names) by exact Hl.
  cbn [result_of state_of fst snd].
  rewrite result_bind, state_bind.
  cbn [get_state result_of state_of fst snd ValidateMarketplace.fs].
  match goal with
  | |- context [for_each ?l ?b ?s] => set (l0 := l); set (body := b); set (v0 := s)
  end.
  intros Hr.
  assert (Hin : In (Path.child dir nm) l0).
  { subst l0. apply (Permutation_in _ (Permutation_sym (Path_sorted_perm _))).
    apply filter_In. split; [|exact Hd].
    apply in_map. exact Hn. }
  destruct (for_each_reaches grows grows_refl grows_trans any_event an_Exception
              l0 body (Path.child dir nm) v0) as (v1 & G1 & R1 & G2); auto.
  - intros y _. apply disciplined_validate_plugin.
  - apply (grows_In _ _ _ G2).
    destruct G1 as [F1 _]. apply Hm. rewrite F1. reflexivity.
Qed.

Lemma validate_reaches root kind nm v msg b :
  kind = "individual" \/ kind = "bundles" ->
  FS.is_dir (fs v) (Path.child (plugins_dir root // kind) nm) = true ->
  (forall plugin_type v1,
      fs v1 = fs v ->
      In msg (errors (state_of (_validate_plugin (Path.child (plugins_dir root // kind) nm)
                                  plugin_type v1)))) ->
  result_of (validate root v) = Ok b ->
  In msg (errors (state_of (validate root v))).
Proof.
  intros Hk Hd Hm. unfold validate.
  rewrite result_bind, state_bind.
  destruct (disciplined_validate_marketplace_json root v) as ([F1 _] & _ & _).
  destruct (result_of (_validate_marketplace_json root v)) as [[]|e]; [|discriminate].
  set (v1 := state_of (_validate_marketplace_json root v)) in *.
  rewrite result_bind, state_bind.
  unfold _validate_individual_plugins, _validate_bundle_plugins.
  match goal with
  | |- context [result_of (validate_plugins_in ?d ?t ?m v1)] =>
      pose proof (disciplined_validate_plugins_in d t m v1) as ([F2 _] & _ & _);
      pose proof (plugins_in_reaches d t m nm v1 msg) as Hi;
      destruct (result_of (validate_plugins_in d t m v1)) as [[]|e] eqn:R2; [|discriminate];
      set (v2 := state_of (validate_plugins_in d t m v1)) in *
  end.
  rewrite result_bind, state_bind.
  match goal with
  | |- context [result_of (validate_plugins_in ?d ?t ?m v2)] =>
      pose proof (disciplined_validate_plugins_in d t m v2) as (G3 & _ & _);
      pose proof (plugins_in_reaches d t m nm v2 msg) as Hb;
      destruct (result_of (validate_plugins_in d t m v2)) as [[]|e] eqn:R3; [|discriminate];
      set (v3 := state_of (validate_plugins_in d t m v2)) in *
  end.
  rewrite result_bind, state_bind.
  cbn [get_state ret result_of state_of fst snd].
  intros _.
  destruct Hk as [-> | ->].
  - apply (grows_In _ _ _ G3).
    apply Hi; [rewrite F1; exact Hd | | reflexivity].
    intros v' Hv'. apply Hm. rewrite Hv'. exact F1.
  - apply Hb; [rewrite F2, F1; exact Hd | | reflexivity].
    intros v' Hv'. apply Hm. rewrite Hv', F2. exact F1.
Qed.

(** What the body recorded is still there after the handler. *)
Lemma try_keeps (body handler : M validator unit) v msg :
  disciplined handler ->
  In msg (errors (state_of (body v))) ->
  In msg (errors (state_of (try_except_JSONDecodeError body handler v))).
Proof.
  intros Hh Hin. unfold try_except_JSONDecodeError.
  rewrite (run_eta (body v)).
  destruct (result_of (body v)) as [[]|e]; [exact Hin|].
  destruct e; try exact Hin.
  destruct (Hh (state_of (body v))) as (G & _ & _).
  rewrite (run_eta (handler (state_of (body v)))). cbn [state_of fst snd].
  exact (grows_In _ _ _ G Hin).
Qed.

Lemma on_fs_json_load p v m :
  FS.read (fs v) p = Ok (Json m) ->
  on_fs (IO.json_load p) v =
  (Ok m, {| fs := fs v; errors := errors v; warnings := warnings v |}, [Read p]).
Proof. intros H. unfold on_fs. rewrite json_load_run, H. reflexivity. Qed.

(** The loop over the required fields returns on an object. *)
Lemma fields_checked (plugin_name : string) (d : Dict.t) (fields : list string) v :
  let body := fun field : string =>
    (has <- lift (Py.contains field (JObj d)) ;;
     if negb has
     then error (plugin_name ++ ": plugin.json missing '" ++ field ++ "'")
     else ret tt)%io in
  result_of (for_each fields body v) = Ok tt /\ grows v (state_of (for_each fields body v)).
Proof.
  intros body. split.
  - apply for_each_returns. intros x s _. subst body. cbv beta.
    rewrite result_bind. cbn [lift Py.contains result_of state_of fst snd].
    destruct (negb _); reflexivity.
  - apply (obeys_for_each grows grows_refl grows_trans any_event an_Exception).
    intros x _. subst body. cbv beta. disc.
Qed.

(** A manifest whose name is another string than the directory's. *)
Lemma name_mismatch_recorded plugin_dir plugin_type v d s :
  FS.read (fs v) (plugin_dir // ".claude-plugin" // "plugin.json") = Ok (Json (JObj d)) ->
  Dict.get "name" d = Some (JStr s) ->
  String.eqb s (Path.name plugin_dir) = false ->
  In (Path.name plugin_dir ++ ": plugin.json name '" ++ s ++ "' doesn't match directory name")%string
     (errors (state_of (_validate_plugin plugin_dir plugin_type v))).
Proof.
  intros Hr Hn Hs. unfold _validate_plugin. cbv zeta.
  rewrite state_bind.
  match goal with
  | |- context [for_each _ ?b v] =>
      destruct (MissingManifest.required_dirs_checked b v) as [R [F G]]
  end.
  - intros x s0. rewrite result_bind, MissingManifest.on_fs_exists.
    cbn [result_of state_of fst snd]. destruct (negb _); reflexivity.
  - intros x. unfold disciplined. disc.
  - rewrite R.
    match goal with
    | |- context [state_of (for_each ?l ?b v)] => set (v' := state_of (for_each l b v)) in *
    end.
    rewrite state_bind, MissingManifest.on_fs_exists.
    cbn [result_of state_of fst snd].
    rewrite F, (Division.read_exists _ _ _ Hr). cbn [negb].
    apply try_keeps; [unfold disciplined; disc|].
    rewrite state_bind, (on_fs_json_load _ _ (JObj d)) by (cbn; exact Hr).
    cbn [result_of state_of fst snd].
    rewrite state_bind.
    match goal with
    | |- context [for_each ?l ?b ?s0] =>
        destruct (fields_checked (Path.name plugin_dir) d l s0) as [R2 G2]
    end.
    cbv zeta in R2, G2. rewrite R2.
    match goal with
    | |- context [state_of (for_each ?l ?b ?s0)] =>
        set (v2 := state_of (for_each l b s0)) in *
    end.
    rewrite state_bind.
    cbn [lift Py.get result_of state_of fst snd]. rewrite Hn.
    rewrite state_bind. rewrite Hs.
    cbn [error result_of state_of fst snd Py.str].
    match goal with
    | |- In ?m (errors (state_of (?rest ?s0))) =>
        assert (Hd : disciplined rest) by (unfold disciplined; disc);
        destruct (Hd s0) as (G3 & _ & _); apply (grows_In _ _ _ G3)
    end.
    cbn [errors]. apply in_or_app. right. left. reflexivity.
Qed.

End Verdict.

(** X7 Without a [marketplace.json], validate_marketplace.py ends with
    exit code 1, however the rest of the run goes, and the first entry
    of its error list is [marketplace.json not found]. *)
Theorem missing_marketplace_json_is_reported (root : Path.t) (tree : node) :
  FS.exists_ tree (ValidateMarketplace.marketplace_file root) = false ->
  let run := ValidateMarketplace.main root (ValidateMarketplace.init tree) in
  exit_code (result_of run) = 1%Z
  /\ exists more,
      ValidateMarketplace.errors (state_of run) = "marketplace.json not found" :: more.
Proof.
  intros H. cbv zeta.
  set (v := ValidateMarketplace.init tree).
  assert (E : exists more,
             ValidateMarketplace.errors (state_of (ValidateMarketplace.validate root v))
             = "marketplace.json not found" :: more).
  { destruct (Verdict.validate_keeps_first root v) as [_ [more Hm]].
    exists more. rewrite Hm.
    unfold ValidateMarketplace._validate_marketplace_json.
    rewrite state_bind, MissingManifest.on_fs_exists.
    cbn [result_of state_of fst snd ValidateMarketplace.fs v ValidateMarketplace.init].
    rewrite H. reflexivity. }
  destruct E as [more E]. split.
  - apply (Verdict.exit_code_with_error root v "marketplace.json not found").
    rewrite E. left. reflexivity.
  - exists more. rewrite Verdict.main_state. exact E.
Qed.

(** X8 A plugin directory whose manifest is an object with a name that
    is a string other than the name of the directory makes
    validate_marketplace.py end with exit code 1; whenever the run ends
    in [sys.exit], the error list holds the entry that gives both
    names. *)
Theorem name_mismatch_is_reported
    (root : Path.t) (tree : node) (kind nm s : string) (d : Dict.t) :
  kind = "individual" \/ kind = "bundles" ->
  FS.is_dir tree (Path.child (ValidateMarketplace.plugins_dir root // kind) nm) = true ->
  FS.read tree
    (Path.child (ValidateMarketplace.plugins_dir root // kind) nm
       // ".claude-plugin" // "plugin.json") = Ok (Json (JObj d)) ->
  Dict.get "name" d = Some (JStr s) ->
  s <> nm ->
  let run := ValidateMarketplace.main root (ValidateMarketplace.init tree) in
  exit_code (result_of run) = 1%Z
  /\ ((exists n, result_of run = Raise (SystemExit n)) ->
      In (nm ++ ": plugin.json name '" ++ s ++ "' doesn't match directory name")%string
         (ValidateMarketplace.errors (state_of run))).
Proof.
  intros Hk Hd Hr Hn Hs. cbv zeta.
  set (v := ValidateMarketplace.init tree).
  set (msg := (nm ++ ": plugin.json name '" ++ s ++ "' doesn't match directory name")%string).
  assert (Hrec : forall b, result_of (ValidateMarketplace.validate root v) = Ok b ->
                           In msg (ValidateMarketplace.errors
                                     (state_of (ValidateMarketplace.validate root v)))).
  { intros b Hb. apply (Verdict.validate_reaches root kind nm v msg b Hk Hd); [|exact Hb].
    intros plugin_type v1 Hv1. subst msg.
    rewrite <- (ValidateRun.name_child (ValidateMarketplace.plugins_dir root // kind) nm) at 1.
    apply Verdict.name_mismatch_recorded with (d := d).
    - rewrite Hv1. exact Hr.
    - exact Hn.
    - rewrite ValidateRun.name_child. apply String.eqb_neq. exact Hs. }
  split.
  - destruct (result_of (ValidateMarketplace.validate root v)) as [b|e] eqn:R.
    + apply (Verdict.exit_code_with_error root v msg). exact (Hrec b eq_refl).
    + rewrite validate_exit_code, R. reflexivity.
  - intros [n Hx]. rewrite Verdict.main_state.
    unfold ValidateMarketplace.main in Hx. rewrite result_bind in Hx.
    destruct (result_of (ValidateMarketplace.validate root v)) as [b|e] eqn:R.
    + exact (Hrec b eq_refl).
    + destruct (ValidateRun.disciplined_validate root v) as (_ & _ & Hex).
      rewrite R in Hex. injection Hx as ->. discriminate Hex.
Qed.

(* ================================================================== *)
(** ** What an operation below a directory leaves alone *)

Module Frame.

Lemma lookup_empty (q : Path.t) (c : string) : FS.lookup (Dir []) (c :: q) = None.
Proof. reflexivity. Qed.

Lemma mkdirs_elsewhere (l : Path.t) (a b : string) (r r' : Path.t) (fs fs' : node) :
  a <> b ->
  FS.mkdirs fs (l ++ a :: r) = Ok fs' ->
  FS.lookup fs' (l ++ b :: r') = FS.lookup fs (l ++ b :: r').
Proof.
  intros Hab. revert fs fs'. induction l as [|x l IH]; intros fs fs' W.
  - cbn [app] in *. destruct fs as [|es]; [discriminate W|].
    simpl in W.
    match type of W with
    | match ?m with _ => _ end = _ => destruct m as [k'|]; [|discriminate W]
    end.
    injection W as <-. cbn [FS.lookup].
    rewrite assoc_upsert, (eqb_neq_sym _ _ Hab). reflexivity.
  - cbn [app] in *. destruct fs as [|es]; [discriminate W|].
    simpl in W.
    destruct (FS.assoc x es) as [k|] eqn:A.
    + destruct (FS.mkdirs k (l ++ a :: r)) as [k'|] eqn:W'; [|discriminate W].
      injection W as <-. cbn [FS.lookup].
      rewrite assoc_upsert, String.eqb_refl, A. apply (IH k k' W').
    + destruct (FS.mkdirs (Dir []) (l ++ a :: r)) as [k'|] eqn:W'; [|discriminate W].
      injection W as <-. cbn [FS.lookup].
      rewrite assoc_upsert, String.eqb_refl, A. rewrite (IH _ _ W').
      destruct l; reflexivity.
Qed.

Lemma assoc_drop (k k' : string) (es : FS.entries) :
  FS.assoc k (FS.drop k' es) = if String.eqb k k' then None else FS.assoc k es.
Proof.
  unfold FS.drop. induction es as [|[n x] es IH]; cbn [filter FS.assoc fst].
  - destruct (String.eqb k k'); reflexivity.
  - destruct (String.eqb k' n) eqn:E; cbn [negb FS.assoc].
    + apply String.eqb_eq in E. subst n. rewrite IH.
      destruct (String.eqb k k'); reflexivity.
    + destruct (String.eqb k n) eqn:E2; [|exact IH].
      apply String.eqb_eq in E2. subst n.
      rewrite String.eqb_sym, E. reflexivity.
Qed.

Lemma rmtree_elsewhere (l : Path.t) (a b : string) (r r' : Path.t) (fs fs' : node) :
  a <> b ->
  FS.rmtree fs (l ++ a :: r) = Ok fs' ->
  FS.lookup fs' (l ++ b :: r') = FS.lookup fs (l ++ b :: r').
Proof.
  intros Hab. revert fs fs'. induction l as [|x l IH]; intros fs fs' W.
  - cbn [app] in *. destruct fs as [|es]; [discriminate W|].
    destruct r as [|y r].
    + simpl in W. destruct (FS.assoc a es) as [[|]|]; try discriminate W.
      injection W as <-. cbn [FS.lookup].
      rewrite assoc_drop, (eqb_neq_sym _ _ Hab). reflexivity.
    + rewrite rmtree_deeper in W.
      destruct (FS.assoc a es) as [k|]; [|discriminate W].
      destruct (FS.rmtree k (y :: r)) as [k'|]; [|discriminate W].
      injection W as <-. cbn [FS.lookup].
      rewrite assoc_upsert, (eqb_neq_sym _ _ Hab). reflexivity.
  - cbn [app] in *. destruct fs as [|es]; [discriminate W|].
    destruct (l ++ a :: r) as [|y t] eqn:Q; [destruct l; discriminate Q|].
    rewrite rmtree_deeper in W.
    destruct (FS.assoc x es) as [k|] eqn:A; [|discriminate W].
    destruct (FS.rmtree k (y :: t)) as [k'|] eqn:W'; [|discriminate W].
    injection W as <-. cbn [FS.lookup].
    rewrite assoc_upsert, String.eqb_refl, A. apply IH. exact W'.
Qed.

Lemma install_elsewhere (l : Path.t) (a b : string) (r r' : Path.t)
    (fs fs' new : node) :
  a <> b ->
  FS.install fs (l ++ a :: r) new = Ok fs' ->
  FS.lookup fs' (l ++ b :: r') = FS.lookup fs (l ++ b :: r').
Proof.
  intros Hab. revert fs fs'. induction l as [|x l IH]; intros fs fs' W.
  - cbn [app] in *. destruct fs as [|es]; [discriminate W|].
    destruct r as [|y r].
    + simpl in W. destruct (FS.assoc a es); [discriminate W|].
      injection W as <-. cbn [FS.lookup].
      rewrite assoc_upsert, (eqb_neq_sym _ _ Hab). reflexivity.
    + rewrite install_deeper in W.
      match type of W with
      | match ?m with _ => _ end = _ => destruct m as [k'|]; [|discriminate W]
      end.
      injection W as <-. cbn [FS.lookup].
      rewrite assoc_upsert, (eqb_neq_sym _ _ Hab). reflexivity.
  - cbn [app] in *. destruct fs as [|es]; [discriminate W|].
    destruct (l ++ a :: r) as [|y t] eqn:Q; [destruct l; discriminate Q|].
    rewrite install_deeper in W.
    destruct (FS.assoc x es) as [k|] eqn:A.
    + destruct (FS.install k (y :: t) new) as [k'|] eqn:W'; [|discriminate W].
      injection W as <-. cbn [FS.lookup].
      rewrite assoc_upsert, String.eqb_refl, A. apply IH. exact W'.
    + destruct (FS.install (Dir []) (y :: t) new) as [k'|] eqn:W'; [|discriminate W].
      injection W as <-. cbn [FS.lookup].
      rewrite assoc_upsert, String.eqb_refl, A. rewrite (IH _ _ W').
      destruct l; reflexivity.
Qed.

(** Everything that parts from [dir] is as it was. *)
Definition kept (dir : Path.t) (s s' : node) : Prop :=
  forall q, diverge dir q -> FS.lookup s' q = FS.lookup s q.

Lemma kept_refl dir s : kept dir s s.
Proof. intros q _. reflexivity. Qed.

Lemma kept_trans dir a b c : kept dir a b -> kept dir b c -> kept dir a c.
Proof. intros H1 H2 q Hq. rewrite (H2 q Hq). exact (H1 q Hq). Qed.

Section Below.

Variable dir : Path.t.

Lemma below (t q : Path.t) :
  diverge dir q ->
  exists l a b r r', a <> b /\ dir ++ t = l ++ a :: r /\ q = l ++ b :: r'.
Proof.
  intros (l & a & b & r & r' & Hab & -> & ->).
  exists l, a, b, (r ++ t), r'. repeat split; auto.
  rewrite <- app_assoc. reflexivity.
Qed.

Lemma write_below t c fs fs' : FS.write fs (dir ++ t) c = Ok fs' -> kept dir fs fs'.
Proof.
  intros W q Hq. destruct (below t q Hq) as (l & a & b & r & r' & Hab & E & ->).
  rewrite E in W. exact (write_frame l a b r r' fs fs' c Hab W).
Qed.

Lemma mkdirs_below t fs fs' : FS.mkdirs fs (dir ++ t) = Ok fs' -> kept dir fs fs'.
Proof.
  intros W q Hq. destruct (below t q Hq) as (l & a & b & r & r' & Hab & E & ->).
  rewrite E in W. exact (mkdirs_elsewhere l a b r r' fs fs' Hab W).
Qed.

Lemma rmtree_below t fs fs' : FS.rmtree fs (dir ++ t) = Ok fs' -> kept dir fs fs'.
Proof.
  intros W q Hq. destruct (below t q Hq) as (l & a & b & r & r' & Hab & E & ->).
  rewrite E in W. exact (rmtree_elsewhere l a b r r' fs fs' Hab W).
Qed.

Lemma install_below t new fs fs' : FS.install fs (dir ++ t) new = Ok fs' -> kept dir fs fs'.
Proof.
  intros W q Hq. destruct (below t q Hq) as (l & a & b & r & r' & Hab & E & ->).
  rewrite E in W. exact (install_elsewhere l a b r r' fs fs' new Hab W).
Qed.

End Below.

End Frame.

(* ================================================================== *)
(** ** generate_marketplace.py: what the generator touches *)

Module Output.
Import GenerateMarketplace.

(** The file operations of the generator: reads, and the two that
    produce [marketplace.json]. *)
Definition produces (root : Path.t) (e : event) : Prop :=
  match e with
  | Read _ => True
  | Mkdir p => p = root // ".claude-plugin"
  | Wrote p => p = root // ".claude-plugin" // "marketplace.json"
  | _ => False
  end.

Definition confined (root : Path.t) {A} (m : M node A) : Prop :=
  obeys (Frame.kept (root // ".claude-plugin")) (produces root) ReadOnly.any_exception
        (fun _ => True) m.

Ltac reads root :=
  repeat first
    [ apply obeys_ret; [exact (Frame.kept_refl _) | exact I]
    | apply obeys_raise; [exact (Frame.kept_refl _) | exact I]
    | apply obeys_lift;
      [ exact (Frame.kept_refl _)
      | match goal with |- match ?r with _ => _ end => destruct r; exact I end ]
    | apply obeys_exists; exact (Frame.kept_refl _)
    | apply obeys_is_dir; exact (Frame.kept_refl _)
    | eapply obeys_weaken;
      [|apply obeys_iterdir; [exact (Frame.kept_refl _) | intros; exact I]]; intros; exact I
    | apply obeys_json_load;
      [exact (Frame.kept_refl _) | exact (Frame.kept_trans _) | intros; exact I
       | exact I | exact I]
    | apply obeys_bind with (V := fun _ : _ => True); [exact (Frame.kept_trans _)| |intros ? _]
    | apply obeys_fold_m with (V := fun _ : _ => True);
      [exact (Frame.kept_refl _) | exact (Frame.kept_trans _) | exact I | intros ? ? _ _]
    | match goal with
      | |- obeys _ _ _ _ (if ?b then _ else _) => destruct b
      | |- obeys _ _ _ _ (match ?x with _ => _ end) => destruct x
      | |- obeys _ _ _ _ (let _ := _ in _) => cbv zeta
      end ].

Lemma confined_collect root dir entry : confined root (collect dir entry).
Proof. unfold confined, collect. reads root. Qed.

Lemma output_paths root :
  Path.parent (root // ".claude-plugin" // "marketplace.json") = root // ".claude-plugin"
  /\ root // ".claude-plugin" // "marketplace.json"
     = (root // ".claude-plugin") ++ ["marketplace.json"].
Proof.
  rewrite (Layout.join_plain _ "marketplace.json" eq_refl).
  unfold Path.parent, Path.child. rewrite removelast_last. split; reflexivity.
Qed.

Lemma confined_generate root : confined root (main root).
Proof.
  unfold confined, main, generate, _collect_individual_plugins, _collect_bundle_plugins.
  cbn [init marketplace_file plugins_dir].
  destruct (output_paths root) as [Hp Hf].
  apply obeys_bind with (V := fun _ => True);
    [exact (Frame.kept_trans _) | apply confined_collect | intros ? _].
  apply obeys_bind with (V := fun _ => True);
    [exact (Frame.kept_trans _) | apply confined_collect | intros ? _].
  cbv zeta.
  apply obeys_bind with (V := fun _ => True); [exact (Frame.kept_trans _)| |intros ? _].
  - rewrite Hp. apply obeys_mkdir;
      [exact (Frame.kept_refl _) | intros; exact I | reflexivity|].
    intros fs fs' W. apply (Frame.mkdirs_below _ []). rewrite app_nil_r. exact W.
  - unfold IO.json_dump. apply obeys_write;
      [exact (Frame.kept_refl _) | intros; exact I | reflexivity|].
    intros fs fs' W. rewrite Hf in W. exact (Frame.write_below _ _ _ _ _ W).
Qed.

End Output.

(** X9 generate_marketplace.py reads the manifests and produces
    [marketplace.json]: its file operations are reads, the creation of
    [.claude-plugin] and the write of [marketplace.json]; and however
    the run ends, every path that parts from [<root>/.claude-plugin],
    the plugin directories among them, holds what it held. *)
Theorem marketplace_generator_leaves_the_plugins (root : Path.t) (fs : node) (q : Path.t) :
  diverge (root // ".claude-plugin") q ->
  let run := GenerateMarketplace.main root fs in
  FS.lookup (state_of run) q = FS.lookup fs q
  /\ Forall (Output.produces root) (trace_of run).
Proof.
  intros Hq. cbv zeta.
  destruct (Output.confined_generate root fs) as (K & T & _).
  split; [exact (K q Hq) | exact T].
Qed.

(* ================================================================== *)
(** ** generate_plugin.py: the skill that cannot be loaded *)

(** X10 generate_plugin.py, given one skill, loads the metadata before
    it creates anything: without a [SKILL.md] it ends in
    [FileNotFoundError] and has touched no file, and with a [SKILL.md]
    that has no front matter it ends in [ValueError] after one read; in
    both cases the tree is as it was. *)
Theorem generator_fails_before_it_writes
    (prog name : string) (rest : list string) (root : Path.t) (fs : node) :
  name <> "--all" ->
  let skill_md := root // ".claude" // "skills" // name // "SKILL.md" in
  let run := GeneratePlugin.main (prog :: name :: rest) root fs in
  (FS.exists_ fs skill_md = false -> run = (Raise FileNotFoundError, fs, []))
  /\ (forall text,
         FS.read fs skill_md = Ok (Text text) ->
         GeneratePlugin.frontmatter text = None ->
         run = (Raise ValueError, fs, [Read skill_md])).
Proof.
  intros Hn. cbv zeta. unfold GeneratePlugin.main.
  destruct (String.eqb name "--all") eqn:E; [apply String.eqb_eq in E; contradiction|].
  unfold GeneratePlugin.init, GeneratePlugin._load_skill_metadata. cbv zeta.
  split.
  - intros Hx. unfold bind. rewrite exists_run, Hx. reflexivity.
  - intros text Hr Hf. unfold bind. rewrite exists_run.
    rewrite (Division.read_exists _ _ _ Hr). cbn [negb].
    unfold IO.read. rewrite Hr, Hf. reflexivity.
Qed.

(* ================================================================== *)
(** ** From the generators to fix_plugin_manifests.py *)

(** X11 The manifest generate_plugin.py writes is in the schema that
    fix_plugin_manifests.py repairs, and the repair of it never fails:
    the author becomes an object, the repository its url, the three
    paths get their [./], the category goes, and name, version,
    description, license, homepage and keywords stay, in their order.
    The same holds of the manifest generate_bundle.py writes, which
    loses [category], [bundle] and [includes]. *)
Theorem generated_manifests_are_repaired :
  (forall self,
      exists description keywords,
        Py.getitem (GeneratePlugin.manifest_document self) "description" = Ok description
        /\ Py.getitem (GeneratePlugin.manifest_document self) "keywords" = Ok keywords
        /\ FixPluginManifests.fix_document (GeneratePlugin.manifest_document self)
           = Ok (JObj [("name", JStr (GeneratePlugin.skill_name self));
                       ("version", JStr "1.0.0");
                       ("description", description);
                       ("author", JObj [("name", JStr "Claude Design Skillstack");
                                        ("email", JStr "oladotun.olatunji@gmail.com")]);
                       ("license", JStr "Apache-2.0");
                       ("homepage", JStr "https://github.com/freshtechbro/claudedesignskills");
                       ("repository",
                        JStr "https://github.com/freshtechbro/claudedesignskills.git");
                       ("keywords", keywords);
                       ("skills", JStr "./skills/");
                       ("commands", JStr "./commands/");
                       ("agents", JStr "./agents/")]))
  /\ (forall self,
         FixPluginManifests.fix_document (GenerateBundle.manifest_document self)
         = Ok (JObj [("name", JStr (GenerateBundle.bundle_name self));
                     ("version", JStr "1.0.0");
                     ("description",
                      JStr (GenerateBundle.description (GenerateBundle.config self)));
                     ("author", JObj [("name", JStr "Claude Design Skillstack");
                                      ("email", JStr "oladotun.olatunji@gmail.com")]);
                     ("license", JStr "Apache-2.0");
                     ("homepage", JStr "https://github.com/freshtechbro/claudedesignskills");
                     ("repository",
                      JStr "https://github.com/freshtechbro/claudedesignskills.git");
                     ("keywords",
                      JArr (map JStr (GenerateBundle.tags (GenerateBundle.config self))));
                     ("skills", JStr "./skills/");
                     ("commands", JStr "./commands/");
                     ("agents", JStr "./agents/")])).
Proof.
  split.
  - intros self. do 2 eexists. split; [reflexivity|]. split; reflexivity.
  - intros self. reflexivity.
Qed.

(* ================================================================== *)
(** ** Directories: [mkdir(parents=True, exist_ok=True)] *)

Module Mkdir.

Lemma upsert_same (nm : string) (k : node) (es : FS.entries) :
  FS.assoc nm es = Some k -> FS.upsert nm k es = es.
Proof.
  induction es as [|[n x] es IH]; [discriminate|].
  cbn [FS.assoc FS.upsert]. destruct (String.eqb nm n) eqn:E.
  - apply String.eqb_eq in E. subst n. intros [= ->]. reflexivity.
  - intros H. rewrite (IH H). reflexivity.
Qed.

Lemma mkdirs_is_dir (p : Path.t) (fs fs' : node) :
  FS.mkdirs fs p = Ok fs' -> FS.is_dir fs' p = true.
Proof.
  revert fs fs'. induction p as [|nm p IH]; intros fs fs' W.
  - destruct fs; [discriminate W|]. injection W as <-. reflexivity.
  - destruct fs as [|es]; [discriminate W|]. simpl in W.
    match type of W with
    | match FS.mkdirs ?k p with _ => _ end = _ =>
        destruct (FS.mkdirs k p) as [k'|] eqn:W'; [|discriminate W]
    end.
    injection W as <-. unfold FS.is_dir. cbn [FS.lookup].
    rewrite assoc_upsert, String.eqb_refl. exact (IH _ _ W').
Qed.

Lemma mkdirs_keeps_dirs (p q : Path.t) (fs fs' : node) :
  FS.mkdirs fs p = Ok fs' -> FS.is_dir fs q = true -> FS.is_dir fs' q = true.
Proof.
  revert q fs fs'. induction p as [|nm p IH]; intros q fs fs' W D.
  - destruct fs; [discriminate W|]. injection W as <-. exact D.
  - destruct fs as [|es]; [discriminate W|]. simpl in W.
    match type of W with
    | match FS.mkdirs ?k p with _ => _ end = _ =>
        destruct (FS.mkdirs k p) as [k'|] eqn:W'; [|discriminate W]
    end.
    injection W as <-. destruct q as [|c q]; [reflexivity|].
    unfold FS.is_dir in *. cbn [FS.lookup] in *. rewrite assoc_upsert.
    destruct (String.eqb c nm) eqn:E.
    + apply String.eqb_eq in E. subst c.
      destruct (FS.assoc nm es) as [k|]; [|discriminate D].
      exact (IH q _ _ W' D).
    + exact D.
Qed.

Lemma mkdirs_existing (p : Path.t) (fs : node) :
  FS.is_dir fs p = true -> FS.mkdirs fs p = Ok fs.
Proof.
  revert fs. induction p as [|nm p IH]; intros fs D.
  - destruct fs; [discriminate D | reflexivity].
  - destruct fs as [|es]; [discriminate D|].
    unfold FS.is_dir in D. cbn [FS.lookup] in D. simpl.
    destruct (FS.assoc nm es) as [k|] eqn:A; [|discriminate D].
    rewrite (IH k D), (upsert_same _ _ _ A). reflexivity.
Qed.

Lemma mkdir_run (p : Path.t) (fs : node) :
  IO.mkdir p fs =
  match FS.mkdirs fs p with
  | Ok fs' => (Ok tt, fs', [Mkdir p])
  | Raise e => (Raise e, fs, [])
  end.
Proof. reflexivity. Qed.

(** Making directories that are there changes nothing. *)
Lemma make_existing (dirs : list Path.t) (fs : node) :
  Forall (fun d => FS.is_dir fs d = true) dirs ->
  for_each dirs IO.mkdir fs = (Ok tt, fs, map Mkdir dirs).
Proof.
  induction dirs as [|d dirs IH]; intros H; [reflexivity|].
  inversion H as [|? ? Hd Hrest]; subst.
  cbn [for_each map]. unfold bind.
  rewrite (mkdir_run d fs), (mkdirs_existing d fs Hd), (IH Hrest). reflexivity.
Qed.

Lemma make_all (dirs : list Path.t) (fs : node) :
  result_of (for_each dirs IO.mkdir fs) = Ok tt ->
  Forall (fun d => FS.is_dir (state_of (for_each dirs IO.mkdir fs)) d = true) dirs
  /\ forall q, FS.is_dir fs q = true ->
               FS.is_dir (state_of (for_each dirs IO.mkdir fs)) q = true.
Proof.
  revert fs. induction dirs as [|d dirs IH]; intros fs H.
  - split; [constructor | intros q Hq; exact Hq].
  - cbn [for_each] in *. rewrite result_bind in H. rewrite state_bind.
    rewrite (mkdir_run d fs) in *.
    destruct (FS.mkdirs fs d) as [fs1|e] eqn:W; cbn [result_of state_of fst snd] in *;
      [|discriminate H].
    destruct (IH fs1 H) as [Hall Hkeep]. split.
    + constructor; [|exact Hall].
      apply Hkeep. exact (mkdirs_is_dir _ _ _ W).
    + intros q Hq. apply Hkeep. exact (mkdirs_keeps_dirs _ _ _ _ W Hq).
Qed.

End Mkdir.

(** X12 When [_create_plugin_structure] of generate_plugin.py returns,
    the plugin directory and its four subdirectories are directories,
    every directory that was there before still is one, and a second
    call changes nothing.  The same holds of [_create_bundle_structure]
    of generate_bundle.py. *)
Theorem structure_is_created_once :
  (forall self fs,
      let dirs := [GeneratePlugin.plugin_dir self;
                   GeneratePlugin.plugin_dir self // ".claude-plugin";
                   GeneratePlugin.plugin_dir self // "skills";
                   GeneratePlugin.plugin_dir self // "commands";
                   GeneratePlugin.plugin_dir self // "agents"] in
      let run := GeneratePlugin._create_plugin_structure self fs in
      result_of run = Ok tt ->
      Forall (fun d => FS.is_dir (state_of run) d = true) dirs
      /\ (forall q, FS.is_dir fs q = true -> FS.is_dir (state_of run) q = true)
      /\ GeneratePlugin._create_plugin_structure self (state_of run)
         = (Ok tt, state_of run, map Mkdir dirs))
  /\ (forall self fs,
         let dirs := [GenerateBundle.bundle_dir self;
                      GenerateBundle.bundle_dir self // ".claude-plugin";
                      GenerateBundle.bundle_dir self // "skills";
                      GenerateBundle.bundle_dir self // "commands";
                      GenerateBundle.bundle_dir self // "agents"] in
         let run := GenerateBundle._create_bundle_structure self fs in
         result_of run = Ok tt ->
         Forall (fun d => FS.is_dir (state_of run) d = true) dirs
         /\ (forall q, FS.is_dir fs q = true -> FS.is_dir (state_of run) q = true)
         /\ GenerateBundle._create_bundle_structure self (state_of run)
            = (Ok tt, state_of run, map Mkdir dirs)).
Proof.
  split; intros self fs dirs run H; subst run;
    [unfold GeneratePlugin._create_plugin_structure in *
    |unfold GenerateBundle._create_bundle_structure in *];
    fold dirs in H |- *;
    destruct (Mkdir.make_all dirs fs H) as [Hall Hkeep];
    (split; [exact Hall|]); (split; [exact Hkeep|]);
    apply Mkdir.make_existing; exact Hall.
Qed.

(* ================================================================== *)
(** ** The copy of a skill: [shutil.copytree] with [ignore_patterns] *)

Module Copy.

Lemma install_lookup (p : Path.t) (fs fs' new : node) :
  FS.install fs p new = Ok fs' -> FS.lookup fs' p = Some new.
Proof.
  revert fs fs'. induction p as [|nm p IH]; intros fs fs' W; [discriminate W|].
  destruct fs as [|es]; [discriminate W|].
  destruct p as [|nm' p].
  - simpl in W. destruct (FS.assoc nm es); [discriminate W|].
    injection W as <-. cbn [FS.lookup]. rewrite assoc_upsert, String.eqb_refl. reflexivity.
  - rewrite install_deeper in W.
    match type of W with
    | match ?m with _ => _ end = _ => destruct m as [k'|] eqn:W'; [|discriminate W]
    end.
    injection W as <-. cbn [FS.lookup]. rewrite assoc_upsert, String.eqb_refl.
    exact (IH _ _ W').
Qed.

(** The entries [copytree] keeps of a directory. *)
Fixpoint kept_entries (es : FS.entries) : FS.entries :=
  match es with
  | [] => []
  | (nm, k) :: es' =>
      if FS.ignored nm then kept_entries es' else (nm, FS.prune k) :: kept_entries es'
  end.

Lemma prune_dir (es : FS.entries) : FS.prune (Dir es) = Dir (kept_entries es).
Proof. reflexivity. Qed.

Lemma assoc_kept (c : string) (es : FS.entries) :
  FS.assoc c (kept_entries es)
  = if FS.ignored c then None else option_map FS.prune (FS.assoc c es).
Proof.
  induction es as [|[nm k] es IH]; cbn [kept_entries FS.assoc].
  - destruct (FS.ignored c); reflexivity.
  - destruct (String.eqb c nm) eqn:E.
    + apply String.eqb_eq in E. subst nm.
      destruct (FS.ignored c); [exact IH|].
      cbn [FS.assoc]. rewrite String.eqb_refl. reflexivity.
    + destruct (FS.ignored nm); [exact IH|].
      cbn [FS.assoc]. rewrite E. exact IH.
Qed.

(** What the copy holds at a path: nothing below an ignored name, and
    the copy of what the original holds elsewhere. *)
Lemma lookup_prune (q : Path.t) (n : node) :
  FS.lookup (FS.prune n) q
  = if existsb FS.ignored q then None else option_map FS.prune (FS.lookup n q).
Proof.
  revert n. induction q as [|c q IH]; intros n; [reflexivity|].
  cbn [existsb]. destruct n as [x|es].
  - cbn. destruct (FS.ignored c || existsb FS.ignored q); reflexivity.
  - rewrite prune_dir. cbn [FS.lookup]. rewrite assoc_kept.
    destruct (FS.ignored c); [reflexivity|]. cbn [orb].
    destruct (FS.assoc c es) as [k|]; cbn [option_map].
    + apply IH.
    + destruct (existsb FS.ignored q); reflexivity.
Qed.

Lemma read_prune (x : option node) (fs fs' : node) (p p' : Path.t) :
  FS.lookup fs' p' = option_map FS.prune x -> FS.lookup fs p = x ->
  FS.read fs' p' = FS.read fs p /\ FS.is_dir fs' p' = FS.is_dir fs p.
Proof.
  unfold FS.read, FS.is_dir. intros -> ->.
  destruct x as [[c|es]|]; cbn [option_map]; rewrite ?prune_dir; split; reflexivity.
Qed.

Import GeneratePlugin.

(** The two directories of a skill given by a plain name. *)
Lemma plugin_paths name root fs0 self :
  Layout.plain name = true ->
  result_of (init name root fs0) = Ok self ->
  skill_name self = name
  /\ skill_dir self = (root ++ [".claude"]) ++ "skills" :: [name]
  /\ plugin_dir self = (root ++ [".claude"]) ++ "plugins" :: ["individual"; name].
Proof.
  intros Hp. unfold init. cbv zeta. rewrite result_bind.
  destruct (result_of (_load_skill_metadata _ fs0)); [|discriminate].
  cbn [ret result_of fst]. intros [= <-]. cbn [skill_name skill_dir plugin_dir].
  rewrite (Layout.join_plain root ".claude" eq_refl).
  rewrite (Layout.join_plain _ "skills" eq_refl), (Layout.join_plain _ "plugins" eq_refl).
  rewrite (Layout.join_plain _ "individual" eq_refl).
  rewrite !(Layout.join_plain _ name Hp).
  unfold Path.child. rewrite <- !app_assoc. repeat split; reflexivity.
Qed.

Lemma source_apart name root fs0 self r :
  Layout.plain name = true ->
  result_of (init name root fs0) = Ok self ->
  diverge (plugin_dir self) (skill_dir self ++ r).
Proof.
  intros Hp Hi. destruct (plugin_paths _ _ _ _ Hp Hi) as (_ & -> & ->).
  exists (root ++ [".claude"]), "plugins", "skills", ["individual"; name], (name :: r).
  split; [discriminate|]. split; [reflexivity|].
  rewrite <- !app_assoc. reflexivity.
Qed.

(** The run of [_copy_skill_content] when it returns. *)
Lemma copy_run self fs :
  let dst := plugin_dir self // "skills" // skill_name self in
  result_of (_copy_skill_content self fs) = Ok tt ->
  exists fs1 es,
    (fs1 = fs \/ FS.rmtree fs dst = Ok fs1)
    /\ FS.lookup fs1 (skill_dir self) = Some (Dir es)
    /\ FS.install fs1 dst (FS.prune (Dir es)) = Ok (state_of (_copy_skill_content self fs)).
Proof.
  cbv zeta. unfold _copy_skill_content. cbv zeta.
  set (dst := plugin_dir self // "skills" // skill_name self).
  rewrite result_bind, state_bind, exists_run. cbn [result_of state_of fst snd].
  rewrite result_bind, state_bind.
  assert (Hfirst : exists fs1,
             (fs1 = fs \/ FS.rmtree fs dst = Ok fs1)
             /\ (result_of ((if FS.exists_ fs dst then IO.rmtree dst else ret tt) fs) = Ok tt
                 -> state_of ((if FS.exists_ fs dst then IO.rmtree dst else ret tt) fs) = fs1)
             /\ (forall e, result_of ((if FS.exists_ fs dst then IO.rmtree dst else ret tt) fs)
                           = Raise e -> True)).
  { destruct (FS.exists_ fs dst).
    - unfold IO.rmtree. destruct (FS.rmtree fs dst) as [fs1|e] eqn:R.
      + exists fs1. repeat split; auto.
      + exists fs. split; [left; reflexivity|]. split; [discriminate | auto].
    - exists fs. split; [left; reflexivity|]. split; [reflexivity | auto]. }
  destruct Hfirst as (fs1 & Hfs1 & Hst & _).
  destruct (result_of ((if FS.exists_ fs dst then IO.rmtree dst else ret tt) fs))
    as [[]|e]; [|discriminate].
  rewrite (Hst eq_refl).
  unfold IO.copytree.
  destruct (FS.lookup fs1 (skill_dir self)) as [[c|es]|] eqn:L; try discriminate.
  destruct (FS.install fs1 dst (FS.prune (Dir es))) as [fs2|e] eqn:W; [|discriminate].
  intros _. exists fs1, es. cbn [state_of fst snd]. repeat split; auto.
Qed.

End Copy.

(** X13 When [_copy_skill_content] of generate_plugin.py returns, the
    plugin holds, under [skills/<name>], the skill without its archives:
    no path with a component that ends with [.zip] or is [.DS_Store] is
    there, every other path holds the file the skill holds at it and is
    a directory where the skill has one; the skill itself is as it was. *)
Theorem skill_copy_leaves_out_archives
    (name : string) (root : Path.t) (fs0 fs : node)
    (self : GeneratePlugin.PluginGenerator) (q : Path.t) :
  Layout.plain name = true ->
  result_of (GeneratePlugin.init name root fs0) = Ok self ->
  let run := GeneratePlugin._copy_skill_content self fs in
  let src := GeneratePlugin.skill_dir self in
  let dst := GeneratePlugin.plugin_dir self // "skills" // name in
  result_of run = Ok tt ->
  FS.lookup (state_of run) (src ++ q) = FS.lookup fs (src ++ q)
  /\ if existsb FS.ignored q
     then FS.exists_ (state_of run) (dst ++ q) = false
     else FS.read (state_of run) (dst ++ q) = FS.read fs (src ++ q)
          /\ FS.is_dir (state_of run) (dst ++ q) = FS.is_dir fs (src ++ q).
Proof.
  intros Hp Hi. cbv zeta. intros Hr.
  destruct (Copy.plugin_paths _ _ _ _ Hp Hi) as (Hn & Hs & Hd).
  destruct (Copy.copy_run self fs Hr) as (fs1 & es & Hfs1 & L & W).
  cbv zeta in Hfs1, W. rewrite Hn in Hfs1, W.
  set (fs2 := state_of (GeneratePlugin._copy_skill_content self fs)) in *.
  assert (Hdst : GeneratePlugin.plugin_dir self // "skills" // name
                 = GeneratePlugin.plugin_dir self ++ ["skills"; name]).
  { rewrite (Layout.join_plain _ "skills" eq_refl), (Layout.join_plain _ name Hp).
    unfold Path.child. rewrite <- app_assoc. reflexivity. }
  assert (K1 : Frame.kept (GeneratePlugin.plugin_dir self) fs fs1).
  { destruct Hfs1 as [-> | R]; [apply Frame.kept_refl|].
    rewrite Hdst in R. exact (Frame.rmtree_below _ _ _ _ R). }
  assert (K2 : Frame.kept (GeneratePlugin.plugin_dir self) fs1 fs2).
  { rewrite Hdst in W. exact (Frame.install_below _ _ _ _ _ W). }
  pose proof (Copy.source_apart name root fs0 self) as Hap.
  assert (Hsrc : forall r, FS.lookup fs2 (GeneratePlugin.skill_dir self ++ r)
                           = FS.lookup fs (GeneratePlugin.skill_dir self ++ r)).
  { intros r. rewrite (K2 _ (Hap r Hp Hi)). exact (K1 _ (Hap r Hp Hi)). }
  split; [apply Hsrc|].
  assert (Lq : FS.lookup fs2 ((GeneratePlugin.plugin_dir self // "skills" // name) ++ q)
               = FS.lookup (FS.prune (Dir es)) q).
  { rewrite MissingManifest.lookup_app, (Copy.install_lookup _ _ _ _ W). reflexivity. }
  rewrite Copy.lookup_prune in Lq.
  destruct (existsb FS.ignored q).
  - unfold FS.exists_. rewrite Lq. reflexivity.
  - apply (Copy.read_prune (FS.lookup (Dir es) q)); [exact Lq|].
    rewrite MissingManifest.lookup_app.
    pose proof (K1 _ (Hap [] Hp Hi)) as L0. rewrite app_nil_r in L0.
    rewrite <- L0, L. reflexivity.
Qed.

(* ================================================================== *)
(** ** generate_plugin.py: what the generation of a plugin touches *)

Module Within.
Import GeneratePlugin.

Definition anything : exn -> Prop := fun _ => True.

(** The computation changes nothing that parts from [dir]. *)
Definition within (dir : Path.t) {A} (m : M node A) : Prop :=
  obeys (Frame.kept dir) any_event anything (fun _ => True) m.

Lemma within_write dir t c : within dir (IO.write (dir ++ t) c).
Proof.
  apply obeys_write; [exact (Frame.kept_refl _) | intros; exact I | exact I|].
  intros fs fs' W. exact (Frame.write_below _ _ _ _ _ W).
Qed.

Lemma within_mkdir dir t : within dir (IO.mkdir (dir ++ t)).
Proof.
  apply obeys_mkdir; [exact (Frame.kept_refl _) | intros; exact I | exact I|].
  intros fs fs' W. exact (Frame.mkdirs_below _ _ _ _ W).
Qed.

Lemma within_rmtree dir t : within dir (IO.rmtree (dir ++ t)).
Proof.
  apply obeys_rmtree; [exact (Frame.kept_refl _) | intros; exact I | exact I|].
  intros fs fs' W. exact (Frame.rmtree_below _ _ _ _ W).
Qed.

Lemma within_copytree dir src t : within dir (IO.copytree src (dir ++ t)).
Proof.
  apply obeys_copytree; [exact (Frame.kept_refl _) | intros; exact I | exact I|].
  intros fs new fs' W. exact (Frame.install_below _ _ _ _ _ W).
Qed.

Ltac stays :=
  repeat first
    [ apply obeys_ret; [exact (Frame.kept_refl _) | exact I]
    | apply obeys_raise; [exact (Frame.kept_refl _) | exact I]
    | apply obeys_lift;
      [ exact (Frame.kept_refl _)
      | match goal with |- match ?r with _ => _ end => destruct r; exact I end ]
    | apply obeys_exists; exact (Frame.kept_refl _)
    | apply obeys_is_dir; exact (Frame.kept_refl _)
    | eapply obeys_weaken; [|apply obeys_glob; exact (Frame.kept_refl _)]; intros; exact I
    | apply within_write
    | apply within_mkdir
    | apply within_rmtree
    | apply within_copytree
    | apply obeys_bind with (V := fun _ : _ => True); [exact (Frame.kept_trans _)| |intros ? _]
    | match goal with
      | |- obeys _ _ _ _ (if ?b then _ else _) => destruct b
      | |- obeys _ _ _ _ (match ?x with _ => _ end) => destruct x
      | |- obeys _ _ _ _ (let _ := _ in _) => cbv zeta
      end ].

Lemma child_below (dir : Path.t) (nm : string) :
  Layout.plain nm = true -> dir // nm = dir ++ [nm].
Proof. intros H. exact (Layout.join_plain dir nm H). Qed.

Lemma within_structure self : within (plugin_dir self) (_create_plugin_structure self).
Proof.
  unfold within, _create_plugin_structure.
  rewrite (child_below _ ".claude-plugin" eq_refl), (child_below _ "skills" eq_refl),
    (child_below _ "commands" eq_refl), (child_below _ "agents" eq_refl).
  rewrite <- (app_nil_r (plugin_dir self)) at 2.
  cbn [for_each]. stays.
Qed.

Lemma within_manifest self :
  within (plugin_dir self ++ [".claude-plugin"]) (_generate_manifest self).
Proof.
  unfold within, _generate_manifest, IO.json_dump. cbv zeta.
  rewrite Again.manifest_path.
  change (plugin_dir self ++ [".claude-plugin"; "plugin.json"])
    with (plugin_dir self ++ [".claude-plugin"] ++ ["plugin.json"]).
  rewrite app_assoc. apply within_write.
Qed.

Lemma within_copy self :
  Layout.plain (skill_name self) = true ->
  within (plugin_dir self ++ ["skills"]) (_copy_skill_content self).
Proof.
  intros Hp. unfold within, _copy_skill_content. cbv zeta.
  rewrite (child_below _ "skills" eq_refl), (child_below _ _ Hp).
  stays.
Qed.

Lemma plain_suffixed (name suffix : string) :
  Layout.plain name = true -> Layout.no_slash suffix = true ->
  Layout.plain (name ++ suffix ++ ".md") = true.
Proof.
  intros Hn Hs. rewrite <- Str_append_assoc. apply Layout.plain_md.
  rewrite Layout.no_slash_app, (Layout.plain_no_slash _ Hn), Hs. reflexivity.
Qed.

Lemma within_agents self :
  Layout.plain (skill_name self) = true ->
  within (plugin_dir self ++ ["agents"]) (_generate_agents self).
Proof.
  intros Hp. unfold within, _generate_agents, create_agent. cbv zeta.
  rewrite (child_below _ "agents" eq_refl).
  repeat match goal with
         | |- obeys _ _ _ _ (if ?b then _ else _) => destruct b
         end;
    rewrite Str_append_assoc;
    match goal with
    | |- context [Path.join _ (skill_name self ++ ?suf ++ ".md")%string] =>
        rewrite (child_below _ _ (plain_suffixed _ suf Hp eq_refl))
    end;
    apply within_write.
Qed.

(** The commands, for scripts whose names hold no slash. *)
Lemma commands_stay self fs :
  forallb Layout.no_slash (FS.glob fs (skill_dir self // "scripts") ".py") = true ->
  Frame.kept (plugin_dir self ++ ["commands"]) fs (state_of (_generate_commands self fs)).
Proof.
  intros Hns. unfold _generate_commands. cbv zeta.
  rewrite state_bind, exists_run. cbn [result_of state_of fst snd].
  rewrite state_bind. cbn [IO.glob result_of state_of fst snd].
  rewrite (child_below (plugin_dir self) "commands" eq_refl).
  set (dir := plugin_dir self ++ ["commands"]).
  match goal with
  | |- context [if ?b then _ else _] => destruct b
  end.
  - rewrite state_bind. cbn [IO.glob result_of state_of fst snd].
    match goal with
    | |- Frame.kept _ _ (state_of (for_each ?l ?b fs)) =>
        assert (H : within dir (for_each l b))
    end.
    { apply obeys_for_each; [exact (Frame.kept_refl _) | exact (Frame.kept_trans _)|].
      intros x Hx. cbv zeta.
      apply in_map_iff in Hx. destruct Hx as (s & <- & Hs).
      unfold Path.stem. rewrite ValidateRun.name_child.
      rewrite forallb_forall in Hns.
      rewrite (child_below _ _ (Layout.plain_md _ (Layout.no_slash_stem _ (Hns _ Hs)))).
      apply within_write. }
    destruct (H fs) as (K & _ & _). exact K.
  - assert (H : within dir
                  (_generate_generic_commands dir (skill_name self)
                     (_format_skill_title self))).
    { unfold within, _generate_generic_commands. cbv zeta.
      rewrite (child_below _ "setup.md" eq_refl), (child_below _ "help.md" eq_refl).
      stays. }
    destruct (H fs) as (K & _ & _). exact K.
Qed.

(** The state after a step that returned or raised. *)
Lemma kept_bind dir {A B} (m : M node A) (f : A -> M node B) fs :
  Frame.kept dir fs (state_of (m fs)) ->
  (forall a, Frame.kept dir (state_of (m fs)) (state_of (f a (state_of (m fs))))) ->
  Frame.kept dir fs (state_of (bind m f fs)).
Proof.
  intros H1 H2. rewrite state_bind.
  destruct (result_of (m fs)); [|exact H1].
  exact (Frame.kept_trans _ _ _ _ H1 (H2 a)).
Qed.

Lemma kept_coarser dir t s s' : Frame.kept (dir ++ t) s s' -> Frame.kept dir s s'.
Proof.
  intros K q Hq. apply K.
  destruct (Frame.below dir t q Hq) as (l & a & b & r & r' & Hab & E & ->).
  exists l, a, b, r, r'. repeat split; auto.
Qed.

Lemma glob_kept dir fs fs' p suffix :
  Frame.kept dir fs fs' -> diverge dir p -> FS.glob fs' p suffix = FS.glob fs p suffix.
Proof. intros K Hp. apply Again.glob_lookup. exact (K p Hp). Qed.

End Within.

(** X14 The generation of a plugin by generate_plugin.py, for a skill
    given by the name of a directory entry (no slash, not empty, neither
    [.] nor [..]), changes nothing outside the directory of the plugin,
    however it ends: every path that parts from
    [.claude/plugins/individual/<name>] holds what it held, and so does
    every path of the skill under [.claude/skills/<name>].  (The names
    of directory entries hold no slash.) *)
Theorem plugin_generation_stays_in_its_directory
    (name : string) (root : Path.t) (fs0 fs : node)
    (self : GeneratePlugin.PluginGenerator) :
  Layout.component name = true ->
  result_of (GeneratePlugin.init name root fs0) = Ok self ->
  forallb Layout.no_slash
          (FS.glob fs (GeneratePlugin.skill_dir self // "scripts") ".py") = true ->
  let after := state_of (GeneratePlugin.generate self fs) in
  (forall q, diverge (GeneratePlugin.plugin_dir self) q ->
             FS.lookup after q = FS.lookup fs q)
  /\ (forall r, FS.lookup after (GeneratePlugin.skill_dir self ++ r)
                = FS.lookup fs (GeneratePlugin.skill_dir self ++ r)).
Proof.
  intros Hc Hi Hns. cbv zeta.
  pose proof (Layout.component_plain _ Hc) as Hp.
  destruct (Copy.plugin_paths _ _ _ _ Hp Hi) as (Hn & _ & _).
  assert (Hp' : Layout.plain (GeneratePlugin.skill_name self) = true) by (rewrite Hn; exact Hp).
  pose proof (Copy.source_apart name root fs0 self) as Hap.
  assert (K : Frame.kept (GeneratePlugin.plugin_dir self) fs
                (state_of (GeneratePlugin.generate self fs))).
  { unfold GeneratePlugin.generate.
    apply Within.kept_bind; [apply (Within.within_structure self fs)|intros _].
    set (s1 := state_of (GeneratePlugin._create_plugin_structure self fs)).
    assert (K1 : Frame.kept (GeneratePlugin.plugin_dir self) fs s1)
      by apply (Within.within_structure self fs).
    set (s2 := state_of (GeneratePlugin._generate_manifest self s1)).
    assert (K2 : Frame.kept (GeneratePlugin.plugin_dir self) s1 s2)
      by (eapply Within.kept_coarser; apply (Within.within_manifest self s1)).
    apply Within.kept_bind; [exact K2|intros _].
    set (s3 := state_of (GeneratePlugin._copy_skill_content self s2)).
    assert (K3 : Frame.kept (GeneratePlugin.plugin_dir self) s2 s3)
      by (eapply Within.kept_coarser; apply (Within.within_copy self Hp' s2)).
    apply Within.kept_bind; [exact K3|intros _].
    apply Within.kept_bind;
      [|intros _; eapply Within.kept_coarser; apply (Within.within_agents self Hp')].
    eapply Within.kept_coarser. apply Within.commands_stay.
    assert (K03 : Frame.kept (GeneratePlugin.plugin_dir self) fs s3)
      by (eapply Frame.kept_trans; [eapply Frame.kept_trans; eassumption | exact K3]).
    rewrite (Within.glob_kept _ _ _ _ _ K03); [exact Hns|].
    rewrite (Within.child_below _ "scripts" eq_refl).
    apply Hap; assumption. }
  split; [exact K|]. intros r. apply K. apply Hap; assumption.
Qed.

(* ================================================================== *)
(** ** A plugin the validator accepts *)

Module Clean.
Import ValidateMarketplace.

Lemma counted {A} (f : A -> bool) (x : A) (l : list A) :
  In x l -> f x = true -> (List.length (filter f l) =? 0)%nat = false.
Proof.
  intros Hin Hf.
  assert (H : In x (filter f l)) by (apply filter_In; auto).
  destruct (filter f l); [destruct H | reflexivity].
Qed.

Lemma exists_prefix fs p q : FS.exists_ fs (p ++ q) = true -> FS.exists_ fs p = true.
Proof.
  unfold FS.exists_. rewrite MissingManifest.lookup_app.
  destruct (FS.lookup fs p); [reflexivity | discriminate].
Qed.

Lemma is_dir_exists fs p : FS.is_dir fs p = true -> FS.exists_ fs p = true.
Proof.
  unfold FS.is_dir, FS.exists_. destruct (FS.lookup fs p); [reflexivity | discriminate].
Qed.

(** A step that returned, and the rest. *)
Lemma bind_eval {S A B} (m : M S A) (f : A -> M S B) (s s1 : S) (a : A) (t1 : list event) :
  m s = (Ok a, s1, t1) ->
  bind m f s = (result_of (f a s1), state_of (f a s1), t1 ++ trace_of (f a s1)).
Proof. intros H. rewrite run_bind, H. reflexivity. Qed.

(** The validator's state after an operation that only reads. *)
Definition same (v : validator) : validator :=
  {| fs := fs v; errors := errors v; warnings := warnings v |}.

Lemma exists_step p v b :
  FS.exists_ (fs v) p = b -> on_fs (IO.exists_ p) v = (Ok b, same v, []).
Proof. intros <-. apply MissingManifest.on_fs_exists. Qed.

(** A check that finds what it looks for. *)
Lemma found {A} (p : Path.t) (v : validator) (missing : M validator A) (a : A) :
  FS.exists_ (fs v) p = true ->
  (e <- on_fs (IO.exists_ p) ;; if negb e then missing else ret a)%io v
  = (Ok a, same v, []).
Proof. intros H. rewrite (bind_eval _ _ _ _ _ _ (exists_step p v true H)). reflexivity. Qed.

Lemma has_field (field : string) (d : Dict.t) (v : validator) (missing : M validator unit) :
  Dict.mem field d = true ->
  (has <- lift (Py.contains field (JObj d)) ;; if negb has then missing else ret tt)%io v
  = (Ok tt, v, []).
Proof. intros H. unfold bind, lift. cbn [Py.contains]. rewrite H. reflexivity. Qed.

(** Two steps that return, one after the other. *)
Lemma bind_ok {S A B} (m : M S A) (f : A -> M S B) (s s1 s2 : S) (a : A) (b : B)
    (t1 t2 t : list event) :
  m s = (Ok a, s1, t1) -> f a s1 = (Ok b, s2, t2) -> t = t1 ++ t2 ->
  bind m f s = (Ok b, s2, t).
Proof. intros H1 H2 ->. unfold bind. rewrite H1, H2. reflexivity. Qed.

Lemma try_ok {S} (body handler : M S unit) (s s1 : S) (t : list event) :
  body s = (Ok tt, s1, t) -> try_except_JSONDecodeError body handler s = (Ok tt, s1, t).
Proof. intros H. unfold try_except_JSONDecodeError. rewrite H. reflexivity. Qed.

(** Runs the first step of the computation in the goal. *)
Ltac step H := eapply bind_ok; [exact H | cbv beta | reflexivity].

(** The run of [_validate_plugin] on a plugin that has everything. *)
Lemma passes plugin_dir plugin_type v d sk :
  FS.read (fs v) (plugin_dir // ".claude-plugin" // "plugin.json") = Ok (Json (JObj d)) ->
  Dict.get "name" d = Some (JStr (Path.name plugin_dir)) ->
  Dict.mem "version" d = true ->
  Dict.mem "description" d = true ->
  FS.is_dir (fs v) (Path.child (plugin_dir // "skills") sk) = true ->
  FS.exists_ (fs v) (plugin_dir // "commands") = true ->
  FS.exists_ (fs v) (plugin_dir // "agents") = true ->
  _validate_plugin plugin_dir plugin_type v
  = (Ok tt, same v, [Read (plugin_dir // ".claude-plugin" // "plugin.json")]).
Proof.
  intros Hr Hn Hv Hd Hs Hc Ha.
  pose proof (Division.read_exists _ _ _ Hr) as Hm.
  assert (Hcp : FS.exists_ (fs v) (plugin_dir // ".claude-plugin") = true).
  { rewrite Again.manifest_path in Hm.
    change (plugin_dir ++ [".claude-plugin"; "plugin.json"])
      with (plugin_dir ++ [".claude-plugin"] ++ ["plugin.json"]) in Hm.
    rewrite app_assoc in Hm. apply exists_prefix in Hm.
    rewrite (Layout.join_plain _ ".claude-plugin" eq_refl). exact Hm. }
  destruct (MissingManifest.is_dir_child_listed _ _ _ Hs) as (Hsk & names & Hl & Hin).
  assert (Hname : Dict.mem "name" d = true) by (unfold Dict.mem; rewrite Hn; reflexivity).
  unfold _validate_plugin. cbv zeta.
  (* the required directories *)
  eapply bind_ok with (s1 := same v) (t1 := []) (a := tt); [| cbv beta | reflexivity].
  { cbn [for_each].
    step (found _ v (error (Path.name plugin_dir ++ ": Missing required directory '"
                              ++ ".claude-plugin" ++ "'")) tt Hcp).
    step (found _ (same v) (error (Path.name plugin_dir ++ ": Missing required directory '"
                              ++ "skills" ++ "'")) tt Hsk).
    reflexivity. }
  (* the manifest *)
  step (exists_step _ (same v) true Hm). cbn [negb].
  apply try_ok.
  step (Verdict.on_fs_json_load _ (same v) (JObj d) Hr).
  eapply bind_ok with (s1 := same v) (t1 := []) (a := tt); [| cbv beta | reflexivity].
  { cbn [for_each].
    step (has_field "name" d (same v) (error (Path.name plugin_dir
            ++ ": plugin.json missing '" ++ "name" ++ "'")) Hname).
    step (has_field "version" d (same v) (error (Path.name plugin_dir
            ++ ": plugin.json missing '" ++ "version" ++ "'")) Hv).
    step (has_field "description" d (same v) (error (Path.name plugin_dir
            ++ ": plugin.json missing '" ++ "description" ++ "'")) Hd).
    reflexivity. }
  eapply bind_ok with (s1 := same v) (t1 := []) (a := JStr (Path.name plugin_dir));
    [| cbv beta iota | reflexivity].
  { unfold lift. cbn [Py.get]. rewrite Hn. reflexivity. }
  rewrite String.eqb_refl.
  eapply bind_ok with (s1 := same v) (t1 := []) (a := tt); [reflexivity | | reflexivity].
  (* the skills *)
  step (exists_step _ (same v) true Hsk). cbn [negb].
  eapply bind_ok with (s1 := same v) (t1 := []) (a := tt); [| cbv beta | reflexivity].
  { step (MissingManifest.on_fs_iterdir (plugin_dir // "skills") (same v) names Hl).
    eapply bind_ok with (s1 := same v) (t1 := []) (a := same v);
      [reflexivity | cbv beta zeta | reflexivity].
    cbn [fs same].
    rewrite (counted (FS.is_dir (fs v)) (Path.child (plugin_dir // "skills") sk));
      [|apply in_map; exact Hin | exact Hs].
    reflexivity. }
  (* the commands and the agents *)
  step (exists_step _ (same v) true Hc).
  eapply bind_ok with (s1 := same v) (t1 := []) (a := tt); [reflexivity | cbv beta | reflexivity].
  step (exists_step _ (same v) true Ha). reflexivity.
Qed.

End Clean.

(* ================================================================== *)
(** ** generate_plugin.py and validate_marketplace.py: a generated plugin *)

Module Generated.
Import GeneratePlugin.

(** The directories of the first tree are directories of the second. *)
Definition dirs_stay (s s' : node) : Prop :=
  forall q, FS.is_dir s q = true -> FS.is_dir s' q = true.

Lemma dirs_stay_refl s : dirs_stay s s.
Proof. intros q H. exact H. Qed.

Lemma dirs_stay_trans s1 s2 s3 : dirs_stay s1 s2 -> dirs_stay s2 s3 -> dirs_stay s1 s3.
Proof. intros H1 H2 q H. exact (H2 q (H1 q H)). Qed.

Lemma not_dir_below_file (c : content) (q : Path.t) : FS.is_dir (File c) q = false.
Proof. destruct q; reflexivity. Qed.

(** Writing a file removes no directory. *)
Lemma write_keeps_dirs (p : Path.t) (c : content) (fs fs' : node) :
  FS.write fs p c = Ok fs' -> dirs_stay fs fs'.
Proof.
  revert fs fs'. induction p as [|nm p IH]; intros fs fs' W q D; [discriminate W|].
  destruct fs as [|es]; [discriminate W|].
  destruct p as [|y t].
  - simpl in W. destruct (FS.assoc nm es) as [[x|]|] eqn:A; try discriminate W;
      injection W as <-;
      (destruct q as [|x' q]; [reflexivity|]);
      unfold FS.is_dir in *; cbn [FS.lookup] in *;
      rewrite assoc_upsert;
      (destruct (String.eqb x' nm) eqn:E; [|exact D]);
      apply String.eqb_eq in E; subst x'; rewrite A in D.
    + fold (FS.is_dir (File x) q) in D. rewrite not_dir_below_file in D. discriminate D.
    + cbv beta iota in D. discriminate D.
  - rewrite write_deeper in W. destruct (FS.assoc nm es) as [k|] eqn:A; [|discriminate W].
    destruct (FS.write k (y :: t) c) as [k'|] eqn:W'; [|discriminate W].
    injection W as <-.
    destruct q as [|x' q]; [reflexivity|].
    unfold FS.is_dir in *. cbn [FS.lookup] in *.
    rewrite assoc_upsert.
    destruct (String.eqb x' nm) eqn:E; [|exact D].
    apply String.eqb_eq in E. subst x'. rewrite A in D.
    exact (IH k k' W' q D).
Qed.

(** A computation that removes no directory. *)
Definition careful {A} (m : M node A) : Prop :=
  obeys dirs_stay any_event Within.anything (fun _ => True) m.

Lemma careful_write p c : careful (IO.write p c).
Proof.
  apply obeys_write; [exact dirs_stay_refl | intros; exact I | exact I|].
  intros fs fs' W. exact (write_keeps_dirs _ _ _ _ W).
Qed.

Lemma careful_copy2 src dst : careful (IO.copy2 src dst).
Proof.
  apply obeys_copy2; [exact dirs_stay_refl | intros; exact I | intros; exact I|].
  intros fs target c fs' W. exact (write_keeps_dirs _ _ _ _ W).
Qed.

Ltac cares :=
  repeat first
    [ apply obeys_ret; [exact dirs_stay_refl | exact I]
    | apply careful_copy2
    | apply obeys_exists; exact dirs_stay_refl
    | eapply obeys_weaken; [|apply obeys_glob; exact dirs_stay_refl]; intros; exact I
    | apply careful_write
    | apply obeys_for_each; [exact dirs_stay_refl | exact dirs_stay_trans | intros ? _]
    | apply obeys_bind with (V := fun _ : _ => True); [exact dirs_stay_trans| |intros ? _]
    | match goal with
      | |- obeys _ _ _ _ (if ?b then _ else _) => destruct b
      | |- obeys _ _ _ _ (let _ := _ in _) => cbv zeta
      end ].

Lemma careful_manifest self : careful (_generate_manifest self).
Proof. unfold careful, _generate_manifest, IO.json_dump. cbv zeta. cares. Qed.

Lemma careful_commands self : careful (_generate_commands self).
Proof.
  unfold careful, _generate_commands, _generate_generic_commands. cbv zeta. cares.
Qed.

Lemma careful_agents self : careful (_generate_agents self).
Proof. unfold careful, _generate_agents, create_agent. cbv zeta. cares. Qed.

(** The steps of a sequence that returned. *)
Lemma bind_returns {S A B} (m : M S A) (f : A -> M S B) (s : S) (b : B) :
  result_of (bind m f s) = Ok b ->
  exists a, result_of (m s) = Ok a
            /\ result_of (f a (state_of (m s))) = Ok b
            /\ state_of (bind m f s) = state_of (f a (state_of (m s))).
Proof.
  rewrite result_bind, state_bind.
  destruct (result_of (m s)) as [a|e]; [eauto | discriminate].
Qed.

Lemma apart (dir : Path.t) (a b : string) (r r' : Path.t) :
  a <> b -> diverge (dir ++ a :: r) (dir ++ b :: r').
Proof. intros H. exists dir, a, b, r, r'. auto. Qed.

(** What a generation that returned leaves in the directory of the
    plugin. *)
Lemma generated name root fs0 fs self :
  Layout.plain name = true ->
  result_of (init name root fs0) = Ok self ->
  forallb Layout.no_slash (FS.glob fs (skill_dir self // "scripts") ".py") = true ->
  result_of (generate self fs) = Ok tt ->
  let after := state_of (generate self fs) in
  FS.read after (plugin_dir self // ".claude-plugin" // "plugin.json")
  = Ok (Json (manifest_document self))
  /\ FS.is_dir after (Path.child (plugin_dir self // "skills") name) = true
  /\ FS.is_dir after (plugin_dir self // "commands") = true
  /\ FS.is_dir after (plugin_dir self // "agents") = true.
Proof.
  intros Hp Hi Hns Hg. cbv zeta.
  destruct (Copy.plugin_paths _ _ _ _ Hp Hi) as (Hn & _ & _).
  assert (Hp' : Layout.plain (skill_name self) = true) by (rewrite Hn; exact Hp).
  pose proof (Copy.source_apart name root fs0 self) as Hap.
  unfold generate in *.
  destruct (bind_returns _ _ _ _ Hg) as ([] & R1 & Hg1 & ->). clear Hg.
  set (s1 := state_of (_create_plugin_structure self fs)) in *.
  destruct (bind_returns _ _ _ _ Hg1) as ([] & R2 & Hg2 & ->). clear Hg1.
  set (s2 := state_of (_generate_manifest self s1)) in *.
  destruct (bind_returns _ _ _ _ Hg2) as ([] & R3 & Hg3 & ->). clear Hg2.
  set (s3 := state_of (_copy_skill_content self s2)) in *.
  destruct (bind_returns _ _ _ _ Hg3) as ([] & R4 & R5 & ->). clear Hg3.
  set (s4 := state_of (_generate_commands self s3)) in *.
  set (s5 := state_of (_generate_agents self s4)) in *.
  (* the directories *)
  destruct (Mkdir.make_all _ _ R1) as (D1 & _). fold s1 in D1.
  unfold _create_plugin_structure in D1.
  do 3 apply Forall_inv_tail in D1.
  pose proof (Forall_inv D1) as Dc. apply Forall_inv_tail in D1.
  pose proof (Forall_inv D1) as Da. clear D1. cbv beta in Dc, Da.
  fold s1 in Dc, Da.
  (* the frames *)
  assert (K1 : Frame.kept (plugin_dir self) fs s1) by apply (Within.within_structure self fs).
  assert (K2 : Frame.kept (plugin_dir self ++ [".claude-plugin"]) s1 s2)
    by apply (Within.within_manifest self s1).
  assert (K3 : Frame.kept (plugin_dir self ++ ["skills"]) s2 s3)
    by apply (Within.within_copy self Hp' s2).
  assert (K4 : Frame.kept (plugin_dir self ++ ["commands"]) s3 s4).
  { apply Within.commands_stay.
    assert (K03 : Frame.kept (plugin_dir self) fs s3).
    { eapply Frame.kept_trans; [eapply Frame.kept_trans; [exact K1|]|].
      - eapply Within.kept_coarser; exact K2.
      - eapply Within.kept_coarser; exact K3. }
    rewrite (Within.glob_kept _ _ _ _ _ K03); [exact Hns|].
    rewrite (Within.child_below _ "scripts" eq_refl).
    apply Hap; assumption. }
  assert (K5 : Frame.kept (plugin_dir self ++ ["agents"]) s4 s5)
    by apply (Within.within_agents self Hp' s4).
  assert (C2 : dirs_stay s1 s2) by apply (careful_manifest self s1).
  assert (C4 : dirs_stay s3 s4) by apply (careful_commands self s3).
  assert (C5 : dirs_stay s4 s5) by apply (careful_agents self s4).
  rewrite Again.manifest_path.
  rewrite (Within.child_below _ "skills" eq_refl), (Within.child_below _ "commands" eq_refl),
    (Within.child_below _ "agents" eq_refl) in *.
  unfold Path.child. rewrite <- !app_assoc. cbn [app].
  split; [|split; [|split]].
  - (* the manifest *)
    destruct (ManifestName.json_dump_written _ _ _ R2) as (_ & Rd).
    fold (_generate_manifest self s1) in Rd. fold s2 in Rd.
    rewrite Again.manifest_path in Rd.
    unfold FS.read in *.
    rewrite (K5 _ (apart _ "agents" ".claude-plugin" [] ["plugin.json"] ltac:(discriminate))).
    rewrite (K4 _ (apart _ "commands" ".claude-plugin" [] ["plugin.json"] ltac:(discriminate))).
    rewrite (K3 _ (apart _ "skills" ".claude-plugin" [] ["plugin.json"] ltac:(discriminate))).
    exact Rd.
  - (* the skill *)
    apply C5, C4.
    destruct (Copy.copy_run self s2 R3) as (fs1 & es & _ & _ & Hin).
    fold s3 in Hin.
    rewrite (Within.child_below _ "skills" eq_refl), (Within.child_below _ _ Hp') in Hin.
    unfold Path.child in Hin. rewrite <- app_assoc in Hin. cbn [app] in Hin.
    unfold FS.is_dir. rewrite <- Hn.
    rewrite (Copy.install_lookup _ _ _ _ Hin), Copy.prune_dir. reflexivity.
  - (* the commands *)
    apply C5, C4.
    unfold FS.is_dir.
    rewrite (K3 _ (apart _ "skills" "commands" [] [] ltac:(discriminate))).
    apply C2. exact Dc.
  - apply C5, C4.
    unfold FS.is_dir.
    rewrite (K3 _ (apart _ "skills" "agents" [] [] ltac:(discriminate))).
    apply C2. exact Da.
Qed.

End Generated.

(** X15 A plugin the validator has nothing to say about: when the
    manifest of a plugin directory is a JSON object with a name equal to
    the name of the directory, a version and a description, when
    [skills/] holds at least one directory and [commands/] and
    [agents/] exist, [_validate_plugin] returns, reads plugin.json and
    nothing else, and adds no error and no warning. *)
Theorem wellformed_plugin_passes
    (plugin_dir : Path.t) (plugin_type : string) (v : ValidateMarketplace.validator)
    (d : Dict.t) (sk : string) :
  FS.read (ValidateMarketplace.fs v) (plugin_dir // ".claude-plugin" // "plugin.json") = Ok (Json (JObj d)) ->
  Dict.get "name" d = Some (JStr (Path.name plugin_dir)) ->
  Dict.mem "version" d = true ->
  Dict.mem "description" d = true ->
  FS.is_dir (ValidateMarketplace.fs v) (Path.child (plugin_dir // "skills") sk) = true ->
  FS.exists_ (ValidateMarketplace.fs v) (plugin_dir // "commands") = true ->
  FS.exists_ (ValidateMarketplace.fs v) (plugin_dir // "agents") = true ->
  let run := ValidateMarketplace._validate_plugin plugin_dir plugin_type v in
  result_of run = Ok tt
  /\ trace_of run = [Read (plugin_dir // ".claude-plugin" // "plugin.json")]
  /\ ValidateMarketplace.fs (state_of run) = ValidateMarketplace.fs v
  /\ ValidateMarketplace.errors (state_of run) = ValidateMarketplace.errors v
  /\ ValidateMarketplace.warnings (state_of run) = ValidateMarketplace.warnings v.
Proof.
  intros Hr Hn Hv Hd Hs Hc Ha. cbv zeta.
  rewrite (Clean.passes plugin_dir plugin_type v d sk Hr Hn Hv Hd Hs Hc Ha).
  repeat split.
Qed.

(** X16 What generate_plugin.py makes, validate_marketplace.py accepts:
    after a generation that returned, for a skill given by a plain name
    (and scripts whose names hold no slash), [_validate_plugin] on the
    directory of the plugin returns and adds no error and no warning,
    whatever it had recorded before. *)
Theorem generated_plugin_passes_validation
    (name : string) (root : Path.t) (fs0 tree : node)
    (self : GeneratePlugin.PluginGenerator) (errs warns : list string) :
  Layout.plain name = true ->
  result_of (GeneratePlugin.init name root fs0) = Ok self ->
  forallb Layout.no_slash
          (FS.glob tree (GeneratePlugin.skill_dir self // "scripts") ".py") = true ->
  result_of (GeneratePlugin.generate self tree) = Ok tt ->
  let v := {| ValidateMarketplace.fs := state_of (GeneratePlugin.generate self tree);
              ValidateMarketplace.errors := errs;
              ValidateMarketplace.warnings := warns |} in
  let run := ValidateMarketplace._validate_plugin
               (GeneratePlugin.plugin_dir self) "individual" v in
  result_of run = Ok tt /\ state_of run = v.
Proof.
  intros Hp Hi Hns Hg. cbv zeta.
  destruct (Generated.generated name root fs0 tree self Hp Hi Hns Hg) as (Hm & Hs & Hc & Ha).
  destruct (Copy.plugin_paths _ _ _ _ Hp Hi) as (Hn & _ & Hd).
  assert (Hname : Path.name (GeneratePlugin.plugin_dir self) = name).
  { rewrite Hd.
    change ((root ++ [".claude"]) ++ ["plugins"; "individual"; name])
      with ((root ++ [".claude"]) ++ ["plugins"; "individual"] ++ [name]).
    rewrite app_assoc. apply ValidateRun.name_child. }
  match goal with
  | |- context [ValidateMarketplace._validate_plugin _ _ ?v0] => set (v := v0)
  end.
  unfold GeneratePlugin.manifest_document in Hm. cbv zeta in Hm.
  match type of Hm with
  | _ = Ok (Json (JObj ?d)) =>
      rewrite (Clean.passes (GeneratePlugin.plugin_dir self) "individual" v d name Hm)
  end.
  - split; reflexivity.
  - cbn [Dict.get String.eqb Ascii.eqb Bool.eqb]. rewrite Hname, Hn. reflexivity.
  - reflexivity.
  - reflexivity.
  - exact Hs.
  - apply Clean.is_dir_exists. exact Hc.
  - apply Clean.is_dir_exists. exact Ha.
Qed.

(* ================================================================== *)
(** ** generate_marketplace.py and validate_marketplace.py: the listing *)

Module Listed.
Import GenerateMarketplace.

(** An entry of the listing made for the directory [d]. *)
Definition shaped (prefix : string) (d : Path.t) (e : JSON) : Prop :=
  exists es, e = JObj es
             /\ Dict.mem "name" es = true
             /\ Dict.get "source" es = Some (JStr (prefix ++ Path.name d)%string).

Lemma individual_entry_shaped d m e :
  individual_entry d m = Ok e -> shaped "./individual/" d e.
Proof.
  unfold individual_entry. destruct m as [| | | | |m]; try discriminate.
  cbn [Py.getitem Py.get rbind].
  destruct (Dict.get "name" m); [|discriminate]. cbn [rbind].
  intros [= <-]. eexists. repeat split.
Qed.

Lemma bundle_entry_shaped d m e :
  bundle_entry d m = Ok e -> shaped "./bundles/" d e.
Proof.
  unfold bundle_entry. destruct m as [| | | | |m]; try discriminate.
  cbn [Py.getitem Py.get rbind].
  destruct (Dict.get "name" m); [|discriminate]. cbn [rbind].
  intros [= <-]. eexists. repeat split.
Qed.

Section Collected.

Variable entry : Path.t -> JSON -> result JSON.
Variable prefix : string.
Hypothesis entry_shaped : forall d m e, entry d m = Ok e -> shaped prefix d e.
Variable fs : node.

(** An entry made for a plugin directory of the list. *)
Definition listed (ds : list Path.t) (e : JSON) : Prop :=
  exists d, In d ds /\ Marketplace.has_manifest fs d = true /\ shaped prefix d e.

Lemma collected_body plugins d l :
  result_of (Marketplace.collect_body entry plugins d fs) = Ok l ->
  l = plugins \/ exists e, l = plugins ++ [e] /\ listed [d] e.
Proof.
  unfold Marketplace.collect_body, listed, Marketplace.has_manifest. cbv zeta.
  rewrite result_bind.
  change (IO.is_dir d fs) with (Ok (FS.is_dir fs d), fs, @nil event).
  cbn [result_of state_of fst snd].
  destruct (FS.is_dir fs d) eqn:D; cbn [negb andb];
    [|cbn; intros [= <-]; left; reflexivity].
  rewrite result_bind, exists_run. cbn [result_of state_of fst snd].
  destruct (FS.exists_ fs (d // ".claude-plugin" // "plugin.json")) eqn:X;
    cbn [negb]; [|cbn; intros [= <-]; left; reflexivity].
  rewrite result_bind.
  destruct (result_of (IO.json_load (d // ".claude-plugin" // "plugin.json") fs)) as [m|x];
    [|discriminate].
  rewrite result_bind. unfold lift at 1. cbn [result_of state_of fst snd].
  destruct (entry d m) as [e|x] eqn:He; [|discriminate].
  cbn. intros [= <-]. right. exists e. split; [reflexivity|].
  exists d. split; [left; reflexivity|].
  split; [rewrite D; exact X | exact (entry_shaped _ _ _ He)].
Qed.

Lemma body_state plugins d : state_of (Marketplace.collect_body entry plugins d fs) = fs.
Proof.
  unfold Marketplace.collect_body. cbv zeta.
  rewrite state_bind.
  change (IO.is_dir d fs) with (Ok (FS.is_dir fs d), fs, @nil event).
  cbn [result_of state_of fst snd].
  destruct (FS.is_dir fs d); cbn [negb]; [|reflexivity].
  rewrite state_bind, exists_run. cbn [result_of state_of fst snd].
  destruct (FS.exists_ fs (d // ".claude-plugin" // "plugin.json")); cbn [negb]; [|reflexivity].
  rewrite state_bind.
  destruct (ReadOnly.json_load_only_reads (d // ".claude-plugin" // "plugin.json") fs) as [S _].
  rewrite S.
  destruct (result_of (IO.json_load (d // ".claude-plugin" // "plugin.json") fs)) as [m|x];
    [|reflexivity].
  rewrite state_bind. unfold lift at 1 2. 
  destruct (entry d m); reflexivity.
Qed.

Lemma collected_loop ds acc l :
  result_of (fold_m ds acc (Marketplace.collect_body entry) fs) = Ok l ->
  exists more, l = acc ++ more /\ Forall (listed ds) more.
Proof.
  revert acc. induction ds as [|d ds IH]; intros acc.
  - cbn. intros [= <-]. exists []. rewrite app_nil_r. split; constructor.
  - cbn [fold_m]. rewrite result_bind.
    destruct (result_of (Marketplace.collect_body entry acc d fs)) as [l1|x] eqn:R1;
      [|discriminate].
    assert (S1 : state_of (Marketplace.collect_body entry acc d fs) = fs).
    { apply body_state. }
    rewrite S1. intros R.
    destruct (IH _ R) as (more & -> & F).
    assert (F' : Forall (listed (d :: ds)) more).
    { eapply Forall_impl; [|exact F].
      intros e (d' & Hd' & H). exists d'. split; [right; exact Hd' | exact H]. }
    destruct (collected_body _ _ _ R1) as [->|(e & -> & (d' & Hd' & H))].
    + exists more. split; [reflexivity | exact F'].
    + exists (e :: more). rewrite <- app_assoc. split; [reflexivity|].
      constructor; [|exact F'].
      exists d'. split; [|exact H]. destruct Hd' as [<-|[]]. left; reflexivity.
Qed.

(** [collect] that returned: the tree is the one it found and every
    entry was made for a plugin directory. *)
Lemma collected dir l :
  result_of (collect dir entry fs) = Ok l ->
  Forall (listed (Marketplace.children fs dir)) l.
Proof.
  unfold collect. rewrite result_bind, exists_run. cbn [result_of state_of fst snd].
  destruct (FS.exists_ fs dir); cbn [negb]; [|cbn; intros [= <-]; constructor].
  rewrite result_bind, iterdir_result, iterdir_state.
  unfold Marketplace.children.
  destruct (FS.listdir fs dir) as [names|e]; [|discriminate].
  intros R.
  change (fold_m ?l [] _) with (fold_m l [] (Marketplace.collect_body entry)) in R.
  destruct (collected_loop _ _ _ R) as (more & -> & F). cbn [app].
  eapply Forall_impl; [|exact F].
  intros e (d & Hd & H). exists d. split; [|exact H].
  exact (Permutation_in _ (Path_sorted_perm _) Hd).
Qed.

Lemma collect_state dir : state_of (collect dir entry fs) = fs.
Proof.
  unfold collect. rewrite state_bind, exists_run. cbn [result_of state_of fst snd].
  destruct (FS.exists_ fs dir); cbn [negb]; [|reflexivity].
  rewrite state_bind, iterdir_result, iterdir_state.
  destruct (FS.listdir fs dir) as [names|e]; [|reflexivity].
  cbn [result_of state_of fst snd].
  change (fold_m ?l [] _) with (fold_m l [] (Marketplace.collect_body entry)).
  generalize (Path.sorted (map (Path.child dir) names)) (@nil JSON).
  intros ds. induction ds as [|d ds IH]; intros acc; [reflexivity|].
  cbn [fold_m]. rewrite state_bind.
  rewrite body_state.
  destruct (result_of (Marketplace.collect_body entry acc d fs)); [apply IH | reflexivity].
Qed.

End Collected.

End Listed.

Module Accepted.
Import ValidateMarketplace.

(** The place a source names, below the plugin root. *)
Lemma resolve_stripped pd kind nm :
  kind = "individual" \/ kind = "bundles" ->
  Layout.plain nm = true ->
  pd // Str.lstrip_chars ["."; "/"]%char ("./" ++ kind ++ "/" ++ nm)
  = Path.child (pd // kind) nm.
Proof.
  intros Hk H. pose proof (Layout.plain_no_slash _ H) as Hs.
  unfold Layout.plain in H.
  apply andb_prop in H. destruct H as [H H3].
  apply andb_prop in H. destruct H as [_ H2].
  destruct Hk as [-> | ->];
    cbn [Str.lstrip_chars append existsb Ascii.eqb Bool.eqb orb andb];
    unfold Path.join at 1; cbn [Str.startswith String.prefix append];
    match goal with
    | |- context [ascii_dec ?a ?b] => destruct (ascii_dec a b); [discriminate|]
    end;
    unfold Path.parts; cbn [Str.split_on Ascii.eqb Bool.eqb append];
    rewrite (Layout.split_no_slash _ Hs);
    cbn [filter String.eqb Ascii.eqb Bool.eqb negb andb];
    rewrite H2, H3; cbn [andb];
    unfold Path.child.
  - change (pd // "individual") with (pd ++ ["individual"]).
    rewrite <- app_assoc. reflexivity.
  - change (pd // "bundles") with (pd ++ ["bundles"]).
    rewrite <- app_assoc. reflexivity.
Qed.

Lemma lift_run {S A} (a : A) (s : S) : lift (Ok a) s = (Ok a, s, []).
Proof. reflexivity. Qed.

(** An entry whose source names a directory that is there. *)
Lemma entry_passes root v es i kind nm :
  kind = "individual" \/ kind = "bundles" ->
  Layout.plain nm = true ->
  Dict.mem "name" es = true ->
  Dict.get "source" es = Some (JStr ("./" ++ kind ++ "/" ++ nm)%string) ->
  FS.exists_ (fs v) (Path.child (root // ".claude" // "plugins" // kind) nm) = true ->
  _validate_plugin_entry root (JObj es) i (Clean.same v) = (Ok tt, Clean.same v, []).
Proof.
  intros Hk Hp Hn Hs Hx.
  assert (Hm : Dict.mem "source" es = true) by (unfold Dict.mem; rewrite Hs; reflexivity).
  unfold _validate_plugin_entry.
  eapply Clean.bind_ok with (s1 := Clean.same v) (t1 := []) (a := tt);
    [| cbv beta | reflexivity].
  { cbn [for_each].
    Clean.step (Clean.has_field "name" es (Clean.same v)
                  (error ("marketplace.json plugins[" ++ Str.of_nat i ++ "]: Missing '"
                            ++ "name" ++ "'")) Hn).
    Clean.step (Clean.has_field "source" es (Clean.same v)
                  (error ("marketplace.json plugins[" ++ Str.of_nat i ++ "]: Missing '"
                            ++ "source" ++ "'")) Hm).
    reflexivity. }
  cbn [Py.contains Py.getitem]. rewrite Hm, Hs.
  Clean.step (lift_run true (Clean.same v)). cbv iota.
  Clean.step (lift_run (JStr ("./" ++ kind ++ "/" ++ nm)) (Clean.same v)). cbv iota zeta.
  assert (Hst : Str.startswith ("./" ++ kind ++ "/" ++ nm) "./" = true)
    by (destruct Hk as [-> | ->]; reflexivity).
  rewrite Hst, (resolve_stripped _ kind nm Hk Hp).
  Clean.step (Clean.exists_step _ (Clean.same v) true Hx). reflexivity.
Qed.

(** An entry of the listing whose directory is there. *)
Definition resolves (root : Path.t) (tree : node) (e : JSON) : Prop :=
  exists es kind nm,
    e = JObj es
    /\ (kind = "individual" \/ kind = "bundles")
    /\ Layout.plain nm = true
    /\ Dict.mem "name" es = true
    /\ Dict.get "source" es = Some (JStr ("./" ++ kind ++ "/" ++ nm)%string)
    /\ FS.exists_ tree (Path.child (root // ".claude" // "plugins" // kind) nm) = true.

Lemma entries_pass root v l i :
  Forall (resolves root (fs v)) l ->
  validate_entries root l i (Clean.same v) = (Ok tt, Clean.same v, []).
Proof.
  intros F. revert i. induction F as [|e l He F IH]; intros i; [reflexivity|].
  cbn [validate_entries].
  destruct He as (es & kind & nm & -> & Hk & Hp & Hn & Hs & Hx).
  Clean.step (entry_passes root v es i kind nm Hk Hp Hn Hs Hx).
  apply IH.
Qed.

(** The run of [_validate_marketplace_json] on a listing the generator
    wrote. *)
Lemma listing_passes root v l :
  FS.read (fs v) (marketplace_file root)
  = Ok (Json (GenerateMarketplace.marketplace_document l)) ->
  Forall (resolves root (fs v)) l ->
  _validate_marketplace_json root v
  = (Ok tt, Clean.same v, [Read (marketplace_file root)]).
Proof.
  intros Hr F.
  pose proof (Division.read_exists _ _ _ Hr) as Hm.
  unfold _validate_marketplace_json.
  Clean.step (Clean.exists_step _ v true Hm). cbn [negb].
  apply Clean.try_ok.
  Clean.step (Verdict.on_fs_json_load _ v _ Hr).
  unfold GenerateMarketplace.marketplace_document.
  match goal with
  | |- context [Py.contains _ (JObj ?d)] => set (doc := d)
  end.
  eapply Clean.bind_ok with (s1 := Clean.same v) (t1 := []) (a := tt);
    [| cbv beta | reflexivity].
  { cbn [for_each].
    Clean.step (Clean.has_field "name" doc (Clean.same v)
                  (error ("marketplace.json: Missing required field '" ++ "name" ++ "'"))
                  eq_refl).
    Clean.step (Clean.has_field "owner" doc (Clean.same v)
                  (error ("marketplace.json: Missing required field '" ++ "owner" ++ "'"))
                  eq_refl).
    Clean.step (Clean.has_field "metadata" doc (Clean.same v)
                  (error ("marketplace.json: Missing required field '" ++ "metadata" ++ "'"))
                  eq_refl).
    Clean.step (Clean.has_field "plugins" doc (Clean.same v)
                  (error ("marketplace.json: Missing required field '" ++ "plugins" ++ "'"))
                  eq_refl).
    reflexivity. }
  Clean.step (lift_run true (Clean.same v)). cbv iota.
  eapply Clean.bind_ok with (s1 := Clean.same v) (t1 := []) (a := tt);
    [reflexivity | cbv beta | reflexivity].
  Clean.step (lift_run true (Clean.same v)). cbv iota.
  eapply Clean.bind_ok with (s1 := Clean.same v) (t1 := []) (a := tt);
    [reflexivity | cbv beta | reflexivity].
  Clean.step (lift_run true (Clean.same v)). cbv iota.
  Clean.step (lift_run (JArr l) (Clean.same v)). cbv iota.
  apply entries_pass. exact F.
Qed.

End Accepted.

(** X17 What generate_marketplace.py writes, validate_marketplace.py
    accepts: when the plugin directories have plain names and the
    generator returned, [_validate_marketplace_json] on the tree it left
    returns, reads marketplace.json and nothing else, and adds no error
    and no warning, whatever it had recorded before. *)
Theorem generated_marketplace_passes_validation
    (root : Path.t) (tree : node) (errs warns : list string) :
  let self := GenerateMarketplace.init root in
  let individual :=
    Marketplace.plugin_dirs tree (GenerateMarketplace.plugins_dir self // "individual") in
  let bundles :=
    Marketplace.plugin_dirs tree (GenerateMarketplace.plugins_dir self // "bundles") in
  forallb (fun d => Layout.plain (Path.name d)) (individual ++ bundles) = true ->
  result_of (GenerateMarketplace.main root tree) = Ok tt ->
  let v := {| ValidateMarketplace.fs := state_of (GenerateMarketplace.main root tree);
              ValidateMarketplace.errors := errs;
              ValidateMarketplace.warnings := warns |} in
  let run := ValidateMarketplace._validate_marketplace_json root v in
  result_of run = Ok tt
  /\ state_of run = v
  /\ trace_of run = [Read (ValidateMarketplace.marketplace_file root)].
Proof.
  intros self individual bundles Hp Hg.
  rewrite forallb_app in Hp. apply andb_prop in Hp. destruct Hp as [Hpi Hpb].
  rewrite forallb_forall in Hpi, Hpb.
  unfold GenerateMarketplace.main, GenerateMarketplace.generate in *. fold self in Hg |- *.
  unfold GenerateMarketplace._collect_individual_plugins,
    GenerateMarketplace._collect_bundle_plugins in *.
  destruct (Generated.bind_returns _ _ _ _ Hg) as (li & R1 & Hg1 & ->). clear Hg.
  rewrite (Listed.collect_state GenerateMarketplace.individual_entry tree) in *.
  destruct (Generated.bind_returns _ _ _ _ Hg1) as (lb & R2 & Hg2 & ->). clear Hg1.
  rewrite (Listed.collect_state GenerateMarketplace.bundle_entry tree) in *.
  cbv zeta in Hg2 |- *.
  destruct (Generated.bind_returns _ _ _ _ Hg2) as ([] & R3 & R4 & ->). clear Hg2.
  destruct (Output.output_paths root) as [Hparent _].
  cbn [GenerateMarketplace.marketplace_file GenerateMarketplace.plugins_dir self
       GenerateMarketplace.init] in *.
  rewrite Hparent in *.
  rewrite (Mkdir.mkdir_run (root // ".claude-plugin") tree) in *.
  destruct (FS.mkdirs tree (root // ".claude-plugin")) as [fs1|e] eqn:Mk; [|discriminate R3].
  cbn [result_of state_of fst snd] in *.
  destruct (ManifestName.json_dump_written _ _ _ R4) as (_ & Rd).
  unfold IO.json_dump, IO.write in *.
  destruct (FS.write fs1 (root // ".claude-plugin" // "marketplace.json")
              (Json (GenerateMarketplace.marketplace_document (li ++ lb))))
    as [fs2|e] eqn:Wr; [|discriminate R4].
  cbn [result_of state_of fst snd] in *.
  pose proof (Listed.collected _ "./individual/" Listed.individual_entry_shaped tree _ _ R1)
    as Fi.
  pose proof (Listed.collected _ "./bundles/" Listed.bundle_entry_shaped tree _ _ R2) as Fb.
  match goal with
  | |- context [ValidateMarketplace._validate_marketplace_json _ ?v0] => set (v := v0)
  end.
  rewrite (Accepted.listing_passes root v (li ++ lb) Rd); [repeat split|].
  apply Forall_app. split.
  - eapply Forall_impl; [|exact Fi].
    intros e (d & Hd & Hm & (es & -> & Hn & Hs)).
    assert (Hin : In d individual) by (apply filter_In; split; assumption).
    destruct (Sources.plugin_dir_child _ _ _ Hin) as [Hdir Hch].
    exists es, "individual", (Path.name d).
    split; [reflexivity|]. split; [left; reflexivity|].
    split; [exact (Hpi d Hin)|]. split; [exact Hn|]. split; [exact Hs|].
    apply Clean.is_dir_exists.
    apply (Sources.output_frame root tree fs1 fs2 _ "individual" _ Mk Wr); [|reflexivity].
    rewrite <- Hch. exact Hdir.
  - eapply Forall_impl; [|exact Fb].
    intros e (d & Hd & Hm & (es & -> & Hn & Hs)).
    assert (Hin : In d bundles) by (apply filter_In; split; assumption).
    destruct (Sources.plugin_dir_child _ _ _ Hin) as [Hdir Hch].
    exists es, "bundles", (Path.name d).
    split; [reflexivity|]. split; [right; reflexivity|].
    split; [exact (Hpb d Hin)|]. split; [exact Hn|]. split; [exact Hs|].
    apply Clean.is_dir_exists.
    apply (Sources.output_frame root tree fs1 fs2 _ "bundles" _ Mk Wr); [|reflexivity].
    rewrite <- Hch. exact Hdir.
Qed.

(* ================================================================== *)
(** ** validate_marketplace.py: what a plugin without errors has *)

Module Sound.
Import ValidateMarketplace ValidatorFacts.

(** The steps of a sequence that returned and recorded no error. *)
Lemma quiet_bind {A B} (m : M validator A) (f : A -> M validator B) (v : validator) (b : B) :
  disciplined m -> (forall a, disciplined (f a)) ->
  result_of (bind m f v) = Ok b ->
  errors (state_of (bind m f v)) = errors v ->
  exists a,
    result_of (m v) = Ok a
    /\ fs (state_of (m v)) = fs v
    /\ errors (state_of (m v)) = errors v
    /\ result_of (f a (state_of (m v))) = Ok b
    /\ errors (state_of (f a (state_of (m v)))) = errors (state_of (m v)).
Proof.
  intros Hm Hf. rewrite result_bind, state_bind.
  destruct (Hm v) as ((F1 & x1 & E1) & _ & _).
  destruct (result_of (m v)) as [a|e]; [|discriminate].
  destruct (Hf a (state_of (m v))) as ((F2 & x2 & E2) & _ & _).
  intros R E. exists a.
  rewrite E2, E1, <- app_assoc in E.
  rewrite <- (app_nil_r (errors v)) in E at 2.
  apply app_inv_head in E. apply app_eq_nil in E. destruct E as [-> ->].
  rewrite app_nil_r in E1. rewrite app_nil_r in E2.
  repeat split; assumption.
Qed.

Lemma loud_error (msg : string) (v : validator) :
  errors (state_of (error msg v)) = errors v -> False.
Proof.
  cbn. intros E. rewrite <- (app_nil_r (errors v)) in E at 2.
  apply app_inv_head in E. discriminate E.
Qed.

Lemma quiet_try (body : M validator unit) (msg : string) (v : validator) :
  disciplined body ->
  result_of (try_except_JSONDecodeError body (error msg) v) = Ok tt ->
  errors (state_of (try_except_JSONDecodeError body (error msg) v)) = errors v ->
  result_of (body v) = Ok tt /\ errors (state_of (body v)) = errors v.
Proof.
  intros Hb. unfold try_except_JSONDecodeError.
  destruct (Hb v) as ((F1 & x1 & E1) & _ & _).
  rewrite (run_eta (body v)).
  destruct (result_of (body v)) as [[]|e]; [cbn; auto|].
  destruct e; cbn; try discriminate.
  intros _ E. exfalso. rewrite E1, <- app_assoc in E.
  rewrite <- (app_nil_r (errors v)) in E at 2.
  apply app_inv_head in E. apply app_eq_nil in E. destruct E as [_ E]. discriminate E.
Qed.

Lemma exists_inv p v e :
  result_of (on_fs (IO.exists_ p) v) = Ok e -> e = FS.exists_ (fs v) p.
Proof. rewrite MissingManifest.on_fs_exists. cbn. intros [= <-]. reflexivity. Qed.

Lemma json_load_inv p v m :
  result_of (on_fs (IO.json_load p) v) = Ok m -> FS.read (fs v) p = Ok (Json m).
Proof.
  unfold on_fs. rewrite json_load_run.
  destruct (FS.read (fs v) p) as [[|x]|]; cbn; try discriminate.
  intros [= <-]. reflexivity.
Qed.

Lemma iterdir_inv p v entries :
  result_of (on_fs (IO.iterdir p) v) = Ok entries ->
  exists names, FS.listdir (fs v) p = Ok names /\ entries = map (Path.child p) names.
Proof.
  unfold on_fs, IO.iterdir.
  destruct (FS.listdir (fs v) p) as [names|]; cbn; [|discriminate].
  intros [= <-]. exists names. split; reflexivity.
Qed.

Lemma field_inv field manifest msg v :
  result_of ((has <- lift (Py.contains field manifest) ;;
              if negb has then error msg else ret tt)%io v) = Ok tt ->
  errors (state_of ((has <- lift (Py.contains field manifest) ;;
                     if negb has then error msg else ret tt)%io v)) = errors v ->
  Py.contains field manifest = Ok true.
Proof.
  unfold bind, lift.
  destruct (Py.contains field manifest) as [[|]|]; cbn; try discriminate; [reflexivity|].
  intros _ E. destruct (loud_error msg v E).
Qed.

(** Splits a sequence that returned without an error into its first
    step and the rest. *)
Ltac first_step R E a Ra F Ea R' E' :=
  match type of R with
  | result_of (bind ?m ?f ?v) = Ok ?b =>
      let Hm := fresh "Hm" in
      let Hf := fresh "Hf" in
      assert (Hm : disciplined m) by (unfold disciplined; disc);
      assert (Hf : forall a, disciplined (f a)) by (intros; unfold disciplined; disc);
      destruct (quiet_bind m f v b Hm Hf R E) as (a & Ra & F & Ea & R' & E');
      clear Hm Hf R E; cbv beta in R', E'
  end.

(** Names the state a step left, of which [F] says that it has the
    tree of the state before. *)
Ltac forget F w :=
  match type of F with
  | fs ?t = _ => set (w := t) in *; clearbody w
  end.

Lemma accepted plugin_dir plugin_type v :
  result_of (_validate_plugin plugin_dir plugin_type v) = Ok tt ->
  errors (state_of (_validate_plugin plugin_dir plugin_type v)) = errors v ->
  exists d sk,
    FS.read (fs v) (plugin_dir // ".claude-plugin" // "plugin.json") = Ok (Json (JObj d))
    /\ Dict.get "name" d = Some (JStr (Path.name plugin_dir))
    /\ Dict.mem "version" d = true
    /\ Dict.mem "description" d = true
    /\ FS.is_dir (fs v) (Path.child (plugin_dir // "skills") sk) = true.
Proof.
  unfold _validate_plugin. cbv zeta. intros R E.
  (* the required directories *)
  first_step R E a0 R0 F0 E0 R1 E1. clear R0 E0 a0. forget F0 v0.
  (* the manifest *)
  first_step R1 E1 e Re F1 Ee R2 E2. clear Re Ee. forget F1 v1.
  rewrite F0 in F1. clear F0 v0.
  destruct e; cbn [negb] in R2, E2; [|destruct (loud_error _ _ E2)].
  match type of R2 with
  | result_of (try_except_JSONDecodeError ?b _ _) = _ =>
      assert (Hb : disciplined b) by (unfold disciplined; disc)
  end.
  destruct (quiet_try _ _ _ Hb R2 E2) as [R3 E3]. clear Hb R2 E2.
  first_step R3 E3 manifest Rm F2 Em R4 E4. clear Em.
  apply json_load_inv in Rm. rewrite F1 in Rm. forget F2 v2.
  rewrite F1 in F2. clear F1 v1.
  (* the required fields *)
  first_step R4 E4 u Rf F3 Ef R5 E5. destruct u.
  cbn [for_each] in Rf, Ef.
  first_step Rf Ef u1 Rn Fn En Rf' Ef'. destruct u1.
  pose proof (field_inv _ _ _ _ Rn En) as Hname. clear Rn En. forget Fn w1.
  first_step Rf' Ef' u2 Rv Fv Ev Rf'' Ef''. destruct u2.
  pose proof (field_inv _ _ _ _ Rv Ev) as Hversion. clear Rv Ev. forget Fv w2.
  first_step Rf'' Ef'' u3 Rd Fd Ed Rf3 Ef3. destruct u3.
  pose proof (field_inv _ _ _ _ Rd Ed) as Hdescription. clear Rd Ed Rf3 Ef3 Fd Fv Fn w1 w2.
  forget F3 v3. rewrite F2 in F3. clear F2 v2.
  (* the name *)
  first_step R5 E5 name Rname F4 En R6 E6. clear En.
  destruct manifest as [| | | | |d]; try (cbn in Rname; discriminate Rname).
  cbn [Py.contains] in Hname, Hversion, Hdescription.
  injection Hname as Hname. injection Hversion as Hversion.
  injection Hdescription as Hdescription.
  cbn in Rname. injection Rname as Rname.
  forget F4 v4. rewrite F3 in F4. clear F3 v3.
  first_step R6 E6 u Rc F5 Ec R7 E7. destruct u.
  assert (Hn : Dict.get "name" d = Some (JStr (Path.name plugin_dir))).
  { unfold Dict.mem in Hname.
    destruct (Dict.get "name" d) as [x|]; [|discriminate Hname]. subst x.
    destruct name; try (destruct (loud_error _ _ Ec)).
    destruct (String.eqb s (Path.name plugin_dir)) eqn:Q; [|destruct (loud_error _ _ Ec)].
    apply String.eqb_eq in Q. subst s. reflexivity. }
  forget F5 v5. rewrite F4 in F5. clear Rc Ec Hname F4 v4.
  (* the skills *)
  first_step R7 E7 e Re F6 Ee R8 E8. clear Re Ee.
  forget F6 v6. rewrite F5 in F6. clear F5 v5.
  first_step R8 E8 u Rs F7 Es R9 E9. destruct u. clear R9 E9 F7.
  destruct e; cbn [negb] in Rs, Es; [|destruct (loud_error _ _ Es)].
  first_step Rs Es entries Ri F8 Ei R10 E10. clear Ei.
  apply iterdir_inv in Ri. destruct Ri as (names & Hl & ->).
  forget F8 v8. rewrite F6 in F8, Hl. clear F6 v6.
  first_step R10 E10 w Rg Fg Eg R11 E11.
  cbn in Rg. injection Rg as <-. clear Fg Eg.
  cbn [get_state state_of fst snd] in R11, E11. cbv zeta in R11, E11.
  rewrite F8 in R11, E11.
  destruct (filter (FS.is_dir (fs v)) (map (Path.child (plugin_dir // "skills")) names))
    as [|x rest] eqn:Q; [destruct (loud_error _ _ E11)|].
  assert (Hx : In x (filter (FS.is_dir (fs v))
                       (map (Path.child (plugin_dir // "skills")) names)))
    by (rewrite Q; left; reflexivity).
  apply filter_In in Hx. destruct Hx as [Hx Hdir].
  apply in_map_iff in Hx. destruct Hx as (sk & <- & _).
  exists d, sk. repeat split; assumption.
Qed.

End Sound.

(** X18 What the validator has checked when it records no error for a
    plugin: if [_validate_plugin] returns and the list of errors is as
    it was, then the manifest of the plugin is a JSON object whose name
    is the name of the directory, it has a version and a description,
    and [skills/] holds at least one directory. *)
Theorem plugin_without_errors_is_wellformed
    (plugin_dir : Path.t) (plugin_type : string) (v : ValidateMarketplace.validator) :
  let run := ValidateMarketplace._validate_plugin plugin_dir plugin_type v in
  result_of run = Ok tt ->
  ValidateMarketplace.errors (state_of run) = ValidateMarketplace.errors v ->
  exists d sk,
    FS.read (ValidateMarketplace.fs v) (plugin_dir // ".claude-plugin" // "plugin.json")
    = Ok (Json (JObj d))
    /\ Dict.get "name" d = Some (JStr (Path.name plugin_dir))
    /\ Dict.mem "version" d = true
    /\ Dict.mem "description" d = true
    /\ FS.is_dir (ValidateMarketplace.fs v) (Path.child (plugin_dir // "skills") sk) = true.
Proof. cbv zeta. exact (Sound.accepted plugin_dir plugin_type v). Qed.

(* ================================================================== *)
(** ** generate_bundle.py: what the generation of a bundle touches *)

Module Bundled.
Import GenerateBundle.

Lemma within_copy2 dir src t : Within.within dir (IO.copy2 src (dir ++ t)).
Proof.
  intros fs. unfold IO.copy2.
  destruct (FS.read fs src) as [c|e]; cbn;
    [|split; [exact (Frame.kept_refl _ _) | split; [constructor | exact I]]].
  destruct (FS.is_dir fs (dir ++ t)).
  - unfold Path.child. rewrite <- app_assoc.
    destruct (FS.write fs (dir ++ t ++ [Path.name src]) c) as [fs'|e] eqn:W; cbn.
    + split; [exact (Frame.write_below _ _ _ _ _ W)|]. split; [|exact I].
      constructor; [exact I | constructor].
    + split; [exact (Frame.kept_refl _ _) | split; [constructor | exact I]].
  - destruct (FS.write fs (dir ++ t) c) as [fs'|e] eqn:W; cbn.
    + split; [exact (Frame.write_below _ _ _ _ _ W)|]. split; [|exact I].
      constructor; [exact I | constructor].
    + split; [exact (Frame.kept_refl _ _) | split; [constructor | exact I]].
Qed.

(** An entry that [glob] found for [*.md] and that holds no slash. *)
Lemma md_plain (nm : string) :
  Str.endswith nm ".md" = true -> Layout.no_slash nm = true -> Layout.plain nm = true.
Proof.
  intros He Hs. unfold Layout.plain. rewrite Hs. cbn [andb].
  destruct (String.eqb nm "") eqn:E1.
  - apply String.eqb_eq in E1. subst nm. discriminate He.
  - destruct (String.eqb nm ".") eqn:E2; [|reflexivity].
    apply String.eqb_eq in E2. subst nm. discriminate He.
Qed.

(** The [.md] entries of the commands and of the agents of the
    individual plugins of the skills hold no slash. *)
Definition sources_plain (fs : node) (root : Path.t) (skills : list string) : Prop :=
  forall skill sub,
    In skill skills -> sub = "commands" \/ sub = "agents" ->
    forallb Layout.no_slash
            (FS.glob fs (root // ".claude" // "plugins" // "individual" // skill // sub) ".md")
    = true.

Lemma bundle_dir_path root name :
  Layout.plain name = true ->
  root // ".claude" // "plugins" // "bundles" // name
  = (root ++ [".claude"; "plugins"]) ++ "bundles" :: [name].
Proof.
  intros H.
  rewrite (Layout.join_plain root ".claude" eq_refl).
  rewrite (Layout.join_plain _ "plugins" eq_refl).
  rewrite (Layout.join_plain _ "bundles" eq_refl).
  rewrite (Layout.join_plain _ name H).
  unfold Path.child. rewrite <- !app_assoc. reflexivity.
Qed.

Lemma individual_path root skill sub :
  Layout.plain skill = true -> Layout.plain sub = true ->
  root // ".claude" // "plugins" // "individual" // skill // sub
  = (root ++ [".claude"; "plugins"]) ++ "individual" :: [skill; sub].
Proof.
  intros H Hs.
  rewrite (Layout.join_plain root ".claude" eq_refl).
  rewrite (Layout.join_plain _ "plugins" eq_refl).
  rewrite (Layout.join_plain _ "individual" eq_refl).
  rewrite (Layout.join_plain _ skill H), (Layout.join_plain _ sub Hs).
  unfold Path.child. rewrite <- !app_assoc. reflexivity.
Qed.

Lemma individual_apart root name skill sub :
  Layout.plain name = true -> Layout.plain skill = true -> Layout.plain sub = true ->
  diverge (root // ".claude" // "plugins" // "bundles" // name)
          (root // ".claude" // "plugins" // "individual" // skill // sub).
Proof.
  intros Hn Hs Hsub. rewrite (bundle_dir_path _ _ Hn), (individual_path _ _ _ Hs Hsub).
  exists (root ++ [".claude"; "plugins"]), "bundles", "individual", [name], [skill; sub].
  split; [discriminate|]. split; reflexivity.
Qed.

(** A loop each of whose rounds stays below [dir], when it starts
    from a tree that differs from [fs0] below [dir] only. *)
Lemma for_each_kept {A} (dir t : Path.t) (l : list A) (body : A -> M node unit)
    (fs0 fs : node) :
  Frame.kept dir fs0 fs ->
  (forall x s, In x l -> Frame.kept dir fs0 s ->
               Frame.kept (dir ++ t) s (state_of (body x s))) ->
  Frame.kept (dir ++ t) fs (state_of (for_each l body fs)).
Proof.
  revert fs. induction l as [|x l IH]; intros fs K H.
  - exact (Frame.kept_refl _ _).
  - cbn [for_each]. rewrite state_bind.
    pose proof (H x fs (or_introl eq_refl) K) as K1.
    destruct (result_of (body x fs)); [|exact K1].
    eapply Frame.kept_trans; [exact K1|].
    apply IH.
    + exact (Frame.kept_trans _ _ _ _ K (Within.kept_coarser _ _ _ _ K1)).
    + intros y s Hy. apply H. right. exact Hy.
Qed.

Section Steps.

Variables (name : string) (root : Path.t) (c : bundle_config).
Hypothesis name_plain : Layout.plain name = true.
Hypothesis skills_plain : forallb Layout.plain (skills c) = true.

Let self : BundleGenerator :=
  {| bundle_name := name;
     repo_root := root;
     config := c;
     bundle_dir := root // ".claude" // "plugins" // "bundles" // name |}.

Let dir : Path.t := root // ".claude" // "plugins" // "bundles" // name.

Lemma skill_plain skill : In skill (skills c) -> Layout.plain skill = true.
Proof. intros H. rewrite forallb_forall in skills_plain. exact (skills_plain _ H). Qed.

Lemma bundle_structure_within : Within.within dir (_create_bundle_structure self).
Proof.
  unfold Within.within, _create_bundle_structure. cbn [bundle_dir self]. fold dir.
  rewrite (Within.child_below _ ".claude-plugin" eq_refl), (Within.child_below _ "skills" eq_refl),
    (Within.child_below _ "commands" eq_refl), (Within.child_below _ "agents" eq_refl).
  rewrite <- (app_nil_r dir) at 2.
  cbn [for_each]. Within.stays.
Qed.

Lemma bundle_manifest_within : Within.within dir (_generate_manifest self).
Proof.
  unfold Within.within, _generate_manifest, IO.json_dump. cbv zeta.
  cbn [bundle_dir self]. fold dir.
  rewrite Again.manifest_path. apply Within.within_write.
Qed.

Lemma copy_skills_within : Within.within (dir ++ ["skills"]) (_copy_skills self).
Proof.
  unfold Within.within, _copy_skills. cbv zeta. cbn [bundle_dir self config]. fold dir.
  apply obeys_for_each; [exact (Frame.kept_refl _) | exact (Frame.kept_trans _)|].
  intros skill Hin.
  rewrite (Within.child_below dir "skills" eq_refl),
    (Within.child_below (dir ++ ["skills"]) _ (skill_plain _ Hin)).
  Within.stays.
Qed.

Lemma aggregate_kept fs0 s :
  sources_plain fs0 root (skills c) ->
  Frame.kept dir fs0 s ->
  Frame.kept (dir ++ ["commands"]) s (state_of (_aggregate_commands self s)).
Proof.
  intros Hsrc K. unfold _aggregate_commands. cbv zeta. cbn [bundle_dir self config repo_root].
  fold dir.
  apply (for_each_kept dir ["commands"] _ _ fs0 s K).
  intros skill s' Hin K'.
  pose proof (skill_plain _ Hin) as Hs.
  rewrite state_bind, exists_run. cbn [result_of state_of fst snd].
  destruct (FS.exists_ s' _); cbn [negb]; [|exact (Frame.kept_refl _ _)].
  rewrite state_bind. cbn [IO.glob result_of state_of fst snd].
  rewrite (Within.glob_kept _ _ _ _ _ K'
             (individual_apart root name skill "commands" name_plain Hs eq_refl)).
  match goal with
  | |- Frame.kept _ _ (state_of (for_each ?l ?b s')) =>
      assert (H : Within.within (dir ++ ["commands"]) (for_each l b))
  end.
  { apply obeys_for_each; [exact (Frame.kept_refl _) | exact (Frame.kept_trans _)|].
    intros x Hx. cbv zeta.
    apply in_map_iff in Hx. destruct Hx as (nm & <- & Hnm).
    rewrite ValidateRun.name_child.
    pose proof (Hsrc skill "commands" Hin (or_introl eq_refl)) as Hall.
    rewrite forallb_forall in Hall.
    rewrite (Within.child_below dir "commands" eq_refl).
    rewrite (Within.child_below (dir ++ ["commands"]) _
               (Aggregation.plain_prefixed _ _ Hs (Hall _ Hnm))).
    apply within_copy2. }
  destruct (H s') as (K2 & _ & _). exact K2.
Qed.

Lemma agents_kept fs0 s :
  sources_plain fs0 root (skills c) ->
  Frame.kept dir fs0 s ->
  Frame.kept (dir ++ ["agents"]) s (state_of (_create_bundle_agents self s)).
Proof.
  intros Hsrc K. unfold _create_bundle_agents, _create_integration_agent. cbv zeta.
  cbn [bundle_dir self config repo_root bundle_name]. fold dir.
  assert (Hw : Within.within (dir ++ ["agents"])
                 (IO.write (dir // "agents" // ((name ++ "-integration") ++ ".md"))
                    (Text (integration_agent_content (title c) (skills c))))).
  { rewrite Str_append_assoc.
    rewrite (Within.child_below dir "agents" eq_refl).
    rewrite (Within.child_below (dir ++ ["agents"]) _
               (Within.plain_suffixed _ "-integration" name_plain eq_refl)).
    apply Within.within_write. }
  rewrite state_bind.
  destruct (Hw s) as (K1 & _ & _).
  destruct (result_of (IO.write _ _ s)); [|exact K1].
  eapply Frame.kept_trans; [exact K1|].
  apply (for_each_kept dir ["agents"] _ _ fs0 _
           (Frame.kept_trans _ _ _ _ K (Within.kept_coarser _ _ _ _ K1))).
  intros skill s' Hin K'.
  pose proof (skill_plain _ Hin) as Hs.
  rewrite state_bind, exists_run. cbn [result_of state_of fst snd].
  destruct (FS.exists_ s' _); cbn [negb]; [|exact (Frame.kept_refl _ _)].
  rewrite state_bind. cbn [IO.glob result_of state_of fst snd].
  rewrite (Within.glob_kept _ _ _ _ _ K'
             (individual_apart root name skill "agents" name_plain Hs eq_refl)).
  match goal with
  | |- Frame.kept _ _ (state_of (for_each ?l ?b s')) =>
      assert (H : Within.within (dir ++ ["agents"]) (for_each l b))
  end.
  { apply obeys_for_each; [exact (Frame.kept_refl _) | exact (Frame.kept_trans _)|].
    intros x Hx. cbv zeta.
    apply in_map_iff in Hx. destruct Hx as (nm & <- & Hnm).
    rewrite ValidateRun.name_child.
    pose proof (Hsrc skill "agents" Hin (or_intror eq_refl)) as Hall.
    rewrite forallb_forall in Hall.
    assert (Hmd : Str.endswith nm ".md" = true).
    { unfold FS.glob in Hnm.
      destruct (FS.lookup fs0 _) as [[|es]|]; try destruct Hnm.
      apply filter_In in Hnm. exact (proj2 Hnm). }
    rewrite (Within.child_below dir "agents" eq_refl).
    rewrite (Within.child_below (dir ++ ["agents"]) _ (md_plain _ Hmd (Hall _ Hnm))).
    apply within_copy2. }
  destruct (H s') as (K2 & _ & _). exact K2.
Qed.

Lemma generate_kept fs :
  sources_plain fs root (skills c) ->
  Frame.kept dir fs (state_of (generate self fs)).
Proof.
  intros Hsrc. unfold generate.
  rewrite state_bind.
  destruct (bundle_structure_within fs) as (K1 & _ & _).
  destruct (result_of (_create_bundle_structure self fs)); [|exact K1].
  set (s1 := state_of (_create_bundle_structure self fs)) in *.
  rewrite state_bind.
  destruct (bundle_manifest_within s1) as (K2 & _ & _).
  pose proof (Frame.kept_trans _ _ _ _ K1 K2) as K02.
  destruct (result_of (_generate_manifest self s1)); [|exact K02].
  set (s2 := state_of (_generate_manifest self s1)) in *.
  rewrite state_bind.
  destruct (copy_skills_within s2) as (K3 & _ & _).
  apply Within.kept_coarser in K3.
  pose proof (Frame.kept_trans _ _ _ _ K02 K3) as K03.
  destruct (result_of (_copy_skills self s2)); [|exact K03].
  set (s3 := state_of (_copy_skills self s2)) in *.
  rewrite state_bind.
  pose proof (Within.kept_coarser _ _ _ _ (aggregate_kept fs s3 Hsrc K03)) as K4.
  pose proof (Frame.kept_trans _ _ _ _ K03 K4) as K04.
  destruct (result_of (_aggregate_commands self s3)); [|exact K04].
  set (s4 := state_of (_aggregate_commands self s3)) in *.
  exact (Frame.kept_trans _ _ _ _ K04
           (Within.kept_coarser _ _ _ _ (agents_kept fs s4 Hsrc K04))).
Qed.

End Steps.

End Bundled.

(** X19 The generation of a bundle by generate_bundle.py changes nothing
    outside the directory of the bundle, however it ends: every path
    that parts from [.claude/plugins/bundles/<name>], the skills and the
    individual plugins it copies from among them, holds what it held.
    (The [.md] entries of the commands and agents of the individual
    plugins hold no slash.) *)
Theorem bundle_generation_stays_in_its_directory
    (name : string) (root : Path.t) (fs0 fs : node)
    (self : GenerateBundle.BundleGenerator) (q : Path.t) :
  result_of (GenerateBundle.init name root fs0) = Ok self ->
  Bundled.sources_plain fs root (GenerateBundle.skills (GenerateBundle.config self)) ->
  diverge (GenerateBundle.bundle_dir self) q ->
  FS.lookup (state_of (GenerateBundle.generate self fs)) q = FS.lookup fs q.
Proof.
  intros Hi Hsrc Hq.
  destruct (Aggregation.init_self _ _ _ _ Hi) as (c & Hc & ->).
  destruct (Aggregation.skills_of_bundles _ _ Hc) as [_ Hs].
  pose proof (ManifestName.bundle_names_plain _ _ Hc) as Hn.
  exact (Bundled.generate_kept name root c Hn Hs fs Hsrc q Hq).
Qed.

(* ================================================================== *)
(** ** generate_bundle.py and validate_marketplace.py: a generated bundle *)

Module Assembled.
Import GenerateBundle.

(** No bundle lists a skill twice. *)
Lemma skills_once name c : lookup_bundle name BUNDLES = Some c -> NoDup (skills c).
Proof.
  unfold BUNDLES. cbn [lookup_bundle].
  repeat match goal with
         | |- (if String.eqb name ?k then _ else _) = _ -> _ =>
             destruct (String.eqb name k);
             [intros [= <-]; cbn [skills];
              repeat (constructor; [cbn [In]; intuition discriminate|]); constructor|]
         end.
  discriminate.
Qed.

Lemma rmtree_run (p : Path.t) (s : node) :
  IO.rmtree p s =
  match FS.rmtree s p with
  | Ok s' => (Ok tt, s', [Rmtree p])
  | Raise e => (Raise e, s, [])
  end.
Proof. reflexivity. Qed.

(** Replacing [dst] by a copy of [src]. *)
Lemma replaced (src dst : Path.t) (s : node) :
  result_of ((old <- IO.exists_ dst ;;
              (if old then IO.rmtree dst else ret tt) ;;
              IO.copytree src dst)%io s) = Ok tt ->
  FS.is_dir (state_of ((old <- IO.exists_ dst ;;
                        (if old then IO.rmtree dst else ret tt) ;;
                        IO.copytree src dst)%io s)) dst = true.
Proof.
  rewrite result_bind, state_bind, exists_run. cbn [result_of state_of fst snd].
  rewrite result_bind, state_bind.
  assert (H : forall s1,
             result_of (IO.copytree src dst s1) = Ok tt ->
             FS.is_dir (state_of (IO.copytree src dst s1)) dst = true).
  { intros s1. unfold IO.copytree.
    destruct (FS.lookup s1 src) as [[x|es]|]; try discriminate.
    destruct (FS.install s1 dst (FS.prune (Dir es))) as [s2|e] eqn:W; [|discriminate].
    intros _. cbn [state_of fst snd]. unfold FS.is_dir.
    rewrite (Copy.install_lookup _ _ _ _ W), Copy.prune_dir. reflexivity. }
  destruct (FS.exists_ s dst).
  - rewrite (rmtree_run dst s). destruct (FS.rmtree s dst) as [s1|e]; [|discriminate].
    cbn [result_of state_of fst snd]. apply H.
  - cbn [ret result_of state_of fst snd]. apply H.
Qed.

Section Steps.

Variables (name : string) (root : Path.t) (c : bundle_config).
Hypothesis name_plain : Layout.plain name = true.
Hypothesis skills_plain : forallb Layout.plain (skills c) = true.

Let self : BundleGenerator :=
  {| bundle_name := name;
     repo_root := root;
     config := c;
     bundle_dir := root // ".claude" // "plugins" // "bundles" // name |}.

Let dir : Path.t := root // ".claude" // "plugins" // "bundles" // name.

(** One round of the loop of [_copy_skills]. *)
Definition copy_one (skill_name : string) : M node unit :=
  let src := root // ".claude" // "skills" // skill_name in
  let dst := dir // "skills" // skill_name in
  (there <- IO.exists_ src ;;
   if negb there then ret tt
   else
     old <- IO.exists_ dst ;;
     (if old then IO.rmtree dst else ret tt) ;;
     IO.copytree src dst)%io.

Lemma copy_skills_loop : _copy_skills self = for_each (skills c) copy_one.
Proof. reflexivity. Qed.

Lemma skill_path skill :
  Layout.plain skill = true ->
  root // ".claude" // "skills" // skill = (root ++ [".claude"]) ++ "skills" :: [skill].
Proof.
  intros H.
  rewrite (Layout.join_plain root ".claude" eq_refl), (Layout.join_plain _ "skills" eq_refl),
    (Layout.join_plain _ skill H).
  unfold Path.child. rewrite <- !app_assoc. reflexivity.
Qed.

Lemma dir_path : dir = (root ++ [".claude"]) ++ "plugins" :: ["bundles"; name].
Proof.
  unfold dir. rewrite (Bundled.bundle_dir_path _ _ name_plain).
  rewrite <- !app_assoc. reflexivity.
Qed.

Lemma within_rmtree_self (d : Path.t) : Within.within d (IO.rmtree d).
Proof. rewrite <- (app_nil_r d) at 2. apply Within.within_rmtree. Qed.

Lemma within_copytree_self (src d : Path.t) : Within.within d (IO.copytree src d).
Proof. rewrite <- (app_nil_r d) at 2. apply Within.within_copytree. Qed.

Lemma copy_one_within skill :
  Layout.plain skill = true ->
  Within.within (dir ++ ["skills"; skill]) (copy_one skill).
Proof.
  intros H. unfold Within.within, copy_one. cbv zeta.
  rewrite (Within.child_below dir "skills" eq_refl),
    (Within.child_below (dir ++ ["skills"]) _ H).
  rewrite <- app_assoc. cbn [app].
  Within.stays; first [apply within_rmtree_self | apply within_copytree_self].
Qed.

Lemma copy_one_made skill s :
  Layout.plain skill = true ->
  result_of (copy_one skill s) = Ok tt ->
  FS.exists_ s (root // ".claude" // "skills" // skill) = true ->
  FS.is_dir (state_of (copy_one skill s)) (dir ++ ["skills"; skill]) = true.
Proof.
  intros H R X. unfold copy_one in *. cbv zeta in *.
  rewrite result_bind, exists_run in R. rewrite state_bind, exists_run.
  cbn [result_of state_of fst snd] in *. rewrite X in *. cbn [negb] in *.
  replace (dir ++ ["skills"; skill]) with (dir // "skills" // skill).
  - apply replaced. exact R.
  - rewrite (Within.child_below dir "skills" eq_refl),
      (Within.child_below (dir ++ ["skills"]) _ H).
    rewrite <- app_assoc. reflexivity.
Qed.

(** The rounds for other skills leave a path alone. *)
Lemma others_keep (l : list string) (s : node) (q : Path.t) :
  (forall y, In y l -> Layout.plain y = true /\ diverge (dir ++ ["skills"; y]) q) ->
  FS.lookup (state_of (for_each l copy_one s)) q = FS.lookup s q.
Proof.
  revert s. induction l as [|y l IH]; intros s H; [reflexivity|].
  cbn [for_each]. rewrite state_bind.
  destruct (H y (or_introl eq_refl)) as [Hy Hd].
  destruct (copy_one_within y Hy s) as (K & _ & _).
  destruct (result_of (copy_one y s)); [|exact (K q Hd)].
  rewrite IH; [exact (K q Hd)|].
  intros z Hz. apply H. right. exact Hz.
Qed.

Lemma skills_apart x y :
  x <> y -> diverge (dir ++ ["skills"; x]) (dir ++ ["skills"; y]).
Proof.
  intros H. exists (dir ++ ["skills"]), x, y, [], [].
  split; [exact H|]. rewrite <- !app_assoc. split; reflexivity.
Qed.

Lemma skill_source_apart x y :
  Layout.plain y = true ->
  diverge (dir ++ ["skills"; x]) (root // ".claude" // "skills" // y).
Proof.
  intros Hy. rewrite (skill_path _ Hy), dir_path.
  exists (root ++ [".claude"]), "plugins", "skills", (["bundles"; name] ++ ["skills"; x]), [y].
  split; [discriminate|]. rewrite <- !app_assoc. split; reflexivity.
Qed.

(** After [_copy_skills], every skill of the bundle that was there has
    its directory in the bundle. *)
Lemma copied (l : list string) (s : node) (skill : string) :
  NoDup l -> (forall x, In x l -> Layout.plain x = true) ->
  result_of (for_each l copy_one s) = Ok tt ->
  In skill l ->
  FS.exists_ s (root // ".claude" // "skills" // skill) = true ->
  FS.is_dir (state_of (for_each l copy_one s)) (dir ++ ["skills"; skill]) = true.
Proof.
  revert s. induction l as [|x l IH]; intros s Hnd Hp R Hin X; [destruct Hin|].
  cbn [for_each] in *. rewrite result_bind in R. rewrite state_bind.
  destruct (result_of (copy_one x s)) as [[]|e] eqn:R1; [|discriminate R].
  inversion Hnd as [|? ? Hx Hnd']; subst.
  destruct Hin as [<-|Hin].
  - unfold FS.is_dir. rewrite others_keep.
    + exact (copy_one_made x s (Hp x (or_introl eq_refl)) R1 X).
    + intros y Hy. split; [apply Hp; right; exact Hy|].
      apply skills_apart. intros ->. exact (Hx Hy).
  - apply IH; auto.
    + intros y Hy. apply Hp. right. exact Hy.
    + destruct (copy_one_within x (Hp x (or_introl eq_refl)) s) as (K & _ & _).
      unfold FS.exists_.
      rewrite (K _ (skill_source_apart x skill (Hp skill (or_intror Hin)))). exact X.
Qed.

Lemma careful_aggregate : Generated.careful (_aggregate_commands self).
Proof. unfold Generated.careful, _aggregate_commands. cbv zeta. Generated.cares. Qed.

Lemma careful_bundle_agents : Generated.careful (_create_bundle_agents self).
Proof.
  unfold Generated.careful, _create_bundle_agents, _create_integration_agent. cbv zeta.
  Generated.cares.
Qed.

Lemma careful_bundle_manifest : Generated.careful (_generate_manifest self).
Proof. unfold Generated.careful, _generate_manifest, IO.json_dump. cbv zeta. Generated.cares. Qed.

(** What a generation that returned leaves in the directory of the
    bundle. *)
Lemma assembled fs skill :
  NoDup (skills c) ->
  Bundled.sources_plain fs root (skills c) ->
  In skill (skills c) ->
  FS.exists_ fs (root // ".claude" // "skills" // skill) = true ->
  result_of (generate self fs) = Ok tt ->
  let after := state_of (generate self fs) in
  FS.read after (dir // ".claude-plugin" // "plugin.json") = Ok (Json (manifest_document self))
  /\ FS.is_dir after (Path.child (dir // "skills") skill) = true
  /\ FS.is_dir after (dir // "commands") = true
  /\ FS.is_dir after (dir // "agents") = true.
Proof.
  intros Hnd Hsrc Hin X Hg. cbv zeta.
  pose proof (Bundled.skill_plain c skills_plain) as Hplain.
  unfold generate in *.
  destruct (Generated.bind_returns _ _ _ _ Hg) as ([] & R1 & Hg1 & ->). clear Hg.
  set (s1 := state_of (_create_bundle_structure self fs)) in *.
  destruct (Generated.bind_returns _ _ _ _ Hg1) as ([] & R2 & Hg2 & ->). clear Hg1.
  set (s2 := state_of (_generate_manifest self s1)) in *.
  destruct (Generated.bind_returns _ _ _ _ Hg2) as ([] & R3 & Hg3 & ->). clear Hg2.
  set (s3 := state_of (_copy_skills self s2)) in *.
  destruct (Generated.bind_returns _ _ _ _ Hg3) as ([] & R4 & R5 & ->). clear Hg3.
  set (s4 := state_of (_aggregate_commands self s3)) in *.
  set (s5 := state_of (_create_bundle_agents self s4)) in *.
  (* the directories *)
  destruct (Mkdir.make_all _ _ R1) as (D1 & _). fold s1 in D1.
  unfold _create_bundle_structure in D1. cbn [bundle_dir self] in D1. fold dir in D1.
  do 3 apply Forall_inv_tail in D1.
  pose proof (Forall_inv D1) as Dc. apply Forall_inv_tail in D1.
  pose proof (Forall_inv D1) as Da. clear D1. cbv beta in Dc, Da.
  (* the frames *)
  assert (K1 : Frame.kept dir fs s1)
    by apply (Bundled.bundle_structure_within name root c fs).
  assert (K2 : Frame.kept dir s1 s2)
    by apply (Bundled.bundle_manifest_within name root c s1).
  assert (K3 : Frame.kept (dir ++ ["skills"]) s2 s3)
    by apply (Bundled.copy_skills_within name root c skills_plain s2).
  assert (K03 : Frame.kept dir fs s3).
  { eapply Frame.kept_trans; [eapply Frame.kept_trans; [exact K1 | exact K2]|].
    eapply Within.kept_coarser; exact K3. }
  assert (K4 : Frame.kept (dir ++ ["commands"]) s3 s4)
    by exact (Bundled.aggregate_kept name root c name_plain skills_plain fs s3 Hsrc K03).
  assert (K04 : Frame.kept dir fs s4).
  { eapply Frame.kept_trans; [exact K03|]. eapply Within.kept_coarser; exact K4. }
  assert (K5 : Frame.kept (dir ++ ["agents"]) s4 s5)
    by exact (Bundled.agents_kept name root c name_plain skills_plain fs s4 Hsrc K04).
  assert (C2 : Generated.dirs_stay s1 s2) by apply (careful_bundle_manifest s1).
  assert (C4 : Generated.dirs_stay s3 s4) by apply (careful_aggregate s3).
  assert (C5 : Generated.dirs_stay s4 s5) by apply (careful_bundle_agents s4).
  rewrite Again.manifest_path.
  rewrite (Within.child_below _ "skills" eq_refl), (Within.child_below _ "commands" eq_refl),
    (Within.child_below _ "agents" eq_refl) in *.
  unfold Path.child. rewrite <- !app_assoc. cbn [app].
  split; [|split; [|split]].
  - (* the manifest *)
    destruct (ManifestName.json_dump_written _ _ _ R2) as (_ & Rd).
    fold (_generate_manifest self s1) in Rd. fold s2 in Rd.
    cbn [bundle_dir self] in Rd. fold dir in Rd.
    rewrite Again.manifest_path in Rd.
    unfold FS.read in *.
    rewrite (K5 _ (Generated.apart _ "agents" ".claude-plugin" [] ["plugin.json"]
                     ltac:(discriminate))).
    rewrite (K4 _ (Generated.apart _ "commands" ".claude-plugin" [] ["plugin.json"]
                     ltac:(discriminate))).
    rewrite (K3 _ (Generated.apart _ "skills" ".claude-plugin" [] ["plugin.json"]
                     ltac:(discriminate))).
    exact Rd.
  - (* the skill *)
    apply C5, C4. unfold s3. rewrite copy_skills_loop.
    apply copied; [exact Hnd | exact Hplain | rewrite <- copy_skills_loop; exact R3
                   | exact Hin |].
    assert (K02 : Frame.kept dir fs s2) by exact (Frame.kept_trans _ _ _ _ K1 K2).
    unfold FS.exists_.
    rewrite (skill_path _ (Hplain _ Hin)), dir_path in *.
    rewrite (K02 _ (Generated.apart _ "plugins" "skills" ["bundles"; name] [skill]
                      ltac:(discriminate))).
    exact X.
  - (* the commands *)
    apply C5, C4. unfold FS.is_dir.
    rewrite (K3 _ (Generated.apart _ "skills" "commands" [] [] ltac:(discriminate))).
    apply C2. exact Dc.
  - apply C5, C4. unfold FS.is_dir.
    rewrite (K3 _ (Generated.apart _ "skills" "agents" [] [] ltac:(discriminate))).
    apply C2. exact Da.
Qed.

End Steps.

End Assembled.

(** X20 What generate_bundle.py makes, validate_marketplace.py accepts,
    provided one skill of the bundle is there: after a generation that
    returned, on a tree that holds at least one of the skills of the
    bundle under [.claude/skills], [_validate_plugin] on the directory
    of the bundle returns and adds no error and no warning, whatever it
    had recorded before.  (The [.md] entries of the commands and agents
    of the individual plugins hold no slash.) *)
Theorem generated_bundle_passes_validation
    (name : string) (root : Path.t) (fs0 tree : node)
    (self : GenerateBundle.BundleGenerator) (skill : string) (errs warns : list string) :
  result_of (GenerateBundle.init name root fs0) = Ok self ->
  Bundled.sources_plain tree root (GenerateBundle.skills (GenerateBundle.config self)) ->
  In skill (GenerateBundle.skills (GenerateBundle.config self)) ->
  FS.exists_ tree (root // ".claude" // "skills" // skill) = true ->
  result_of (GenerateBundle.generate self tree) = Ok tt ->
  let v := {| ValidateMarketplace.fs := state_of (GenerateBundle.generate self tree);
              ValidateMarketplace.errors := errs;
              ValidateMarketplace.warnings := warns |} in
  let run := ValidateMarketplace._validate_plugin
               (GenerateBundle.bundle_dir self) "bundle" v in
  result_of run = Ok tt /\ state_of run = v.
Proof.
  intros Hi Hsrc Hin X Hg. cbv zeta.
  destruct (Aggregation.init_self _ _ _ _ Hi) as (c & Hc & ->).
  destruct (Aggregation.skills_of_bundles _ _ Hc) as [_ Hs].
  pose proof (ManifestName.bundle_names_plain _ _ Hc) as Hn.
  pose proof (Assembled.skills_once _ _ Hc) as Hnd.
  cbn [GenerateBundle.config GenerateBundle.bundle_dir] in *.
  destruct (Assembled.assembled name root c Hn Hs tree skill Hnd Hsrc Hin X Hg)
    as (Hm & Hsk & Hcm & Hag).
  assert (Hname : Path.name (root // ".claude" // "plugins" // "bundles" // name) = name).
  { rewrite (Layout.join_plain _ name Hn). apply ValidateRun.name_child. }
  match goal with
  | |- context [ValidateMarketplace._validate_plugin _ _ ?v0] => set (v := v0)
  end.
  unfold GenerateBundle.manifest_document in Hm. cbv zeta in Hm.
  match type of Hm with
  | _ = Ok (Json (JObj ?d)) =>
      rewrite (Clean.passes (root // ".claude" // "plugins" // "bundles" // name)
                 "bundle" v d skill Hm)
  end.
  - split; reflexivity.
  - cbn [Dict.get String.eqb Ascii.eqb Bool.eqb GenerateBundle.bundle_name].
    rewrite Hname. reflexivity.
  - reflexivity.
  - reflexivity.
  - exact Hsk.
  - apply Clean.is_dir_exists. exact Hcm.
  - apply Clean.is_dir_exists. exact Hag.
Qed.

(* ================================================================== *)
(** * The further properties on sample repositories *)

Module Samples.

(** A manifest whose repository is an object without a url. *)
Definition urlless_tree : node :=
  Dir [("plugin.json",
        File (Json (JObj [("name", JStr "p");
                          ("repository", JObj [("type", JStr "git")])])))].

(** A skill whose [SKILL.md] has no front matter. *)
Definition frontless_tree : node :=
  Dir [("repo", Dir [(".claude", Dir [
    ("skills", Dir [("plain", Dir [("SKILL.md", File (Text "# body"))])])])])].

(** A skill with an archive beside its files. *)
Definition archive_tree : node :=
  Dir [("repo", Dir [(".claude", Dir [
    ("skills", Dir [("plain", Dir [("SKILL.md", File Examples.skill_md);
                                   ("old.zip", File (Text "z"));
                                   ("references", Dir [("api.md", File (Text "a"));
                                                       (".DS_Store", File (Text "s"))])])])])])].

(** A plugin that has everything the validator asks for. *)
Definition wellformed_tree : node :=
  Dir [("repo", Dir [(".claude", Dir [("plugins", Dir [
    ("individual", Dir [
       ("p", Examples.plugin (Examples.manifest_of "p")
               [("skills", Dir [("p", Dir [])]);
                ("commands", Dir []);
                ("agents", Dir [])])])])])])].

(** One skill of the bundle [meta-skills], with its individual plugin. *)
Definition bundle_source_tree : node :=
  Dir [("repo", Dir [(".claude", Dir [
    ("skills", Dir [("modern-web-design", Dir [("SKILL.md", File Examples.skill_md)])]);
    ("plugins", Dir [("individual", Dir [
       ("modern-web-design",
        Dir [("commands", Dir [("setup.md", File (Text "m"))]);
             ("agents", Dir [("designer.md", File (Text "d"))])])])])])])].

End Samples.

(** X2 on the sample manifest with the legacy keys. *)
Lemma fix_document_key_by_key_witness :
  exists d',
    FixPluginManifests.fix_document (JObj Examples.legacy) = Ok (JObj d')
    /\ Dict.get "category" d' = None
    /\ Dict.get "repository" d' = Some (JStr "u")
    /\ Dict.get "commands" d' = Some (JStr "./commands/")
    /\ Dict.get "name" d' = Some (JStr "p").
Proof.
  destruct (FixPluginManifests.fix_document (JObj Examples.legacy)) as [m'|e] eqn:E;
    [|vm_compute in E; discriminate E].
  destruct (fix_document_key_by_key Examples.legacy m' E) as (d' & -> & H).
  exists d'. split; [reflexivity|].
  rewrite !H. repeat split.
Defined.

(** X3 on the sample manifest without a url. *)
Lemma repository_without_url_is_a_KeyError_witness :
  FixPluginManifests.fix_plugin_manifest ["plugin.json"] Samples.urlless_tree
  = (Raise KeyError, Samples.urlless_tree, [Read ["plugin.json"]]).
Proof.
  apply (repository_without_url_is_a_KeyError ["plugin.json"] Samples.urlless_tree
           [("name", JStr "p"); ("repository", JObj [("type", JStr "git")])]
           [("type", JStr "git")]); reflexivity.
Defined.

(** X5 on the sample plugin with two command files. *)
Lemma md_files_name_what_is_there_witness :
  exists l,
    FixAgentCommandPaths.get_md_files ["repo"; "plugins"; "individual"; "p"] "commands"
      Examples.two_roots_tree = (Ok l, Examples.two_roots_tree, [])
    /\ List.length l = 2%nat.
Proof.
  destruct (md_files_name_what_is_there ["repo"; "plugins"; "individual"; "p"] "commands"
              Examples.two_roots_tree eq_refl eq_refl) as (l & R & L & _).
  exists l. split; [exact R | exact L].
Defined.

(** X7 on the sample repository without a marketplace. *)
Lemma missing_marketplace_json_is_reported_witness :
  let run :=
    ValidateMarketplace.main Examples.repo (ValidateMarketplace.init Examples.missing_tree) in
  exit_code (result_of run) = 1%Z
  /\ exists more,
      ValidateMarketplace.errors (state_of run) = "marketplace.json not found" :: more.
Proof.
  exact (missing_marketplace_json_is_reported Examples.repo Examples.missing_tree eq_refl).
Defined.

(** X8 on the sample plugin [q], whose manifest is named [p]. *)
Lemma name_mismatch_is_reported_witness :
  let run :=
    ValidateMarketplace.main Examples.repo (ValidateMarketplace.init Examples.two_roots_tree) in
  exit_code (result_of run) = 1%Z
  /\ In "q: plugin.json name 'p' doesn't match directory name"
        (ValidateMarketplace.errors (state_of run)).
Proof.
  destruct (name_mismatch_is_reported Examples.repo Examples.two_roots_tree
              "individual" "q" "p" Examples.legacy) as [E H].
  - left. reflexivity.
  - reflexivity.
  - reflexivity.
  - reflexivity.
  - discriminate.
  - split; [exact E|]. apply H. exists 1%Z. reflexivity.
Defined.

(** X9 on the sample marketplace: a plugin directory is as it was. *)
Lemma marketplace_generator_leaves_the_plugins_witness :
  let run := GenerateMarketplace.main Examples.repo Examples.marketplace_tree in
  let q := ["repo"; ".claude"; "plugins"; "individual"; "threejs-webgl"] in
  FS.lookup (state_of run) q = FS.lookup Examples.marketplace_tree q
  /\ Forall (Output.produces Examples.repo) (trace_of run).
Proof.
  apply (marketplace_generator_leaves_the_plugins Examples.repo Examples.marketplace_tree).
  exists ["repo"], ".claude-plugin", ".claude", [], ["plugins"; "individual"; "threejs-webgl"].
  split; [discriminate|]. split; reflexivity.
Defined.

(** X10 on a repository without the skill, and on a skill without
    front matter. *)
Lemma generator_fails_before_it_writes_witness :
  GeneratePlugin.main ["generate_plugin.py"; "plain"] Examples.repo Examples.missing_tree
  = (Raise FileNotFoundError, Examples.missing_tree, [])
  /\ GeneratePlugin.main ["generate_plugin.py"; "plain"] Examples.repo Samples.frontless_tree
     = (Raise ValueError, Samples.frontless_tree,
        [Read ["repo"; ".claude"; "skills"; "plain"; "SKILL.md"]]).
Proof.
  split.
  - apply (proj1 (generator_fails_before_it_writes "generate_plugin.py" "plain" []
                    Examples.repo Examples.missing_tree ltac:(discriminate))).
    reflexivity.
  - apply (proj2 (generator_fails_before_it_writes "generate_plugin.py" "plain" []
                    Examples.repo Samples.frontless_tree ltac:(discriminate)) "# body");
      reflexivity.
Defined.

(** X13 on the sample skill with an archive. *)
Lemma skill_copy_leaves_out_archives_witness :
  exists self,
    result_of (GeneratePlugin.init "plain" Examples.repo Samples.archive_tree) = Ok self
    /\ let run := GeneratePlugin._copy_skill_content self Samples.archive_tree in
       let dst := ["repo"; ".claude"; "plugins"; "individual"; "plain"; "skills"; "plain"] in
       result_of run = Ok tt
       /\ FS.exists_ (state_of run) (dst ++ ["old.zip"]) = false
       /\ FS.exists_ (state_of run) (dst ++ ["references"; ".DS_Store"]) = false
       /\ FS.read (state_of run) (dst ++ ["references"; "api.md"]) = Ok (Text "a").
Proof.
  eexists.
  assert (Hinit : result_of (GeneratePlugin.init "plain" Examples.repo Samples.archive_tree)
                  = Ok _) by (vm_compute; reflexivity).
  split; [exact Hinit|]. cbv zeta.
  match type of Hinit with
  | _ = Ok ?s =>
      assert (R : result_of (GeneratePlugin._copy_skill_content s Samples.archive_tree) = Ok tt)
        by (vm_compute; reflexivity);
      pose proof (skill_copy_leaves_out_archives "plain" Examples.repo Samples.archive_tree
                    Samples.archive_tree s ["old.zip"] eq_refl Hinit R) as (_ & H1);
      pose proof (skill_copy_leaves_out_archives "plain" Examples.repo Samples.archive_tree
                    Samples.archive_tree s ["references"; ".DS_Store"] eq_refl Hinit R)
        as (_ & H2);
      pose proof (skill_copy_leaves_out_archives "plain" Examples.repo Samples.archive_tree
                    Samples.archive_tree s ["references"; "api.md"] eq_refl Hinit R)
        as (_ & H3)
  end.
  split; [exact R|].
  split; [exact H1|]. split; [exact H2|]. exact (proj1 H3).
Defined.

(** X12 on the sample skill: the structure of its plugin. *)
Lemma structure_is_created_once_witness :
  exists self,
    result_of (GeneratePlugin.init "plain" Examples.repo Samples.archive_tree) = Ok self
    /\ let run := GeneratePlugin._create_plugin_structure self Samples.archive_tree in
       result_of run = Ok tt
       /\ FS.is_dir (state_of run)
            ["repo"; ".claude"; "plugins"; "individual"; "plain"; "agents"] = true
       /\ result_of (GeneratePlugin._create_plugin_structure self (state_of run)) = Ok tt
       /\ state_of (GeneratePlugin._create_plugin_structure self (state_of run))
          = state_of run.
Proof.
  eexists.
  assert (Hinit : result_of (GeneratePlugin.init "plain" Examples.repo Samples.archive_tree)
                  = Ok _) by (vm_compute; reflexivity).
  split; [exact Hinit|]. cbv zeta.
  match type of Hinit with
  | _ = Ok ?s =>
      assert (R : result_of (GeneratePlugin._create_plugin_structure s Samples.archive_tree)
                  = Ok tt) by (vm_compute; reflexivity);
      pose proof (proj1 structure_is_created_once s Samples.archive_tree R) as (D & _ & A)
  end.
  split; [exact R|].
  split.
  - do 4 apply Forall_inv_tail in D. exact (Forall_inv D).
  - rewrite A. split; reflexivity.
Defined.

(** X14 on the sample skills: the generation of one plugin leaves the
    other plugin and the skill alone. *)
Lemma plugin_generation_stays_in_its_directory_witness :
  exists self,
    result_of (GeneratePlugin.init "threejs-webgl" Examples.repo Examples.skills_tree) = Ok self
    /\ let after := state_of (GeneratePlugin.generate self Examples.skills_tree) in
       FS.lookup after ["repo"; ".claude"; "plugins"; "individual"; "plain"]
       = FS.lookup Examples.skills_tree ["repo"; ".claude"; "plugins"; "individual"; "plain"]
       /\ FS.lookup after ["repo"; ".claude"; "skills"; "threejs-webgl"; "scripts"]
          = FS.lookup Examples.skills_tree
              ["repo"; ".claude"; "skills"; "threejs-webgl"; "scripts"].
Proof.
  eexists.
  assert (Hinit : result_of (GeneratePlugin.init "threejs-webgl" Examples.repo
                               Examples.skills_tree) = Ok _) by (vm_compute; reflexivity).
  split; [exact Hinit|]. cbv zeta.
  match type of Hinit with
  | _ = Ok ?s =>
      pose proof (plugin_generation_stays_in_its_directory "threejs-webgl" Examples.repo
                    Examples.skills_tree Examples.skills_tree s eq_refl Hinit eq_refl)
        as (H1 & H2)
  end.
  split.
  - apply H1.
    exists ["repo"; ".claude"; "plugins"; "individual"], "threejs-webgl", "plain", [], [].
    split; [discriminate|]. split; reflexivity.
  - exact (H2 ["scripts"]).
Defined.

(** X15 on the sample plugin that has everything. *)
Lemma wellformed_plugin_passes_witness :
  let v := ValidateMarketplace.init Samples.wellformed_tree in
  let run := ValidateMarketplace._validate_plugin
               ["repo"; ".claude"; "plugins"; "individual"; "p"] "individual" v in
  result_of run = Ok tt
  /\ ValidateMarketplace.errors (state_of run) = []
  /\ ValidateMarketplace.warnings (state_of run) = [].
Proof.
  destruct (wellformed_plugin_passes ["repo"; ".claude"; "plugins"; "individual"; "p"]
              "individual" (ValidateMarketplace.init Samples.wellformed_tree)
              (Examples.manifest_of "p") "p"
              eq_refl eq_refl eq_refl eq_refl eq_refl eq_refl eq_refl)
    as (R & _ & _ & E & W).
  split; [exact R|]. split; [exact E | exact W].
Defined.

(** X16 on the sample skill: the plugin generated for it passes. *)
Lemma generated_plugin_passes_validation_witness :
  exists self,
    result_of (GeneratePlugin.init "threejs-webgl" Examples.repo Examples.skills_tree) = Ok self
    /\ result_of (GeneratePlugin.generate self Examples.skills_tree) = Ok tt
    /\ let v := {| ValidateMarketplace.fs :=
                     state_of (GeneratePlugin.generate self Examples.skills_tree);
                   ValidateMarketplace.errors := [];
                   ValidateMarketplace.warnings := [] |} in
       let run := ValidateMarketplace._validate_plugin
                    (GeneratePlugin.plugin_dir self) "individual" v in
       result_of run = Ok tt /\ state_of run = v.
Proof.
  eexists.
  assert (Hinit : result_of (GeneratePlugin.init "threejs-webgl" Examples.repo
                               Examples.skills_tree) = Ok _) by (vm_compute; reflexivity).
  split; [exact Hinit|].
  match type of Hinit with
  | _ = Ok ?s =>
      assert (R : result_of (GeneratePlugin.generate s Examples.skills_tree) = Ok tt)
        by (vm_compute; reflexivity);
      pose proof (generated_plugin_passes_validation "threejs-webgl" Examples.repo
                    Examples.skills_tree Examples.skills_tree s [] [] eq_refl Hinit eq_refl R)
        as H
  end.
  split; [exact R | exact H].
Defined.

(** X17 on the sample marketplace: the listing generated for it passes. *)
Lemma generated_marketplace_passes_validation_witness :
  let tree := state_of (GenerateMarketplace.main Examples.repo Examples.marketplace_tree) in
  let v := {| ValidateMarketplace.fs := tree;
              ValidateMarketplace.errors := [];
              ValidateMarketplace.warnings := [] |} in
  let run := ValidateMarketplace._validate_marketplace_json Examples.repo v in
  result_of (GenerateMarketplace.main Examples.repo Examples.marketplace_tree) = Ok tt
  /\ result_of run = Ok tt
  /\ state_of run = v.
Proof.
  assert (R : result_of (GenerateMarketplace.main Examples.repo Examples.marketplace_tree)
              = Ok tt) by (vm_compute; reflexivity).
  destruct (generated_marketplace_passes_validation Examples.repo Examples.marketplace_tree
              [] [] eq_refl R) as (H1 & H2 & _).
  split; [exact R|]. split; [exact H1 | exact H2].
Defined.

(** X18 on the sample plugin that has everything. *)
Lemma plugin_without_errors_is_wellformed_witness :
  exists d sk,
    FS.read Samples.wellformed_tree
      ["repo"; ".claude"; "plugins"; "individual"; "p"; ".claude-plugin"; "plugin.json"]
    = Ok (Json (JObj d))
    /\ Dict.get "name" d = Some (JStr "p")
    /\ FS.is_dir Samples.wellformed_tree
         ["repo"; ".claude"; "plugins"; "individual"; "p"; "skills"; sk] = true.
Proof.
  destruct (plugin_without_errors_is_wellformed
              ["repo"; ".claude"; "plugins"; "individual"; "p"] "individual"
              (ValidateMarketplace.init Samples.wellformed_tree) eq_refl eq_refl)
    as (d & sk & Hr & Hn & _ & _ & Hs).
  exists d, sk. split; [exact Hr|]. split; [exact Hn | exact Hs].
Defined.

(** X19 on the sample bundle: the individual plugins it aggregates are
    as they were. *)
Lemma bundle_generation_stays_in_its_directory_witness :
  exists self,
    result_of (GenerateBundle.init "meta-skills" Examples.repo Examples.bundle_tree) = Ok self
    /\ FS.lookup (state_of (GenerateBundle.generate self Examples.bundle_tree))
         ["repo"; ".claude"; "plugins"; "individual"]
       = FS.lookup Examples.bundle_tree ["repo"; ".claude"; "plugins"; "individual"].
Proof.
  eexists.
  assert (Hinit : result_of (GenerateBundle.init "meta-skills" Examples.repo
                               Examples.bundle_tree) = Ok _) by (vm_compute; reflexivity).
  split; [exact Hinit|].
  match type of Hinit with
  | _ = Ok ?s =>
      apply (bundle_generation_stays_in_its_directory "meta-skills" Examples.repo
               Examples.bundle_tree Examples.bundle_tree s _ Hinit)
  end.
  - intros skill sub [<-|[<-|[]]] [-> | ->]; reflexivity.
  - exists ["repo"; ".claude"; "plugins"], "bundles", "individual", ["meta-skills"], [].
    split; [discriminate|]. split; reflexivity.
Defined.

(** X20 on the sample bundle with one of its skills: the bundle
    generated for it passes. *)
Lemma generated_bundle_passes_validation_witness :
  exists self,
    result_of (GenerateBundle.init "meta-skills" Examples.repo Samples.bundle_source_tree)
    = Ok self
    /\ result_of (GenerateBundle.generate self Samples.bundle_source_tree) = Ok tt
    /\ let v := {| ValidateMarketplace.fs :=
                     state_of (GenerateBundle.generate self Samples.bundle_source_tree);
                   ValidateMarketplace.errors := [];
                   ValidateMarketplace.warnings := [] |} in
       let run := ValidateMarketplace._validate_plugin
                    (GenerateBundle.bundle_dir self) "bundle" v in
       result_of run = Ok tt /\ state_of run = v.
Proof.
  eexists.
  assert (Hinit : result_of (GenerateBundle.init "meta-skills" Examples.repo
                               Samples.bundle_source_tree) = Ok _)
    by (vm_compute; reflexivity).
  split; [exact Hinit|].
  match type of Hinit with
  | _ = Ok ?s =>
      assert (R : result_of (GenerateBundle.generate s Samples.bundle_source_tree) = Ok tt)
        by (vm_compute; reflexivity);
      assert (Hsrc : Bundled.sources_plain Samples.bundle_source_tree Examples.repo
                       (GenerateBundle.skills (GenerateBundle.config s)))
        by (intros skill sub [<-|[<-|[]]] [-> | ->]; reflexivity);
      pose proof (generated_bundle_passes_validation "meta-skills" Examples.repo
                    Samples.bundle_source_tree Samples.bundle_source_tree s
                    "modern-web-design" [] [] Hinit Hsrc
                    (or_intror (or_introl eq_refl)) eq_refl R) as H
  end.
  split; [exact R | exact H].
Defined.
